(** * etransfer: the transfer coordination engine of [etdc_etdserver.cc]

    A shallow embedding of the server side ([ETDServer]), the client side proxy
    ([ETDProxy]), the control wrapper ([ETDServerWrapper]) and the data server
    ([ETDDataServer]) of the e-transfer daemon, together with the regular
    expressions those use, and the properties of the specification that were
    checked against them.

    Conventions.
    - [std::string] is [str], a list of characters; a byte buffer is a [str] too.
    - [off_t], [ssize_t] are [Z]; [size_t] is [Z] reduced modulo [2^64] where the
      source converts.
    - A member function [C::f] is [C.f], taking the object's fields it uses
      (for instance the server's [__m_uuid]) as leading arguments.
    - The shared [etd_state] and the operating system are threaded explicitly
      through the monad [M]; an exception is the outcome [Throw].
    - The program runs alone: a mutex held by some other thread stays held,
      so waiting for it is the outcome [Spin]. *)

From Stdlib Require Import ZArith List Ascii String Bool Lia Arith.
Import ListNotations.
Local Open Scope Z_scope.

(* ====================================================================== *)
(** * Strings *)
(* ====================================================================== *)

Definition str := list ascii.

(** A string literal of the source. *)
Definition L (s : string) : str := list_ascii_of_string s.

Definition ascii_eqb (a b : ascii) : bool := Ascii.eqb a b.

Fixpoint str_eqb (a b : str) : bool :=
  match a, b with
  | [], [] => true
  | x :: a', y :: b' => ascii_eqb x y && str_eqb a' b'
  | _, _ => false
  end.

(** [std::string::operator<]: lexicographic on the character codes. *)
Fixpoint str_ltb (a b : str) : bool :=
  match a, b with
  | _, [] => false
  | [], _ :: _ => true
  | x :: a', y :: b' =>
      if (nat_of_ascii x <? nat_of_ascii y)%nat then true
      else if (nat_of_ascii y <? nat_of_ascii x)%nat then false
      else str_ltb a' b'
  end.

Definition is_digit (a : ascii) : bool :=
  ((48 <=? nat_of_ascii a) && (nat_of_ascii a <=? 57))%nat.

Definition is_upper (a : ascii) : bool :=
  ((65 <=? nat_of_ascii a) && (nat_of_ascii a <=? 90))%nat.

Definition is_lower (a : ascii) : bool :=
  ((97 <=? nat_of_ascii a) && (nat_of_ascii a <=? 122))%nat.

Definition is_alpha (a : ascii) : bool := is_upper a || is_lower a.
Definition is_alnum (a : ascii) : bool := is_alpha a || is_digit a.

(** [isspace] in the C locale: space, [\t], [\n], [\v], [\f], [\r]. *)
Definition is_space (a : ascii) : bool :=
  let n := nat_of_ascii a in ((n =? 32) || ((9 <=? n) && (n <=? 13)))%nat.

Definition to_lower (a : ascii) : ascii :=
  if is_upper a then ascii_of_nat (nat_of_ascii a + 32) else a.

(** ** Decimal output: [os << n] for an integer [n] *)

Definition digit_char (d : Z) : ascii := ascii_of_nat (48 + Z.to_nat d).

Fixpoint show_digits (fuel : nat) (n : Z) (acc : str) : str :=
  match fuel with
  | O => acc
  | S fuel' =>
      let acc' := digit_char (n mod 10) :: acc in
      if n / 10 =? 0 then acc' else show_digits fuel' (n / 10) acc'
  end.

(** Decimal digits of a natural number; the fuel is the number of binary
    digits, an upper bound on the number of decimal ones. *)
Definition show_nat (n : Z) : str :=
  show_digits (S (Z.to_nat (Z.log2 n))) n [].

Definition show_Z (n : Z) : str :=
  if n <? 0 then "-"%char :: show_nat (- n) else show_nat n.

(** ** Decimal input: [std::stoll] *)

Definition digit_val (a : ascii) : Z := Z.of_nat (nat_of_ascii a) - 48.

Fixpoint span {A} (p : A -> bool) (l : list A) : list A * list A :=
  match l with
  | [] => ([], [])
  | x :: r => if p x then let (a, b) := span p r in (x :: a, b) else ([], l)
  end.

Definition digits_val (ds : str) : Z :=
  fold_left (fun acc d => 10 * acc + digit_val d) ds 0.

Definition LLONG_MAX : Z := 2 ^ 63 - 1.
Definition LLONG_MIN : Z := - 2 ^ 63.

(** [std::stoll(s)] through [strtoll]: leading white space is skipped, an
    optional sign is read, then the longest run of digits; what follows is
    ignored.  [None] stands for the two exceptions, [std::invalid_argument]
    (no digit) and [std::out_of_range]. *)
Definition stoll (s : str) : option Z :=
  let s1 := snd (span is_space s) in
  let '(neg, s2) :=
    match s1 with
    | a :: r =>
        if ascii_eqb a "-"%char then (true, r)
        else if ascii_eqb a "+"%char then (false, r)
        else (false, s1)
    | [] => (false, s1)
    end in
  match fst (span is_digit s2) with
  | [] => None
  | ds =>
      let v := if neg then - digits_val ds else digits_val ds in
      if (LLONG_MIN <=? v) && (v <=? LLONG_MAX) then Some v else None
  end.

(** [string2off_t]: the specialisation for [long] calls [std::stol], the one
    for [long long] calls [std::stoll]; the two read the same number where
    [long] has 64 bits.  [None] stands for the exception either throws; its
    text is that of the standard library at hand ([string2off_t_what] of the
    platform). *)
Definition string2off_t (s : str) : option Z := stoll s.

(* ====================================================================== *)
(** * Data model *)
(* ====================================================================== *)

Inductive openmode_type := Read | New | OverWrite | Resume | SkipExisting.

Definition openmode_eqb (a b : openmode_type) : bool :=
  match a, b with
  | Read, Read | New, New | OverWrite, OverWrite
  | Resume, Resume | SkipExisting, SkipExisting => true
  | _, _ => false
  end.

Definition uuid_type := str.
Definition fd_t := nat.

(** [sockname_type]: protocol, host, port. *)
Record sockname_type := mk_sockname
  { get_protocol : str; get_host : str; get_port : Z }.

Definition dataaddrlist_type := list sockname_type.

(** [transferprops_type].  [lock] tells whether the record's mutex is held
    by some other thread. *)
Record transferprops_type := mk_transferprops
  { fd : fd_t; path : str; openMode : openmode_type; lock : bool }.

(** [transfermap_type] is a [std::map]: unique keys, iterated in key order. *)
Definition transfermap_type := list (uuid_type * transferprops_type).

Record etd_state := mk_etd_state
  { transfers : transfermap_type; dataaddrs : dataaddrlist_type }.

(** [result_type]: a uuid and a file position. *)
Definition result_type := (uuid_type * Z)%type.
Definition get_uuid (r : result_type) : uuid_type := fst r.
Definition get_filepos (r : result_type) : Z := snd r.

(** ** The map operations used *)

Fixpoint map_find (u : uuid_type) (t : transfermap_type) : option transferprops_type :=
  match t with
  | [] => None
  | (k, v) :: r => if str_eqb k u then Some v else map_find u r
  end.

(** [transfers.emplace(u, p)]: no effect when the key is there. *)
Fixpoint map_emplace (u : uuid_type) (p : transferprops_type) (t : transfermap_type)
  : transfermap_type * bool :=
  match t with
  | [] => ([(u, p)], true)
  | (k, v) :: r =>
      if str_eqb k u then (t, false)
      else if str_ltb u k then ((u, p) :: t, true)
      else let (r', b) := map_emplace u p r in ((k, v) :: r', b)
  end.

Fixpoint map_erase (u : uuid_type) (t : transfermap_type) : transfermap_type :=
  match t with
  | [] => []
  | (k, v) :: r => if str_eqb k u then r else (k, v) :: map_erase u r
  end.

(** [std::find_if] over the map, looking for a record whose path is [p]. *)
Definition find_path (p : str) (t : transfermap_type) : option (uuid_type * transferprops_type) :=
  find (fun vt => str_eqb (path (snd vt)) p) t.

(* ====================================================================== *)
(** * The platform: what the source takes from other translation units *)
(* ====================================================================== *)

Inductive whence := SEEK_SET | SEEK_END.

(** What a C++ exception carries, as far as the source looks at it. *)
Inductive exn :=
| Assertion (msg : str)     (* ETDCASSERT(cond, msg) with cond false *)
| AssertionX (cond : str)   (* ETDCASSERTX(cond) with cond false *)
| StdExn (what : str)       (* any other std::exception *)
| ClientError (what : str)  (* throw std::string(...) *)
| Unknown.                  (* caught by catch(...) only *)

(** The file and socket layer ([etdc_fd.h]), path normalisation and the
    numeric values of the open modes are declared outside this translation
    unit; the engine is written against them.

    [fd_read fd n w] is [fd->read(fd->__m_fd, buf, n)]: [None] for a negative
    return value, otherwise the bytes stored, whose number is the return
    value.  [fd_write fd bytes w] returns the count written or a negative
    number.  [GLOB_TILDE] is [None] where the macro is not defined,
    [read_openmode] is [iss >> om] for an [openmode_type] and [show_openmode]
    is [os << om].  [unbracket] is the function of that name which
    [decode_data_addr] applies to the host it matched.
    [string2off_t_what s] is [what()] of the exception that [std::stol], or
    [std::stoll] where [off_t] is [long long], throws at a string [s] it does
    not convert. *)
Class Platform := {
  World : Type;
  normalize_path : str -> str;
  openmode_int : openmode_type -> Z;
  O_LARGEFILE : Z;
  etdc_file : str -> Z -> option Z -> World -> (exn + fd_t) * World;
  mk_client : str -> str -> Z -> World -> (exn + fd_t) * World;
  fd_lseek : fd_t -> Z -> whence -> World -> Z * World;
  fd_read : fd_t -> Z -> World -> option str * World;
  fd_write : fd_t -> str -> World -> Z * World;
  fd_close : fd_t -> World -> World;
  strerror_errno : World -> str;
  GLOB_MARK : Z;
  GLOB_TILDE : option Z;
  glob : str -> Z -> World -> list str * World;
  read_openmode : str -> exn + openmode_type;
  show_openmode : openmode_type -> str;
  unbracket : str -> str;
  string2off_t_what : str -> str
}.

(* ====================================================================== *)
(** * The monad of the engine *)
(* ====================================================================== *)

Inductive outcome (A : Type) :=
| Ret (a : A)
| Throw (e : exn)
| Spin          (* waits for a mutex another thread holds *)
| OutOfFuel.    (* a loop was cut off by the model *)
Arguments Ret {A} a.
Arguments Throw {A} e.
Arguments Spin {A}.
Arguments OutOfFuel {A}.

Section Monad.
Context {P : Platform}.

Definition sigma := (etd_state * World)%type.
Definition M (A : Type) := sigma -> outcome A * sigma.

Definition ret {A} (a : A) : M A := fun s => (Ret a, s).
Definition throw {A} (e : exn) : M A := fun s => (Throw e, s).
Definition spin {A} : M A := fun s => (Spin, s).

Definition bind {A B} (m : M A) (k : A -> M B) : M B :=
  fun s =>
    match m s with
    | (Ret a, s') => k a s'
    | (Throw e, s') => (Throw e, s')
    | (Spin, s') => (Spin, s')
    | (OutOfFuel, s') => (OutOfFuel, s')
    end.

Definition ETDCASSERT (cond : bool) (msg : str) : M unit :=
  if cond then ret tt else throw (Assertion msg).

Definition ETDCASSERTX (cond : bool) (text : string) : M unit :=
  if cond then ret tt else throw (AssertionX (L text)).

Definition get_transfers : M transfermap_type :=
  fun s => (Ret (transfers (fst s)), s).

Definition put_transfers (t : transfermap_type) : M unit :=
  fun s => (Ret tt, (mk_etd_state t (dataaddrs (fst s)), snd s)).

Definition get_dataaddrs : M dataaddrlist_type :=
  fun s => (Ret (dataaddrs (fst s)), s).

(** A call into the platform that returns a value. *)
Definition sys {A} (f : World -> A * World) : M A :=
  fun s => let (a, w) := f (snd s) in (Ret a, (fst s, w)).

(** A call into the platform that may throw. *)
Definition sys_exn {A} (f : World -> (exn + A) * World) : M A :=
  fun s =>
    match f (snd s) with
    | (inr a, w) => (Ret a, (fst s, w))
    | (inl e, w) => (Throw e, (fst s, w))
    end.

Definition sys_ (f : World -> World) : M unit :=
  fun s => (Ret tt, (fst s, f (snd s))).

(** [try { m } catch (std::exception const& e) { h1 e.what() } catch (...) { h2 }]
    as far as the source uses it: [ClientError] is a [std::string] and is no
    [std::exception]. *)
Definition what (e : exn) : option str :=
  match e with
  | Assertion m => Some m
  | AssertionX c => Some c
  | StdExn m => Some m
  | ClientError _ | Unknown => None
  end.

End Monad.

Declare Scope etd_scope.
Delimit Scope etd_scope with etd.
Notation "x <- m ;; k" := (bind m (fun x => k))
  (at level 61, m at next level, right associativity) : etd_scope.
Notation "' p <- m ;; k" := (bind m (fun p => k))
  (at level 61, p pattern, m at next level, right associativity) : etd_scope.
Notation "m ;; k" := (bind m (fun _ => k))
  (at level 61, right associativity) : etd_scope.
Local Open Scope etd_scope.

(* ====================================================================== *)
(** * Address designators on the wire *)
(* ====================================================================== *)

(** Modelled from the spec: [operator<<] for [sockname_type], which the
    source uses to print an address, is defined outside the files at hand.
    The specification gives the wire form as [<protocol/host:port>], with the
    port in decimal. *)
Definition show_sockname (sn : sockname_type) : str :=
  L "<" ++ get_protocol sn ++ L "/" ++ get_host sn ++ L ":"
    ++ show_Z (get_port sn) ++ L ">".

(* ====================================================================== *)
(** * ETDServer *)
(* ====================================================================== *)

Definition bufSz : Z := 10 * 1024 * 1024.

(** Passes of a loop that moves [min(todo, bufSz)] bytes a pass. *)
Definition passes (todo : Z) : nat := Z.to_nat ((todo + bufSz - 1) / bufSz).

Module ETDServer.
Section ETDServer.
Context {P : Platform}.

Definition allowedModes (m : openmode_type) : bool :=
  match m with
  | New | OverWrite | Resume | SkipExisting => true
  | Read => false
  end.

(** The flags handed to [open(2)]: [SkipExisting] is stored as the bitwise
    complement of the real flags. *)
Definition open_flags (mode : openmode_type) : Z :=
  let omode := openmode_int mode in
  let omode := if openmode_eqb mode SkipExisting then Z.lnot omode else omode in
  Z.lor omode O_LARGEFILE.

Definition listPath (path0 : str) (allow_tilde : bool) : M (list str) :=
  ETDCASSERT (match path0 with [] => false | _ => true end)
             (L "We do not allow listing an empty path") ;;
  let gPath :=
    match rev path0 with
    | "/"%char :: _ => path0 ++ L "*"
    | _ => path0
    end in
  match GLOB_TILDE with
  | Some tilde =>
      let globFlags := Z.lor GLOB_MARK (if allow_tilde then tilde else 0) in
      sys (glob gPath globFlags)
  | None =>
      if allow_tilde && existsb (ascii_eqb "~"%char) gPath
      then throw (StdExn (L "The target O/S does not support the requested tilde expansion"))
      else sys (glob gPath GLOB_MARK)
  end.

Definition requestFileWrite (m_uuid : uuid_type) (path0 : str) (mode : openmode_type)
  : M result_type :=
  transfers <- get_transfers ;;
  ETDCASSERT (match map_find m_uuid transfers with None => true | Some _ => false end)
             (L "requestFileWrite: this server is already busy") ;;
  let nPath := normalize_path path0 in
  ETDCASSERT (allowedModes mode)
             (L "invalid open mode for requestFileWrite(" ++ path0 ++ L ")") ;;
  let pathPresent :=
    match find_path nPath transfers with Some _ => true | None => false end in
  ETDCASSERT (negb pathPresent)
             (L "requestFileWrite(" ++ path0 ++ L ") - the path is already in use") ;;
  let omode := open_flags mode in
  fd <- sys_exn (etdc_file nPath omode (Some 420)) ;;
  fsize <- sys (fd_lseek fd 0 SEEK_END) ;;
  let (transfers', inserted) :=
    map_emplace m_uuid (mk_transferprops fd nPath mode false) transfers in
  put_transfers transfers' ;;
  ETDCASSERT inserted
             (L "Failed to insert new entry, request file write '" ++ path0 ++ L "'") ;;
  ret (m_uuid, fsize).

Definition requestFileRead (m_uuid : uuid_type) (path0 : str) (alreadyhave : Z)
  : M result_type :=
  transfers <- get_transfers ;;
  ETDCASSERT (match map_find m_uuid transfers with None => true | Some _ => false end)
             (L "requestFileRead: this server is already busy") ;;
  let nPath := normalize_path path0 in
  let pathPtr := find_path nPath transfers in
  ETDCASSERT (match pathPtr with
              | None => true
              | Some vt => openmode_eqb (openMode (snd vt)) Read
              end)
             (L "requestFileRead(" ++ path0 ++ L ") - the path is already in use") ;;
  let omode := Z.lor (openmode_int Read) O_LARGEFILE in
  fd <- sys_exn (etdc_file nPath omode None) ;;
  sz <- sys (fd_lseek fd 0 SEEK_END) ;;
  pos <- sys (fd_lseek fd alreadyhave SEEK_SET) ;;
  w <- (fun s => (Ret (snd s), s)) ;;
  ETDCASSERT (negb (pos =? -1))
             (L "Cannot seek to position " ++ show_Z alreadyhave ++ L " in file "
                ++ path0 ++ L " - " ++ strerror_errno w) ;;
  let (transfers', inserted) :=
    map_emplace m_uuid (mk_transferprops fd nPath Read false) transfers in
  put_transfers transfers' ;;
  ETDCASSERT inserted
             (L "Failed to insert new entry, request file read '" ++ path0 ++ L "'") ;;
  ret (m_uuid, sz - alreadyhave).

Definition dataChannelAddr : M dataaddrlist_type := get_dataaddrs.

(** The loop of [removeUUID] runs its body once or waits for ever: when
    [try_lock] fails nothing has changed by the time it looks again. *)
Definition removeUUID (m_uuid uuid : uuid_type) : M bool :=
  ETDCASSERT (str_eqb uuid m_uuid) (L "Cannot remove someone else's UUID!") ;;
  transfers <- get_transfers ;;
  match map_find m_uuid transfers with
  | None => ret false
  | Some transfer =>
      if lock transfer then spin
      else
        sys_ (fd_close (fd transfer)) ;;
        put_transfers (map_erase m_uuid transfers) ;;
        ret true
  end.

(** The [for] loop over the data addresses of [sendFile] and [getFile]:
    the first address that connects wins, every failure is noted in [tried]. *)
Fixpoint connect_first (addrs : dataaddrlist_type) (tried : str)
  : M (option fd_t * str) :=
  match addrs with
  | [] => ret (None, tried)
  | addr :: rest =>
      fun s =>
        match mk_client (get_protocol addr) (get_host addr) (get_port addr) (snd s) with
        | (inr dstFD, w) => (Ret (Some dstFD, tried), (fst s, w))
        | (inl e, w) =>
            let note :=
              match what e with
              | Some m => show_sockname addr ++ L ": " ++ m ++ L ", "
              | None => show_sockname addr ++ L ": unknown exception" ++ L ", "
              end in
            connect_first rest (tried ++ note) (fst s, w)
        end
  end.

(** The inner [while( todo>0 )] of [sendFile]. *)
Fixpoint sendFile_loop (fuel : nat) (src dst : fd_t) (todo : Z) : M unit :=
  if todo >? 0 then
    match fuel with
    | O => fun s => (OutOfFuel, s)
    | S fuel' =>
        let n := Z.min todo bufSz in
        r <- sys (fd_read src n) ;;
        ETDCASSERTX (match r with Some b => Z.of_nat (List.length b) =? n | None => false end)
          "transfer.fd->read(transfer.fd->__m_fd, &buffer[0], n)==(ssize_t)n" ;;
        let buffer := match r with Some b => b | None => [] end in
        wr <- sys (fd_write dst buffer) ;;
        ETDCASSERTX (wr =? n)
          "dstFD->write(dstFD->__m_fd, &buffer[0], n)==(ssize_t)n" ;;
        sendFile_loop fuel' src dst (todo - n)
    end
  else ret tt.

(** The outer [while( todo>0 )] of [sendFile] runs its body at most once:
    the inner loop is left with [todo<=0] or by an exception, and a failed
    [try_lock] finds the same state again. *)
Definition sendFile (m_uuid srcUUID dstUUID : uuid_type) (todo : Z)
  (dataAddrs : dataaddrlist_type) : M bool :=
  ETDCASSERT (str_eqb srcUUID m_uuid)
             (L "The srcUUID '" ++ srcUUID ++ L "' is not our UUID") ;;
  if todo >? 0 then
    transfers <- get_transfers ;;
    match map_find m_uuid transfers with
    | None => throw (Assertion (L "This server was not initialized yet"))
    | Some transfer =>
        if lock transfer then spin
        else
          ETDCASSERT (openmode_eqb (openMode transfer) Read)
            (L "This server was initialized, but not for reading a file") ;;
          ' (dstFD, tried) <- connect_first dataAddrs [] ;;
          match dstFD with
          | None =>
              throw (Assertion (L "Failed to connect to any of the data servers: " ++ tried))
          | Some dstFD =>
              let msg := L "{ uuid:" ++ dstUUID ++ L ", sz:" ++ show_Z todo ++ L "}" in
              _ <- sys (fd_write dstFD msg) ;;
              sendFile_loop (passes todo) (fd transfer) dstFD todo ;;
              _ <- sys (fd_read dstFD 1) ;;
              ret true
          end
    end
  else ret true.

Definition allowedWriteModes (m : openmode_type) : bool :=
  match m with
  | OverWrite | New | Resume => true
  | Read | SkipExisting => false
  end.

(** The inner [while( todo>0 )] of [getFile]; a read that brings nothing
    leaves [todo] as it is, so the number of passes is not bounded by
    [todo]. *)
Fixpoint getFile_loop (fuel : nat) (conn dst : fd_t) (todo : Z) : M unit :=
  if todo >? 0 then
    match fuel with
    | O => fun s => (OutOfFuel, s)
    | S fuel' =>
        r <- sys (fd_read conn bufSz) ;;
        match r with
        | Some (c :: b) =>
            let n := Z.of_nat (List.length (c :: b)) in
            wr <- sys (fd_write dst (c :: b)) ;;
            ETDCASSERTX (wr =? n)
              "transfer.fd->write(transfer.fd->__m_fd, &buffer[0], n)==n" ;;
            getFile_loop fuel' conn dst (todo - n)
        | _ => getFile_loop fuel' conn dst todo
        end
    end
  else ret tt.

Definition getFile (fuel : nat) (m_uuid srcUUID dstUUID : uuid_type) (todo : Z)
  (dataAddrs : dataaddrlist_type) : M bool :=
  ETDCASSERT (str_eqb dstUUID m_uuid)
             (L "The dstUUID '" ++ dstUUID ++ L "' is not our UUID") ;;
  if todo >? 0 then
    transfers <- get_transfers ;;
    match map_find m_uuid transfers with
    | None => throw (Assertion (L "This server was not initialized yet"))
    | Some transfer =>
        if lock transfer then spin
        else
          ETDCASSERT (allowedWriteModes (openMode transfer))
            (L "This server was initialized, but not for writing to file") ;;
          ' (dstFD, tried) <- connect_first dataAddrs [] ;;
          match dstFD with
          | None =>
              throw (Assertion (L "Failed to connect to any of the data servers: " ++ tried))
          | Some dstFD =>
              let msg := L "{ uuid:" ++ srcUUID ++ L ", push:1, sz:" ++ show_Z todo ++ L "}" in
              _ <- sys (fd_write dstFD msg) ;;
              getFile_loop fuel dstFD (fd transfer) todo ;;
              _ <- sys (fd_write dstFD (L "y")) ;;
              ret true
          end
    end
  else ret true.

(** [~ETDServer]: the record of the server is removed, and whatever
    [removeUUID] throws is swallowed. *)
Definition dtor (m_uuid : uuid_type) : M unit :=
  fun s =>
    match removeUUID m_uuid m_uuid s with
    | (Ret _, s') => (Ret tt, s')
    | (Throw _, s') => (Ret tt, s')
    | (Spin, s') => (Spin, s')
    | (OutOfFuel, s') => (OutOfFuel, s')
    end.

End ETDServer.
End ETDServer.

(* ====================================================================== *)
(** * Regular expressions ([std::regex], ECMAScript grammar) *)
(* ====================================================================== *)

(** The constructs the expressions of the source are made of.  [Rep lo hi r]
    is the greedy [r{lo,hi}] ([hi = None]: no upper bound), [Grp n r] the
    capture group number [n], [Bol] and [Eol] are [^] and [$], [WordB] is
    [\b] and [NLook r] is [(?!r)]. *)
Inductive regex :=
| Eps
| Cls (p : ascii -> bool)
| Cat (r1 r2 : regex)
| Alt (r1 r2 : regex)
| Rep (lo : nat) (hi : option nat) (r : regex)
| Grp (n : nat) (r : regex)
| Bol
| Eol
| WordB
| NLook (r : regex).

Definition Star := Rep 0 None.
Definition Plus := Rep 1 None.
Definition Opt := Rep 0 (Some 1%nat).

(** A literal character, and the same under [std::regex::icase]. *)
Definition Chr (a : ascii) : regex := Cls (ascii_eqb a).
Definition ChrI (a : ascii) : regex :=
  Cls (fun b => ascii_eqb (to_lower b) (to_lower a)).

Fixpoint Lit (s : str) : regex :=
  match s with
  | [] => Eps
  | [a] => Chr a
  | a :: r => Cat (Chr a) (Lit r)
  end.

Fixpoint LitI (s : str) : regex :=
  match s with
  | [] => Eps
  | [a] => ChrI a
  | a :: r => Cat (ChrI a) (LitI r)
  end.

(** [.] matches anything but a line terminator. *)
Definition is_dot (a : ascii) : bool :=
  negb (ascii_eqb a "010"%char || ascii_eqb a "013"%char).
Definition is_word (a : ascii) : bool := is_alnum a || ascii_eqb a "_"%char.
Definition one_of (s : string) (a : ascii) : bool :=
  existsb (ascii_eqb a) (L s).
Definition none_of (s : string) (a : ascii) : bool := negb (one_of s a).

(** Captures: group number to the text it matched last. *)
Definition caps := list (nat * str).

Fixpoint cap_get (n : nat) (c : caps) : option str :=
  match c with
  | [] => None
  | (k, v) :: r => if (k =? n)%nat then Some v else cap_get n r
  end.

Definition cap_set (n : nat) (v : str) (c : caps) : caps := (n, v) :: c.

Definition cap_clear (ns : list nat) (c : caps) : caps :=
  filter (fun kv => negb (existsb (Nat.eqb (fst kv)) ns)) c.

(** [fields[n].str()]: empty for a group that did not take part. *)
Definition sub_str (c : caps) (n : nat) : str :=
  match cap_get n c with Some v => v | None => [] end.

(** [fields[n].matched] *)
Definition sub_matched (c : caps) (n : nat) : bool :=
  match cap_get n c with Some _ => true | None => false end.

Fixpoint groups (r : regex) : list nat :=
  match r with
  | Cat a b | Alt a b => groups a ++ groups b
  | Rep _ _ a | NLook a => groups a
  | Grp n a => n :: groups a
  | _ => []
  end.

(** Greedy repetition of one step [f].  Every way to go on is listed before
    the way to stop; once the lower bound is met a pass that consumed nothing
    is dropped.  [fuel] bounds the passes: [lo] plus the length of the input
    is enough, as a pass either counts towards [lo] or consumes. *)
Fixpoint rep (f : str -> caps -> list (str * caps)) (fuel lo : nat) (hi : option nat)
  (s : str) (c : caps) : list (str * caps) :=
  let stop := match lo with O => [(s, c)] | S _ => [] end in
  match fuel with
  | O => stop
  | S fuel' =>
      let more :=
        match hi with
        | Some O => []
        | _ =>
            flat_map
              (fun sc : str * caps =>
                 if ((lo =? 0) && (List.length (fst sc) =? List.length s))%nat then []
                 else rep f fuel' (Nat.pred lo) (option_map Nat.pred hi) (fst sc) (snd sc))
              (f s c)
        end in
      more ++ stop
  end.

(** The text between two positions of the subject, both given by what is
    left of it. *)
Definition consumed (s s' : str) : str :=
  firstn (List.length s - List.length s') s.

(** The character before the position at which [s] is left of [subj]. *)
Definition prev_char (subj s : str) : option ascii :=
  match (List.length subj - List.length s)%nat with
  | O => None
  | S i => nth_error subj i
  end.

Definition at_word_boundary (subj s : str) : bool :=
  let before := match prev_char subj s with Some a => is_word a | None => false end in
  let after := match s with a :: _ => is_word a | [] => false end in
  xorb before after.

(** All ways in which [r] matches a prefix of [s], the preferred one first:
    what is left of [s], and the captures.  [subj] is the whole text, of which
    [s] is a suffix. *)
Fixpoint ms (subj : str) (r : regex) (s : str) (c : caps) : list (str * caps) :=
  match r with
  | Eps => [(s, c)]
  | Cls p =>
      match s with
      | a :: t => if p a then [(t, c)] else []
      | [] => []
      end
  | Cat r1 r2 =>
      flat_map (fun sc : str * caps => ms subj r2 (fst sc) (snd sc)) (ms subj r1 s c)
  | Alt r1 r2 => ms subj r1 s c ++ ms subj r2 s c
  | Rep lo hi r1 =>
      rep (fun s1 c1 => ms subj r1 s1 (cap_clear (groups r1) c1))
          (lo + List.length s) lo hi s c
  | Grp n r1 =>
      map (fun sc : str * caps => (fst sc, cap_set n (consumed s (fst sc)) (snd sc)))
          (ms subj r1 s c)
  | Bol => if (List.length s =? List.length subj)%nat then [(s, c)] else []
  | Eol => match s with [] => [(s, c)] | _ => [] end
  | WordB => if at_word_boundary subj s then [(s, c)] else []
  | NLook r1 => match ms subj r1 s c with [] => [(s, c)] | _ => [] end
  end.

(** [std::regex_match(s, fields, r)]: the first way that uses up all of [s]. *)
Definition regex_match (r : regex) (s : str) : option caps :=
  match find (fun sc : str * caps => match fst sc with [] => true | _ => false end)
             (ms s r s []) with
  | Some (_, c) => Some c
  | None => None
  end.

(** One step of [std::regex_search] over the part [s] of [subj] that has not
    been searched: the leftmost start at which [r] matches, with the
    preferred match there.  The result is the text skipped, the text matched,
    the text left and the captures. *)
Fixpoint regex_search_from (subj : str) (r : regex) (skipped s : str)
  : option (str * str * str * caps) :=
  match ms subj r s [] with
  | (s', c) :: _ => Some (skipped, consumed s s', s', c)
  | [] =>
      match s with
      | [] => None
      | a :: t => regex_search_from subj r (skipped ++ [a]) t
      end
  end.

Definition regex_search (r : regex) (s : str) : option (str * str * str * caps) :=
  regex_search_from s r [] s.

(** [std::regex_iterator]: the successive matches of [r] in [subj], each
    search starting where the match before ended; per match the text matched,
    the text left after it and the captures.  None of the expressions
    iterated over in the source matches the empty text; [fuel] bounds the
    number of matches. *)
Fixpoint regex_iter (fuel : nat) (subj : str) (r : regex) (s : str)
  : list (str * str * caps) :=
  match fuel with
  | O => []
  | S fuel' =>
      match regex_search_from subj r [] s with
      | Some (_, m, s', c) =>
          match m with
          | [] => [(m, s', c)]
          | _ => (m, s', c) :: regex_iter fuel' subj r s'
          end
      | None => []
      end
  end.

Definition regex_iterator (r : regex) (subj : str) : list (str * str * caps) :=
  regex_iter (S (List.length subj)) subj r subj.

(** [position() + length()] of the last match of an iteration, [0] when
    there was none. *)
Definition end_of_last (subj : str) (matches : list (str * str * caps)) : nat :=
  match rev matches with
  | [] => 0%nat
  | (_, s', _) :: _ => (List.length subj - List.length s')%nat
  end.

(** ** The expressions of the source

    Each expression is quoted in the comment above it as the regular
    expression the C++ literal denotes, with a blank between a star and a
    closing parenthesis. *)

Definition CR : ascii := "013"%char.
Definition LF : ascii := "010"%char.
Definition is_eol (a : ascii) : bool := ascii_eqb a CR || ascii_eqb a LF.
Definition not_space (a : ascii) : bool := negb (is_space a).

(** [rxLine]:  ([^\r\n]+)[\r\n]+  *)
Definition rxLine : regex :=
  Cat (Grp 1 (Plus (Cls (fun a => negb (is_eol a))))) (Plus (Cls is_eol)).

(** [rxReply], icase:  ^(OK|ERR)(\s+(\S.* )?)?$  *)
Definition rxReply : regex :=
  Cat Bol
 (Cat (Grp 1 (Alt (LitI (L "OK")) (LitI (L "ERR"))))
 (Cat (Opt (Grp 2 (Cat (Plus (Cls is_space))
                       (Opt (Grp 3 (Cat (Cls not_space) (Star (Cls is_dot))))))))
      Eol)).

(** [getReplies]: the lines of the buffer without their line ends, and the
    position after the last complete line. *)
Definition getReplies (buffer : str) : list str * nat :=
  let lines := regex_iterator rxLine buffer in
  (map (fun m => sub_str (snd m) 1) lines, end_of_last buffer lines).


(* ====================================================================== *)
(** * decode_data_addr *)
(* ====================================================================== *)

Definition is_alnum_dash (a : ascii) : bool := is_alnum a || ascii_eqb a "-"%char.
Definition is_ipv6_char (a : ascii) : bool := ascii_eqb a ":"%char || is_alnum a.
Definition not_slash (a : ascii) : bool := negb (ascii_eqb a "/"%char).

(** One label of a host name:
    [a-zA-Z0-9]|[a-zA-Z0-9][a-zA-Z0-9\-]{0,61}[a-zA-Z0-9]  *)
Definition rx_label : regex :=
  Alt (Cls is_alnum)
      (Cat (Cls is_alnum) (Cat (Rep 0 (Some 61%nat) (Cls is_alnum_dash)) (Cls is_alnum))).

(** [ipv6_lit], groups 3 and 4:
    [:0-9a-zA-Z]+(/[0-9]{1,3})?(%[a-zA-Z0-9]+)?  *)
Definition ipv6_lit : regex :=
  Cat (Plus (Cls is_ipv6_char))
 (Cat (Opt (Grp 3 (Cat (Chr "/") (Rep 1 (Some 3%nat) (Cls is_digit)))))
      (Opt (Grp 4 (Cat (Chr "%") (Plus (Cls is_alnum)))))).

(** [valid_host], groups 5 to 8:  ((label)(\.(label))* )  *)
Definition valid_host : regex :=
  Grp 5 (Cat (Grp 6 rx_label) (Star (Grp 7 (Cat (Chr ".") (Grp 8 rx_label))))).

(** [rxSockName]:  ^<([^/]+)/(\[ipv6_lit\]|valid_host):([0-9]+)>$
    with the protocol in group 1, the host in group 2 and the port in
    group 9. *)
Definition rxSockName : regex :=
  Cat Bol
 (Cat (Chr "<")
 (Cat (Grp 1 (Plus (Cls not_slash)))
 (Cat (Chr "/")
 (Cat (Grp 2 (Alt (Cat (Chr "[") (Cat ipv6_lit (Chr "]"))) valid_host))
 (Cat (Chr ":")
 (Cat (Grp 9 (Plus (Cls is_digit)))
 (Cat (Chr ">") Eol))))))).

(** Modelled from the spec: [port], which turns the digits of a designator
    into a port number, is defined outside the files at hand.  The
    specification has the port as a decimal integer in [0, 65535]. *)
Definition port (s : str) : exn + Z :=
  match stoll s with
  | Some v =>
      if (0 <=? v) && (v <=? 65535) then inr v
      else inl (StdExn (L "port number out of range"))
  | None => inl (StdExn (L "stoll"))
  end.

Section DecodeDataAddr.
Context {P : Platform}.

(** The host of the result is what the platform's [unbracket] makes of the
    text of group 2. *)
Definition decode_data_addr (s : str) : exn + sockname_type :=
  match regex_match rxSockName s with
  | None =>
      inl (Assertion (L "The string '" ++ s ++ L "' is not a valid data address designator"))
  | Some fields =>
      if negb (List.length (sub_str fields 5) <=? 255)%nat
      then inl (Assertion (L "Host names can not be longer than 255 characters (RFC1123)"))
      else
        match port (sub_str fields 9) with
        | inl e => inl e
        | inr p => inr (mk_sockname (sub_str fields 1) (unbracket (sub_str fields 2)) p)
        end
  end.

End DecodeDataAddr.

(* ====================================================================== *)
(** * ETDProxy *)
(* ====================================================================== *)

(** [rxUUID], icase:  ^UUID:(\S+)$  *)
Definition rxUUID : regex :=
  Cat Bol (Cat (LitI (L "UUID:")) (Cat (Grp 1 (Plus (Cls not_space))) Eol)).

(** [rxRemain], icase:  ^Remain:(-?[0-9]+)$  *)
Definition rxRemain : regex :=
  Cat Bol (Cat (LitI (L "Remain:"))
          (Cat (Grp 1 (Cat (Opt (Chr "-")) (Plus (Cls is_digit)))) Eol)).

(** The variables of the reply loop of [ETDProxy::requestFileRead]. *)
Record reply_vars := mk_reply_vars
  { finished : bool; status_s : str; info : str;
    remain : option Z; curUUID : option uuid_type }.

Definition len (s : str) : Z := Z.of_nat (List.length s).

(** The return value of a [read] whose outcome is [r]. *)
Definition nread (r : option str) : Z :=
  match r with Some b => len b | None => -1 end.
Definition bytes_of (r : option str) : str :=
  match r with Some b => b | None => [] end.

Module ETDProxy.
Section ETDProxy.
Context {P : Platform}.

(** The reply loop of [removeUUID]; [buffer] holds the [curPos] bytes read so
    far.  Every pass adds a byte, so 2048 passes fill the buffer. *)
Fixpoint removeUUID_loop (fuel : nat) (conn : fd_t) (buffer : str) : M bool :=
  if len buffer <? 2048 then
    match fuel with
    | O => fun s => (OutOfFuel, s)
    | S fuel' =>
        r <- sys (fd_read conn (2048 - len buffer)) ;;
        ETDCASSERT (nread r >? 0) (L "Failed to read data from remote end") ;;
        let buffer := buffer ++ bytes_of r in
        let lines := fst (getReplies buffer) in
        match lines with
        | [] => removeUUID_loop fuel' conn buffer
        | line :: others =>
            ETDCASSERT (match others with [] => true | _ => false end)
              (L "The client sent wrong number of responses - this is likely a protocol error") ;;
            match regex_match rxReply line with
            | None => throw (Assertion (L "The client sent a non-conforming response"))
            | Some fields =>
                ETDCASSERT (str_eqb (sub_str fields 1) (L "OK"))
                           (L "removeUUID failed: " ++ sub_str fields 2) ;;
                ret true
            end
        end
    end
  else ret true.

Definition removeUUID (conn : fd_t) (uuid : uuid_type) : M bool :=
  let msg := L "remove-uuid " ++ uuid ++ [LF] in
  wr <- sys (fd_write conn msg) ;;
  ETDCASSERTX (wr =? len msg)
    "__m_connection->write(__m_connection->__m_fd, msg.data(), msg.size())==(ssize_t)msg.size()" ;;
  removeUUID_loop 2048 conn [].

(** The [for] loop over the lines of one pass of [requestFileRead]: the
    variables after it and the lines it did not get to. *)
Fixpoint requestFileRead_lines (lines : list str) (v : reply_vars)
  : exn + (reply_vars * list str) :=
  match lines with
  | [] => inr (v, [])
  | line :: rest =>
      if finished v then inr (v, lines)
      else
        match regex_match rxUUID line with
        | Some fields =>
            match curUUID v with
            | Some _ => inl (Assertion (L "Server already sent a UUID"))
            | None =>
                requestFileRead_lines rest
                  (mk_reply_vars (finished v) (status_s v) (info v) (remain v)
                                 (Some (sub_str fields 1)))
            end
        | None =>
            match regex_match rxRemain line with
            | Some fields =>
                match remain v with
                | Some _ => inl (Assertion (L "Server already sent a file position"))
                | None =>
                    match string2off_t (sub_str fields 1) with
                    | None => inl (StdExn (string2off_t_what (sub_str fields 1)))
                    | Some n =>
                        requestFileRead_lines rest
                          (mk_reply_vars (finished v) (status_s v) (info v) (Some n)
                                         (curUUID v))
                    end
                end
            | None =>
                match regex_match rxReply line with
                | Some fields =>
                    requestFileRead_lines rest
                      (mk_reply_vars true (sub_str fields 1) (sub_str fields 3)
                                     (remain v) (curUUID v))
                | None =>
                    inl (Assertion
                           (L "requestFileRead: the server sent a reply that we did not recognize: "
                              ++ line))
                end
            end
        end
  end.

(** The reply loop of [requestFileRead].  A pass adds a byte and only a
    [UUID:] or a [Remain:] line lets the loop go on after taking bytes out,
    each once, so the loop ends within three fillings of the buffer. *)
Fixpoint requestFileRead_loop (fuel : nat) (conn : fd_t) (buffer : str) (v : reply_vars)
  : M (str * reply_vars) :=
  if negb (finished v) && (len buffer <? 2048) then
    match fuel with
    | O => fun s => (OutOfFuel, s)
    | S fuel' =>
        r <- sys (fd_read conn (2048 - len buffer)) ;;
        ETDCASSERT (nread r >? 0) (L "Failed to read data from remote end") ;;
        let buffer := buffer ++ bytes_of r in
        let (lines, endpos) := getReplies buffer in
        match requestFileRead_lines lines v with
        | inl e => throw e
        | inr (v', unprocessed) =>
            ETDCASSERT (match unprocessed with [] => true | _ => false end)
              (L "requestFileRead: there are unprocessed lines of input left, this means the server sent an erroneous reply.") ;;
            requestFileRead_loop fuel' conn (skipn endpos buffer) v'
        end
    end
  else ret (buffer, v).

Definition requestFileRead (conn : fd_t) (file : str) (already_have : Z) : M result_type :=
  let msg := L "read-file " ++ show_Z already_have ++ L " " ++ file ++ [LF] in
  wr <- sys (fd_write conn msg) ;;
  ETDCASSERTX (wr =? len msg)
    "__m_connection->write(__m_connection->__m_fd, msg.data(), msg.size())==(ssize_t)msg.size()" ;;
  ' (buffer, v) <- requestFileRead_loop (3 * 2048) conn []
                     (mk_reply_vars false [] [] None None) ;;
  ETDCASSERT (len buffer =? 0)
    (L "requestFileRead: there are " ++ show_Z (len buffer)
       ++ L " unconsumed server bytes left in the input. This is likely a protocol error.") ;;
  ETDCASSERT (str_eqb (status_s v) (L "OK"))
    (L "requestFileRead(" ++ file ++ L ") failed - "
       ++ match info v with [] => L "<unknown reason>" | i => i end) ;;
  match remain v, curUUID v with
  | Some r, Some u => ret (u, r)
  | _, _ =>
      throw (Assertion (L "requestFileRead: the server did NOT send all required fields"))
  end.

(** [rxAlreadyHave], icase:  ^AlreadyHave:([0-9]+)$  *)
Definition rxAlreadyHave : regex :=
  Cat Bol (Cat (LitI (L "AlreadyHave:")) (Cat (Grp 1 (Plus (Cls is_digit))) Eol)).

(** The variables of the reply loop of [requestFileWrite]. *)
Record write_vars := mk_write_vars
  { w_finished : bool; w_status_s : str; w_info : str;
    filePos : option Z; w_curUUID : option uuid_type }.

(** The [for] loop over the lines of one pass of [requestFileWrite]. *)
Fixpoint requestFileWrite_lines (lines : list str) (v : write_vars)
  : exn + (write_vars * list str) :=
  match lines with
  | [] => inr (v, [])
  | line :: rest =>
      if w_finished v then inr (v, lines)
      else
        match regex_match rxUUID line with
        | Some fields =>
            match w_curUUID v with
            | Some _ => inl (Assertion (L "Server had already sent a UUID"))
            | None =>
                requestFileWrite_lines rest
                  (mk_write_vars (w_finished v) (w_status_s v) (w_info v) (filePos v)
                                 (Some (sub_str fields 1)))
            end
        | None =>
            match regex_match rxAlreadyHave line with
            | Some fields =>
                match filePos v with
                | Some _ => inl (Assertion (L "Server had already sent file position"))
                | None =>
                    match string2off_t (sub_str fields 1) with
                    | None => inl (StdExn (string2off_t_what (sub_str fields 1)))
                    | Some n =>
                        requestFileWrite_lines rest
                          (mk_write_vars (w_finished v) (w_status_s v) (w_info v) (Some n)
                                         (w_curUUID v))
                    end
                end
            | None =>
                match regex_match rxReply line with
                | Some fields =>
                    requestFileWrite_lines rest
                      (mk_write_vars true (sub_str fields 1) (sub_str fields 3)
                                     (filePos v) (w_curUUID v))
                | None =>
                    inl (Assertion
                           (L "requestFileWrite: the server sent a reply that we did not recognize: "
                              ++ line))
                end
            end
        end
  end.

(** The reply loop of [requestFileWrite]; as in [requestFileRead] it ends
    within three fillings of the buffer. *)
Fixpoint requestFileWrite_loop (fuel : nat) (conn : fd_t) (buffer : str) (v : write_vars)
  : M (str * write_vars) :=
  if negb (w_finished v) && (len buffer <? 2048) then
    match fuel with
    | O => fun s => (OutOfFuel, s)
    | S fuel' =>
        r <- sys (fd_read conn (2048 - len buffer)) ;;
        ETDCASSERT (nread r >? 0) (L "Failed to read data from remote end") ;;
        let buffer := buffer ++ bytes_of r in
        let (lines, endpos) := getReplies buffer in
        match requestFileWrite_lines lines v with
        | inl e => throw e
        | inr (v', unprocessed) =>
            ETDCASSERT (match unprocessed with [] => true | _ => false end)
              (L "requestFileWrite: there are unprocessed lines of input left, this means the server sent an erroneous reply.") ;;
            requestFileWrite_loop fuel' conn (skipn endpos buffer) v'
        end
    end
  else ret (buffer, v).

(** [om_s] is what [msgBuf << om] prints for the open mode; the operator is
    defined outside the files at hand. *)
Definition requestFileWrite (conn : fd_t) (file : str) (om_s : str) : M result_type :=
  let msg := L "write-file-" ++ om_s ++ L " " ++ file ++ [LF] in
  wr <- sys (fd_write conn msg) ;;
  ETDCASSERTX (wr =? len msg)
    "__m_connection->write(__m_connection->__m_fd, msg.data(), msg.size())==(ssize_t)msg.size()" ;;
  ' (buffer, v) <- requestFileWrite_loop (3 * 2048) conn []
                     (mk_write_vars false [] [] None None) ;;
  ETDCASSERT (len buffer =? 0)
    (L "requestFileWrite: there are " ++ show_Z (len buffer)
       ++ L " unconsumed server bytes left in the input. This is likely a protocol error.") ;;
  ETDCASSERT (str_eqb (w_status_s v) (L "OK"))
    (L "requestFileWrite(" ++ file ++ L ") failed - "
       ++ match w_info v with [] => L "<unknown reason>" | i => i end) ;;
  match filePos v, w_curUUID v with
  | Some p, Some u => ret (u, p)
  | _, _ =>
      throw (Assertion (L "requestFileWrite: the server did NOT send all required fields"))
  end.

(** The variables of the reply loops of [listPath] and [dataChannelAddr]:
    [finished], [state] and the list [rv]. *)
Record list_vars (A : Type) := mk_list_vars
  { l_finished : bool; l_state : str; l_rv : list A }.
Arguments mk_list_vars {A} _ _ _.
Arguments l_finished {A} _.
Arguments l_state {A} _.
Arguments l_rv {A} _.

Definition or_unknown (info0 : str) : str :=
  match info0 with [] => L "<unknown reason>" | i => i end.

(** The [for] loop over the lines of one pass of [listPath]. *)
Fixpoint listPath_lines (path0 : str) (lines : list str) (v : list_vars str)
  : exn + (list_vars str * list str) :=
  match lines with
  | [] => inr (v, [])
  | line :: rest =>
      if l_finished v then inr (v, lines)
      else
        match regex_match rxReply line with
        | None => inl (Assertion (L "Server replied with an invalid line"))
        | Some fields =>
            if match l_state v with [] => true | _ => false end
               || (str_eqb (l_state v) (L "OK") && str_eqb (sub_str fields 1) (l_state v))
            then
              let state := sub_str fields 1 in
              let info0 := sub_str fields 3 in
              if str_eqb state (L "ERR")
              then inl (StdExn (L "listPath(" ++ path0 ++ L ") failed - " ++ or_unknown info0))
              else if str_eqb state (L "OK") && match info0 with [] => true | _ => false end
              then listPath_lines path0 rest (mk_list_vars true state (l_rv v))
              else listPath_lines path0 rest (mk_list_vars false state (l_rv v ++ [info0]))
            else
              inl (Assertion (L "The server changed its mind about the success of the call in the middle of the reply"))
        end
  end.

(** The reply loop of [listPath]; it goes on for as long as entries come,
    so the number of passes is a parameter. *)
Fixpoint listPath_loop (fuel : nat) (conn : fd_t) (path0 : str) (buffer : str)
  (v : list_vars str) : M (str * list_vars str) :=
  if negb (l_finished v) && (len buffer <? 16384) then
    match fuel with
    | O => fun s => (OutOfFuel, s)
    | S fuel' =>
        r <- sys (fd_read conn (16384 - len buffer)) ;;
        ETDCASSERT (nread r >? 0) (L "Failed to read data from remote end") ;;
        let buffer := buffer ++ bytes_of r in
        let (lines, endpos) := getReplies buffer in
        match listPath_lines path0 lines v with
        | inl e => throw e
        | inr (v', unprocessed) =>
            ETDCASSERT (match unprocessed with [] => true | _ => false end)
              (L "There are unprocessed lines of reply from the server. This is probably a protocol error.") ;;
            listPath_loop fuel' conn path0 (skipn endpos buffer) v'
        end
    end
  else ret (buffer, v).

Definition listPath (fuel : nat) (conn : fd_t) (path0 : str) (allow_tilde : bool)
  : M (list str) :=
  let msg := L "list " ++ path0 ++ [LF] in
  wr <- sys (fd_write conn msg) ;;
  ETDCASSERTX (wr =? len msg)
    "__m_connection->write(__m_connection->__m_fd, msg.data(), msg.size())==(ssize_t)msg.size()" ;;
  ' (buffer, v) <- listPath_loop fuel conn path0 [] (mk_list_vars false [] []) ;;
  ETDCASSERT (len buffer =? 0)
    (L "listPath: there are " ++ show_Z (len buffer)
       ++ L " unconsumed bytes left in the input. This is likely a protocol error.") ;;
  ret (l_rv v).

(** The [for] loop over the lines of one pass of [dataChannelAddr]. *)
Fixpoint dataChannelAddr_lines (lines : list str) (v : list_vars sockname_type)
  : exn + (list_vars sockname_type * list str) :=
  match lines with
  | [] => inr (v, [])
  | line :: rest =>
      if l_finished v then inr (v, lines)
      else
        match regex_match rxReply line with
        | None => inl (Assertion (L "Server replied with an invalid line"))
        | Some fields =>
            if match l_state v with [] => true | _ => false end
               || (str_eqb (l_state v) (L "OK") && str_eqb (sub_str fields 1) (l_state v))
            then
              let state := sub_str fields 1 in
              let info0 := sub_str fields 3 in
              if str_eqb state (L "ERR")
              then inl (StdExn (L "dataChannelAddr() failed - " ++ or_unknown info0))
              else if str_eqb state (L "OK") && match info0 with [] => true | _ => false end
              then dataChannelAddr_lines rest (mk_list_vars true state (l_rv v))
              else
                match decode_data_addr info0 with
                | inl e => inl e
                | inr sn =>
                    dataChannelAddr_lines rest (mk_list_vars false state (l_rv v ++ [sn]))
                end
            else
              inl (Assertion (L "The server changed its mind about the success of the call in the middle of the reply"))
        end
  end.

Fixpoint dataChannelAddr_loop (fuel : nat) (conn : fd_t) (buffer : str)
  (v : list_vars sockname_type) : M (str * list_vars sockname_type) :=
  if negb (l_finished v) && (len buffer <? 2048) then
    match fuel with
    | O => fun s => (OutOfFuel, s)
    | S fuel' =>
        r <- sys (fd_read conn (2048 - len buffer)) ;;
        ETDCASSERT (nread r >? 0) (L "Failed to read data from remote end") ;;
        let buffer := buffer ++ bytes_of r in
        let (lines, endpos) := getReplies buffer in
        match dataChannelAddr_lines lines v with
        | inl e => throw e
        | inr (v', unprocessed) =>
            ETDCASSERT (match unprocessed with [] => true | _ => false end)
              (L "There are unprocessed lines of reply from the server. This is probably a protocol error.") ;;
            dataChannelAddr_loop fuel' conn (skipn endpos buffer) v'
        end
    end
  else ret (buffer, v).

Definition dataChannelAddr (fuel : nat) (conn : fd_t) : M dataaddrlist_type :=
  let msg := L "data-channel-addr" ++ [LF] in
  wr <- sys (fd_write conn msg) ;;
  ETDCASSERTX (wr =? len msg)
    "__m_connection->write(__m_connection->__m_fd, msg.data(), msg.size())==(ssize_t)msg.size()" ;;
  ' (buffer, v) <- dataChannelAddr_loop fuel conn [] (mk_list_vars false [] []) ;;
  ETDCASSERT (len buffer =? 0)
    (L "dataChannelAddr: there are " ++ show_Z (len buffer)
       ++ L " unconsumed bytes left in the input. This is likely a protocol error.") ;;
  ret (l_rv v).

(** The addresses of a [send-file] command, with commas between them. *)
Fixpoint show_dataaddrs (first : bool) (addrs : dataaddrlist_type) : str :=
  match addrs with
  | [] => []
  | p :: rest =>
      (if first then [] else L ",") ++ show_sockname p ++ show_dataaddrs false rest
  end.

(** The reply loop of [sendFile]: that of [removeUUID] with another
    message. *)
Fixpoint sendFile_loop (fuel : nat) (conn : fd_t) (buffer : str) : M bool :=
  if len buffer <? 2048 then
    match fuel with
    | O => fun s => (OutOfFuel, s)
    | S fuel' =>
        r <- sys (fd_read conn (2048 - len buffer)) ;;
        ETDCASSERT (nread r >? 0) (L "Failed to read data from remote end") ;;
        let buffer := buffer ++ bytes_of r in
        let lines := fst (getReplies buffer) in
        match lines with
        | [] => sendFile_loop fuel' conn buffer
        | line :: others =>
            ETDCASSERT (match others with [] => true | _ => false end)
              (L "The client sent wrong number of responses - this is likely a protocol error") ;;
            match regex_match rxReply line with
            | None => throw (Assertion (L "The client sent a non-conforming response"))
            | Some fields =>
                ETDCASSERT (str_eqb (sub_str fields 1) (L "OK"))
                           (L "sendFile failed - " ++ sub_str fields 2) ;;
                ret true
            end
        end
    end
  else ret true.

Definition sendFile (conn : fd_t) (srcUUID dstUUID : uuid_type) (todo : Z)
  (dataaddrs0 : dataaddrlist_type) : M bool :=
  let msg := L "send-file " ++ srcUUID ++ L " " ++ dstUUID ++ L " " ++ show_Z todo
               ++ L " " ++ show_dataaddrs true dataaddrs0 ++ [LF] in
  wr <- sys (fd_write conn msg) ;;
  ETDCASSERTX (wr =? len msg)
    "__m_connection->write(__m_connection->__m_fd, msg.data(), msg.size())==(ssize_t)msg.size()" ;;
  sendFile_loop 2048 conn [].

End ETDProxy.

Arguments mk_list_vars {A} _ _ _.
Arguments l_finished {A} _.
Arguments l_state {A} _.
Arguments l_rv {A} _.

End ETDProxy.

(* ====================================================================== *)
(** * ETDServerWrapper *)
(* ====================================================================== *)

Definition Ws : regex := Plus (Cls is_space).
Definition NonWs : regex := Plus (Cls not_space).
(** (\S.* ) *)
Definition Rest (n : nat) : regex := Grp n (Cat (Cls not_space) (Star (Cls is_dot))).

(** [rxList], icase:  ^list\s+(\S.* )$  *)
Definition rxList : regex :=
  Cat Bol (Cat (LitI (L "list")) (Cat Ws (Cat (Rest 1) Eol))).

(** [rxReqFileWrite], icase:  ^write-file-(\S+)\s+(\S.* )$  *)
Definition rxReqFileWrite : regex :=
  Cat Bol (Cat (LitI (L "write-file-")) (Cat (Grp 1 NonWs) (Cat Ws (Cat (Rest 2) Eol)))).

(** [rxReqFileRead], icase:  ^read-file\s+([0-9]+)\s+(\S.* )$  *)
Definition rxReqFileRead : regex :=
  Cat Bol (Cat (LitI (L "read-file"))
          (Cat Ws (Cat (Grp 1 (Plus (Cls is_digit))) (Cat Ws (Cat (Rest 2) Eol))))).

(** [rxSendFile], icase:  ^send-file\s+(\S+)\s+(\S+)\s+([0-9]+)\s+(\S+)$  *)
Definition rxSendFile : regex :=
  Cat Bol (Cat (LitI (L "send-file"))
          (Cat Ws (Cat (Grp 1 NonWs)
          (Cat Ws (Cat (Grp 2 NonWs)
          (Cat Ws (Cat (Grp 3 (Plus (Cls is_digit)))
          (Cat Ws (Cat (Grp 4 NonWs) Eol))))))))).

(** [rxDataChannelAddr], icase:  ^data-channel-addr$  *)
Definition rxDataChannelAddr : regex :=
  Cat Bol (Cat (LitI (L "data-channel-addr")) Eol).

(** [rxRemoveUUID], icase:  ^remove-uuid\s+(\S+)$  *)
Definition rxRemoveUUID : regex :=
  Cat Bol (Cat (LitI (L "remove-uuid")) (Cat Ws (Cat (Grp 1 NonWs) Eol))).

(** [data_sep]:  [^,]+  *)
Definition data_sep : regex := Plus (Cls (fun a => negb (ascii_eqb a ","%char))).

(** [std::transform] with [decode_data_addr] over the addresses of a
    [send-file] command; the first address that does not decode throws. *)
Fixpoint decode_all {P : Platform} (l : list str) : exn + dataaddrlist_type :=
  match l with
  | [] => inr []
  | a :: r =>
      match decode_data_addr a with
      | inl e => inl e
      | inr sn =>
          match decode_all r with
          | inl e => inl e
          | inr sns => inr (sn :: sns)
          end
      end
  end.

Module ETDServerWrapper.
Section ETDServerWrapper.
Context {P : Platform}.

Definition lift_exn {A} (r : exn + A) : M A :=
  match r with inl e => throw e | inr a => ret a end.

(** The [try] block of [handle] for one line: the replies it prepares.
    [m_uuid] is the uuid of the wrapper's own [ETDServer], [conn] its
    connection. *)
Definition dispatch (m_uuid : uuid_type) (conn : fd_t) (line : str) : M (list str) :=
  match regex_match rxList line with
  | Some fields =>
      entries <- ETDServer.listPath (sub_str fields 1) false ;;
      ret (map (fun e => L "OK " ++ e) entries ++ [L "OK"])
  | None =>
  match regex_match rxReqFileWrite line with
  | Some fields =>
      om <- lift_exn (read_openmode (sub_str fields 1)) ;;
      fwresult <- ETDServer.requestFileWrite m_uuid (sub_str fields 2) om ;;
      ret [L "AlreadyHave:" ++ show_Z (get_filepos fwresult);
           L "UUID:" ++ get_uuid fwresult;
           L "OK"]
  | None =>
  match regex_match rxReqFileRead line with
  | Some fields =>
      already_have <-
        lift_exn (match string2off_t (sub_str fields 1) with
                  | Some n => inr n
                  | None => inl (StdExn (string2off_t_what (sub_str fields 1)))
                  end) ;;
      frresult <- ETDServer.requestFileRead m_uuid (sub_str fields 2) already_have ;;
      ret [L "Remain:" ++ show_Z (get_filepos frresult);
           L "UUID:" ++ get_uuid frresult;
           L "OK"]
  | None =>
  match regex_match rxSendFile line with
  | Some fields =>
      let dataAddrs_s := sub_str fields 4 in
      let src_uuid := sub_str fields 1 in
      let dst_uuid := sub_str fields 2 in
      todo <-
        lift_exn (match string2off_t (sub_str fields 3) with
                  | Some n => inr n
                  | None => inl (StdExn (string2off_t_what (sub_str fields 3)))
                  end) ;;
      dataAddrs <-
        lift_exn (decode_all (map (fun m => fst (fst m))
                                  (regex_iterator data_sep dataAddrs_s))) ;;
      rv <- ETDServer.sendFile m_uuid src_uuid dst_uuid todo dataAddrs ;;
      ret [if rv : bool then L "OK" else L "ERR Failed to send file"]
  | None =>
  match regex_match rxDataChannelAddr line with
  | Some fields =>
      entries <- ETDServer.dataChannelAddr ;;
      ret (map (fun sn => L "OK " ++ show_sockname sn) entries ++ [L "OK"])
  | None =>
  match regex_match rxRemoveUUID line with
  | Some fields =>
      removeResult <- ETDServer.removeUUID m_uuid (sub_str fields 1) ;;
      ret [if removeResult : bool then L "OK" else L "ERR Failed to remove UUID"]
  | None =>
      sys_ (fd_close conn) ;;
      throw (ClientError (L "client sent unknown command"))
  end end end end end end.

(** Sending back the replies: one [write] for the reply and one for the
    newline, neither checked. *)
Fixpoint send_replies (conn : fd_t) (replies : list str) : M unit :=
  match replies with
  | [] => ret tt
  | r :: rest =>
      _ <- sys (fd_write conn r) ;;
      _ <- sys (fd_write conn [LF]) ;;
      send_replies conn rest
  end.

(** One line of [handle]: the [try] block with its handlers, then the
    replies are sent.  The result is the value of [terminated]. *)
Definition handle_line (m_uuid : uuid_type) (conn : fd_t) (terminated : bool) (line : str)
  : M bool :=
  fun s =>
    match dispatch m_uuid conn line s with
    | (Ret replies, s') => bind (send_replies conn replies) (fun _ => ret terminated) s'
    | (Throw (ClientError _), s') => (Ret true, s')
    | (Throw e, s') =>
        let reply :=
          match what e with
          | Some m => L "ERR " ++ m
          | None => L "ERR Unknown exception"
          end in
        bind (send_replies conn [reply]) (fun _ => ret terminated) s'
    | (Spin, s') => (Spin, s')
    | (OutOfFuel, s') => (OutOfFuel, s')
    end.

Fixpoint handle_lines (m_uuid : uuid_type) (conn : fd_t) (terminated : bool)
  (lines : list str) : M bool :=
  match lines with
  | [] => ret terminated
  | line :: rest =>
      t <- handle_line m_uuid conn terminated line ;;
      handle_lines m_uuid conn t rest
  end.

(** The loop of [handle]; it goes on for as long as the client sends
    commands, so the number of passes is a parameter. *)
Fixpoint handle_loop (fuel : nat) (m_uuid : uuid_type) (conn : fd_t)
  (terminated : bool) (buffer : str) : M unit :=
  if negb terminated && (len buffer <? 2048) then
    match fuel with
    | O => fun s => (OutOfFuel, s)
    | S fuel' =>
        r <- sys (fd_read conn (2048 - len buffer)) ;;
        ETDCASSERT (nread r >? 0) (L "Failed to read data from remote end") ;;
        let buffer := buffer ++ bytes_of r in
        let (lines, endpos) := getReplies buffer in
        t <- handle_lines m_uuid conn terminated lines ;;
        handle_loop fuel' m_uuid conn t (skipn endpos buffer)
    end
  else ret tt.

Definition handle (fuel : nat) (m_uuid : uuid_type) (conn : fd_t) : M unit :=
  handle_loop fuel m_uuid conn false [].

End ETDServerWrapper.
End ETDServerWrapper.

(* ====================================================================== *)
(** * ETDDataServer *)
(* ====================================================================== *)

(** [rxCommand]:  ^(\{([^\}]* )\})  *)
Definition rxCommand : regex :=
  Cat Bol (Grp 1 (Cat (Chr "{")
                 (Cat (Grp 2 (Star (Cls (fun a => negb (ascii_eqb a "}"%char)))))
                      (Chr "}")))).

Definition DQUOTE : ascii := ascii_of_nat 34.
Definition BACKSLASH : ascii := ascii_of_nat 92.
Definition is_key_char (a : ascii) : bool :=
  is_alnum a || ascii_eqb a "_"%char || ascii_eqb a "-"%char.
(** [^, \t\v] *)
Definition is_bare_char (a : ascii) : bool :=
  negb (ascii_eqb a ","%char || ascii_eqb a " "%char
        || ascii_eqb a (ascii_of_nat 9) || ascii_eqb a (ascii_of_nat 11)).

(** [rxKeyValue], icase, with [Q] for the double quote:
    \b([a-zA-Z][a-zA-Z0-9_-]+)\s*:\s*(Q(.*(?!\\))Q|[^, \t\v]+)  *)
Definition rxKeyValue : regex :=
  Cat WordB
 (Cat (Grp 1 (Cat (Cls is_alpha) (Plus (Cls is_key_char))))
 (Cat (Star (Cls is_space))
 (Cat (Chr ":")
 (Cat (Star (Cls is_space))
      (Grp 2 (Alt (Cat (Chr DQUOTE)
                  (Cat (Grp 3 (Cat (Star (Cls is_dot)) (NLook (Chr BACKSLASH))))
                       (Chr DQUOTE)))
                  (Plus (Cls is_bare_char)))))))).

(** [unSlash]: every backslash is taken out. *)
Definition unSlash (s : str) : str :=
  filter (fun a => negb (ascii_eqb a BACKSLASH)) s.

(** [kvmap_type]: a map from keys, compared without regard to case, to
    values. *)
Definition kvmap_type := list (str * str).

Definition key_eqb (a b : str) : bool := str_eqb (map to_lower a) (map to_lower b).

Fixpoint kv_find (k : str) (m : kvmap_type) : option str :=
  match m with
  | [] => None
  | (k', v) :: r => if key_eqb k' k then Some v else kv_find k r
  end.

(** Modelled from the spec: [etdc::no_duplicates_inserter] is defined
    outside the files at hand.  The specification has a duplicate key in a
    header as a protocol error. *)
Fixpoint no_duplicates_insert (kvs : list (str * str)) (m : kvmap_type)
  : exn + kvmap_type :=
  match kvs with
  | [] => inr m
  | (k, v) :: r =>
      match kv_find k m with
      | Some _ => inl (StdExn (L "duplicate key " ++ k))
      | None => no_duplicates_insert r (m ++ [(k, v)])
      end
  end.

(** [getKeyValuePairs]: the pairs in the order in which they are found. *)
Definition getKeyValuePairs (fields : str) : list (str * str) :=
  map (fun m : str * str * caps =>
         let this_kv := snd m in
         (sub_str this_kv 1,
          unSlash (match sub_str this_kv 3 with
                   | [] => sub_str this_kv 2
                   | q => q
                   end)))
      (regex_iterator rxKeyValue fields).

Definition size_max : Z := 2 ^ 64.
(** Conversion to [size_t]. *)
Definition to_size_t (z : Z) : Z := z mod size_max.

Module ETDDataServer.
Section ETDDataServer.
Context {P : Platform}.

Definition allowedWriteModes (m : openmode_type) : bool :=
  match m with
  | New | OverWrite | Resume => true
  | Read | SkipExisting => false
  end.

Definition allowedReadModes (m : openmode_type) : bool :=
  match m with Read => true | _ => false end.

(** The loop of [push_n]. *)
Fixpoint push_n_loop (fuel : nat) (n : Z) (src dst : fd_t) : M unit :=
  if n >? 0 then
    match fuel with
    | O => fun s => (OutOfFuel, s)
    | S fuel' =>
        let nRead := Z.min n bufSz in
        r <- sys (fd_read src nRead) ;;
        ETDCASSERTX (nread r =? nRead) "src->read(src->__m_fd,  &buf[0], nRead)==nRead" ;;
        wr <- sys (fd_write dst (bytes_of r)) ;;
        ETDCASSERTX (wr =? nRead) "dst->write(dst->__m_fd, &buf[0], nRead)==nRead" ;;
        push_n_loop fuel' (n - nRead) src dst
    end
  else ret tt.

Definition push_n (n : Z) (src dst : fd_t) : M unit :=
  push_n_loop (passes n) n src dst ;;
  _ <- sys (fd_read dst 1) ;;
  ret tt.

(** The loop of [pull_n].  [buf] holds the bytes of the buffer below
    [wrEnd], of which those from [rdPos] on wait to be written; the counts
    are [size_t], so the differences wrap. *)
Fixpoint pull_n_loop (fuel : nat) (n : Z) (src dst : fd_t) (rdPos : Z) (buf : str)
  : M unit :=
  if n >? 0 then
    match fuel with
    | O => fun s => (OutOfFuel, s)
    | S fuel' =>
        let wrEnd := len buf in
        let nRead := Z.min (to_size_t (n + rdPos - wrEnd)) (to_size_t (bufSz - wrEnd)) in
        r <- sys (fd_read src nRead) ;;
        w <- (fun s => (Ret (snd s), s)) ;;
        ETDCASSERT (nread r >=? 0)
          (L "Failed to read bytes from client - " ++ strerror_errno w) ;;
        let buf := buf ++ bytes_of r in
        let wrEnd := len buf in
        ETDCASSERT (to_size_t (wrEnd - rdPos) >? 0)
          (L "No bytes read from client and no more bytes still left in buffer") ;;
        wr <- sys (fd_write dst (skipn (Z.to_nat rdPos) buf)) ;;
        ETDCASSERTX (wr =? to_size_t (wrEnd - rdPos))
          "dst->write(dst->__m_fd, &buf[rdPos], wrEnd-rdPos)==ssize_t(wrEnd-rdPos)" ;;
        pull_n_loop fuel' (to_size_t (n - (wrEnd - rdPos))) src dst 0 []
    end
  else ret tt.

Definition pull_n (fuel : nat) (n : Z) (src dst : fd_t) (rdPos : Z) (buf : str) : M unit :=
  pull_n_loop fuel n src dst rdPos buf ;;
  _ <- sys (fd_write src (L "y")) ;;
  ret tt.

(** A request as [handle] has verified it. *)
Record request := mk_request { rq_uuid : uuid_type; rq_sz : Z; rq_push : bool }.

(** The verification of the key-value pairs in [handle]: [uuid] and [sz]
    must be there, [push] may only be [1], [sz] must be a number. *)
Definition verify (kvpairs : kvmap_type) : exn + request :=
  let uuidptr := kv_find (L "uuid") kvpairs in
  let szptr := kv_find (L "sz") kvpairs in
  let pushptr := kv_find (L "push") kvpairs in
  match uuidptr with
  | None => inl (Assertion (L "No UUID was sent"))
  | Some uuid =>
      match szptr with
      | None => inl (Assertion (L "No amount was sent"))
      | Some sz_s =>
          if negb (match pushptr with None => true | Some v => str_eqb v (L "1") end)
          then inl (Assertion (L "push keyword may only take one specific value"))
          else
            match string2off_t sz_s with
            | None => inl (StdExn (string2off_t_what sz_s))
            | Some sz =>
                inr (mk_request uuid sz
                       (match pushptr with Some _ => true | None => false end))
            end
      end
  end.

(** The loop in which [handle] locks the transfer; it runs its body once or
    waits for ever, as in [ETDServer::removeUUID]. *)
Definition lock_transfer (rq : request) : M transferprops_type :=
  transfers <- get_transfers ;;
  match map_find (rq_uuid rq) transfers with
  | None => throw (Assertion (L "No transfer associated with the UUID"))
  | Some xfer =>
      if lock xfer then spin
      else
        ETDCASSERT (if rq_push rq then allowedReadModes (openMode xfer)
                    else allowedWriteModes (openMode xfer))
          (L "The referred-to transfer's open mode (" ++ show_openmode (openMode xfer)
             ++ L ") is not compatible with the current data request") ;;
        ret xfer
  end.

(** What [handle] does once a command has been found in the buffer:
    [fields] is the text between the braces, [rdPos] the position after the
    command, [buffer] the bytes read so far. *)
Definition serve (fuel : nat) (conn : fd_t) (fields : str) (rdPos : Z) (buffer : str)
  : M unit :=
  kvpairs <- ETDServerWrapper.lift_exn (no_duplicates_insert (getKeyValuePairs fields) []) ;;
  rq <- ETDServerWrapper.lift_exn (verify kvpairs) ;;
  xfer <- lock_transfer rq ;;
  if rq_push rq
  then push_n (to_size_t (rq_sz rq)) (fd xfer) conn
  else pull_n fuel (to_size_t (rq_sz rq)) conn (fd xfer) rdPos buffer.

Definition maxNoCmdSz : Z := 4 * 1024.

(** The loop of [handle]; it serves commands for as long as they come, so
    the number of passes is a parameter. *)
Fixpoint handle_loop (fuel : nat) (conn : fd_t) (buffer : str) : M unit :=
  if len buffer <? maxNoCmdSz then
    match fuel with
    | O => fun s => (OutOfFuel, s)
    | S fuel' =>
        r <- sys (fd_read conn (maxNoCmdSz - len buffer)) ;;
        ETDCASSERT (nread r >? 0) (L "Failed to read data from remote end") ;;
        let buffer := buffer ++ bytes_of r in
        ETDCASSERT (match buffer with "{"%char :: _ => true | _ => false end)
          (L "Client is messing with us - doesn't look like it is going to send a command") ;;
        match regex_search rxCommand buffer with
        | None => handle_loop fuel' conn buffer
        | Some (skipped, command, _, fields) =>
            let rdPos := len skipped + len command in
            serve fuel' conn (sub_str fields 2) rdPos buffer ;;
            handle_loop fuel' conn []
        end
    end
  else ret tt.

Definition handle (fuel : nat) (conn : fd_t) : M unit := handle_loop fuel conn [].

End ETDDataServer.
End ETDDataServer.

(* ====================================================================== *)
(** * A platform in memory *)
(* ====================================================================== *)

(** An instance of [Platform] on which the engine can be run: files are
    byte strings by path, a connection is scripted by the chunks its peer
    delivers, one per [read], and by the number of bytes the peer takes at
    each [write] (every byte once the script is used up). *)
Module Mem.

Inductive handle :=
| HFile (path : str) (pos : Z) (append : bool)
| HConn (incoming : list str) (room : list Z) (outgoing : str)
| HClosed.

Definition script := (list str * list Z)%type.

Record world := mk_world
  { files : list (str * str);
    handles : list handle;
    peers : list (str * str * Z * script) }.

Fixpoint lookup (p : str) (fs : list (str * str)) : option str :=
  match fs with
  | [] => None
  | (k, v) :: r => if str_eqb k p then Some v else lookup p r
  end.

Fixpoint store (p : str) (v : str) (fs : list (str * str)) : list (str * str) :=
  match fs with
  | [] => [(p, v)]
  | (k, v') :: r => if str_eqb k p then (k, v) :: r else (k, v') :: store p v r
  end.

Fixpoint set_nth {A} (i : nat) (x : A) (l : list A) : list A :=
  match l, i with
  | [], _ => []
  | _ :: r, O => x :: r
  | y :: r, S j => y :: set_nth j x r
  end.

Definition get_handle (fd : fd_t) (w : world) : handle :=
  nth fd (handles w) HClosed.

Definition set_handle (fd : fd_t) (h : handle) (w : world) : world :=
  mk_world (files w) (set_nth fd h (handles w)) (peers w).

Definition new_handle (h : handle) (w : world) : fd_t * world :=
  (List.length (handles w), mk_world (files w) (handles w ++ [h]) (peers w)).

Definition O_CREAT : Z := 64.
Definition O_EXCL : Z := 128.
Definition O_TRUNC : Z := 512.
Definition O_APPEND : Z := 1024.
Definition has (flags bit : Z) : bool := negb (Z.land flags bit =? 0).

Definition openmode_int (m : openmode_type) : Z :=
  match m with
  | Read => 0
  | New => 1 + O_CREAT + O_EXCL
  | OverWrite => 1 + O_CREAT + O_TRUNC
  | Resume => 1 + O_CREAT + O_APPEND
  | SkipExisting => Z.lnot (1 + O_CREAT + O_EXCL)
  end.

Definition etdc_file (p : str) (flags : Z) (perm : option Z) (w : world)
  : (exn + fd_t) * world :=
  match lookup p (files w) with
  | Some content =>
      if has flags O_CREAT && has flags O_EXCL
      then (inl (StdExn (L "File exists")), w)
      else
        let w1 :=
          if has flags O_TRUNC
          then mk_world (store p [] (files w)) (handles w) (peers w)
          else w in
        let (fd, w2) := new_handle (HFile p 0 (has flags O_APPEND)) w1 in
        (inr fd, w2)
  | None =>
      if has flags O_CREAT
      then
        let w1 := mk_world (store p [] (files w)) (handles w) (peers w) in
        let (fd, w2) := new_handle (HFile p 0 (has flags O_APPEND)) w1 in
        (inr fd, w2)
      else (inl (StdExn (L "No such file or directory")), w)
  end.

Fixpoint find_peer (proto host : str) (port : Z) (ps : list (str * str * Z * script))
  : option script :=
  match ps with
  | [] => None
  | (pr, h, po, sc) :: r =>
      if str_eqb pr proto && str_eqb h host && (po =? port) then Some sc
      else find_peer proto host port r
  end.

Definition mk_client (proto host : str) (port : Z) (w : world) : (exn + fd_t) * world :=
  match find_peer proto host port (peers w) with
  | Some (incoming, room) =>
      let (fd, w1) := new_handle (HConn incoming room []) w in (inr fd, w1)
  | None => (inl (StdExn (L "Connection refused")), w)
  end.

Definition fd_lseek (fd : fd_t) (off : Z) (wh : whence) (w : world) : Z * world :=
  match get_handle fd w with
  | HFile p pos app =>
      let size := match lookup p (files w) with Some c => len c | None => 0 end in
      let target := match wh with SEEK_SET => off | SEEK_END => size + off end in
      if target <? 0 then (-1, w) else (target, set_handle fd (HFile p target app) w)
  | _ => (-1, w)
  end.

Definition fd_read (fd : fd_t) (n : Z) (w : world) : option str * world :=
  match get_handle fd w with
  | HFile p pos app =>
      let content := match lookup p (files w) with Some c => c | None => [] end in
      let data := firstn (Z.to_nat n) (skipn (Z.to_nat pos) content) in
      (Some data, set_handle fd (HFile p (pos + len data) app) w)
  | HConn [] room out => (Some [], w)
  | HConn (chunk :: rest) room out =>
      let data := firstn (Z.to_nat n) chunk in
      let left := skipn (Z.to_nat n) chunk in
      let incoming := match left with [] => rest | _ => left :: rest end in
      (Some data, set_handle fd (HConn incoming room out) w)
  | HClosed => (None, w)
  end.

Definition fd_write (fd : fd_t) (bytes : str) (w : world) : Z * world :=
  match get_handle fd w with
  | HFile p pos app =>
      let content := match lookup p (files w) with Some c => c | None => [] end in
      let at_ := if app then len content else pos in
      let before := firstn (Z.to_nat at_) content in
      let gap := repeat zero (Z.to_nat at_ - List.length content) in
      let after := skipn (Z.to_nat at_ + List.length bytes) content in
      let w1 := mk_world (store p (before ++ gap ++ bytes ++ after) (files w))
                         (handles w) (peers w) in
      (len bytes, set_handle fd (HFile p (at_ + len bytes) app) w1)
  | HConn incoming [] out =>
      (len bytes, set_handle fd (HConn incoming [] (out ++ bytes)) w)
  | HConn incoming (k :: room) out =>
      let taken := firstn (Z.to_nat k) bytes in
      (len taken, set_handle fd (HConn incoming room (out ++ taken)) w)
  | HClosed => (-1, w)
  end.

Definition fd_close (fd : fd_t) (w : world) : world := set_handle fd HClosed w.

(** A pattern that ends in a star lists the paths it is a prefix of, any
    other pattern the path it names. *)
Fixpoint is_prefix (a b : str) : bool :=
  match a, b with
  | [], _ => true
  | x :: a', y :: b' => ascii_eqb x y && is_prefix a' b'
  | _, [] => false
  end.

Definition glob (pat : str) (flags : Z) (w : world) : list str * world :=
  let names := map fst (files w) in
  (match rev pat with
   | "*"%char :: p => filter (is_prefix (rev p)) names
   | _ => filter (str_eqb pat) names
   end, w).

Definition read_openmode (s : str) : exn + openmode_type :=
  match stoll s with
  | Some 0 => inr Read
  | Some 1 => inr New
  | Some 2 => inr OverWrite
  | Some 4 => inr Resume
  | Some 8 => inr SkipExisting
  | _ => inl (StdExn (L "unrecognized open mode"))
  end.

(** The text [read_openmode] reads back. *)
Definition show_openmode (m : openmode_type) : str :=
  match m with
  | Read => L "0"
  | New => L "1"
  | OverWrite => L "2"
  | Resume => L "4"
  | SkipExisting => L "8"
  end.

(** Takes the brackets off a host that has them, and leaves any other host
    as it is. *)
Definition unbracket (h : str) : str :=
  match h with
  | a :: r =>
      if ascii_eqb a "["%char then
        match rev r with
        | z :: m => if ascii_eqb z "]"%char then rev m else h
        | [] => h
        end
      else h
  | [] => h
  end.

Definition platform : Platform :=
  Build_Platform world (fun p => p) openmode_int 0
    etdc_file mk_client fd_lseek fd_read fd_write fd_close
    (fun _ => L "error") 2 (Some 4096) glob read_openmode
    show_openmode unbracket (fun _ => L "stol").

End Mem.

(* ====================================================================== *)
(** * Notions used in the statements *)
(* ====================================================================== *)

(** ** Messages and outcomes of the engine *)

Definition msg_path_in_use_write (path0 : str) : str :=
  L "requestFileWrite(" ++ path0 ++ L ") - the path is already in use".

(** The line the wrapper writes when [removeUUID] returned [false], and the
    message of the exception the proxy makes of it. *)
Definition reply_remove_failed : str := L "ERR Failed to remove UUID".
Definition msg_remove_failed : str := L "removeUUID failed:  Failed to remove UUID".

(** The three messages with which the verification of a header fails
    before the number is read. *)
Definition header_error (e : exn) : Prop :=
  e = Assertion (L "No UUID was sent") \/ e = Assertion (L "No amount was sent")
  \/ e = Assertion (L "push keyword may only take one specific value").

(** The assertions of the bulk loops. *)
Definition assert_read_sendFile : exn :=
  AssertionX (L "transfer.fd->read(transfer.fd->__m_fd, &buffer[0], n)==(ssize_t)n").
Definition assert_write_sendFile : exn :=
  AssertionX (L "dstFD->write(dstFD->__m_fd, &buffer[0], n)==(ssize_t)n").
Definition assert_read_push : exn :=
  AssertionX (L "src->read(src->__m_fd,  &buf[0], nRead)==nRead").
Definition assert_write_push : exn :=
  AssertionX (L "dst->write(dst->__m_fd, &buf[0], nRead)==nRead").
Definition assert_write_pull : exn :=
  AssertionX (L "dst->write(dst->__m_fd, &buf[rdPos], wrEnd-rdPos)==ssize_t(wrEnd-rdPos)").
Definition assert_nothing_pulled : exn :=
  Assertion (L "No bytes read from client and no more bytes still left in buffer").

(** The header [sendFile] writes. *)
Definition header_of_sendFile (dstUUID : uuid_type) (todo : Z) : str :=
  L "{ uuid:" ++ dstUUID ++ L ", sz:" ++ show_Z todo ++ L "}".

Section Notions.
Context {P : Platform}.

(** The uuid has no record in the map. *)
Definition absent (u : uuid_type) (s : sigma) : Prop :=
  map_find u (transfers (fst s)) = None.

(** [moved src dst bytes w w']: from [w] to [w'] the platform has seen
    reads from [src], each returning all the bytes asked for, every one
    followed by a write of those bytes to [dst] that took them all; [bytes]
    is what was moved. *)
Inductive moved (src dst : fd_t) : str -> World -> World -> Prop :=
| moved_nothing (w : World) : moved src dst [] w w
| moved_chunk (b rest : str) (w w1 w2 w3 : World) :
    fd_read src (len b) w = (Some b, w1) ->
    fd_write dst b w1 = (len b, w2) ->
    moved src dst rest w2 w3 ->
    moved src dst (b ++ rest) w w3.

End Notions.

(** ** Regular expressions *)

(** Every class of the expression lies within [Pr]. *)
Fixpoint classes_in (Pr : ascii -> bool) (r : regex) : Prop :=
  match r with
  | Cls p => forall a, p a = true -> Pr a = true
  | Cat a b | Alt a b => classes_in Pr a /\ classes_in Pr b
  | Rep _ _ a | Grp _ a => classes_in Pr a
  | _ => True
  end.

(** A number of passes the upper bound of a repetition allows. *)
Definition within (hi : option nat) (k : nat) : Prop :=
  match hi with Some h => (k <= h)%nat | None => True end.

(** ** Addresses *)












(** ** Sample states and runs on the platform in memory *)

Definition file_x : str := L "/tmp/x".
Definition uuid_a : uuid_type := L "abc-125".
Definition uuid_b : uuid_type := L "abc-124".
Definition state_empty : etd_state := mk_etd_state [] [].
Definition peer : sockname_type := mk_sockname (L "tcp") (L "peer") 2620.

(** What a connection has been sent. *)
Definition sent (fd : fd_t) (w : Mem.world) : str :=
  match Mem.get_handle fd w with
  | Mem.HConn _ _ out => out
  | _ => []
  end.

(** A file of ten bytes, nothing open, nobody to connect to. *)
Definition world_x : Mem.world :=
  Mem.mk_world [(file_x, L "0123456789")] [] [].

(** The same file, read by [uuid_b] through descriptor 0. *)
Definition state_reading : etd_state :=
  mk_etd_state [(uuid_b, mk_transferprops 0%nat file_x Read false)] [].
Definition world_reading : Mem.world :=
  Mem.mk_world [(file_x, L "0123456789")] [Mem.HFile file_x 0 false] [].

(** The file next to one connection, descriptor 0, whose peer delivers
    [chunks]. *)
Definition world_conn (chunks : list str) : Mem.world :=
  Mem.mk_world [(file_x, L "0123456789")] [Mem.HConn chunks [] []] [].

(** A resumed write of [file_x] under [uuid_b], descriptor 1, and a data
    connection, descriptor 0, whose peer delivers [chunks]. *)
Definition state_writing : etd_state :=
  mk_etd_state [(uuid_b, mk_transferprops 1%nat file_x Resume false)] [].
Definition world_data (chunks : list str) : Mem.world :=
  Mem.mk_world [(file_x, L "0123456789")]
               [Mem.HConn chunks [] []; Mem.HFile file_x 10 false] [].

(** The data server's side of a pull: the connection, descriptor 0, has
    [chunks] to deliver and has been sent [out]; the file, descriptor 1,
    holds [content] and is positioned at its end. *)
Definition pull_world (chunks : list str) (out content : str) : Mem.world :=
  Mem.mk_world [(file_x, content)]
               [Mem.HConn chunks [] out; Mem.HFile file_x (len content) false] [].

(** A piece a peer delivers: not empty and no longer than the buffer. *)
Definition chunk_ok (ch : str) : Prop := ch <> [] /\ len ch <= bufSz.

(** [requestFileRead] from position 4 and from position 40 of the ten
    bytes. *)
Definition run_read_4 :=
  @ETDServer.requestFileRead Mem.platform uuid_a file_x 4 (state_empty, world_x).
Definition run_read_40 :=
  @ETDServer.requestFileRead Mem.platform uuid_a file_x 40 (state_empty, world_x).

(** The proxy reading the three lines the wrapper writes for the latter. *)
Definition proxy_read_40 :=
  @ETDProxy.requestFileRead Mem.platform 0%nat file_x 40
    (state_empty,
     world_conn [L "Remain:-30" ++ [LF] ++ L "UUID:abc-125" ++ [LF] ++ L "OK" ++ [LF]]).

(** The wrapper serving one [remove-uuid] command of a server without a
    record, and what the proxy makes of the answer. *)
Definition wrapper_run :=
  @ETDServerWrapper.handle Mem.platform 2 uuid_a 0%nat
    (state_empty, world_conn [L "remove-uuid abc-125" ++ [LF]]).
Definition proxy_run :=
  @ETDProxy.removeUUID Mem.platform 0%nat uuid_a
    (state_empty, world_conn [sent 0%nat (snd (snd wrapper_run))]).

(** Three bytes are left of [file_x] for the reader [uuid_b], which is asked
    to send five to a peer that takes them all. *)
Definition world_3_left : Mem.world :=
  Mem.mk_world [(file_x, L "0123456789")] [Mem.HFile file_x 7 false]
               [(L "tcp", L "peer", 2620, ([L "y"], []))].
Definition send_5_of_3 :=
  @ETDServer.sendFile Mem.platform uuid_b uuid_b uuid_a 5 [peer]
    (state_reading, world_3_left).

(** The data server pushes five bytes of [file_x], descriptor 1, to a
    connection, descriptor 0, that takes two bytes at the first write. *)
Definition world_room_2 : Mem.world :=
  Mem.mk_world [(file_x, L "0123456789")]
               [Mem.HConn [L "y"] [2] []; Mem.HFile file_x 0 false] [].
Definition push_5_room_2 :=
  @ETDDataServer.push_n Mem.platform 5 1%nat 0%nat (state_empty, world_room_2).

(** [file_x] read by [uuid_b] from position 4; the peer at [peer] takes
    [room] bytes at its first write and delivers [chunks]. *)
Definition world_sending (chunks : list str) (room : list Z) : Mem.world :=
  Mem.mk_world [(file_x, L "0123456789")] [Mem.HFile file_x 4 false]
               [(L "tcp", L "peer", 2620, (chunks, room))].
Definition send_6 (chunks : list str) (room : list Z) :=
  @ETDServer.sendFile Mem.platform uuid_b uuid_b uuid_a 6 [peer]
    (state_reading, world_sending chunks room).

(** ** The registry *)

(** Two records of different servers for one path are both readers. *)
Definition exclusive (t : transfermap_type) : Prop :=
  forall x y : uuid_type * transferprops_type,
    In x t -> In y t -> path (snd x) = path (snd y) ->
    x = y \/ (openMode (snd x) = Read /\ openMode (snd y) = Read).

(** The keys of a [std::map] are distinct. *)
Definition keys_unique (t : transfermap_type) : Prop := NoDup (map fst t).

Definition msg_busy_write : str := L "requestFileWrite: this server is already busy".
Definition msg_busy_read : str := L "requestFileRead: this server is already busy".
Definition msg_path_in_use_read (path0 : str) : str :=
  L "requestFileRead(" ++ path0 ++ L ") - the path is already in use".

(** A [requestFileWrite] and a [requestFileRead] of [file_x] by [uuid_a] on
    the platform in memory. *)
Definition run_write_x :=
  @ETDServer.requestFileWrite Mem.platform uuid_a file_x Resume (state_empty, world_x).

(** ** The transfer calls *)


Definition msg_connect_failed (tried : str) : str :=
  L "Failed to connect to any of the data servers: " ++ tried.

(** What is noted for an address whose connection failed with [e]. *)
Definition note_of (addr : sockname_type) (e : exn) : str :=
  match what e with
  | Some m => show_sockname addr ++ L ": " ++ m ++ L ", "
  | None => show_sockname addr ++ L ": unknown exception" ++ L ", "
  end.

(** The header [getFile] writes. *)
Definition header_of_getFile (srcUUID : uuid_type) (todo : Z) : str :=
  L "{ uuid:" ++ srcUUID ++ L ", push:1, sz:" ++ show_Z todo ++ L "}".

Definition assert_write_getFile : exn :=
  AssertionX (L "transfer.fd->write(transfer.fd->__m_fd, &buffer[0], n)==n").

Section TransferNotions.
Context {P : Platform}.

(** [refused addrs w tried w']: from [w] on, a connection to each address
    of [addrs] was tried in turn and failed; [tried] is what was noted, and
    [w'] the platform after the last attempt. *)
Inductive refused : dataaddrlist_type -> World -> str -> World -> Prop :=
| refused_nil (w : World) : refused [] w [] w
| refused_cons (addr : sockname_type) (rest : dataaddrlist_type) (e : exn)
    (w w1 w2 : World) (tried : str) :
    mk_client (get_protocol addr) (get_host addr) (get_port addr) w = (inl e, w1) ->
    refused rest w1 tried w2 ->
    refused (addr :: rest) w (note_of addr e ++ tried) w2.

(** [received conn dst chunks w w']: from [w] to [w'] the platform has seen
    reads of up to [bufSz] bytes from [conn]; a read that brought nothing, or
    failed, had no consequence; the bytes of every other read were written to
    [dst] at once, by a write that took them all.  [chunks] are the pieces
    written, in order. *)
Inductive received (conn dst : fd_t) : list str -> World -> World -> Prop :=
| received_nothing (w : World) : received conn dst [] w w
| received_none (r : option str) (chunks : list str) (w w1 w2 : World) :
    fd_read conn bufSz w = (r, w1) -> nread r <= 0 ->
    received conn dst chunks w1 w2 ->
    received conn dst chunks w w2
| received_chunk (b : str) (chunks : list str) (w w1 w2 w3 : World) :
    fd_read conn bufSz w = (Some b, w1) -> b <> [] ->
    fd_write dst b w1 = (len b, w2) ->
    received conn dst chunks w2 w3 ->
    received conn dst (b :: chunks) w w3.

(** [pulled src dst pre bytes w w']: from [w] to [w'] the platform has seen
    reads from [src], each followed by one write to [dst] that took all its
    bytes: the first write had the bytes [pre] that were waiting and the
    bytes just read, every later one the bytes just read.  [bytes] is all
    that was written. *)
Inductive pulled (src dst : fd_t) : str -> str -> World -> World -> Prop :=
| pulled_nothing (w : World) : pulled src dst [] [] w w
| pulled_pass (pre b rest : str) (k : Z) (w w1 w2 w3 : World) :
    fd_read src k w = (Some b, w1) ->
    fd_write dst (pre ++ b) w1 = (len (pre ++ b), w2) ->
    pulled src dst [] rest w2 w3 ->
    pulled src dst pre ((pre ++ b) ++ rest) w w3.

(** A [read] never brings more bytes than it was asked for. *)
Definition reads_are_bounded : Prop :=
  forall (fd0 : fd_t) (k : Z) (w w' : World) (b : str),
    fd_read fd0 k w = (Some b, w') -> len b <= Z.max 0 k.

End TransferNotions.


(** A connection, descriptor 0, at the end of its stream. *)
Definition world_eof : Mem.world :=
  Mem.mk_world [(file_x, L "0123456789")] [Mem.HConn [] [] []; Mem.HFile file_x 10 false] [].

(** ** Lines on the wire *)

Definition not_eol (a : ascii) : bool := negb (is_eol a).

(** A line and the line ends after it: the line is not empty and has no
    line end in it, the line ends are one or more of [\r] and [\n]. *)
Definition complete_line (le : str * str) : Prop :=
  fst le <> [] /\ forallb not_eol (fst le) = true
  /\ snd le <> [] /\ forallb is_eol (snd le) = true.

(** The text of lines with their line ends. *)
Fixpoint wire (ls : list (str * str)) : str :=
  match ls with
  | [] => []
  | (l, e) :: r => l ++ e ++ wire r
  end.

(** A line of a reply: not empty, without line ends. *)
Definition line_ok (l : str) : Prop := l <> [] /\ forallb not_eol l = true.

(** Lines as the wrapper and the proxy write them: each followed by one
    [\n]. *)
Definition lf_lines (ls : list str) : list (str * str) := map (fun l => (l, [LF])) ls.

(** The next character, if there is one, is not of the class. *)
Definition stops (p : ascii -> bool) (rest : str) : Prop :=
  match rest with
  | [] => True
  | a :: _ => p a = false
  end.

(** The matches an iteration of [rxLine] finds in lines followed by the
    text [t]. *)
Fixpoint line_matches (ls : list (str * str)) (t : str) : list (str * str * caps) :=
  match ls with
  | [] => []
  | (l, e) :: r => (l ++ e, wire r ++ t, cap_set 1 l []) :: line_matches r t
  end.

(** ** Replies that arrive in pieces *)

Section Delivery.
Context {P : Platform}.

(** [delivered conn chunks w w']: from [w] to [w'] the connection hands
    over the pieces [chunks], none of them empty, one to each [read] that
    asks for at least as many bytes as the piece has. *)
Inductive delivered (conn : fd_t) : list str -> World -> World -> Prop :=
| delivered_nil (w : World) : delivered conn [] w w
| delivered_cons (ch : str) (chunks : list str) (w w1 w2 : World) :
    ch <> [] ->
    (forall k, len ch <= k -> fd_read conn k w = (Some ch, w1)) ->
    delivered conn chunks w1 w2 ->
    delivered conn (ch :: chunks) w w2.

End Delivery.

(** The loops that read a reply line by line have one shape: [fin] tells
    whether the reply is complete, [step1] is what is done with one line. *)
Section LineLoop.
Context {P : Platform}.
Variable V : Type.
Variable fin : V -> bool.
Variable step1 : str -> V -> exn + V.

(** The lines of one pass: the variables after them, and the lines that
    were not looked at because the reply was complete. *)
Fixpoint fold_lines (lines : list str) (v : V) : exn + (V * list str) :=
  match lines with
  | [] => inr (v, [])
  | line :: rest =>
      if fin v then inr (v, lines)
      else
        match step1 line v with
        | inl e => inl e
        | inr v' => fold_lines rest v'
        end
  end.

(** What all of [lines] come to: the variables after them, or the
    exception with which the last of them was refused.  There is no such
    result when the reply was complete before its last line, or when a line
    before the last was refused. *)
Fixpoint run_lines (lines : list str) (v : V) : option (exn + V) :=
  match lines with
  | [] => Some (inr v)
  | line :: rest =>
      if fin v then None
      else
        match step1 line v with
        | inl e => match rest with [] => Some (inl e) | _ => None end
        | inr v' => run_lines rest v'
        end
  end.

(** The outcome of a loop whose lines come to [res]. *)
Definition loop_outcome (res : exn + V) : outcome (str * V) :=
  match res with
  | inl e => Throw e
  | inr v' => Ret ([], v')
  end.

(** The lines come to an exception, or to variables with which the reply
    is complete. *)
Definition concluded (res : exn + V) : Prop :=
  match res with
  | inl _ => True
  | inr v' => fin v' = true
  end.

Variable cap : Z.
Variable unprocessed_msg : str.

Fixpoint line_loop (fuel : nat) (conn : fd_t) (buffer : str) (v : V) : M (str * V) :=
  if negb (fin v) && (len buffer <? cap) then
    match fuel with
    | O => fun s => (OutOfFuel, s)
    | S fuel' =>
        r <- sys (fd_read conn (cap - len buffer)) ;;
        ETDCASSERT (nread r >? 0) (L "Failed to read data from remote end") ;;
        let buffer := buffer ++ bytes_of r in
        let (lines, endpos) := getReplies buffer in
        match fold_lines lines v with
        | inl e => throw e
        | inr (v', unprocessed) =>
            ETDCASSERT (match unprocessed with [] => true | _ => false end)
              unprocessed_msg ;;
            line_loop fuel' conn (skipn endpos buffer) v'
        end
    end
  else ret (buffer, v).

End LineLoop.

Section ReplySteps.
Context {P : Platform}.

(** What [ETDProxy::requestFileRead] does with one line of the reply. *)
Definition read_step (line : str) (v : reply_vars) : exn + reply_vars :=
  match regex_match rxUUID line with
  | Some fields =>
      match curUUID v with
      | Some _ => inl (Assertion (L "Server already sent a UUID"))
      | None =>
          inr (mk_reply_vars (finished v) (status_s v) (info v) (remain v)
                             (Some (sub_str fields 1)))
      end
  | None =>
      match regex_match rxRemain line with
      | Some fields =>
          match remain v with
          | Some _ => inl (Assertion (L "Server already sent a file position"))
          | None =>
              match string2off_t (sub_str fields 1) with
              | None => inl (StdExn (string2off_t_what (sub_str fields 1)))
              | Some n =>
                  inr (mk_reply_vars (finished v) (status_s v) (info v) (Some n) (curUUID v))
              end
          end
      | None =>
          match regex_match rxReply line with
          | Some fields =>
              inr (mk_reply_vars true (sub_str fields 1) (sub_str fields 3)
                                 (remain v) (curUUID v))
          | None =>
              inl (Assertion
                     (L "requestFileRead: the server sent a reply that we did not recognize: "
                        ++ line))
          end
      end
  end.

(** What [ETDProxy::requestFileWrite] does with one line of the reply. *)
Definition write_step (line : str) (v : ETDProxy.write_vars) : exn + ETDProxy.write_vars :=
  match regex_match rxUUID line with
  | Some fields =>
      match ETDProxy.w_curUUID v with
      | Some _ => inl (Assertion (L "Server had already sent a UUID"))
      | None =>
          inr (ETDProxy.mk_write_vars (ETDProxy.w_finished v) (ETDProxy.w_status_s v)
                 (ETDProxy.w_info v) (ETDProxy.filePos v) (Some (sub_str fields 1)))
      end
  | None =>
      match regex_match ETDProxy.rxAlreadyHave line with
      | Some fields =>
          match ETDProxy.filePos v with
          | Some _ => inl (Assertion (L "Server had already sent file position"))
          | None =>
              match string2off_t (sub_str fields 1) with
              | None => inl (StdExn (string2off_t_what (sub_str fields 1)))
              | Some n =>
                  inr (ETDProxy.mk_write_vars (ETDProxy.w_finished v) (ETDProxy.w_status_s v)
                         (ETDProxy.w_info v) (Some n) (ETDProxy.w_curUUID v))
              end
          end
      | None =>
          match regex_match rxReply line with
          | Some fields =>
              inr (ETDProxy.mk_write_vars true (sub_str fields 1) (sub_str fields 3)
                     (ETDProxy.filePos v) (ETDProxy.w_curUUID v))
          | None =>
              inl (Assertion
                     (L "requestFileWrite: the server sent a reply that we did not recognize: "
                        ++ line))
          end
      end
  end.

End ReplySteps.

Definition msg_changed_its_mind : str :=
  L "The server changed its mind about the success of the call in the middle of the reply".

(** What [ETDProxy::listPath] and [ETDProxy::dataChannelAddr] do with one
    line of the reply: [failed] makes the message of a reply that starts
    with [ERR], [decode] the entry of one that starts with [OK]. *)
Definition list_step {A : Type} (failed : str -> str) (decode : str -> exn + A)
  (line : str) (v : ETDProxy.list_vars A) : exn + ETDProxy.list_vars A :=
  match regex_match rxReply line with
  | None => inl (Assertion (L "Server replied with an invalid line"))
  | Some fields =>
      if match ETDProxy.l_state v with [] => true | _ => false end
         || (str_eqb (ETDProxy.l_state v) (L "OK")
             && str_eqb (sub_str fields 1) (ETDProxy.l_state v))
      then
        let state := sub_str fields 1 in
        let info0 := sub_str fields 3 in
        if str_eqb state (L "ERR")
        then inl (StdExn (failed info0))
        else if str_eqb state (L "OK") && match info0 with [] => true | _ => false end
        then inr (ETDProxy.mk_list_vars true state (ETDProxy.l_rv v))
        else
          match decode info0 with
          | inl e => inl e
          | inr x => inr (ETDProxy.mk_list_vars false state (ETDProxy.l_rv v ++ [x]))
          end
      else inl (Assertion msg_changed_its_mind)
  end.

Definition listPath_failed (path0 info0 : str) : str :=
  L "listPath(" ++ path0 ++ L ") failed - " ++ ETDProxy.or_unknown info0.
Definition dataChannelAddr_failed (info0 : str) : str :=
  L "dataChannelAddr() failed - " ++ ETDProxy.or_unknown info0.

Definition msg_unprocessed_read : str :=
  L "requestFileRead: there are unprocessed lines of input left, this means the server sent an erroneous reply.".
Definition msg_unprocessed_write : str :=
  L "requestFileWrite: there are unprocessed lines of input left, this means the server sent an erroneous reply.".
Definition msg_unprocessed_list : str :=
  L "There are unprocessed lines of reply from the server. This is probably a protocol error.".

(** ** Reply lines *)

(** What follows the status in a reply line: the text after white space. *)
Definition is_info (i : str) : Prop :=
  match i with
  | [] => False
  | a :: t => not_space a = true /\ forallb is_dot t = true
  end.

(** The part of [rxReply] after the status. *)
Definition rxReply_tail : regex :=
  Cat (Opt (Grp 2 (Cat (Plus (Cls is_space))
                       (Opt (Grp 3 (Cat (Cls not_space) (Star (Cls is_dot))))))))
      Eol.

(** The status of a reply: [OK] or [ERR] as the wrapper writes them. *)
Definition is_status (st : str) : Prop := st = L "OK" \/ st = L "ERR".

(** ** Commands and replies of the control protocol *)

(** A uuid that can be sent in a command or a reply: not empty and without
    white space. *)
Definition uuid_ok (u : str) : Prop := u <> [] /\ forallb not_space u = true.

(** A reply line: the status, and after a blank what comes with it. *)
Definition reply_line (st i : str) : str :=
  match i with
  | [] => st
  | _ => st ++ " "%char :: i
  end.

(** The replies of the wrapper. *)
Definition read_reply (r : Z) (u : uuid_type) : list str :=
  [L "Remain:" ++ show_Z r; L "UUID:" ++ u; L "OK"].
Definition write_reply (p : Z) (u : uuid_type) : list str :=
  [L "AlreadyHave:" ++ show_Z p; L "UUID:" ++ u; L "OK"].
Definition list_reply (entries : list str) : list str :=
  map (fun e => L "OK " ++ e) entries ++ [L "OK"].
Definition error_reply (m : str) : list str := [L "ERR " ++ m].

(** The commands of the proxy. *)
Definition cmd_list (path0 : str) : str := L "list " ++ path0 ++ [LF].
Definition cmd_write_file (om_s file : str) : str :=
  L "write-file-" ++ om_s ++ L " " ++ file ++ [LF].
Definition cmd_read_file (a : Z) (file : str) : str :=
  L "read-file " ++ show_Z a ++ L " " ++ file ++ [LF].
Definition cmd_data_channel_addr : str := L "data-channel-addr" ++ [LF].
Definition cmd_remove_uuid (u : uuid_type) : str := L "remove-uuid " ++ u ++ [LF].
Definition cmd_send_file (src dst : uuid_type) (todo : Z) (addrs : dataaddrlist_type) : str :=
  L "send-file " ++ src ++ L " " ++ dst ++ L " " ++ show_Z todo
    ++ L " " ++ ETDProxy.show_dataaddrs true addrs ++ [LF].

Section Exchange.
Context {P : Platform}.

(** [exchange conn cmd chunks w w']: from [w] the connection takes all of
    the command [cmd] in one write, and then hands over the pieces [chunks],
    which leads to [w']. *)
Definition exchange (conn : fd_t) (cmd : str) (chunks : list str) (w w' : World) : Prop :=
  exists w1, fd_write conn cmd w = (len cmd, w1) /\ delivered conn chunks w1 w'.

(** The loops of [ETDProxy::removeUUID] and [ETDProxy::sendFile], which wait
    for one line; [failed] starts the message of a reply other than [OK]. *)
Fixpoint one_line_loop (failed : str) (fuel : nat) (conn : fd_t) (buffer : str) : M bool :=
  if len buffer <? 2048 then
    match fuel with
    | O => fun s => (OutOfFuel, s)
    | S fuel' =>
        r <- sys (fd_read conn (2048 - len buffer)) ;;
        ETDCASSERT (nread r >? 0) (L "Failed to read data from remote end") ;;
        let buffer := buffer ++ bytes_of r in
        let lines := fst (getReplies buffer) in
        match lines with
        | [] => one_line_loop failed fuel' conn buffer
        | line :: others =>
            ETDCASSERT (match others with [] => true | _ => false end)
              (L "The client sent wrong number of responses - this is likely a protocol error") ;;
            match regex_match rxReply line with
            | None => throw (Assertion (L "The client sent a non-conforming response"))
            | Some fields =>
                ETDCASSERT (str_eqb (sub_str fields 1) (L "OK"))
                           (failed ++ sub_str fields 2) ;;
                ret true
            end
        end
    end
  else ret true.

End Exchange.

(** What the one line of a reply comes to in [ETDProxy::removeUUID] and
    [ETDProxy::sendFile]. *)
Definition one_line_outcome (failed line : str) : outcome bool :=
  match regex_match rxReply line with
  | None => Throw (Assertion (L "The client sent a non-conforming response"))
  | Some fields =>
      if str_eqb (sub_str fields 1) (L "OK") then Ret true
      else Throw (Assertion (failed ++ sub_str fields 2))
  end.

(** A reply of [OK] lines, each with a text that decodes to a value, and
    the closing [OK]. *)
Definition entry_ok {A : Type} (decode : str -> exn + A) (ax : str * A) : Prop :=
  is_info (fst ax) /\ decode (fst ax) = inr (snd ax).

(** ** Headers of the data protocol *)

(** A character of a value that a header holds as it is: no white space,
    comma, double quote, backslash or closing brace. *)
Definition is_value_char (a : ascii) : bool :=
  negb (is_space a) && negb (ascii_eqb a ","%char) && negb (ascii_eqb a DQUOTE)
  && negb (ascii_eqb a BACKSLASH) && negb (ascii_eqb a "}"%char).

(** A key: a letter and then one or more letters, digits, underscores or
    dashes. *)
Definition is_key (k : str) : Prop :=
  match k with
  | a :: (_ :: _) as t => is_alpha a = true /\ forallb is_key_char t = true
  | _ => False
  end.

Definition item_ok (kv : str * str) : Prop :=
  is_key (fst kv) /\ snd kv <> [] /\ forallb is_value_char (snd kv) = true.

(** The text of items  key:value , each after a blank, with commas
    between them. *)
Fixpoint items_text (items : list (str * str)) : str :=
  match items with
  | [] => []
  | (k, v) :: r =>
      " "%char :: k ++ ":"%char :: v
        ++ match r with [] => [] | _ => ","%char :: items_text r end
  end.

(** What an item leaves in the groups of [rxKeyValue]. *)
Definition caps_of_item (kv : str * str) : caps :=
  cap_set 2 (snd kv) (cap_set 1 (fst kv) []).

(** [file_x] open for a resumed write by [uuid_b], descriptor 0; the peer
    at [peer] delivers [chunks]. *)
Definition state_resuming : etd_state :=
  mk_etd_state [(uuid_b, mk_transferprops 0%nat file_x Resume false)] [].
Definition world_getting (chunks : list str) : Mem.world :=
  Mem.mk_world [(file_x, L "0123456789")] [Mem.HFile file_x 10 false]
               [(L "tcp", L "peer", 2620, (chunks, []))].
Definition get_5 :=
  @ETDServer.getFile Mem.platform 3 uuid_b uuid_a uuid_b 5 [peer]
    (state_resuming, world_getting [L "abc"; L "defg"]).

(** The data server pushes five bytes of [file_x], descriptor 1, to a
    connection, descriptor 0, that takes them all and acknowledges. *)
Definition world_pushing : Mem.world :=
  Mem.mk_world [(file_x, L "0123456789")]
               [Mem.HConn [L "y"] [] []; Mem.HFile file_x 0 false] [].
Definition push_5 :=
  @ETDDataServer.push_n Mem.platform 5 1%nat 0%nat (state_empty, world_pushing).

(* ====================================================================== *)
(** * Properties *)
(* ====================================================================== *)

(** ** Strings and the map *)

Lemma ascii_eqb_refl (a : ascii) : ascii_eqb a a = true.
Proof. apply Ascii.eqb_refl. Qed.

Lemma ascii_eqb_eq (a b : ascii) : ascii_eqb a b = true <-> a = b.
Proof. apply Ascii.eqb_eq. Qed.

Lemma str_eqb_refl (a : str) : str_eqb a a = true.
Proof. induction a as [|x a IH]; simpl; [reflexivity|]. now rewrite ascii_eqb_refl, IH. Qed.

Lemma str_eqb_eq (a b : str) : str_eqb a b = true <-> a = b.
Proof.
  split.
  - revert b. induction a as [|x a IH]; intros [|y b]; simpl; try discriminate; [reflexivity|].
    intros H. apply andb_true_iff in H as [H1 H2].
    apply ascii_eqb_eq in H1. apply IH in H2. now subst.
  - intros ->. apply str_eqb_refl.
Qed.

Lemma str_eqb_neq (a b : str) : a <> b -> str_eqb a b = false.
Proof.
  intros H. destruct (str_eqb a b) eqn:E; [|reflexivity].
  apply str_eqb_eq in E. contradiction.
Qed.

Lemma map_emplace_absent (u : uuid_type) (p : transferprops_type) (t : transfermap_type) :
  map_find u t = None -> snd (map_emplace u p t) = true.
Proof.
  induction t as [|[k v] r IH]; simpl; [reflexivity|].
  destruct (str_eqb k u); [discriminate|]. intros H.
  destruct (str_ltb u k); [reflexivity|].
  specialize (IH H). destruct (map_emplace u p r); assumption.
Qed.

Lemma map_emplace_present (u : uuid_type) (p : transferprops_type) (t : transfermap_type) :
  snd (map_emplace u p t) = false -> fst (map_emplace u p t) = t.
Proof.
  induction t as [|[k v] r IH]; simpl; [discriminate|].
  destruct (str_eqb k u); [reflexivity|].
  destruct (str_ltb u k); [discriminate|].
  destruct (map_emplace u p r) as [r' b]; simpl in *.
  intros ->. now rewrite IH.
Qed.

Lemma map_find_emplace (u : uuid_type) (p : transferprops_type) (t : transfermap_type) :
  map_find u t = None -> map_find u (fst (map_emplace u p t)) = Some p.
Proof.
  induction t as [|[k v] r IH]; simpl.
  - now rewrite str_eqb_refl.
  - destruct (str_eqb k u) eqn:E; [discriminate|]. intros H.
    destruct (str_ltb u k).
    + simpl. now rewrite str_eqb_refl.
    + specialize (IH H). destruct (map_emplace u p r) as [r' b]; simpl in *.
      now rewrite E.
Qed.

(** ** Registration: [requestFileWrite] and [requestFileRead] *)

Section Registration.
Context {P : Platform}.

(** What [requestFileRead] does, check by check. *)
Lemma requestFileRead_cases (u : uuid_type) (path0 : str) (a : Z) (s : sigma) :
  let t := transfers (fst s) in
  let nPath := normalize_path path0 in
  match map_find u t with
  | Some _ =>
      ETDServer.requestFileRead u path0 a s
      = (Throw (Assertion (L "requestFileRead: this server is already busy")), s)
  | None =>
      if match find_path nPath t with
         | None => true
         | Some vt => openmode_eqb (openMode (snd vt)) Read
         end
      then
        match etdc_file nPath (Z.lor (openmode_int Read) O_LARGEFILE) None (snd s) with
        | (inl e, w1) => ETDServer.requestFileRead u path0 a s = (Throw e, (fst s, w1))
        | (inr fd, w1) =>
            let (sz, w2) := fd_lseek fd 0 SEEK_END w1 in
            let (pos, w3) := fd_lseek fd a SEEK_SET w2 in
            if pos =? -1
            then exists e, ETDServer.requestFileRead u path0 a s = (Throw e, (fst s, w3))
            else
              ETDServer.requestFileRead u path0 a s
              = (Ret (u, sz - a),
                 (mk_etd_state
                    (fst (map_emplace u (mk_transferprops fd nPath Read false) t))
                    (dataaddrs (fst s)), w3))
        end
      else
        ETDServer.requestFileRead u path0 a s
        = (Throw (Assertion (L "requestFileRead(" ++ path0
                               ++ L ") - the path is already in use")), s)
  end.
Proof.
  intros t nPath. destruct s as [st w]. subst t nPath. cbn [fst snd].
  unfold ETDServer.requestFileRead, bind, get_transfers, ETDCASSERT, ret, throw.
  cbn [fst snd].
  destruct (map_find u (transfers st)) eqn:Hu; [reflexivity|].
  destruct (match find_path (normalize_path path0) (transfers st) with
            | Some vt => openmode_eqb (openMode (snd vt)) Read
            | None => true end) eqn:Hp; [|reflexivity].
  unfold sys_exn, sys. cbn [fst snd].
  destruct (etdc_file _ _ None w) as [[e|fd] w1] eqn:Ho; [reflexivity|].
  cbn [fst snd].
  destruct (fd_lseek fd 0 SEEK_END w1) as [sz w2] eqn:H1.
  cbn [fst snd].
  destruct (fd_lseek fd a SEEK_SET w2) as [pos w3] eqn:H2.
  cbn [fst snd].
  destruct (pos =? -1) eqn:Hs; cbn [negb].
  - eexists. reflexivity.
  - pose proof (map_emplace_absent u (mk_transferprops fd (normalize_path path0) Read false) _ Hu) as Hi.
    destruct (map_emplace u _ (transfers st)) as [t' ins]. simpl in Hi. subst ins.
    unfold put_transfers. simpl. reflexivity.
Qed.

(** What [requestFileWrite] does, check by check. *)
Lemma requestFileWrite_cases (u : uuid_type) (path0 : str) (mode : openmode_type) (s : sigma) :
  let t := transfers (fst s) in
  let nPath := normalize_path path0 in
  match map_find u t with
  | Some _ =>
      ETDServer.requestFileWrite u path0 mode s
      = (Throw (Assertion (L "requestFileWrite: this server is already busy")), s)
  | None =>
      if ETDServer.allowedModes mode then
        match find_path nPath t with
        | Some _ =>
            ETDServer.requestFileWrite u path0 mode s
            = (Throw (Assertion (msg_path_in_use_write path0)), s)
        | None =>
            match etdc_file nPath (ETDServer.open_flags mode) (Some 420) (snd s) with
            | (inl e, w1) => ETDServer.requestFileWrite u path0 mode s = (Throw e, (fst s, w1))
            | (inr fd, w1) =>
                let (fsize, w2) := fd_lseek fd 0 SEEK_END w1 in
                ETDServer.requestFileWrite u path0 mode s
                = (Ret (u, fsize),
                   (mk_etd_state
                      (fst (map_emplace u (mk_transferprops fd nPath mode false) t))
                      (dataaddrs (fst s)), w2))
            end
        end
      else
        ETDServer.requestFileWrite u path0 mode s
        = (Throw (Assertion (L "invalid open mode for requestFileWrite(" ++ path0 ++ L ")")), s)
  end.
Proof.
  intros t nPath. destruct s as [st w]. subst t nPath. cbn [fst snd].
  unfold ETDServer.requestFileWrite, bind, get_transfers, ETDCASSERT, ret, throw.
  cbn [fst snd].
  destruct (map_find u (transfers st)) eqn:Hu; [reflexivity|].
  destruct (ETDServer.allowedModes mode) eqn:Hm; [|reflexivity].
  destruct (find_path (normalize_path path0) (transfers st)) eqn:Hp; [reflexivity|].
  cbn [negb].
  unfold sys_exn, sys. cbn [fst snd].
  destruct (etdc_file _ _ (Some 420) w) as [[e|fd] w1] eqn:Ho; [reflexivity|].
  cbn [fst snd].
  destruct (fd_lseek fd 0 SEEK_END w1) as [sz w2] eqn:H1.
  cbn [fst snd].
  pose proof (map_emplace_absent u (mk_transferprops fd (normalize_path path0) mode false) _ Hu) as Hi.
  destruct (map_emplace u _ (transfers st)) as [t' ins]. simpl in Hi. subst ins.
  unfold put_transfers. simpl. reflexivity.
Qed.

End Registration.

(** ** Registration: what the calls guarantee *)

Section RegistrationClaims.
Context {P : Platform}.

(** C4.  A [requestFileRead] that succeeds has opened the file for reading,
    has asked for its size by a seek to the end, has then sought to
    [alreadyhave] with success, which is the last thing done to the
    descriptor, has registered the descriptor under the server's uuid, and
    returns that uuid with the size less [alreadyhave].  When the seek to
    [alreadyhave] fails, the call throws. *)
Theorem requestFileRead_positions_and_reports
  (u : uuid_type) (path0 : str) (a : Z) (s : sigma) :
  (forall r s', ETDServer.requestFileRead u path0 a s = (Ret r, s') ->
     exists fd w1 sz w2 pos,
       etdc_file (normalize_path path0) (Z.lor (openmode_int Read) O_LARGEFILE) None (snd s)
         = (inr fd, w1)
       /\ fd_lseek fd 0 SEEK_END w1 = (sz, w2)
       /\ fd_lseek fd a SEEK_SET w2 = (pos, snd s') /\ pos <> -1
       /\ r = (u, sz - a)
       /\ map_find u (transfers (fst s'))
          = Some (mk_transferprops fd (normalize_path path0) Read false))
  /\
  (forall fd w1 sz w2 w3,
     etdc_file (normalize_path path0) (Z.lor (openmode_int Read) O_LARGEFILE) None (snd s)
       = (inr fd, w1) ->
     fd_lseek fd 0 SEEK_END w1 = (sz, w2) ->
     fd_lseek fd a SEEK_SET w2 = (-1, w3) ->
     exists e s', ETDServer.requestFileRead u path0 a s = (Throw e, s')).
Proof.
  pose proof (requestFileRead_cases u path0 a s) as H. cbv zeta in H.
  split.
  - intros r s' E.
    destruct (map_find u (transfers (fst s))) eqn:Hu; [rewrite H in E; discriminate|].
    destruct (match find_path _ _ with Some _ => _ | None => _ end);
      [|rewrite H in E; discriminate].
    destruct (etdc_file _ _ None (snd s)) as [[e|fd] w1] eqn:Ho;
      [rewrite H in E; discriminate|].
    destruct (fd_lseek fd 0 SEEK_END w1) as [sz w2] eqn:H1.
    destruct (fd_lseek fd a SEEK_SET w2) as [pos w3] eqn:H2.
    destruct (pos =? -1) eqn:Hs.
    + destruct H as [e H]. rewrite H in E. discriminate.
    + rewrite H in E. injection E as <- <-. cbn [fst snd].
      exists fd, w1, sz, w2, pos.
      split; [reflexivity|]. split; [exact H1|]. split; [exact H2|].
      split; [apply Z.eqb_neq; exact Hs|]. split; [reflexivity|].
      apply map_find_emplace. exact Hu.
  - intros fd w1 sz w2 w3 Ho H1 H2.
    destruct (map_find u (transfers (fst s))); [eauto|].
    destruct (match find_path _ _ with Some _ => _ | None => _ end); [|eauto].
    rewrite Ho, H1, H2 in H. cbn in H. destruct H as [e H]. eauto.
Qed.

(** C5, as far as it holds.  A server that has no record of its own asks to
    write, in a mode that is allowed, a path that some record of the map has,
    whatever the mode of that record: the call throws "the path is already in
    use", and the state is as it was. *)
Theorem requestFileWrite_path_in_use
  (u : uuid_type) (path0 : str) (mode : openmode_type) (s : sigma)
  (vt : uuid_type * transferprops_type) :
  absent u s ->
  ETDServer.allowedModes mode = true ->
  find_path (normalize_path path0) (transfers (fst s)) = Some vt ->
  ETDServer.requestFileWrite u path0 mode s
  = (Throw (Assertion (msg_path_in_use_write path0)), s).
Proof.
  intros Hu Hm Hp. pose proof (requestFileWrite_cases u path0 mode s) as H.
  cbv zeta in H. unfold absent in Hu. rewrite Hu, Hm, Hp in H. exact H.
Qed.

(** C8.  Whenever [requestFileWrite] or [requestFileRead] does not return a
    result, the shared state, the map of transfers in it, is what it was
    before the call. *)
Theorem registration_failure_keeps_map
  (u : uuid_type) (path0 : str) (mode : openmode_type) (a : Z) (s : sigma) :
  (forall o s', ETDServer.requestFileWrite u path0 mode s = (o, s') ->
     (forall r, o <> Ret r) -> fst s' = fst s)
  /\
  (forall o s', ETDServer.requestFileRead u path0 a s = (o, s') ->
     (forall r, o <> Ret r) -> fst s' = fst s).
Proof.
  split; intros o s' E Hn.
  - pose proof (requestFileWrite_cases u path0 mode s) as H. cbv zeta in H.
    destruct (map_find u (transfers (fst s)));
      [rewrite H in E; injection E as <- <-; reflexivity|].
    destruct (ETDServer.allowedModes mode);
      [|rewrite H in E; injection E as <- <-; reflexivity].
    destruct (find_path _ _);
      [rewrite H in E; injection E as <- <-; reflexivity|].
    destruct (etdc_file _ _ _ (snd s)) as [[e|fd] w1];
      [rewrite H in E; injection E as <- <-; reflexivity|].
    destruct (fd_lseek fd 0 SEEK_END w1) as [sz w2].
    rewrite H in E. injection E as <- <-. exfalso. eapply Hn. reflexivity.
  - pose proof (requestFileRead_cases u path0 a s) as H. cbv zeta in H.
    destruct (map_find u (transfers (fst s)));
      [rewrite H in E; injection E as <- <-; reflexivity|].
    destruct (match find_path _ _ with Some _ => _ | None => _ end);
      [|rewrite H in E; injection E as <- <-; reflexivity].
    destruct (etdc_file _ _ _ (snd s)) as [[e|fd] w1];
      [rewrite H in E; injection E as <- <-; reflexivity|].
    destruct (fd_lseek fd 0 SEEK_END w1) as [sz w2].
    destruct (fd_lseek fd a SEEK_SET w2) as [pos w3].
    destruct (pos =? -1).
    + destruct H as [e H]. rewrite H in E. injection E as <- <-. reflexivity.
    + rewrite H in E. injection E as <- <-. exfalso. eapply Hn. reflexivity.
Qed.

(** C9.  With the uuid that is the server's own and a byte count that is
    not positive, [sendFile] and [getFile] return [true] and leave the shared
    state and the platform as they were, whatever the map holds. *)
Theorem nothing_to_transfer
  (u other : uuid_type) (todo : Z) (addrs : dataaddrlist_type) (fuel : nat) (s : sigma) :
  todo <= 0 ->
  ETDServer.sendFile u u other todo addrs s = (Ret true, s)
  /\ ETDServer.getFile fuel u other u todo addrs s = (Ret true, s).
Proof.
  intros H.
  assert (Ht : (todo >? 0) = false).
  { rewrite Z.gtb_ltb. apply Z.ltb_ge. exact H. }
  unfold ETDServer.sendFile, ETDServer.getFile, bind, ETDCASSERT, ret.
  rewrite str_eqb_refl, Ht. split; reflexivity.
Qed.

End RegistrationClaims.

(** ** Registration at the sample states *)

Lemma requestFileRead_positions_and_reports_witness :
  (run_read_4 = (Ret (uuid_a, 6), snd run_read_4)
   /\ Mem.get_handle 0%nat (snd (snd run_read_4)) = Mem.HFile file_x 4 false
   /\ exists fd w1 sz w2 pos,
        Mem.etdc_file file_x 0 None world_x = (inr fd, w1)
        /\ Mem.fd_lseek fd 0 SEEK_END w1 = (sz, w2)
        /\ Mem.fd_lseek fd 4 SEEK_SET w2 = (pos, snd (snd run_read_4)) /\ pos <> -1
        /\ (uuid_a, 6) = (uuid_a, sz - 4)
        /\ map_find uuid_a (transfers (fst (snd run_read_4)))
           = Some (mk_transferprops fd file_x Read false))
  /\
  (Mem.fd_lseek 0%nat (-1) SEEK_SET
     (snd (Mem.fd_lseek 0%nat 0 SEEK_END (snd (Mem.etdc_file file_x 0 None world_x))))
   = (-1, snd (Mem.fd_lseek 0%nat 0 SEEK_END (snd (Mem.etdc_file file_x 0 None world_x))))
   /\ exists e s',
        @ETDServer.requestFileRead Mem.platform uuid_a file_x (-1) (state_empty, world_x)
        = (Throw e, s')).
Proof.
  destruct (@requestFileRead_positions_and_reports Mem.platform
              uuid_a file_x 4 (state_empty, world_x)) as [Hok _].
  destruct (@requestFileRead_positions_and_reports Mem.platform
              uuid_a file_x (-1) (state_empty, world_x)) as [_ Hko].
  assert (E : run_read_4 = (Ret (uuid_a, 6), snd run_read_4)) by (vm_compute; reflexivity).
  split.
  - split; [exact E|]. split; [vm_compute; reflexivity|].
    exact (Hok _ _ E).
  - split; [vm_compute; reflexivity|].
    eapply Hko; vm_compute; reflexivity.
Defined.

Lemma requestFileWrite_path_in_use_witness :
  @absent Mem.platform uuid_a (state_reading, world_reading)
  /\ ETDServer.allowedModes New = true
  /\ find_path file_x (transfers state_reading)
     = Some (uuid_b, mk_transferprops 0%nat file_x Read false)
  /\ @ETDServer.requestFileWrite Mem.platform uuid_a file_x New (state_reading, world_reading)
     = (Throw (Assertion (msg_path_in_use_write file_x)), (state_reading, world_reading)).
Proof.
  assert (H1 : @absent Mem.platform uuid_a (state_reading, world_reading)) by reflexivity.
  assert (H2 : ETDServer.allowedModes New = true) by reflexivity.
  assert (H3 : find_path file_x (transfers state_reading)
               = Some (uuid_b, mk_transferprops 0%nat file_x Read false)) by reflexivity.
  split; [exact H1|]. split; [exact H2|]. split; [exact H3|].
  exact (@requestFileWrite_path_in_use Mem.platform uuid_a file_x New
           (state_reading, world_reading) _ H1 H2 H3).
Defined.

(** C5 as stated fails where an earlier check of [requestFileWrite] fires:
    the path is the one of a record, yet a server that has a record of its
    own is told that it is busy, and a request in mode [Read] that its mode
    is invalid.  Neither is the error about the path; the state is as it
    was in both. *)
Lemma requestFileWrite_conflict_hidden_by_earlier_checks :
  find_path (@normalize_path Mem.platform file_x) (transfers state_reading)
  = Some (uuid_b, mk_transferprops 0%nat file_x Read false)
  /\ @ETDServer.requestFileWrite Mem.platform uuid_b file_x New (state_reading, world_reading)
     = (Throw (Assertion (L "requestFileWrite: this server is already busy")),
        (state_reading, world_reading))
  /\ @ETDServer.requestFileWrite Mem.platform uuid_a file_x Read (state_reading, world_reading)
     = (Throw (Assertion (L "invalid open mode for requestFileWrite(/tmp/x)")),
        (state_reading, world_reading)).
Proof. repeat split; vm_compute; reflexivity. Qed.

Lemma registration_failure_keeps_map_witness :
  (@ETDServer.requestFileWrite Mem.platform uuid_a file_x New (state_reading, world_reading)
   = (Throw (Assertion (msg_path_in_use_write file_x)), (state_reading, world_reading))
   /\ fst (state_reading, world_reading) = state_reading)
  /\
  (fst (@ETDServer.requestFileRead Mem.platform uuid_a file_x (-1) (state_empty, world_x))
   = Throw (Assertion (L "Cannot seek to position -1 in file /tmp/x - error"))
   /\ fst (snd (@ETDServer.requestFileRead Mem.platform uuid_a file_x (-1)
                  (state_empty, world_x))) = state_empty).
Proof.
  destruct (@registration_failure_keeps_map Mem.platform uuid_a file_x New 0
              (state_reading, world_reading)) as [Hw _].
  destruct (@registration_failure_keeps_map Mem.platform uuid_a file_x New (-1)
              (state_empty, world_x)) as [_ Hr].
  split.
  - split; [vm_compute; reflexivity|].
    refine (Hw _ (state_reading, world_reading) _ _).
    + vm_compute; reflexivity.
    + intros r; discriminate.
  - split; [vm_compute; reflexivity|].
    refine (Hr (Throw (Assertion (L "Cannot seek to position -1 in file /tmp/x - error")))
               _ _ _).
    + vm_compute; reflexivity.
    + intros r; discriminate.
Defined.

Lemma nothing_to_transfer_witness :
  0 <= 0
  /\ @ETDServer.sendFile Mem.platform uuid_a uuid_a uuid_b 0 [] (state_empty, world_x)
     = (Ret true, (state_empty, world_x))
  /\ @ETDServer.getFile Mem.platform 0%nat uuid_a uuid_b uuid_a 0 [] (state_empty, world_x)
     = (Ret true, (state_empty, world_x)).
Proof.
  split; [lia|].
  apply (@nothing_to_transfer Mem.platform uuid_a uuid_b 0 [] 0%nat (state_empty, world_x)).
  lia.
Defined.

(* ====================================================================== *)
(** ** The matcher *)
(* ====================================================================== *)

Section Matcher.
Variable subj : str.

Lemma in_ms_cat (r1 r2 : regex) (s : str) (c : caps) (x : str * caps) :
  In x (ms subj (Cat r1 r2) s c)
  <-> exists y, In y (ms subj r1 s c) /\ In x (ms subj r2 (fst y) (snd y)).
Proof. simpl. apply in_flat_map. Qed.

Lemma in_ms_alt (r1 r2 : regex) (s : str) (c : caps) (x : str * caps) :
  In x (ms subj (Alt r1 r2) s c) <-> In x (ms subj r1 s c) \/ In x (ms subj r2 s c).
Proof. simpl. apply in_app_iff. Qed.

Lemma in_ms_cls (p : ascii -> bool) (s : str) (c : caps) (x : str * caps) :
  In x (ms subj (Cls p) s c) <-> exists a, s = a :: fst x /\ p a = true /\ snd x = c.
Proof.
  simpl. destruct s as [|a t].
  - split; [intros []|]. intros (a & H & _). discriminate.
  - destruct (p a) eqn:E; simpl.
    + split.
      * intros [<-|[]]. exists a. auto.
      * intros (b & H & _ & Hc). injection H as <- ->. left. destruct x; simpl in *. now subst.
    + split; [intros []|]. intros (b & H & Hb & _). injection H as <- _. congruence.
Qed.

Lemma in_ms_grp (n : nat) (r : regex) (s : str) (c : caps) (x : str * caps) :
  In x (ms subj (Grp n r) s c)
  <-> exists y, In y (ms subj r s c)
                /\ x = (fst y, cap_set n (consumed s (fst y)) (snd y)).
Proof.
  simpl. rewrite in_map_iff. split; intros (y & H1 & H2); exists y; auto.
Qed.

Lemma in_ms_eol (s : str) (c : caps) (x : str * caps) :
  In x (ms subj Eol s c) <-> s = [] /\ x = ([], c).
Proof.
  simpl. destruct s.
  - split; [intros [<-|[]]; auto|]. intros [_ ->]. now left.
  - split; [intros []|]. intros [H _]. discriminate.
Qed.

Lemma in_ms_bol (s : str) (c : caps) (x : str * caps) :
  In x (ms subj Bol s c) <-> List.length s = List.length subj /\ x = (s, c).
Proof.
  simpl. destruct (Nat.eqb_spec (List.length s) (List.length subj)) as [E|E].
  - split; [intros [<-|[]]; auto|]. intros [_ ->]. now left.
  - split; [intros []|]. intros [H _]. contradiction.
Qed.

Lemma in_ms_eps (s : str) (c : caps) (x : str * caps) :
  In x (ms subj Eps s c) <-> x = (s, c).
Proof. simpl. split; [intros [<-|[]]; auto|]. intros ->. now left. Qed.

(** *** Repetition *)

Lemma rep_stop (f : str -> caps -> list (str * caps)) (fuel : nat) (hi : option nat)
  (s : str) (c : caps) :
  In (s, c) (rep f fuel 0 hi s c).
Proof. destruct fuel; simpl; [now left|]. apply in_or_app. right. now left. Qed.

Lemma rep_more (f : str -> caps -> list (str * caps)) (fuel lo : nat) (hi : option nat)
  (s : str) (c : caps) (y x : str * caps) :
  hi <> Some 0%nat ->
  In y (f s c) ->
  (lo = 0%nat -> List.length (fst y) <> List.length s) ->
  In x (rep f fuel (Nat.pred lo) (option_map Nat.pred hi) (fst y) (snd y)) ->
  In x (rep f (S fuel) lo hi s c).
Proof.
  intros Hh Hy Hl Hx. simpl. apply in_or_app. left.
  assert (G : In x (flat_map
            (fun sc : str * caps =>
               if ((lo =? 0) && (List.length (fst sc) =? List.length s))%nat then []
               else rep f fuel (Nat.pred lo) (option_map Nat.pred hi) (fst sc) (snd sc))
            (f s c))).
  { apply in_flat_map. exists y. split; [exact Hy|].
    destruct (Nat.eqb_spec lo 0) as [E|E]; simpl; [|exact Hx].
    destruct (Nat.eqb_spec (List.length (fst y)) (List.length s)) as [E'|E']; [|exact Hx].
    exfalso. now apply Hl. }
  destruct hi as [[|h]|]; [congruence|exact G|exact G].
Qed.

Lemma rep_inv (f : str -> caps -> list (str * caps)) (fuel lo : nat) (hi : option nat)
  (s : str) (c : caps) (x : str * caps) :
  In x (rep f fuel lo hi s c) ->
  (lo = 0%nat /\ x = (s, c))
  \/ exists fuel' y,
       fuel = S fuel' /\ hi <> Some 0%nat /\ In y (f s c)
       /\ (lo = 0%nat -> List.length (fst y) <> List.length s)
       /\ In x (rep f fuel' (Nat.pred lo) (option_map Nat.pred hi) (fst y) (snd y)).
Proof.
  assert (Hstop : In x (match lo with O => [(s, c)] | S _ => [] end)
                  -> lo = 0%nat /\ x = (s, c)).
  { destruct lo; [intros [<-|[]]; auto|intros []]. }
  destruct fuel as [|fuel]; simpl; [auto|].
  intros H. apply in_app_or in H as [H|H]; [|auto].
  right. exists fuel.
  assert (G : In x (flat_map
            (fun sc : str * caps =>
               if ((lo =? 0) && (List.length (fst sc) =? List.length s))%nat then []
               else rep f fuel (Nat.pred lo) (option_map Nat.pred hi) (fst sc) (snd sc))
            (f s c)) -> hi <> Some 0%nat ->
          exists y, S fuel = S fuel /\ hi <> Some 0%nat /\ In y (f s c)
            /\ (lo = 0%nat -> List.length (fst y) <> List.length s)
            /\ In x (rep f fuel (Nat.pred lo) (option_map Nat.pred hi) (fst y) (snd y))).
  { intros G Hh. apply in_flat_map in G as (y & Hy & Hx). exists y.
    split; [reflexivity|]. split; [exact Hh|]. split; [exact Hy|].
    destruct (Nat.eqb_spec lo 0) as [E|E]; simpl in Hx.
    - destruct (Nat.eqb_spec (List.length (fst y)) (List.length s)) as [E'|E'];
        [destruct Hx|]. split; [intros _; exact E'|exact Hx].
    - split; [intros E'; contradiction|exact Hx]. }
  destruct hi as [[|h]|]; [destruct H|apply G; [exact H|discriminate]
                          |apply G; [exact H|discriminate]].
Qed.


(** *** What a match leaves is a suffix, and what it takes is in the classes *)

Lemma rep_taken (Pr : ascii -> bool) (f : str -> caps -> list (str * caps)) :
  (forall s c y, In y (f s c) -> exists w, s = w ++ fst y /\ forallb Pr w = true) ->
  forall (fuel lo : nat) (hi : option nat) (s : str) (c : caps) (x : str * caps),
    In x (rep f fuel lo hi s c) -> exists w, s = w ++ fst x /\ forallb Pr w = true.
Proof.
  intros Hf. induction fuel as [|fuel IH]; intros lo hi s c x H;
    apply rep_inv in H as [[_ ->]|(k & y & E & _ & Hy & _ & Hx)];
    try (exists []; split; reflexivity); try discriminate.
  injection E as <-.
  apply Hf in Hy as (w1 & -> & H1). apply IH in Hx as (w2 & E2 & H2).
  exists (w1 ++ w2). rewrite <- app_assoc, <- E2. split; [reflexivity|].
  rewrite forallb_app, H1, H2. reflexivity.
Qed.

Lemma ms_taken (Pr : ascii -> bool) (r : regex) :
  classes_in Pr r ->
  forall (s : str) (c : caps) (x : str * caps),
    In x (ms subj r s c) -> exists w, s = w ++ fst x /\ forallb Pr w = true.
Proof.
  induction r as [|p|r1 IH1 r2 IH2|r1 IH1 r2 IH2|lo hi r1 IH1|n r1 IH1| | | |r1 IH1];
    intros Hc s c x H.
  - apply in_ms_eps in H as ->. exists []. auto.
  - apply in_ms_cls in H as (a & -> & Ha & _). exists [a]. simpl.
    rewrite (Hc a Ha). auto.
  - destruct Hc as [Hc1 Hc2].
    apply in_ms_cat in H as (y & Hy & Hx).
    apply (IH1 Hc1) in Hy as (w1 & -> & H1). apply (IH2 Hc2) in Hx as (w2 & E2 & H2).
    exists (w1 ++ w2). rewrite <- app_assoc, <- E2. split; [reflexivity|].
    rewrite forallb_app, H1, H2. reflexivity.
  - destruct Hc as [Hc1 Hc2]. apply in_ms_alt in H as [H|H]; eauto.
  - simpl in H. eapply rep_taken; [|exact H]. intros s1 c1 y Hy. eapply IH1; eauto.
  - apply in_ms_grp in H as (y & Hy & ->). simpl. eauto.
  - apply in_ms_bol in H as [_ ->]. exists []. auto.
  - apply in_ms_eol in H as [-> ->]. exists []. auto.
  - simpl in H. destruct (at_word_boundary subj s); [|destruct H].
    destruct H as [<-|[]]. exists []. auto.
  - simpl in H. destruct (ms subj r1 s c); [|destruct H].
    destruct H as [<-|[]]. exists []. auto.
Qed.

Lemma classes_any (r : regex) : classes_in (fun _ => true) r.
Proof. induction r; simpl; auto. Qed.

Lemma ms_suffix (r : regex) (s : str) (c : caps) (x : str * caps) :
  In x (ms subj r s c) -> exists w, s = w ++ fst x.
Proof.
  intros H. apply (ms_taken (fun _ => true) r (classes_any r)) in H as (w & E & _). eauto.
Qed.

Lemma consumed_app (w s' : str) : consumed (w ++ s') s' = w.
Proof.
  unfold consumed. rewrite length_app.
  replace (List.length w + List.length s' - List.length s')%nat with (List.length w) by lia.
  rewrite firstn_app, Nat.sub_diag, firstn_all. simpl. apply app_nil_r.
Qed.

(** *** Groups that an expression does not have keep their text *)


Lemma cap_clear_nil (c : caps) : cap_clear [] c = c.
Proof. induction c as [|kv c IH]; simpl; [reflexivity|]. now rewrite IH. Qed.



End Matcher.

Section MatcherClasses.
Variable subj : str.

(** A repeated class takes a run of characters of the class, as long as the
    bounds allow. *)
Lemma in_rep_cls (p : ascii -> bool) (x : str * caps) :
  forall (fuel lo : nat) (hi : option nat) (s : str) (c : caps),
    In x (rep (fun s1 c1 => ms subj (Cls p) s1 (cap_clear [] c1)) fuel lo hi s c)
    <-> exists w, s = w ++ fst x /\ forallb p w = true
                  /\ (lo <= List.length w <= fuel)%nat /\ within hi (List.length w)
                  /\ snd x = c.
Proof.
  destruct x as [s' c']. cbn [fst snd].
  induction fuel as [|fuel IH]; intros lo hi s c.
  - split.
    + intros H. apply rep_inv in H as [[-> E]|(k & y & E & _)]; [|discriminate].
      injection E as <- <-. exists [].
      split; [reflexivity|]. split; [reflexivity|]. split; [simpl; lia|].
      split; [destruct hi; simpl; lia|reflexivity].
    + intros (w & -> & _ & [Hl Hf] & _ & ->).
      destruct w; [|simpl in Hf; lia].
      assert (lo = 0%nat) by (simpl in Hl; lia). subst lo. apply rep_stop.
  - split.
    + intros H. apply rep_inv in H as [[-> E]|(k & y & E & Hh & Hy & _ & Hx)].
      * injection E as <- <-. exists [].
        split; [reflexivity|]. split; [reflexivity|]. split; [simpl; lia|].
        split; [destruct hi; simpl; lia|reflexivity].
      * injection E as <-. apply in_ms_cls in Hy as (a & -> & Ha & Hc).
        rewrite cap_clear_nil in Hc.
        apply IH in Hx as (w & E & Hw & [Hl Hf] & Hi & Hc').
        exists (a :: w).
        split; [simpl; now rewrite <- E|]. split; [simpl; now rewrite Ha, Hw|].
        split; [simpl; lia|]. split; [|congruence].
        destruct hi as [[|h]|]; simpl in *; [congruence|lia|exact I].
    + intros (w & -> & Hw & [Hl Hf] & Hi & ->). destruct w as [|a w].
      * assert (lo = 0%nat) by (simpl in Hl; lia). subst lo. apply rep_stop.
      * simpl in Hw. apply andb_true_iff in Hw as [Ha Hw].
        simpl in Hl, Hf.
        apply rep_more with (y := (w ++ s', c)).
        -- destruct hi as [[|h]|]; simpl in Hi; [lia|discriminate|discriminate].
        -- apply in_ms_cls. exists a. cbn [fst snd]. rewrite cap_clear_nil. auto.
        -- intros _. cbn [fst]. simpl. lia.
        -- cbn [fst snd]. apply IH. exists w.
           split; [reflexivity|]. split; [exact Hw|]. split; [lia|].
           split; [|reflexivity].
           destruct hi as [[|h]|]; simpl in *; [lia|lia|exact I].
Qed.

Lemma in_ms_rep_cls (p : ascii -> bool) (lo : nat) (hi : option nat)
  (s : str) (c : caps) (x : str * caps) :
  In x (ms subj (Rep lo hi (Cls p)) s c)
  <-> exists w, s = w ++ fst x /\ forallb p w = true
                /\ (lo <= List.length w)%nat /\ within hi (List.length w) /\ snd x = c.
Proof.
  change (ms subj (Rep lo hi (Cls p)) s c)
    with (rep (fun s1 c1 => ms subj (Cls p) s1 (cap_clear [] c1))
              (lo + List.length s) lo hi s c).
  rewrite in_rep_cls. split.
  - intros (w & E & Hw & [Hl _] & Hi & Hc). exists w. auto.
  - intros (w & E & Hw & Hl & Hi & Hc). exists w. repeat split; auto.
    rewrite E, length_app. lia.
Qed.



(** A literal under [icase] takes a text that is the literal up to case. *)
Lemma in_ms_LitI (lit : str) :
  forall (s : str) (c : caps) (x : str * caps),
    In x (ms subj (LitI lit) s c)
    <-> exists w, s = w ++ fst x /\ map to_lower w = map to_lower lit /\ snd x = c.
Proof.
  assert (One : forall a s c x,
             In x (ms subj (ChrI a) s c)
             <-> exists w, s = w ++ fst x /\ map to_lower w = [to_lower a] /\ snd x = c).
  { intros a s c x. unfold ChrI. rewrite in_ms_cls. split.
    - intros (b & -> & Hb & Hc). apply ascii_eqb_eq in Hb. exists [b]. simpl.
      rewrite Hb. auto.
    - intros (w & -> & Hw & Hc). destruct w as [|b [|b' w]]; try discriminate.
      injection Hw as Hw. exists b. simpl. rewrite Hw, ascii_eqb_refl. auto. }
  induction lit as [|a lit IH]; intros s c x.
  - simpl LitI. rewrite in_ms_eps. split.
    + intros ->. exists []. auto.
    + intros (w & -> & Hw & Hc). destruct w; [|discriminate].
      destruct x; simpl in *. now subst.
  - destruct lit as [|b lit]; [apply One|].
    change (LitI (a :: b :: lit)) with (Cat (ChrI a) (LitI (b :: lit))).
    rewrite in_ms_cat. split.
    + intros (y & Hy & Hx). apply One in Hy as (w1 & -> & H1 & Hc1).
      apply IH in Hx as (w2 & E2 & H2 & Hc2).
      exists (w1 ++ w2). rewrite <- app_assoc, <- E2, map_app, H1, H2.
      repeat split; auto. congruence.
    + intros (w & -> & Hw & Hc). destruct w as [|a' w]; [discriminate|].
      simpl in Hw. injection Hw as Ha Hw.
      exists (w ++ fst x, c). split.
      * apply One. exists [a']. simpl. rewrite Ha. auto.
      * apply IH. exists w. simpl. auto.
Qed.

End MatcherClasses.

(** *** [regex_match] *)

Lemma find_first_full (l : list (str * caps)) :
  (exists c, In ([], c) l) ->
  exists c,
    find (fun sc : str * caps => match fst sc with [] => true | _ => false end) l
    = Some ([], c) /\ In ([], c) l.
Proof.
  intros (c & H).
  destruct (find _ l) as [[s' c']|] eqn:E.
  - apply find_some in E as [Hin Hs]. simpl in Hs. destruct s'; [|discriminate]. eauto.
  - exfalso. apply (find_none _ _ E) in H. discriminate.
Qed.

(** When some match uses up the text and all such matches agree on [Q],
    [regex_match] succeeds with captures in [Q]. *)
Lemma regex_match_some (r : regex) (s : str) (Q : caps -> Prop) :
  (exists c, In ([], c) (ms s r s [])) ->
  (forall c, In ([], c) (ms s r s []) -> Q c) ->
  exists c, regex_match r s = Some c /\ Q c.
Proof.
  intros Hex Hall. apply find_first_full in Hex as (c & E & Hin).
  exists c. unfold regex_match. rewrite E. auto.
Qed.

Lemma regex_match_none (r : regex) (s : str) :
  (forall c, ~ In ([], c) (ms s r s [])) -> regex_match r s = None.
Proof.
  intros H. unfold regex_match.
  destruct (find _ _) as [[s' c']|] eqn:E; [|reflexivity].
  apply find_some in E as [Hin Hs]. simpl in Hs. destruct s'; [|discriminate].
  exfalso. eapply H. exact Hin.
Qed.

Lemma sub_str_set (n : nat) (v : str) (c : caps) : sub_str (cap_set n v c) n = v.
Proof. unfold sub_str, cap_set. simpl. now rewrite Nat.eqb_refl. Qed.

Lemma sub_str_get (n : nat) (c c' : caps) :
  cap_get n c' = cap_get n c -> sub_str c' n = sub_str c n.
Proof. unfold sub_str. now intros ->. Qed.

(* ====================================================================== *)
(** ** Decimal numbers *)
(* ====================================================================== *)

Arguments digit_char : simpl never.
Arguments digit_val : simpl never.
Arguments is_digit : simpl never.
Arguments is_space : simpl never.
Arguments show_nat : simpl never.

Lemma digit_char_spec (d : Z) :
  0 <= d < 10 -> is_digit (digit_char d) = true /\ digit_val (digit_char d) = d.
Proof.
  intros H.
  assert (E : d = 0 \/ d = 1 \/ d = 2 \/ d = 3 \/ d = 4 \/ d = 5 \/ d = 6 \/ d = 7
              \/ d = 8 \/ d = 9) by lia.
  repeat (destruct E as [->|E]; [split; reflexivity|]). subst. split; reflexivity.
Qed.

Lemma digits_val_snoc (ds : str) (d : ascii) :
  digits_val (ds ++ [d]) = 10 * digits_val ds + digit_val d.
Proof. unfold digits_val. rewrite fold_left_app. reflexivity. Qed.

Lemma show_digits_spec :
  forall (fuel : nat) (n : Z) (acc : str),
    0 <= n < 10 ^ Z.of_nat (S fuel) ->
    exists ds, show_digits (S fuel) n acc = ds ++ acc /\ ds <> []
               /\ forallb is_digit ds = true /\ digits_val ds = n.
Proof.
  induction fuel as [|fuel IH]; intros n acc Hn.
  - change (10 ^ Z.of_nat 1) with 10 in Hn.
    destruct (digit_char_spec (n mod 10)) as [H1 H2]; [apply Z.mod_pos_bound; lia|].
    exists [digit_char (n mod 10)].
    change (show_digits 1 n acc)
      with (if n / 10 =? 0 then digit_char (n mod 10) :: acc else digit_char (n mod 10) :: acc).
    rewrite (Z.div_small n 10) by lia.
    split; [reflexivity|]. split; [discriminate|].
    split; [cbn [forallb]; now rewrite H1|].
    unfold digits_val. cbn [fold_left]. rewrite H2. rewrite Z.mod_small; lia.
  - destruct (digit_char_spec (n mod 10)) as [H1 H2]; [apply Z.mod_pos_bound; lia|].
    change (show_digits (S (S fuel)) n acc)
      with (if n / 10 =? 0 then digit_char (n mod 10) :: acc
            else show_digits (S fuel) (n / 10) (digit_char (n mod 10) :: acc)).
    destruct (Z.eqb_spec (n / 10) 0) as [E|E].
    + exists [digit_char (n mod 10)].
      split; [reflexivity|]. split; [discriminate|].
      split; [cbn [forallb]; now rewrite H1|].
      unfold digits_val. cbn [fold_left]. rewrite H2.
      pose proof (Z.div_mod n 10). lia.
    + destruct (IH (n / 10) (digit_char (n mod 10) :: acc)) as (ds & E1 & E2 & E3 & E4).
      { split; [apply Z.div_pos; lia|].
        apply Z.div_lt_upper_bound; [lia|].
        replace (Z.of_nat (S (S fuel))) with (1 + Z.of_nat (S fuel)) in Hn by lia.
        rewrite Z.pow_add_r in Hn; lia. }
      exists (ds ++ [digit_char (n mod 10)]). rewrite E1, <- app_assoc.
      split; [reflexivity|]. split; [destruct ds; discriminate|].
      split; [rewrite forallb_app, E3; cbn [forallb]; now rewrite H1|].
      rewrite digits_val_snoc, E4, H2. pose proof (Z.div_mod n 10). lia.
Qed.

Lemma show_nat_spec (n : Z) :
  0 <= n ->
  show_nat n <> [] /\ forallb is_digit (show_nat n) = true /\ digits_val (show_nat n) = n.
Proof.
  intros Hn. unfold show_nat.
  destruct (show_digits_spec (Z.to_nat (Z.log2 n)) n []) as (ds & E1 & E2 & E3 & E4).
  - split; [exact Hn|].
    rewrite Nat2Z.inj_succ, Z2Nat.id by apply Z.log2_nonneg.
    destruct (Z.eq_dec n 0) as [->|Hz]; [reflexivity|].
    apply Z.lt_le_trans with (2 ^ Z.succ (Z.log2 n)).
    + apply Z.log2_spec. lia.
    + apply Z.pow_le_mono_l. pose proof (Z.log2_nonneg n). lia.
  - rewrite E1, app_nil_r. auto.
Qed.

Lemma span_all {A} (p : A -> bool) (l : list A) :
  forallb p l = true -> span p l = (l, []).
Proof.
  induction l as [|x l IH]; simpl; [reflexivity|].
  intros H. apply andb_true_iff in H as [H1 H2]. now rewrite H1, (IH H2).
Qed.

Lemma is_digit_facts (a : ascii) :
  is_digit a = true ->
  is_space a = false /\ ascii_eqb a "-"%char = false /\ ascii_eqb a "+"%char = false
  /\ is_alnum a = true.
Proof.
  unfold is_space, is_alnum, is_alpha, is_upper, is_lower, is_digit. intros H.
  apply andb_true_iff in H as [H1 H2].
  apply Nat.leb_le in H1. apply Nat.leb_le in H2.
  assert (N1 : a <> "-"%char) by (intros ->; vm_compute in H1; lia).
  assert (N2 : a <> "+"%char) by (intros ->; vm_compute in H1; lia).
  split; [|split; [|split]].
  - destruct (Nat.eqb_spec (nat_of_ascii a) 32); [lia|]. cbn [orb].
    destruct (Nat.leb_spec 9 (nat_of_ascii a)); [|reflexivity].
    destruct (Nat.leb_spec (nat_of_ascii a) 13); [lia|reflexivity].
  - destruct (ascii_eqb a "-"%char) eqn:E; [|reflexivity].
    apply ascii_eqb_eq in E. contradiction.
  - destruct (ascii_eqb a "+"%char) eqn:E; [|reflexivity].
    apply ascii_eqb_eq in E. contradiction.
  - rewrite (proj2 (Nat.leb_le _ _) H1), (proj2 (Nat.leb_le _ _) H2).
    cbn [andb]. apply orb_true_r.
Qed.

(** Reading back a number that was written. *)
Lemma stoll_digits (neg : bool) (d : ascii) (ds : str) :
  forallb is_digit (d :: ds) = true ->
  stoll ((if neg then ["-"%char] else []) ++ d :: ds)
  = let v := if neg then - digits_val (d :: ds) else digits_val (d :: ds) in
    if (LLONG_MIN <=? v) && (v <=? LLONG_MAX) then Some v else None.
Proof.
  intros H. pose proof H as H'. cbn [forallb] in H'.
  apply andb_true_iff in H' as [Hd _].
  destruct (is_digit_facts d Hd) as (F1 & F2 & F3 & _).
  unfold stoll. destruct neg; cbn [app].
  - change (span is_space ("-"%char :: d :: ds)) with (@nil ascii, "-"%char :: d :: ds).
    cbn [snd]. rewrite ascii_eqb_refl.
    rewrite (span_all is_digit (d :: ds) H). reflexivity.
  - change (span is_space (d :: ds))
      with (if is_space d then let (a, b) := span is_space ds in (d :: a, b)
            else ([], d :: ds)).
    rewrite F1. cbn [snd]. rewrite F2, F3.
    rewrite (span_all is_digit (d :: ds) H). reflexivity.
Qed.

Lemma stoll_show_Z (n : Z) :
  LLONG_MIN <= n <= LLONG_MAX -> stoll (show_Z n) = Some n.
Proof.
  intros Hr. unfold show_Z.
  assert (Range : (LLONG_MIN <=? n) && (n <=? LLONG_MAX) = true).
  { apply andb_true_iff. split; apply Z.leb_le; lia. }
  destruct (Z.ltb_spec n 0) as [Hn|Hn].
  - destruct (show_nat_spec (- n)) as (E1 & E2 & E3); [lia|].
    destruct (show_nat (- n)) as [|d ds] eqn:Es; [congruence|].
    pose proof (stoll_digits true d ds E2) as S. cbn [app] in S. rewrite S. cbv zeta.
    rewrite E3, Z.opp_involutive, Range. reflexivity.
  - destruct (show_nat_spec n) as (E1 & E2 & E3); [lia|].
    destruct (show_nat n) as [|d ds] eqn:Es; [congruence|].
    pose proof (stoll_digits false d ds E2) as S. cbn [app] in S. rewrite S. cbv zeta.
    rewrite E3, Range. reflexivity.
Qed.

(* ====================================================================== *)
(** ** The lines of the control protocol *)
(* ====================================================================== *)

Lemma app_eq_length {A} (a a' b b' : list A) :
  List.length a = List.length a' -> a ++ b = a' ++ b' -> a = a' /\ b = b'.
Proof.
  revert a'. induction a as [|x a IH]; intros [|y a'] Hl E; try discriminate.
  - auto.
  - simpl in *. injection E as -> E. injection Hl as Hl.
    destruct (IH a' Hl E) as [-> ->]. auto.
Qed.

Lemma consumed_all (s : str) : consumed s [] = s.
Proof. rewrite <- (app_nil_r s) at 1. apply consumed_app. Qed.

Lemma lower_same_length (w lit : str) :
  map to_lower w = map to_lower lit -> List.length w = List.length lit.
Proof. intros H. apply (f_equal (@List.length _)) in H. now rewrite !length_map in H. Qed.

(** An expression of the shape  ^lit(r)$  under [icase], on a text that
    starts with the literal: when [r] can take all of what follows, the match
    succeeds and group 1 is what follows. *)
Lemma match_literal_group (lit : str) (r : regex) (X : str) :
  (exists c, In ([], c) (ms (lit ++ X) r X [])) ->
  exists c,
    regex_match (Cat Bol (Cat (LitI lit) (Cat (Grp 1 r) Eol))) (lit ++ X) = Some c
    /\ sub_str c 1 = X.
Proof.
  intros (c0 & H0). apply regex_match_some.
  - exists (cap_set 1 (consumed X []) c0).
    apply in_ms_cat. exists (lit ++ X, []). split; [apply in_ms_bol; auto|].
    apply in_ms_cat. exists (X, []). split.
    { apply in_ms_LitI. exists lit. auto. }
    apply in_ms_cat. exists ([], cap_set 1 (consumed X []) c0). split.
    { apply in_ms_grp. exists ([], c0). auto. }
    apply in_ms_eol. auto.
  - intros c H.
    apply in_ms_cat in H as (y1 & H1 & H). apply in_ms_bol in H1 as [_ ->].
    apply in_ms_cat in H as ([s2 c2] & H2 & H). cbn [fst snd] in *.
    apply in_ms_LitI in H2 as (w & E & Hw & Hc). cbn [fst snd] in *.
    apply lower_same_length in Hw.
    apply app_eq_length in E as [E1 E2]; [|now symmetry]. subst w s2.
    apply in_ms_cat in H as (y3 & H3 & H).
    apply in_ms_grp in H3 as (y & Hy & ->). cbn [fst snd] in H.
    apply in_ms_eol in H as [E H]. injection H as ->.
    rewrite E, consumed_all. apply sub_str_set.
Qed.

(** The same expression does not match a text that starts otherwise. *)
Lemma no_match_literal (lit : str) (r : regex) (s : str) :
  (forall w rest, s = w ++ rest -> map to_lower w = map to_lower lit -> False) ->
  regex_match (Cat Bol (Cat (LitI lit) r)) s = None.
Proof.
  intros Hno. apply regex_match_none. intros c H.
  apply in_ms_cat in H as (y1 & H1 & H). apply in_ms_bol in H1 as [_ ->].
  apply in_ms_cat in H as ([s2 c2] & H2 & _). cbn [fst snd] in *.
  apply in_ms_LitI in H2 as (w & E & Hw & _). eauto.
Qed.

Ltac lit_mismatch :=
  let w := fresh "w" in
  let rest := fresh "rest" in
  let E := fresh "E" in
  let Hw := fresh "Hw" in
  intros w rest E Hw;
  repeat (destruct w as [|? w]; [discriminate Hw|];
          cbn [app L list_ascii_of_string] in E; injection E as ? E; subst;
          try (vm_compute in Hw; discriminate Hw)).

Lemma rxUUID_not_Remain (X : str) : regex_match rxUUID (L "Remain:" ++ X) = None.
Proof. apply no_match_literal. lit_mismatch. Qed.

Lemma show_Z_signed_digits (n : Z) :
  exists neg ds, show_Z n = (if neg : bool then ["-"%char] else []) ++ ds
                 /\ ds <> [] /\ forallb is_digit ds = true.
Proof.
  unfold show_Z. destruct (n <? 0) eqn:E.
  - destruct (show_nat_spec (- n)) as (E1 & E2 & _); [apply Z.ltb_lt in E; lia|].
    exists true, (show_nat (- n)). auto.
  - destruct (show_nat_spec n) as (E1 & E2 & _); [apply Z.ltb_ge in E; lia|].
    exists false, (show_nat n). auto.
Qed.

(** A [Remain:] line with a number, negative or not, is taken by
    [rxRemain], and group 1 is the number as written. *)
Lemma rxRemain_takes_number (n : Z) :
  exists c, regex_match rxRemain (L "Remain:" ++ show_Z n) = Some c
            /\ sub_str c 1 = show_Z n.
Proof.
  apply match_literal_group.
  destruct (show_Z_signed_digits n) as (neg & ds & -> & Hne & Hds).
  exists []. apply in_ms_cat. exists (ds, []). split.
  - apply in_ms_rep_cls. exists (if neg then ["-"%char] else []). cbn [fst snd].
    split; [reflexivity|].
    destruct neg; (split; [reflexivity|]); (split; [simpl; lia|]);
      (split; [simpl; lia|reflexivity]).
  - apply in_ms_rep_cls. exists ds. cbn [fst snd]. rewrite app_nil_r.
    split; [reflexivity|]. split; [exact Hds|].
    split; [destruct ds; [congruence|simpl; lia]|]. split; [exact I|reflexivity].
Qed.

Section ProxyRemain.
Context {P : Platform}.

(** The reply loop of the proxy stores the number of a [Remain:] line,
    whatever its sign. *)
Lemma proxy_reads_Remain (n : Z) (v : reply_vars) :
  LLONG_MIN <= n <= LLONG_MAX ->
  finished v = false -> remain v = None ->
  ETDProxy.requestFileRead_lines [L "Remain:" ++ show_Z n] v
  = inr (mk_reply_vars false (status_s v) (info v) (Some n) (curUUID v), []).
Proof.
  intros Hr Hf Hn. cbn [ETDProxy.requestFileRead_lines]. rewrite Hf.
  rewrite rxUUID_not_Remain.
  destruct (rxRemain_takes_number n) as (c & -> & E).
  rewrite Hn, E. unfold string2off_t. rewrite (stoll_show_Z n Hr). reflexivity.
Qed.

End ProxyRemain.

Lemma not_space_head (w u : str) (rest : str) :
  forallb is_space w = true -> forallb not_space u = true ->
  u = w ++ rest -> w = [].
Proof.
  intros Hw Hu E. destruct w as [|a w]; [reflexivity|]. subst u.
  cbn [app forallb] in *. apply andb_true_iff in Hw as [Ha _].
  apply andb_true_iff in Hu as [Hn _]. unfold not_space in Hn. rewrite Ha in Hn.
  discriminate.
Qed.

(** A [remove-uuid] command with a uuid free of white space is taken by
    [rxRemoveUUID], and group 1 is the uuid. *)
Lemma rxRemoveUUID_takes (u : str) :
  u <> [] -> forallb not_space u = true ->
  exists c, regex_match rxRemoveUUID (L "remove-uuid " ++ u) = Some c /\ sub_str c 1 = u.
Proof.
  intros Hne Hu.
  change (L "remove-uuid " ++ u) with (L "remove-uuid" ++ " "%char :: u).
  set (subj := L "remove-uuid" ++ " "%char :: u).
  apply regex_match_some.
  - exists (cap_set 1 (consumed u []) []).
    apply in_ms_cat. exists (subj, []). split; [apply in_ms_bol; auto|].
    apply in_ms_cat. exists (" "%char :: u, []). split.
    { apply in_ms_LitI. exists (L "remove-uuid"). auto. }
    apply in_ms_cat. exists (u, []). split.
    { apply in_ms_rep_cls. exists [" "%char]. cbn [fst snd].
      split; [reflexivity|]. split; [reflexivity|]. split; [simpl; lia|].
      split; [exact I|reflexivity]. }
    apply in_ms_cat. exists ([], cap_set 1 (consumed u []) []). split.
    { apply in_ms_grp. exists ([], []). split; [|reflexivity].
      apply in_ms_rep_cls. exists u. cbn [fst snd]. rewrite app_nil_r.
      split; [reflexivity|]. split; [exact Hu|].
      split; [destruct u; [congruence|simpl; lia]|]. split; [exact I|reflexivity]. }
    apply in_ms_eol. auto.
  - intros c H.
    apply in_ms_cat in H as (y1 & H1 & H). apply in_ms_bol in H1 as [_ ->].
    apply in_ms_cat in H as ([s2 c2] & H2 & H). cbn [fst snd] in *.
    apply in_ms_LitI in H2 as (w & E & Hw & Hc). cbn [fst snd] in *.
    apply lower_same_length in Hw.
    apply app_eq_length in E as [E1 E2]; [|now symmetry]. subst w s2.
    apply in_ms_cat in H as ([s3 c3] & H3 & H). cbn [fst snd] in *.
    apply in_ms_rep_cls in H3 as (w1 & E & Hw1 & Hl & _ & _). cbn [fst snd] in *.
    destruct w1 as [|a w1]; [simpl in Hl; lia|].
    cbn [app forallb] in *. injection E as <- E.
    apply andb_true_iff in Hw1 as [_ Hw1].
    pose proof (not_space_head w1 u s3 Hw1 Hu E) as ->. cbn [app] in E. subst s3.
    apply in_ms_cat in H as (y4 & H4 & H).
    apply in_ms_grp in H4 as (y & Hy & ->). cbn [fst snd] in H.
    apply in_ms_eol in H as [E H]. injection H as ->.
    rewrite E, consumed_all. apply sub_str_set.
Qed.

Lemma remove_uuid_not_other_commands (u : str) :
  regex_match rxList (L "remove-uuid " ++ u) = None
  /\ regex_match rxReqFileWrite (L "remove-uuid " ++ u) = None
  /\ regex_match rxReqFileRead (L "remove-uuid " ++ u) = None
  /\ regex_match rxSendFile (L "remove-uuid " ++ u) = None
  /\ regex_match rxDataChannelAddr (L "remove-uuid " ++ u) = None.
Proof.
  repeat split; apply no_match_literal; lit_mismatch.
Qed.

(* ====================================================================== *)
(** ** [removeUUID], in the server and through the proxy *)
(* ====================================================================== *)

Section RemoveUUID.
Context {P : Platform}.

Lemma server_removeUUID_absent (u : uuid_type) (s : sigma) :
  absent u s -> ETDServer.removeUUID u u s = (Ret false, s).
Proof.
  intros H. unfold ETDServer.removeUUID, bind, ETDCASSERT, get_transfers, ret.
  rewrite str_eqb_refl. unfold absent in H. rewrite H. reflexivity.
Qed.

Lemma wrapper_removeUUID_absent (u : uuid_type) (conn : fd_t) (s : sigma) :
  absent u s -> u <> [] -> forallb not_space u = true ->
  ETDServerWrapper.dispatch u conn (L "remove-uuid " ++ u) s
  = (Ret [reply_remove_failed], s).
Proof.
  intros Ha Hne Hu. unfold ETDServerWrapper.dispatch.
  destruct (remove_uuid_not_other_commands u) as (-> & -> & -> & -> & ->).
  destruct (rxRemoveUUID_takes u Hne Hu) as (c & -> & ->).
  unfold bind. rewrite (server_removeUUID_absent u s Ha). reflexivity.
Qed.

Lemma proxy_loop_never_false (conn : fd_t) :
  forall (fuel : nat) (buffer : str) (s : sigma),
    fst (ETDProxy.removeUUID_loop fuel conn buffer s) <> Ret false.
Proof.
  induction fuel as [|fuel IH]; intros buffer s.
  - simpl. destruct (len buffer <? 2048); simpl; discriminate.
  - cbn [ETDProxy.removeUUID_loop].
    destruct (len buffer <? 2048); [|simpl; discriminate].
    unfold bind, sys, ETDCASSERT.
    destruct (fd_read conn (2048 - len buffer) (snd s)) as [r w1].
    destruct (nread r >? 0); [|simpl; discriminate]. cbn [ret].
    destruct (fst (getReplies (buffer ++ bytes_of r))) as [|line others]; [apply IH|].
    destruct others; [|simpl; discriminate]. cbn [ret].
    destruct (regex_match rxReply line) as [fields|]; [|simpl; discriminate].
    destruct (str_eqb (sub_str fields 1) (L "OK")); simpl; discriminate.
Qed.

Lemma proxy_never_false (conn : fd_t) (u : uuid_type) (s : sigma) :
  fst (ETDProxy.removeUUID conn u s) <> Ret false.
Proof.
  unfold ETDProxy.removeUUID, bind, sys, ETDCASSERTX, ETDCASSERT.
  destruct (fd_write conn _ (snd s)) as [wr w1].
  destruct (wr =? _); [|simpl; discriminate]. cbn [ret].
  apply proxy_loop_never_false.
Qed.

Lemma proxy_throws_on_ERR (conn : fd_t) (u : uuid_type) (s : sigma) (w1 w2 : World) :
  fd_write conn (L "remove-uuid " ++ u ++ [LF]) (snd s)
    = (len (L "remove-uuid " ++ u ++ [LF]), w1) ->
  fd_read conn 2048 w1 = (Some (reply_remove_failed ++ [LF]), w2) ->
  ETDProxy.removeUUID conn u s = (Throw (Assertion msg_remove_failed), (fst s, w2)).
Proof.
  intros Hw Hr. unfold ETDProxy.removeUUID, bind, sys, ETDCASSERTX.
  rewrite Hw, Z.eqb_refl. cbn [ret fst snd].
  change (ETDProxy.removeUUID_loop 2048 conn [] (fst s, w1))
    with (bind (sys (fd_read conn (2048 - len []))) (fun r =>
          bind (ETDCASSERT (nread r >? 0) (L "Failed to read data from remote end")) (fun _ =>
          match fst (getReplies ([] ++ bytes_of r)) with
          | [] => ETDProxy.removeUUID_loop 2047 conn ([] ++ bytes_of r)
          | line :: others =>
              bind (ETDCASSERT (match others with [] => true | _ => false end)
                      (L "The client sent wrong number of responses - this is likely a protocol error"))
                   (fun _ =>
                      match regex_match rxReply line with
                      | None => throw (Assertion (L "The client sent a non-conforming response"))
                      | Some fields =>
                          bind (ETDCASSERT (str_eqb (sub_str fields 1) (L "OK"))
                                  (L "removeUUID failed: " ++ sub_str fields 2))
                               (fun _ => ret true)
                      end)
          end)) (fst s, w1)).
  unfold bind at 1. unfold sys. cbn [fst snd].
  change (2048 - len []) with 2048. rewrite Hr.
  reflexivity.
Qed.

(** C1, as the code has it.  For a server whose uuid has no record:
    [ETDServer::removeUUID] returns [false]; the wrapper, asked over the wire,
    answers with the line "ERR Failed to remove UUID"; and
    [ETDProxy::removeUUID] never returns [false]: on that line it throws. *)
Theorem removeUUID_absent_server_false_proxy_throws
  (u : uuid_type) (conn : fd_t) (s : sigma) :
  absent u s -> u <> [] -> forallb not_space u = true ->
  ETDServer.removeUUID u u s = (Ret false, s)
  /\ ETDServerWrapper.dispatch u conn (L "remove-uuid " ++ u) s
     = (Ret [reply_remove_failed], s)
  /\ (forall (pconn : fd_t) (ps : sigma),
        fst (ETDProxy.removeUUID pconn u ps) <> Ret false)
  /\ (forall (pconn : fd_t) (ps : sigma) (w1 w2 : World),
        fd_write pconn (L "remove-uuid " ++ u ++ [LF]) (snd ps)
          = (len (L "remove-uuid " ++ u ++ [LF]), w1) ->
        fd_read pconn 2048 w1 = (Some (reply_remove_failed ++ [LF]), w2) ->
        ETDProxy.removeUUID pconn u ps
        = (Throw (Assertion msg_remove_failed), (fst ps, w2))).
Proof.
  intros Ha Hne Hu.
  split; [apply server_removeUUID_absent; exact Ha|].
  split; [apply wrapper_removeUUID_absent; assumption|].
  split; [intros; apply proxy_never_false|].
  intros pconn ps w1 w2 Hw Hr. exact (proxy_throws_on_ERR pconn u ps w1 w2 Hw Hr).
Qed.

End RemoveUUID.

(** C1 as stated fails: with no record for the own uuid the server returns
    [false], the proxy, fed the wrapper's answer, throws. *)
Lemma proxy_removeUUID_throws_where_server_returns_false :
  @absent Mem.platform uuid_a (state_empty, world_x)
  /\ fst (@ETDServer.removeUUID Mem.platform uuid_a uuid_a (state_empty, world_x)) = Ret false
  /\ sent 0%nat (snd (snd wrapper_run)) = reply_remove_failed ++ [LF]
  /\ fst proxy_run = Throw (Assertion msg_remove_failed)
  /\ fst proxy_run <> Ret false.
Proof.
  split; [reflexivity|]. split; [vm_compute; reflexivity|].
  split; [vm_compute; reflexivity|].
  assert (E : fst proxy_run = Throw (Assertion msg_remove_failed)) by (vm_compute; reflexivity).
  split; [exact E|]. rewrite E. discriminate.
Qed.

Lemma removeUUID_absent_server_false_proxy_throws_witness :
  @absent Mem.platform uuid_a (state_empty, world_x)
  /\ uuid_a <> []
  /\ forallb not_space uuid_a = true
  /\ @ETDServer.removeUUID Mem.platform uuid_a uuid_a (state_empty, world_x)
     = (Ret false, (state_empty, world_x))
  /\ fst proxy_run = Throw (Assertion msg_remove_failed).
Proof.
  assert (H1 : @absent Mem.platform uuid_a (state_empty, world_x)) by reflexivity.
  assert (H2 : uuid_a <> []) by discriminate.
  assert (H3 : forallb not_space uuid_a = true) by reflexivity.
  destruct (@removeUUID_absent_server_false_proxy_throws Mem.platform
              uuid_a 0%nat (state_empty, world_x) H1 H2 H3) as (R1 & _ & _ & R4).
  split; [exact H1|]. split; [exact H2|]. split; [exact H3|]. split; [exact R1|].
  set (pw := world_conn [sent 0%nat (snd (snd wrapper_run))]).
  set (pw1 := snd (Mem.fd_write 0%nat (L "remove-uuid " ++ uuid_a ++ [LF]) pw)).
  set (pw2 := snd (Mem.fd_read 0%nat 2048 pw1)).
  refine (f_equal fst (R4 0%nat (state_empty, pw) pw1 pw2 _ _));
    vm_compute; reflexivity.
Defined.

(* ====================================================================== *)
(** ** Reading from beyond the end of the file *)
(* ====================================================================== *)

Section ReadPastEnd.
Context {P : Platform}.

(** C10.  [requestFileRead] with [alreadyhave] beyond the size the file
    reports: when the server is not busy, the path is free or read only, the
    file opens and the seek to [alreadyhave] does not fail, the call returns
    the uuid with the negative difference; and the proxy's reply loop stores
    that negative number from the [Remain:] line the wrapper writes for
    it. *)
Theorem requestFileRead_past_end
  (u : uuid_type) (path0 : str) (a : Z) (s : sigma)
  (fd : fd_t) (w1 w2 w3 : World) (sz pos : Z) :
  absent u s ->
  match find_path (normalize_path path0) (transfers (fst s)) with
  | None => true
  | Some vt => openmode_eqb (openMode (snd vt)) Read
  end = true ->
  etdc_file (normalize_path path0) (Z.lor (openmode_int Read) O_LARGEFILE) None (snd s)
    = (inr fd, w1) ->
  fd_lseek fd 0 SEEK_END w1 = (sz, w2) ->
  fd_lseek fd a SEEK_SET w2 = (pos, w3) ->
  pos <> -1 ->
  0 <= sz < a -> a <= LLONG_MAX ->
  exists s',
    ETDServer.requestFileRead u path0 a s = (Ret (u, sz - a), s')
    /\ sz - a < 0
    /\ forall v : reply_vars,
         finished v = false -> remain v = None ->
         ETDProxy.requestFileRead_lines [L "Remain:" ++ show_Z (sz - a)] v
         = inr (mk_reply_vars false (status_s v) (info v) (Some (sz - a)) (curUUID v), []).
Proof.
  intros Ha Hp Ho H1 H2 Hpos Hsz Hmax.
  pose proof (requestFileRead_cases u path0 a s) as H. cbv zeta in H.
  unfold absent in Ha. rewrite Ha, Hp, Ho, H1, H2 in H.
  apply Z.eqb_neq in Hpos. rewrite Hpos in H.
  eexists. split; [exact H|]. split; [lia|].
  intros v Hf Hr. apply proxy_reads_Remain; [|exact Hf|exact Hr].
  unfold LLONG_MIN, LLONG_MAX in *. lia.
Qed.

End ReadPastEnd.

Lemma requestFileRead_past_end_witness :
  @absent Mem.platform uuid_a (state_empty, world_x)
  /\ 0 <= 10 < 40 /\ 40 <= LLONG_MAX
  /\ (exists s', run_read_40 = (Ret (uuid_a, 10 - 40), s'))
  /\ fst proxy_read_40 = Ret (uuid_a, -30).
Proof.
  assert (H1 : @absent Mem.platform uuid_a (state_empty, world_x)) by reflexivity.
  assert (H2 : 0 <= 10 < 40) by lia.
  assert (H3 : 40 <= LLONG_MAX) by (unfold LLONG_MAX; lia).
  split; [exact H1|]. split; [exact H2|]. split; [exact H3|].
  split; [|vm_compute; reflexivity].
  destruct (@requestFileRead_past_end Mem.platform uuid_a file_x 40 (state_empty, world_x)
              0%nat
              (snd (Mem.etdc_file file_x 0 None world_x))
              (snd (Mem.fd_lseek 0%nat 0 SEEK_END (snd (Mem.etdc_file file_x 0 None world_x))))
              (snd (snd run_read_40))
              10 40 H1) as (s' & E & _);
    try (vm_compute; reflexivity); try assumption.
  - vm_compute. discriminate.
  - exists s'. exact E.
Defined.

(* ====================================================================== *)
(** ** The header of the data channel *)
(* ====================================================================== *)

Section DataHeader.
Context {P : Platform}.

Lemma verify_push_not_1 (kvpairs : kvmap_type) (v : str) :
  kv_find (L "push") kvpairs = Some v -> v <> L "1" ->
  exists e, ETDDataServer.verify kvpairs = inl e /\ header_error e
            /\ (forall u z, kv_find (L "uuid") kvpairs = Some u ->
                            kv_find (L "sz") kvpairs = Some z ->
                            e = Assertion (L "push keyword may only take one specific value")).
Proof.
  intros Hp Hv. unfold ETDDataServer.verify, header_error.
  destruct (kv_find (L "uuid") kvpairs) as [u|].
  2:{ eexists. split; [reflexivity|]. split; [auto|]. intros; discriminate. }
  destruct (kv_find (L "sz") kvpairs) as [z|].
  2:{ eexists. split; [reflexivity|]. split; [auto|]. intros; discriminate. }
  rewrite Hp, (str_eqb_neq _ _ Hv). cbn [negb].
  eexists. split; [reflexivity|]. split; auto.
Qed.

(** C6.  A header whose pairs have a key [push], in any case of the
    letters, with a value other than [1] makes the data server throw while it
    verifies the header: the shared state and the platform are as they were,
    so no transfer has been looked up, locked or touched.  A header without
    the key, with a uuid and a size that is a number, is served as a pull:
    the transfer is locked for writing and [pull_n] runs. *)
Theorem push_other_than_1_is_refused
  (fuel : nat) (conn : fd_t) (fields : str) (rdPos : Z) (buffer : str)
  (kvpairs : kvmap_type) (s : sigma) :
  no_duplicates_insert (getKeyValuePairs fields) [] = inr kvpairs ->
  (forall v, kv_find (L "push") kvpairs = Some v -> v <> L "1" ->
     exists e, ETDDataServer.serve fuel conn fields rdPos buffer s = (Throw e, s)
               /\ header_error e)
  /\
  (forall u z n,
     kv_find (L "push") kvpairs = None ->
     kv_find (L "uuid") kvpairs = Some u ->
     kv_find (L "sz") kvpairs = Some z ->
     string2off_t z = Some n ->
     ETDDataServer.verify kvpairs = inr (ETDDataServer.mk_request u n false)
     /\ ETDDataServer.serve fuel conn fields rdPos buffer s
        = bind (ETDDataServer.lock_transfer (ETDDataServer.mk_request u n false))
               (fun xfer =>
                  ETDDataServer.pull_n fuel (to_size_t n) conn (fd xfer) rdPos buffer) s).
Proof.
  intros Hkv. split.
  - intros v Hp Hv. destruct (verify_push_not_1 kvpairs v Hp Hv) as (e & He & Hh & _).
    exists e. split; [|exact Hh].
    unfold ETDDataServer.serve. rewrite Hkv. unfold bind at 1. cbn [ETDServerWrapper.lift_exn ret].
    rewrite He. reflexivity.
  - intros u z n Hp Hu Hz Hn.
    assert (Hv : ETDDataServer.verify kvpairs = inr (ETDDataServer.mk_request u n false)).
    { unfold ETDDataServer.verify. rewrite Hu, Hz, Hp, Hn. reflexivity. }
    split; [exact Hv|].
    unfold ETDDataServer.serve. rewrite Hkv. unfold bind at 1. cbn [ETDServerWrapper.lift_exn ret].
    rewrite Hv. reflexivity.
Qed.

End DataHeader.

Lemma push_other_than_1_is_refused_witness :
  (exists e,
     @ETDDataServer.serve Mem.platform 5 0%nat (L " uuid:abc-124, PUSH:2, sz:6") 27 []
       (state_writing, world_data [])
     = (Throw e, (state_writing, world_data []))
     /\ header_error e)
  /\ fst (@ETDDataServer.handle Mem.platform 5 0%nat
            (state_writing, world_data [L "{ uuid:abc-124, push:0, sz:6}012345"]))
     = Throw (Assertion (L "push keyword may only take one specific value"))
  /\ Mem.lookup file_x
       (Mem.files (snd (snd (@ETDDataServer.handle Mem.platform 5 0%nat
          (state_writing, world_data [L "{ uuid:abc-124, sz:6}012"; L "345"])))))
     = Some (L "0123456789012345").
Proof.
  destruct (@push_other_than_1_is_refused Mem.platform 5 0%nat
              (L " uuid:abc-124, PUSH:2, sz:6") 27 []
              [(L "uuid", L "abc-124"); (L "PUSH", L "2"); (L "sz", L "6")]
              (state_writing, world_data [])) as [H _]; [vm_compute; reflexivity|].
  split.
  - apply (H (L "2")); [vm_compute; reflexivity|discriminate].
  - split; vm_compute; reflexivity.
Defined.

(* ====================================================================== *)
(** ** Short reads and writes in the bulk loops *)
(* ====================================================================== *)

Section ShortIO.
Context {P : Platform}.

Lemma gtb_true (a : Z) : a > 0 -> (a >? 0) = true.
Proof. intros H. rewrite Z.gtb_ltb. apply Z.ltb_lt. lia. Qed.

(** One pass of the loop of [sendFile]. *)
Lemma sendFile_loop_pass (fuel : nat) (src dst : fd_t) (todo : Z) (s : sigma) :
  todo > 0 ->
  ETDServer.sendFile_loop (S fuel) src dst todo s
  = let n := Z.min todo bufSz in
    let (r, w1) := fd_read src n (snd s) in
    if nread r =? n then
      let (wr, w2) := fd_write dst (bytes_of r) w1 in
      if wr =? n then ETDServer.sendFile_loop fuel src dst (todo - n) (fst s, w2)
      else (Throw assert_write_sendFile, (fst s, w2))
    else (Throw assert_read_sendFile, (fst s, w1)).
Proof.
  intros Ht. cbn [ETDServer.sendFile_loop]. rewrite (gtb_true _ Ht). cbv zeta.
  set (n := Z.min todo bufSz).
  unfold bind, sys, ETDCASSERTX, ret, throw.
  destruct (fd_read src n (snd s)) as [r w1]. cbn [fst snd].
  assert (E : match r with Some b => Z.of_nat (List.length b) =? n | None => false end
              = (nread r =? n)).
  { destruct r as [b|]; [reflexivity|]. cbn [nread]. symmetry. apply Z.eqb_neq.
    subst n. unfold bufSz. lia. }
  rewrite E.
  destruct (nread r =? n) eqn:Hr; [|reflexivity]. cbn [fst snd].
  replace (match r with Some b => b | None => [] end) with (bytes_of r) by reflexivity.
  destruct (fd_write dst (bytes_of r) w1) as [wr w2]. cbn [fst snd].
  destruct (wr =? n); reflexivity.
Qed.

(** One pass of the loop of [push_n]. *)
Lemma push_n_loop_pass (fuel : nat) (n : Z) (src dst : fd_t) (s : sigma) :
  n > 0 ->
  ETDDataServer.push_n_loop (S fuel) n src dst s
  = let nRead := Z.min n bufSz in
    let (r, w1) := fd_read src nRead (snd s) in
    if nread r =? nRead then
      let (wr, w2) := fd_write dst (bytes_of r) w1 in
      if wr =? nRead then ETDDataServer.push_n_loop fuel (n - nRead) src dst (fst s, w2)
      else (Throw assert_write_push, (fst s, w2))
    else (Throw assert_read_push, (fst s, w1)).
Proof.
  intros Ht. cbn [ETDDataServer.push_n_loop]. rewrite (gtb_true _ Ht). cbv zeta.
  set (nRead := Z.min n bufSz).
  unfold bind, sys, ETDCASSERTX, ret, throw.
  destruct (fd_read src nRead (snd s)) as [r w1]. cbn [fst snd].
  destruct (nread r =? nRead) eqn:Hr; [|reflexivity]. cbn [fst snd].
  destruct (fd_write dst (bytes_of r) w1) as [wr w2]. cbn [fst snd].
  destruct (wr =? nRead); reflexivity.
Qed.

(** One pass of the loop of [pull_n] when nothing waits in the buffer and
    the count fits [size_t]. *)
Lemma pull_n_loop_pass (fuel : nat) (n : Z) (src dst : fd_t) (s : sigma) :
  0 < n < size_max ->
  ETDDataServer.pull_n_loop (S fuel) n src dst 0 [] s
  = let nRead := Z.min n bufSz in
    let (r, w1) := fd_read src nRead (snd s) in
    match r with
    | None =>
        (Throw (Assertion (L "Failed to read bytes from client - " ++ strerror_errno w1)),
         (fst s, w1))
    | Some b =>
        if to_size_t (len b) >? 0 then
          let (wr, w2) := fd_write dst b w1 in
          if wr =? to_size_t (len b)
          then ETDDataServer.pull_n_loop fuel (to_size_t (n - len b)) src dst 0 []
                 (fst s, w2)
          else (Throw assert_write_pull, (fst s, w2))
        else (Throw assert_nothing_pulled, (fst s, w1))
    end.
Proof.
  intros Hn. cbn [ETDDataServer.pull_n_loop].
  rewrite (gtb_true n) by lia. cbv zeta.
  change (len []) with 0.
  replace (to_size_t (n + 0 - 0)) with n
    by (unfold to_size_t; rewrite Z.mod_small; lia).
  change (to_size_t (bufSz - 0)) with bufSz.
  set (nRead := Z.min n bufSz).
  unfold bind, sys, ETDCASSERT, ETDCASSERTX, ret, throw.
  destruct (fd_read src nRead (snd s)) as [r w1]. cbn [fst snd].
  destruct r as [b|]; [|reflexivity].
  cbn [nread bytes_of app].
  assert (Hge : (len b >=? 0) = true).
  { unfold len. rewrite Z.geb_leb. apply Z.leb_le. lia. }
  rewrite Hge. rewrite !Z.sub_0_r. cbn [fst snd].
  destruct (to_size_t (len b) >? 0); [|reflexivity]. cbn [fst snd].
  change (skipn (Z.to_nat 0) b) with b.
  destruct (fd_write dst b w1) as [wr w2]. cbn [fst snd].
  destruct (wr =? to_size_t (len b)); reflexivity.
Qed.

End ShortIO.

Section ShortIOClaims.
Context {P : Platform}.

(** C2, as the code has it.  In the loop of [sendFile] and in [push_n] a
    pass asks for [min(todo, bufSz)] bytes, and a read or a write that moves
    any other number of bytes, some or none, throws at once: nothing is tried
    again.  In [pull_n], with nothing waiting in the buffer, a read that
    brings some of the bytes asked for is taken and the loop goes on for the
    rest; a read that brings none throws, and so does a write to the file
    that does not take all that was read. *)
Theorem short_io_in_bulk_loops
  (fuel : nat) (src dst : fd_t) (todo : Z) (s : sigma) :
  0 < todo < size_max ->
  let n := Z.min todo bufSz in
  (forall r w1,
     fd_read src n (snd s) = (r, w1) -> nread r <> n ->
     ETDServer.sendFile_loop (S fuel) src dst todo s
       = (Throw assert_read_sendFile, (fst s, w1))
     /\ ETDDataServer.push_n_loop (S fuel) todo src dst s
       = (Throw assert_read_push, (fst s, w1)))
  /\
  (forall r w1 wr w2,
     fd_read src n (snd s) = (r, w1) -> nread r = n ->
     fd_write dst (bytes_of r) w1 = (wr, w2) -> wr <> n ->
     ETDServer.sendFile_loop (S fuel) src dst todo s
       = (Throw assert_write_sendFile, (fst s, w2))
     /\ ETDDataServer.push_n_loop (S fuel) todo src dst s
       = (Throw assert_write_push, (fst s, w2)))
  /\
  (forall b w1 w2,
     fd_read src n (snd s) = (Some b, w1) -> 0 < len b <= n ->
     fd_write dst b w1 = (len b, w2) ->
     ETDDataServer.pull_n_loop (S fuel) todo src dst 0 [] s
     = ETDDataServer.pull_n_loop fuel (todo - len b) src dst 0 [] (fst s, w2))
  /\
  (forall w1,
     fd_read src n (snd s) = (Some [], w1) ->
     ETDDataServer.pull_n_loop (S fuel) todo src dst 0 [] s
     = (Throw assert_nothing_pulled, (fst s, w1)))
  /\
  (forall b w1 wr w2,
     fd_read src n (snd s) = (Some b, w1) -> 0 < len b <= n ->
     fd_write dst b w1 = (wr, w2) -> wr <> len b ->
     ETDDataServer.pull_n_loop (S fuel) todo src dst 0 [] s
     = (Throw assert_write_pull, (fst s, w2))).
Proof.
  intros Ht n.
  assert (Hsmall : forall b, 0 < len b <= n -> to_size_t (len b) = len b
                             /\ to_size_t (todo - len b) = todo - len b).
  { intros b Hb. unfold to_size_t. subst n.
    split; apply Z.mod_small; lia. }
  split; [|split; [|split; [|split]]].
  - intros r w1 Hr Hn. apply Z.eqb_neq in Hn.
    rewrite sendFile_loop_pass, push_n_loop_pass by lia. cbv zeta. fold n.
    rewrite Hr, Hn. auto.
  - intros r w1 wr w2 Hr Hn Hw Hwr. apply Z.eqb_neq in Hwr.
    rewrite sendFile_loop_pass, push_n_loop_pass by lia. cbv zeta. fold n.
    rewrite Hr, Hn, Z.eqb_refl, Hw, Hwr. auto.
  - intros b w1 w2 Hr Hb Hw. destruct (Hsmall b Hb) as [E1 E2].
    rewrite pull_n_loop_pass by lia. cbv zeta. fold n.
    rewrite Hr, E1, E2, (gtb_true (len b)) by lia. rewrite Hw, Z.eqb_refl. reflexivity.
  - intros w1 Hr. rewrite pull_n_loop_pass by lia. cbv zeta. fold n.
    rewrite Hr. reflexivity.
  - intros b w1 wr w2 Hr Hb Hw Hwr. destruct (Hsmall b Hb) as [E1 E2].
    apply Z.eqb_neq in Hwr.
    rewrite pull_n_loop_pass by lia. cbv zeta. fold n.
    rewrite Hr, E1, (gtb_true (len b)) by lia. rewrite Hw, Hwr. reflexivity.
Qed.

End ShortIOClaims.

(** C2 as stated fails: a read that brings three of five bytes, and a write
    that takes two of five, are not tried again; each ends the call with an
    error although bytes were moved. *)
Lemma partial_io_is_not_retried :
  fst (Mem.fd_read 0%nat 5 world_3_left) = Some (L "789")
  /\ fst send_5_of_3 = Throw assert_read_sendFile
  /\ fst (Mem.fd_write 0%nat (L "01234") world_room_2) = 2
  /\ fst push_5_room_2 = Throw assert_write_push
  /\ sent 0%nat (snd (snd push_5_room_2)) = L "01".
Proof. repeat split; vm_compute; reflexivity. Qed.

Lemma short_io_in_bulk_loops_witness :
  0 < 5 < size_max
  /\ @ETDServer.sendFile_loop Mem.platform 1 0%nat 1%nat 5
       (state_reading, snd (Mem.mk_client (L "tcp") (L "peer") 2620 world_3_left))
     = (Throw assert_read_sendFile,
        (state_reading,
         snd (Mem.fd_read 0%nat 5
                (snd (Mem.mk_client (L "tcp") (L "peer") 2620 world_3_left)))))
  /\ @ETDDataServer.pull_n_loop Mem.platform 2 5 0%nat 1%nat 0 []
       (state_writing, world_data [L "012"; L "34"])
     = @ETDDataServer.pull_n_loop Mem.platform 1 (5 - 3) 0%nat 1%nat 0 []
         (state_writing,
          snd (Mem.fd_write 1%nat (L "012")
                 (snd (Mem.fd_read 0%nat 5 (world_data [L "012"; L "34"]))))).
Proof.
  assert (H : 0 < 5 < size_max) by (unfold size_max; lia).
  split; [exact H|]. split.
  - destruct (@short_io_in_bulk_loops Mem.platform 0 0%nat 1%nat 5
                (state_reading, snd (Mem.mk_client (L "tcp") (L "peer") 2620 world_3_left))
                H) as (R & _).
    refine (proj1 (R (Some (L "789")) _ _ _)); [vm_compute; reflexivity|].
    vm_compute. discriminate.
  - destruct (@short_io_in_bulk_loops Mem.platform 1 0%nat 1%nat 5
                (state_writing, world_data [L "012"; L "34"]) H) as (_ & _ & R & _).
    refine (R (L "012") _ _ _ _ _); [vm_compute; reflexivity| |vm_compute; reflexivity].
    vm_compute. split; [reflexivity|discriminate].
Defined.

(* ====================================================================== *)
(** ** [sendFile]: the header and the acknowledgement *)
(* ====================================================================== *)

(** With a peer that takes everything and acknowledges, the connection gets
    the header and the six bytes, and the acknowledgement is taken off it. *)
Example sendFile_header_bytes_ack :
  fst (send_6 [L "y"] []) = Ret true
  /\ sent 1%nat (snd (snd (send_6 [L "y"] []))) = L "{ uuid:abc-125, sz:6}456789"
  /\ Mem.get_handle 1%nat (snd (snd (send_6 [L "y"] [])))
     = Mem.HConn [] [] (L "{ uuid:abc-125, sz:6}456789").
Proof. repeat split; vm_compute; reflexivity. Qed.

(** C3 fails on the code.  [sendFile] does not look at what the write of
    the header and the read of the acknowledgement return.  A peer that ends
    the connection without acknowledging, and a peer that takes only three
    bytes of the header, both leave [sendFile] returning [true]: in the first
    run no acknowledgement byte was read, in the second the connection did
    not get the header. *)
Lemma sendFile_true_without_ack_or_header :
  (fst (send_6 [] []) = Ret true
   /\ sent 1%nat (snd (snd (send_6 [] []))) = L "{ uuid:abc-125, sz:6}456789"
   /\ Mem.fd_read 1%nat 1
        (snd (Mem.fd_write 1%nat (L "{ uuid:abc-125, sz:6}456789")
                (snd (Mem.mk_client (L "tcp") (L "peer") 2620 (world_sending [] [])))))
      = (Some [], snd (Mem.fd_write 1%nat (L "{ uuid:abc-125, sz:6}456789")
                (snd (Mem.mk_client (L "tcp") (L "peer") 2620 (world_sending [] []))))))
  /\
  (fst (send_6 [L "y"] [3]) = Ret true
   /\ sent 1%nat (snd (snd (send_6 [L "y"] [3]))) = L "{ u456789").
Proof. repeat split; vm_compute; reflexivity. Qed.

(* ====================================================================== *)
(** ** Address designators: decoding what was encoded *)
(* ====================================================================== *)






(** *** Hosts the expression takes *)






(** *** The whole designator *)

Lemma ms_plus_cls_all (subj : str) (p : ascii -> bool) (w rest : str) (c : caps) :
  w <> [] -> forallb p w = true -> In (rest, c) (ms subj (Plus (Cls p)) (w ++ rest) c).
Proof.
  intros Hne Hw. apply in_ms_rep_cls. exists w. cbn [fst snd].
  split; [reflexivity|]. split; [exact Hw|].
  split; [destruct w; [congruence|simpl; lia]|]. split; [exact I|reflexivity].
Qed.






Section Designators.
Context {P : Platform}.



Lemma ms_opt_skip (subj : str) (r : regex) (s : str) (c : caps) :
  In (s, c) (ms subj (Opt r) s c).
Proof. simpl. apply rep_stop. Qed.

Lemma ms_opt_take (subj : str) (r : regex) (s : str) (c : caps) (y : str * caps) :
  In y (ms subj r s (cap_clear (groups r) c)) ->
  (List.length (fst y) < List.length s)%nat ->
  In y (ms subj (Opt r) s c).
Proof.
  intros Hy Hl. simpl. destruct (List.length s) as [|k] eqn:E; [lia|].
  eapply rep_more with (y := y); [discriminate|exact Hy|intros _; lia|].
  destruct y. apply rep_stop.
Qed.

(** *** DNS names *)



(** *** Bracketed IPv6 literals *)






End Designators.



(* ====================================================================== *)
(** ** The bulk loops: fuel, and what a successful run has moved *)
(* ====================================================================== *)

Lemma passes_step (todo : Z) :
  todo > bufSz -> passes todo = S (passes (todo - bufSz)).
Proof.
  intros H. unfold passes.
  replace (todo + bufSz - 1) with ((todo - bufSz + bufSz - 1) + 1 * bufSz) by lia.
  rewrite Z.div_add by (unfold bufSz; lia).
  rewrite Z2Nat.inj_add; [|apply Z.div_pos; unfold bufSz in *; lia|lia].
  change (Z.to_nat 1) with 1%nat. lia.
Qed.

Lemma passes_positive (todo : Z) : todo > 0 -> (1 <= passes todo)%nat.
Proof.
  intros H. unfold passes.
  assert (1 <= (todo + bufSz - 1) / bufSz).
  { apply Z.div_le_lower_bound; unfold bufSz in *; lia. }
  lia.
Qed.

Section BulkLoops.
Context {P : Platform}.

(** The fuel [sendFile] and [push_n] give their loops is enough. *)
Lemma sendFile_loop_has_fuel (src dst : fd_t) :
  forall (fuel : nat) (todo : Z) (s : sigma),
    (passes todo <= fuel)%nat ->
    fst (ETDServer.sendFile_loop fuel src dst todo s) <> OutOfFuel.
Proof.
  induction fuel as [|fuel IH]; intros todo s Hf.
  - destruct (Z_gt_le_dec todo 0) as [Ht|Ht].
    + pose proof (passes_positive todo Ht). lia.
    + simpl. replace (todo >? 0) with false; [discriminate|].
      symmetry. rewrite Z.gtb_ltb. apply Z.ltb_ge. lia.
  - destruct (Z_gt_le_dec todo 0) as [Ht|Ht].
    + rewrite sendFile_loop_pass by exact Ht. cbv zeta.
      destruct (fd_read src _ (snd s)) as [r w1].
      destruct (nread r =? _); [|discriminate].
      destruct (fd_write dst _ w1) as [wr w2].
      destruct (wr =? _); [|discriminate].
      apply IH. destruct (Z_gt_le_dec todo bufSz) as [Hb|Hb].
      * rewrite Z.min_r by lia. rewrite (passes_step todo Hb) in Hf. lia.
      * rewrite Z.min_l by lia. rewrite Z.sub_diag. unfold passes, bufSz. simpl. lia.
    + cbn [ETDServer.sendFile_loop]. replace (todo >? 0) with false; [discriminate|].
      symmetry. rewrite Z.gtb_ltb. apply Z.ltb_ge. lia.
Qed.

Lemma push_n_loop_has_fuel (src dst : fd_t) :
  forall (fuel : nat) (n : Z) (s : sigma),
    (passes n <= fuel)%nat ->
    fst (ETDDataServer.push_n_loop fuel n src dst s) <> OutOfFuel.
Proof.
  induction fuel as [|fuel IH]; intros n s Hf.
  - destruct (Z_gt_le_dec n 0) as [Ht|Ht].
    + pose proof (passes_positive n Ht). lia.
    + simpl. replace (n >? 0) with false; [discriminate|].
      symmetry. rewrite Z.gtb_ltb. apply Z.ltb_ge. lia.
  - destruct (Z_gt_le_dec n 0) as [Ht|Ht].
    + rewrite push_n_loop_pass by exact Ht. cbv zeta.
      destruct (fd_read src _ (snd s)) as [r w1].
      destruct (nread r =? _); [|discriminate].
      destruct (fd_write dst _ w1) as [wr w2].
      destruct (wr =? _); [|discriminate].
      apply IH. destruct (Z_gt_le_dec n bufSz) as [Hb|Hb].
      * rewrite Z.min_r by lia. rewrite (passes_step n Hb) in Hf. lia.
      * rewrite Z.min_l by lia. rewrite Z.sub_diag. unfold passes, bufSz. simpl. lia.
    + cbn [ETDDataServer.push_n_loop]. replace (n >? 0) with false; [discriminate|].
      symmetry. rewrite Z.gtb_ltb. apply Z.ltb_ge. lia.
Qed.

(** A loop of [sendFile] that returns has moved exactly [todo] bytes,
    chunk by chunk, and has done nothing else. *)
Lemma sendFile_loop_moves (src dst : fd_t) :
  forall (fuel : nat) (todo : Z) (s s' : sigma),
    0 <= todo ->
    ETDServer.sendFile_loop fuel src dst todo s = (Ret tt, s') ->
    fst s' = fst s
    /\ exists bytes, len bytes = todo /\ moved src dst bytes (snd s) (snd s').
Proof.
  induction fuel as [|fuel IH]; intros todo s s' H0 E.
  - destruct (Z_gt_le_dec todo 0) as [Ht|Ht].
    + simpl in E. rewrite (gtb_true _ Ht) in E. discriminate.
    + simpl in E. replace (todo >? 0) with false in E
        by (symmetry; rewrite Z.gtb_ltb; apply Z.ltb_ge; lia).
      injection E as <-. split; [reflexivity|]. exists []. split; [change (len []) with 0; lia|constructor].
  - destruct (Z_gt_le_dec todo 0) as [Ht|Ht].
    + rewrite sendFile_loop_pass in E by exact Ht. cbv zeta in E.
      destruct (fd_read src _ (snd s)) as [r w1] eqn:Hr.
      destruct (nread r =? _) eqn:Hn; [|discriminate].
      destruct (fd_write dst _ w1) as [wr w2] eqn:Hw.
      destruct (wr =? _) eqn:Hwr; [|discriminate].
      apply Z.eqb_eq in Hn, Hwr.
      destruct r as [b|]; [|cbn [nread] in Hn; unfold bufSz in Hn; lia].
      cbn [nread bytes_of] in *.
      apply IH in E as [E1 (rest & Hl & Hm)]; [|lia]. cbn [fst snd] in *.
      split; [exact E1|]. exists (b ++ rest). split.
      * unfold len in *. rewrite length_app. lia.
      * econstructor; [rewrite Hn; exact Hr|rewrite Hn, <- Hwr; exact Hw|exact Hm].
    + cbn [ETDServer.sendFile_loop] in E. replace (todo >? 0) with false in E
        by (symmetry; rewrite Z.gtb_ltb; apply Z.ltb_ge; lia).
      injection E as <-. split; [reflexivity|]. exists []. split; [change (len []) with 0; lia|constructor].
Qed.

End BulkLoops.

Section SendFile.
Context {P : Platform}.

Lemma connect_first_returns :
  forall (addrs : dataaddrlist_type) (tried : str) (s : sigma),
    exists r w, ETDServer.connect_first addrs tried s = (Ret r, (fst s, w)).
Proof.
  induction addrs as [|addr rest IH]; intros tried s.
  - exists (None, tried), (snd s). destruct s. reflexivity.
  - cbn [ETDServer.connect_first].
    destruct (mk_client _ _ _ (snd s)) as [[e|dstFD] w]; [|eauto].
    destruct (IH (tried ++ match what e with
                           | Some m => show_sockname addr ++ L ": " ++ m ++ L ", "
                           | None => show_sockname addr ++ L ": unknown exception" ++ L ", "
                           end) (fst s, w)) as (r & w' & E).
    exists r, w'. exact E.
Qed.

(** X18.  What a [sendFile] of a positive number of bytes that returns has done:
    it found its record free and in [Read] mode, connected, issued one write
    of the header, moved exactly [todo] bytes from the file to the
    connection, and issued one read of one byte.  What the write of the
    header and the last read returned is not looked at. *)
Lemma sendFile_returns (u dstUUID : uuid_type) (todo : Z) (addrs : dataaddrlist_type)
  (s s' : sigma) (b : bool) :
  todo > 0 ->
  ETDServer.sendFile u u dstUUID todo addrs s = (Ret b, s') ->
  b = true /\ fst s' = fst s
  /\ exists transfer conn tried w1 hw w2 bytes w3 ack,
       map_find u (transfers (fst s)) = Some transfer
       /\ lock transfer = false /\ openMode transfer = Read
       /\ ETDServer.connect_first addrs [] s = (Ret (Some conn, tried), (fst s, w1))
       /\ fd_write conn (header_of_sendFile dstUUID todo) w1 = (hw, w2)
       /\ len bytes = todo /\ moved (fd transfer) conn bytes w2 w3
       /\ fd_read conn 1 w3 = (ack, snd s').
Proof.
  intros Ht E. unfold ETDServer.sendFile in E.
  unfold bind at 1 in E. unfold ETDCASSERT in E. rewrite str_eqb_refl in E.
  cbn [ret] in E. rewrite (gtb_true _ Ht) in E.
  unfold bind at 1 in E. unfold get_transfers in E.
  destruct (map_find u (transfers (fst s))) as [transfer|] eqn:Hf; [|discriminate].
  destruct (lock transfer) eqn:Hl; [discriminate|].
  unfold bind at 1 in E.
  destruct (openmode_eqb (openMode transfer) Read) eqn:Hm; [|discriminate].
  cbn [ETDCASSERT ret] in E.
  unfold bind at 1 in E.
  destruct (connect_first_returns addrs [] s) as ([conn tried] & w1 & Hc).
  rewrite Hc in E. destruct conn as [conn|]; [|discriminate].
  unfold bind at 1 in E. unfold sys at 1 in E. cbn [fst snd] in E.
  fold (header_of_sendFile dstUUID todo) in E.
  destruct (fd_write conn (header_of_sendFile dstUUID todo) w1) as [hw w2] eqn:Hh.
  unfold bind at 1 in E.
  destruct (ETDServer.sendFile_loop (passes todo) (fd transfer) conn todo (fst s, w2))
    as [o s2] eqn:Hloop.
  destruct o as [[]|e| |]; try discriminate.
  apply sendFile_loop_moves in Hloop as [E1 (bytes & Hb & Hmv)]; [|lia].
  cbn [fst snd] in *.
  unfold bind at 1 in E. unfold sys at 1 in E.
  destruct (fd_read conn 1 (snd s2)) as [ack w4] eqn:Ha.
  cbn [ret] in E. injection E as <- <-. cbn [fst snd].
  split; [reflexivity|]. split; [exact E1|].
  exists transfer, conn, tried, w1, hw, w2, bytes, (snd s2), ack.
  split; [first [exact Hf|reflexivity]|]. split; [first [exact Hl|reflexivity]|].
  split; [destruct (openMode transfer); try discriminate; reflexivity|].
  split; [first [exact Hc|reflexivity]|]. split; [exact Hh|]. split; [exact Hb|].
  split; [exact Hmv|exact Ha].
Qed.

End SendFile.

(* ====================================================================== *)
(** ** [pull_n] over a peer that delivers in pieces *)
(* ====================================================================== *)

Lemma pull_world_read (n : Z) (ch : str) (rest : list str) (out content : str) :
  len ch <= n ->
  Mem.fd_read 0%nat n (pull_world (ch :: rest) out content)
  = (Some ch, pull_world rest out content).
Proof.
  intros H. unfold Mem.fd_read, pull_world, Mem.get_handle, Mem.set_handle.
  cbn [Mem.handles Mem.files Mem.peers nth Mem.set_nth].
  assert (Hl : (List.length ch <= Z.to_nat n)%nat) by (unfold len in H; lia).
  rewrite firstn_all2 by exact Hl. rewrite skipn_all2 by exact Hl. reflexivity.
Qed.

Lemma pull_world_write (ch : str) (rest : list str) (out content : str) :
  Mem.fd_write 1%nat ch (pull_world rest out content)
  = (len ch, pull_world rest out (content ++ ch)).
Proof.
  unfold Mem.fd_write, pull_world, Mem.get_handle, Mem.set_handle.
  cbn [Mem.handles Mem.files Mem.peers nth Mem.set_nth Mem.lookup Mem.store].
  change (str_eqb file_x file_x) with true. cbv iota.
  cbn [Mem.handles Mem.files Mem.peers nth Mem.set_nth Mem.lookup Mem.store].
  change (str_eqb file_x file_x) with true. cbv iota.
  unfold len. rewrite !Nat2Z.id.
  rewrite firstn_all, Nat.sub_diag. cbn [repeat app].
  rewrite skipn_all2 by lia. rewrite app_nil_r.
  rewrite length_app, Nat2Z.inj_add. reflexivity.
Qed.

(** However the peer cuts the bytes into pieces, [pull_n] takes every piece
    as it comes, writes it to the file, and goes on until all the bytes it
    was asked for are there. *)
Lemma pull_n_loop_takes_pieces :
  forall (chunks : list str) (out content : str) (st : etd_state),
    Forall chunk_ok chunks ->
    len (List.concat chunks) < size_max ->
    @ETDDataServer.pull_n_loop Mem.platform (List.length chunks) (len (List.concat chunks))
       0%nat 1%nat 0 [] (st, pull_world chunks out content)
    = (Ret tt, (st, pull_world [] out (content ++ List.concat chunks))).
Proof.
  induction chunks as [|ch rest IH]; intros out content st Hok Hmax.
  - cbn [List.concat]. rewrite app_nil_r. reflexivity.
  - inversion Hok as [|? ? [Hne Hsz] Hrest]; subst.
    cbn [List.concat List.length] in *.
    assert (Hlen : len (ch ++ List.concat rest) = len ch + len (List.concat rest))
      by (unfold len; rewrite length_app; lia).
    assert (Hpos : 0 < len ch) by (unfold len; destruct ch; [congruence|simpl; lia]).
    assert (Hnn : 0 <= len (List.concat rest)) by (unfold len; lia).
    rewrite Hlen in *.
    rewrite (@pull_n_loop_pass Mem.platform) by lia. cbv zeta.
    cbn [snd fst].
    change (@fd_read Mem.platform) with Mem.fd_read.
    change (@fd_write Mem.platform) with Mem.fd_write.
    rewrite pull_world_read by lia.
    assert (Es : to_size_t (len ch) = len ch)
      by (unfold to_size_t; apply Z.mod_small; lia).
    rewrite Es, (gtb_true (len ch)) by lia.
    rewrite pull_world_write, Z.eqb_refl.
    replace (len ch + len (List.concat rest) - len ch) with (len (List.concat rest)) by lia.
    replace (to_size_t (len (List.concat rest))) with (len (List.concat rest))
      by (unfold to_size_t; rewrite Z.mod_small; lia).
    rewrite IH; [|exact Hrest|lia].
    rewrite <- app_assoc. reflexivity.
Qed.

(** X19.  However the peer cuts the bytes into pieces, each not empty and no
    longer than the buffer, [pull_n] with nothing waiting in its buffer
    returns: it has written every piece to the end of the file as it came,
    and has sent the acknowledgement. *)
Lemma pull_n_takes_pieces (chunks : list str) (content : str) (st : etd_state) :
  Forall chunk_ok chunks ->
  len (List.concat chunks) < size_max ->
  @ETDDataServer.pull_n Mem.platform (List.length chunks) (len (List.concat chunks))
     0%nat 1%nat 0 [] (st, pull_world chunks [] content)
  = (Ret tt, (st, pull_world [] (L "y") (content ++ List.concat chunks))).
Proof.
  intros Hok Hmax. unfold ETDDataServer.pull_n. unfold bind at 1.
  rewrite pull_n_loop_takes_pieces by assumption. reflexivity.
Qed.

(* ====================================================================== *)
(** ** The registry: what registration and removal keep *)
(* ====================================================================== *)

Lemma in_map_emplace (u : uuid_type) (p : transferprops_type) (t : transfermap_type)
  (x : uuid_type * transferprops_type) :
  In x (fst (map_emplace u p t)) -> x = (u, p) \/ In x t.
Proof.
  induction t as [|[k v] r IH]; simpl.
  - intros [<-|[]]. now left.
  - destruct (str_eqb k u); [intros H; now right|].
    destruct (str_ltb u k).
    + simpl. intros [<-|H]; [now left|now right].
    + destruct (map_emplace u p r) as [r' b]; simpl in *.
      intros [<-|H]; [right; now left|].
      destruct (IH H) as [->|H']; [now left|right; now right].
Qed.

Lemma in_map_emplace_old (u : uuid_type) (p : transferprops_type) (t : transfermap_type)
  (x : uuid_type * transferprops_type) :
  In x t -> In x (fst (map_emplace u p t)).
Proof.
  induction t as [|[k v] r IH]; simpl; [intros []|].
  destruct (str_eqb k u); [trivial|].
  destruct (str_ltb u k); [intros H; now right|].
  destruct (map_emplace u p r) as [r' b]; simpl in *.
  intros [<-|H]; [now left|right; auto].
Qed.

Lemma in_map_erase (u : uuid_type) (t : transfermap_type)
  (x : uuid_type * transferprops_type) :
  In x (map_erase u t) -> In x t.
Proof.
  induction t as [|[k v] r IH]; simpl; [trivial|].
  destruct (str_eqb k u); [intros H; now right|].
  intros [<-|H]; [now left|right; auto].
Qed.

Lemma map_erase_emplace (u : uuid_type) (p : transferprops_type) (t : transfermap_type) :
  map_find u t = None -> map_erase u (fst (map_emplace u p t)) = t.
Proof.
  induction t as [|[k v] r IH]; simpl.
  - now rewrite str_eqb_refl.
  - destruct (str_eqb k u) eqn:E; [discriminate|]. intros H.
    destruct (str_ltb u k).
    + simpl. now rewrite str_eqb_refl.
    + specialize (IH H). destruct (map_emplace u p r) as [r' b]; simpl in *.
      rewrite E. now rewrite IH.
Qed.

Lemma map_find_in (u : uuid_type) (t : transfermap_type) (p : transferprops_type) :
  map_find u t = Some p -> In (u, p) t.
Proof.
  induction t as [|[k v] r IH]; simpl; [discriminate|].
  destruct (str_eqb k u) eqn:E.
  - intros [= ->]. apply str_eqb_eq in E. subst. now left.
  - intros H. right. auto.
Qed.

Lemma map_find_none_in (u : uuid_type) (t : transfermap_type) :
  map_find u t = None <-> ~ In u (map fst t).
Proof.
  induction t as [|[k v] r IH]; simpl; [tauto|].
  destruct (str_eqb k u) eqn:E.
  - apply str_eqb_eq in E. subst. split; [discriminate|]. intros H. exfalso. apply H. now left.
  - rewrite IH. split.
    + intros H [->|H']; [|tauto]. now rewrite str_eqb_refl in E.
    + tauto.
Qed.

Lemma map_find_erase_same (u : uuid_type) (t : transfermap_type) :
  keys_unique t -> map_find u (map_erase u t) = None.
Proof.
  unfold keys_unique. induction t as [|[k v] r IH]; simpl; [reflexivity|].
  intros H. inversion H as [|? ? Hk Hr]; subst.
  destruct (str_eqb k u) eqn:E.
  - apply str_eqb_eq in E. subst. now apply map_find_none_in.
  - simpl. rewrite E. auto.
Qed.

Lemma map_find_erase_other (u u' : uuid_type) (t : transfermap_type) :
  u' <> u -> map_find u' (map_erase u t) = map_find u' t.
Proof.
  intros N. induction t as [|[k v] r IH]; simpl; [reflexivity|].
  destruct (str_eqb k u) eqn:E.
  - apply str_eqb_eq in E. subst. now rewrite (str_eqb_neq u u') by congruence.
  - simpl. now rewrite IH.
Qed.


Lemma find_path_some (p : str) (t : transfermap_type) (vt : uuid_type * transferprops_type) :
  find_path p t = Some vt -> In vt t /\ path (snd vt) = p.
Proof.
  unfold find_path. intros H. apply find_some in H. destruct H as [H1 H2].
  split; [assumption|]. now apply str_eqb_eq.
Qed.

Lemma find_path_none (p : str) (t : transfermap_type) (x : uuid_type * transferprops_type) :
  find_path p t = None -> In x t -> path (snd x) <> p.
Proof.
  unfold find_path. intros H Hx E.
  pose proof (find_none _ _ H x Hx) as F. cbn beta in F.
  rewrite E, str_eqb_refl in F. discriminate.
Qed.

Lemma find_path_in (p : str) (t : transfermap_type) (x : uuid_type * transferprops_type) :
  In x t -> path (snd x) = p -> exists vt, find_path p t = Some vt.
Proof.
  intros Hx E. destruct (find_path p t) as [vt|] eqn:F; [now exists vt|].
  exfalso. exact (find_path_none p t x F Hx E).
Qed.

Section Registry.
Context {P : Platform}.

(** What a [requestFileWrite] that returned has done. *)
Lemma requestFileWrite_ret (u : uuid_type) (path0 : str) (mode : openmode_type)
  (s s' : sigma) (r : result_type) :
  ETDServer.requestFileWrite u path0 mode s = (Ret r, s') ->
  map_find u (transfers (fst s)) = None
  /\ ETDServer.allowedModes mode = true
  /\ find_path (normalize_path path0) (transfers (fst s)) = None
  /\ exists fd w1,
       etdc_file (normalize_path path0) (ETDServer.open_flags mode) (Some 420) (snd s)
         = (inr fd, w1)
       /\ fd_lseek fd 0 SEEK_END w1 = (snd r, snd s') /\ fst r = u
       /\ fst s' = mk_etd_state
                     (fst (map_emplace u (mk_transferprops fd (normalize_path path0) mode false)
                             (transfers (fst s))))
                     (dataaddrs (fst s)).
Proof.
  intros H. pose proof (requestFileWrite_cases u path0 mode s) as C. cbv zeta in C.
  destruct (map_find u (transfers (fst s))); [rewrite C in H; discriminate|].
  destruct (ETDServer.allowedModes mode); [|rewrite C in H; discriminate].
  destruct (find_path (normalize_path path0) (transfers (fst s)));
    [rewrite C in H; discriminate|].
  destruct (etdc_file _ _ (Some 420) (snd s)) as [[e|fd] w1]; [rewrite C in H; discriminate|].
  destruct (fd_lseek fd 0 SEEK_END w1) as [fsize w2] eqn:E.
  rewrite C in H. injection H as <- <-.
  repeat split; try reflexivity. exists fd, w1. repeat split; assumption.
Qed.

(** What a [requestFileRead] that returned has done. *)
Lemma requestFileRead_ret (u : uuid_type) (path0 : str) (a : Z)
  (s s' : sigma) (r : result_type) :
  ETDServer.requestFileRead u path0 a s = (Ret r, s') ->
  map_find u (transfers (fst s)) = None
  /\ (forall vt, find_path (normalize_path path0) (transfers (fst s)) = Some vt ->
                 openMode (snd vt) = Read)
  /\ exists fd,
       fst s' = mk_etd_state
                  (fst (map_emplace u (mk_transferprops fd (normalize_path path0) Read false)
                          (transfers (fst s))))
                  (dataaddrs (fst s))
       /\ fst r = u.
Proof.
  intros H. pose proof (requestFileRead_cases u path0 a s) as C. cbv zeta in C.
  destruct (map_find u (transfers (fst s))); [rewrite C in H; discriminate|].
  destruct (find_path (normalize_path path0) (transfers (fst s))) as [vt|] eqn:F.
  - destruct (openmode_eqb (openMode (snd vt)) Read) eqn:M; [|rewrite C in H; discriminate].
    destruct (etdc_file _ _ None (snd s)) as [[e|fd] w1]; [rewrite C in H; discriminate|].
    destruct (fd_lseek fd 0 SEEK_END w1) as [sz w2].
    destruct (fd_lseek fd a SEEK_SET w2) as [pos w3].
    destruct (pos =? -1); [destruct C as [e C]; rewrite C in H; discriminate|].
    rewrite C in H. injection H as <- <-.
    split; [reflexivity|]. split.
    + intros vt' [= <-]. destruct (openMode (snd vt)); try discriminate; reflexivity.
    + exists fd. split; reflexivity.
  - destruct (etdc_file _ _ None (snd s)) as [[e|fd] w1]; [rewrite C in H; discriminate|].
    destruct (fd_lseek fd 0 SEEK_END w1) as [sz w2].
    destruct (fd_lseek fd a SEEK_SET w2) as [pos w3].
    destruct (pos =? -1); [destruct C as [e C]; rewrite C in H; discriminate|].
    rewrite C in H. injection H as <- <-.
    split; [reflexivity|]. split; [discriminate|].
    exists fd. split; reflexivity.
Qed.

(** What [removeUUID] with the server's own uuid does, case by case. *)
Lemma removeUUID_cases (u : uuid_type) (s : sigma) :
  match map_find u (transfers (fst s)) with
  | None => ETDServer.removeUUID u u s = (Ret false, s)
  | Some transfer =>
      if lock transfer then ETDServer.removeUUID u u s = (Spin, s)
      else ETDServer.removeUUID u u s
           = (Ret true,
              (mk_etd_state (map_erase u (transfers (fst s))) (dataaddrs (fst s)),
               fd_close (fd transfer) (snd s)))
  end.
Proof.
  unfold ETDServer.removeUUID, bind, ETDCASSERT, get_transfers, ret, spin.
  rewrite str_eqb_refl.
  destruct (map_find u (transfers (fst s))) as [tr|]; [|reflexivity].
  destruct (lock tr); reflexivity.
Qed.

End Registry.

Lemma find_path_emplace (p : str) (u : uuid_type) (q : transferprops_type)
  (t : transfermap_type) (vt : uuid_type * transferprops_type) :
  find_path p (fst (map_emplace u q t)) = Some vt ->
  vt = (u, q) \/ find_path p t = Some vt.
Proof.
  unfold find_path. induction t as [|[k v] r IH]; simpl.
  - destruct (str_eqb (path q) p); [intros [= <-]; now left|discriminate].
  - destruct (str_eqb k u); [intros H; now right|].
    destruct (str_ltb u k).
    + simpl. destruct (str_eqb (path q) p); [intros [= <-]; now left|].
      intros H. now right.
    + destruct (map_emplace u q r) as [r' b]; simpl in *.
      destruct (str_eqb (path v) p); [intros H; now right|]. exact IH.
Qed.

Lemma etd_state_eta (st : etd_state) : mk_etd_state (transfers st) (dataaddrs st) = st.
Proof. now destruct st. Qed.

Lemma exclusive_emplace (u : uuid_type) (q : transferprops_type) (t : transfermap_type) :
  exclusive t ->
  (forall x, In x t -> path (snd x) = path q ->
             openMode (snd x) = Read /\ openMode q = Read) ->
  exclusive (fst (map_emplace u q t)).
Proof.
  intros E N x y Hx Hy Hp.
  apply in_map_emplace in Hx. apply in_map_emplace in Hy.
  destruct Hx as [->|Hx], Hy as [->|Hy].
  - now left.
  - right. cbn [snd] in *. destruct (N y Hy (eq_sym Hp)). split; assumption.
  - right. cbn [snd] in *. destruct (N x Hx Hp). split; assumption.
  - exact (E x y Hx Hy Hp).
Qed.

Lemma exclusive_erase (u : uuid_type) (t : transfermap_type) :
  exclusive t -> exclusive (map_erase u t).
Proof.
  intros E x y Hx Hy. apply E; eapply in_map_erase; eassumption.
Qed.

Lemma openmode_eqb_eq (a b : openmode_type) : openmode_eqb a b = true <-> a = b.
Proof. destruct a, b; simpl; split; congruence. Qed.

Section RegistryTheorems.
Context {P : Platform}.

(** X1.  A registration that succeeded is undone by [removeUUID]: the call
    returns [true], the descriptor of the record is closed, and the shared
    state is the one from before the registration. *)
Theorem registration_undone_by_removeUUID
  (u : uuid_type) (path0 : str) (mode : openmode_type) (a : Z)
  (s s' : sigma) (r : result_type) :
  ETDServer.requestFileWrite u path0 mode s = (Ret r, s')
  \/ ETDServer.requestFileRead u path0 a s = (Ret r, s') ->
  exists transfer,
    map_find u (transfers (fst s')) = Some transfer
    /\ path transfer = normalize_path path0
    /\ ETDServer.removeUUID u u s' = (Ret true, (fst s, fd_close (fd transfer) (snd s'))).
Proof.
  intros [H|H].
  - apply requestFileWrite_ret in H.
    destruct H as (Hu & _ & _ & fd0 & w1 & _ & _ & _ & Hs).
    exists (mk_transferprops fd0 (normalize_path path0) mode false).
    pose proof (removeUUID_cases u s') as C. rewrite Hs in *. cbn [transfers dataaddrs] in *.
    rewrite (map_find_emplace u _ _ Hu) in *. cbn [lock fd] in C.
    rewrite (map_erase_emplace u _ _ Hu), etd_state_eta in C.
    split; [reflexivity|]. split; [reflexivity|]. exact C.
  - apply requestFileRead_ret in H.
    destruct H as (Hu & _ & fd0 & Hs & _).
    exists (mk_transferprops fd0 (normalize_path path0) Read false).
    pose proof (removeUUID_cases u s') as C. rewrite Hs in *. cbn [transfers dataaddrs] in *.
    rewrite (map_find_emplace u _ _ Hu) in *. cbn [lock fd] in C.
    rewrite (map_erase_emplace u _ _ Hu), etd_state_eta in C.
    split; [reflexivity|]. split; [reflexivity|]. exact C.
Qed.

(** X2.  The registry keeps its paths exclusive: when two records of
    different servers for one path are both readers before a
    [requestFileWrite], a [requestFileRead] or a [removeUUID], they are so
    after it, whatever the outcome of the call. *)
Theorem registry_keeps_paths_exclusive
  (u : uuid_type) (path0 : str) (mode : openmode_type) (a : Z) (s : sigma) :
  exclusive (transfers (fst s)) ->
  exclusive (transfers (fst (snd (ETDServer.requestFileWrite u path0 mode s))))
  /\ exclusive (transfers (fst (snd (ETDServer.requestFileRead u path0 a s))))
  /\ exclusive (transfers (fst (snd (ETDServer.removeUUID u u s)))).
Proof.
  intros E. split; [|split].
  - pose proof (requestFileWrite_cases u path0 mode s) as C. cbv zeta in C.
    destruct (map_find u (transfers (fst s))); [rewrite C; exact E|].
    destruct (ETDServer.allowedModes mode); [|rewrite C; exact E].
    destruct (find_path (normalize_path path0) (transfers (fst s))) eqn:F;
      [rewrite C; exact E|].
    destruct (etdc_file _ _ (Some 420) (snd s)) as [[e|fd0] w1]; [rewrite C; exact E|].
    destruct (fd_lseek fd0 0 SEEK_END w1) as [fsize w2].
    rewrite C. cbn [fst snd transfers].
    apply exclusive_emplace; [exact E|].
    intros x Hx Hp. exfalso. exact (find_path_none _ _ x F Hx Hp).
  - pose proof (requestFileRead_cases u path0 a s) as C. cbv zeta in C.
    destruct (map_find u (transfers (fst s))); [rewrite C; exact E|].
    destruct (match find_path (normalize_path path0) (transfers (fst s)) with
              | Some vt => openmode_eqb (openMode (snd vt)) Read
              | None => true end) eqn:F; [|rewrite C; exact E].
    destruct (etdc_file _ _ None (snd s)) as [[e|fd0] w1]; [rewrite C; exact E|].
    destruct (fd_lseek fd0 0 SEEK_END w1) as [sz w2].
    destruct (fd_lseek fd0 a SEEK_SET w2) as [pos w3].
    destruct (pos =? -1); [destruct C as [e C]; rewrite C; exact E|].
    rewrite C. cbn [fst snd transfers].
    apply exclusive_emplace; [exact E|].
    intros x Hx Hp. cbn [path openMode] in *. split; [|reflexivity].
    destruct (find_path_in _ _ x Hx Hp) as [vt Hvt]. rewrite Hvt in F.
    apply openmode_eqb_eq in F.
    destruct (find_path_some _ _ _ Hvt) as [Hin Hpath].
    destruct (E vt x Hin Hx) as [->|[_ R]]; [congruence|assumption|assumption].
  - pose proof (removeUUID_cases u s) as C.
    destruct (map_find u (transfers (fst s))) as [tr|]; [|rewrite C; exact E].
    destruct (lock tr); rewrite C; [exact E|].
    cbn [fst snd transfers]. now apply exclusive_erase.
Qed.

(** X3.  One transfer per server: once a registration has succeeded, every
    further [requestFileWrite] and [requestFileRead] of the same server is
    refused as busy, and nothing changes. *)
Theorem one_transfer_per_server
  (u : uuid_type) (path0 : str) (mode : openmode_type) (a : Z)
  (s s' : sigma) (r : result_type) :
  ETDServer.requestFileWrite u path0 mode s = (Ret r, s')
  \/ ETDServer.requestFileRead u path0 a s = (Ret r, s') ->
  forall (path1 : str) (mode1 : openmode_type) (a1 : Z),
    ETDServer.requestFileWrite u path1 mode1 s' = (Throw (Assertion msg_busy_write), s')
    /\ ETDServer.requestFileRead u path1 a1 s' = (Throw (Assertion msg_busy_read), s').
Proof.
  intros H path1 mode1 a1.
  assert (B : exists tr, map_find u (transfers (fst s')) = Some tr).
  { destruct H as [H|H].
    - apply requestFileWrite_ret in H.
      destruct H as (Hu & _ & _ & fd0 & w1 & _ & _ & _ & Hs).
      rewrite Hs. cbn [transfers]. eexists. now apply map_find_emplace.
    - apply requestFileRead_ret in H.
      destruct H as (Hu & _ & fd0 & Hs & _).
      rewrite Hs. cbn [transfers]. eexists. now apply map_find_emplace. }
  destruct B as [tr B].
  pose proof (requestFileWrite_cases u path1 mode1 s') as C1.
  pose proof (requestFileRead_cases u path1 a1 s') as C2.
  cbv zeta in C1, C2. rewrite B in C1, C2. split; assumption.
Qed.

(** X4.  A path that has been registered for writing is closed to every
    other server: a [requestFileWrite] with a mode that is allowed, and a
    [requestFileRead], for a path with the same normal form are refused
    with the message that the path is in use, and nothing changes. *)
Theorem written_path_is_closed_to_others
  (u : uuid_type) (path0 : str) (mode : openmode_type)
  (s s' : sigma) (r : result_type) (u1 : uuid_type) (path1 : str) :
  ETDServer.requestFileWrite u path0 mode s = (Ret r, s') ->
  map_find u1 (transfers (fst s')) = None ->
  normalize_path path1 = normalize_path path0 ->
  (forall mode1, ETDServer.allowedModes mode1 = true ->
     ETDServer.requestFileWrite u1 path1 mode1 s'
     = (Throw (Assertion (msg_path_in_use_write path1)), s'))
  /\ (forall a1,
        ETDServer.requestFileRead u1 path1 a1 s'
        = (Throw (Assertion (msg_path_in_use_read path1)), s')).
Proof.
  intros H Hu1 Hn.
  apply requestFileWrite_ret in H.
  destruct H as (Hu & Hm & Hf & fd0 & w1 & _ & _ & _ & Hs).
  set (q := mk_transferprops fd0 (normalize_path path0) mode false) in *.
  assert (Hin : In (u, q) (transfers (fst s'))).
  { rewrite Hs. cbn [transfers]. apply map_find_in. now apply map_find_emplace. }
  destruct (find_path_in (normalize_path path0) _ (u, q) Hin eq_refl) as [vt Hvt].
  assert (Evt : vt = (u, q)).
  { pose proof Hvt as Hvt'. rewrite Hs in Hvt'. cbn [transfers] in Hvt'.
    destruct (find_path_emplace _ _ _ _ _ Hvt') as [E|E]; [exact E|congruence]. }
  subst vt. split.
  - intros mode1 Hm1.
    pose proof (requestFileWrite_cases u1 path1 mode1 s') as C. cbv zeta in C.
    rewrite Hu1, Hm1, Hn, Hvt in C. exact C.
  - intros a1.
    pose proof (requestFileRead_cases u1 path1 a1 s') as C. cbv zeta in C.
    rewrite Hu1, Hn, Hvt in C. cbn [snd] in C. unfold q in C. cbn [openMode] in C.
    destruct mode; try discriminate Hm; exact C.
Qed.


(** X6.  When the record of the server is not locked by another thread, the
    destructor returns; after it the server has no record, and the records
    of the other servers and the data addresses are as they were. *)
Theorem dtor_leaves_no_record (u : uuid_type) (s : sigma) :
  keys_unique (transfers (fst s)) ->
  (forall tr, map_find u (transfers (fst s)) = Some tr -> lock tr = false) ->
  exists s',
    ETDServer.dtor u s = (Ret tt, s')
    /\ map_find u (transfers (fst s')) = None
    /\ (forall u1, u1 <> u ->
          map_find u1 (transfers (fst s')) = map_find u1 (transfers (fst s)))
    /\ dataaddrs (fst s') = dataaddrs (fst s).
Proof.
  intros K Hl. unfold ETDServer.dtor.
  pose proof (removeUUID_cases u s) as C.
  destruct (map_find u (transfers (fst s))) as [tr|] eqn:F.
  - rewrite (Hl tr eq_refl) in C. rewrite C. eexists. split; [reflexivity|].
    cbn [fst snd transfers dataaddrs].
    split; [now apply map_find_erase_same|].
    split; [|reflexivity]. intros u1 N. now apply map_find_erase_other.
  - rewrite C. exists s. repeat split; auto.
Qed.

End RegistryTheorems.

(** ** The registry, on the platform in memory *)

Lemma registration_undone_by_removeUUID_witness :
  run_read_4 = (Ret (uuid_a, 6), snd run_read_4)
  /\ exists transfer,
       map_find uuid_a (transfers (fst (snd run_read_4))) = Some transfer
       /\ path transfer = file_x
       /\ @ETDServer.removeUUID Mem.platform uuid_a uuid_a (snd run_read_4)
          = (Ret true, (state_empty, Mem.fd_close (fd transfer) (snd (snd run_read_4)))).
Proof.
  assert (E : run_read_4 = (Ret (uuid_a, 6), snd run_read_4)) by (vm_compute; reflexivity).
  split; [exact E|].
  exact (@registration_undone_by_removeUUID Mem.platform uuid_a file_x Resume 4
           (state_empty, world_x) (snd run_read_4) (uuid_a, 6) (or_intror E)).
Defined.

Lemma registry_keeps_paths_exclusive_witness :
  exclusive (transfers state_reading)
  /\ exclusive (transfers (fst (snd (@ETDServer.requestFileWrite Mem.platform uuid_a file_x
                                       Resume (state_reading, world_reading)))))
  /\ exclusive (transfers (fst (snd (@ETDServer.requestFileRead Mem.platform uuid_a file_x
                                       4 (state_reading, world_reading)))))
  /\ exclusive (transfers (fst (snd (@ETDServer.removeUUID Mem.platform uuid_a uuid_a
                                       (state_reading, world_reading))))).
Proof.
  assert (E : exclusive (transfers state_reading)).
  { intros x y [<-|[]] [<-|[]] _. left. reflexivity. }
  split; [exact E|].
  exact (@registry_keeps_paths_exclusive Mem.platform uuid_a file_x Resume 4
           (state_reading, world_reading) E).
Defined.

Lemma one_transfer_per_server_witness :
  run_write_x = (Ret (uuid_a, 10), snd run_write_x)
  /\ @ETDServer.requestFileWrite Mem.platform uuid_a (L "/tmp/y") New (snd run_write_x)
     = (Throw (Assertion msg_busy_write), snd run_write_x)
  /\ @ETDServer.requestFileRead Mem.platform uuid_a (L "/tmp/y") 0 (snd run_write_x)
     = (Throw (Assertion msg_busy_read), snd run_write_x).
Proof.
  assert (E : run_write_x = (Ret (uuid_a, 10), snd run_write_x)) by (vm_compute; reflexivity).
  split; [exact E|].
  exact (@one_transfer_per_server Mem.platform uuid_a file_x Resume 0
           (state_empty, world_x) (snd run_write_x) (uuid_a, 10) (or_introl E)
           (L "/tmp/y") New 0).
Defined.

Lemma written_path_is_closed_to_others_witness :
  run_write_x = (Ret (uuid_a, 10), snd run_write_x)
  /\ map_find uuid_b (transfers (fst (snd run_write_x))) = None
  /\ (forall mode1, ETDServer.allowedModes mode1 = true ->
        @ETDServer.requestFileWrite Mem.platform uuid_b file_x mode1 (snd run_write_x)
        = (Throw (Assertion (msg_path_in_use_write file_x)), snd run_write_x))
  /\ (forall a1,
        @ETDServer.requestFileRead Mem.platform uuid_b file_x a1 (snd run_write_x)
        = (Throw (Assertion (msg_path_in_use_read file_x)), snd run_write_x)).
Proof.
  assert (E : run_write_x = (Ret (uuid_a, 10), snd run_write_x)) by (vm_compute; reflexivity).
  assert (H : map_find uuid_b (transfers (fst (snd run_write_x))) = None)
    by (vm_compute; reflexivity).
  split; [exact E|]. split; [exact H|].
  exact (@written_path_is_closed_to_others Mem.platform uuid_a file_x Resume
           (state_empty, world_x) (snd run_write_x) (uuid_a, 10) uuid_b file_x
           E H eq_refl).
Defined.


Lemma dtor_leaves_no_record_witness :
  keys_unique (transfers state_reading)
  /\ exists s',
       @ETDServer.dtor Mem.platform uuid_b (state_reading, world_reading) = (Ret tt, s')
       /\ map_find uuid_b (transfers (fst s')) = None
       /\ (forall u1, u1 <> uuid_b ->
             map_find u1 (transfers (fst s')) = map_find u1 (transfers state_reading))
       /\ dataaddrs (fst s') = dataaddrs state_reading.
Proof.
  assert (K : keys_unique (transfers state_reading)).
  { unfold keys_unique. cbn [state_reading transfers map fst].
    constructor; [intros []|constructor]. }
  split; [exact K|].
  apply (@dtor_leaves_no_record Mem.platform uuid_b (state_reading, world_reading) K).
  intros tr Htr. vm_compute in Htr. injection Htr as <-. reflexivity.
Defined.

(* ====================================================================== *)
(** ** The transfer calls: modes, data servers, and what was moved *)
(* ====================================================================== *)

Lemma gtb_false (a : Z) : a <= 0 -> (a >? 0) = false.
Proof. intros H. rewrite Z.gtb_ltb. apply Z.ltb_ge. lia. Qed.

Lemma len_app (a b : str) : len (a ++ b) = len a + len b.
Proof. unfold len. rewrite length_app. lia. Qed.

Lemma len_nonneg (a : str) : 0 <= len a.
Proof. unfold len. lia. Qed.

Lemma len_pos (a : str) : a <> [] -> 0 < len a.
Proof. destruct a; [congruence|]. intros _. unfold len. simpl. lia. Qed.

Section Transfers.
Context {P : Platform}.

(** [connect_first] over addresses that all refuse, and over such addresses
    followed by one that accepts. *)
Lemma connect_first_refused (st : etd_state) :
  forall (addrs : dataaddrlist_type) (w w1 : World) (tried notes : str),
    refused addrs w notes w1 ->
    (ETDServer.connect_first addrs tried (st, w) = (Ret (None, tried ++ notes), (st, w1)))
    /\ forall (good : sockname_type) (rest : dataaddrlist_type) (conn : fd_t) (w2 : World),
         mk_client (get_protocol good) (get_host good) (get_port good) w1 = (inr conn, w2) ->
         ETDServer.connect_first (addrs ++ good :: rest) tried (st, w)
         = (Ret (Some conn, tried ++ notes), (st, w2)).
Proof.
  intros addrs w w1 tried notes R. revert tried.
  induction R as [w|addr rest0 e w w1 w2 notes Hc R IH]; intros tried.
  - rewrite app_nil_r. split; [reflexivity|].
    intros good rest conn w2 Hg. cbn [app ETDServer.connect_first fst snd].
    rewrite Hg. reflexivity.
  - destruct (IH (tried ++ note_of addr e)) as [IH1 IH2].
    rewrite <- app_assoc in IH1. unfold note_of in IH1, IH2 |- *. split.
    + cbn [ETDServer.connect_first fst snd]. rewrite Hc. cbv zeta. exact IH1.
    + intros good rest conn w3 Hg. cbn [app ETDServer.connect_first fst snd].
      rewrite Hc. cbv zeta. rewrite <- app_assoc in IH2. exact (IH2 good rest conn w3 Hg).
Qed.

(** X7.  The data servers are tried in the order given and the first that
    accepts is the one used; when every one refuses, [sendFile] and [getFile]
    throw, with what was noted for each address in the message, and the
    shared state is as it was. *)
Theorem data_servers_are_tried_in_order
  (st : etd_state) (bad : dataaddrlist_type) (w w1 : World) (notes : str) :
  refused bad w notes w1 ->
  (forall (good : sockname_type) (rest : dataaddrlist_type) (conn : fd_t) (w2 : World),
     mk_client (get_protocol good) (get_host good) (get_port good) w1 = (inr conn, w2) ->
     ETDServer.connect_first (bad ++ good :: rest) [] (st, w)
     = (Ret (Some conn, notes), (st, w2)))
  /\ (forall (u other : uuid_type) (todo : Z) (fuel : nat) (tr : transferprops_type),
        0 < todo -> map_find u (transfers st) = Some tr -> lock tr = false ->
        (openMode tr = Read ->
         ETDServer.sendFile u u other todo bad (st, w)
         = (Throw (Assertion (msg_connect_failed notes)), (st, w1)))
        /\ (ETDServer.allowedWriteModes (openMode tr) = true ->
            ETDServer.getFile fuel u other u todo bad (st, w)
            = (Throw (Assertion (msg_connect_failed notes)), (st, w1)))).
Proof.
  intros R. destruct (connect_first_refused st bad w w1 [] notes R) as [C1 C2].
  cbn [app] in C1, C2. split; [exact C2|].
  intros u other todo fuel tr Ht Hf Hl. split; intros Hm.
  - unfold ETDServer.sendFile, bind, ETDCASSERT, get_transfers, ret, throw.
    rewrite str_eqb_refl, (gtb_true todo) by lia. cbn [fst snd].
    rewrite Hf, Hl, Hm. cbn [openmode_eqb]. rewrite C1. reflexivity.
  - unfold ETDServer.getFile, bind, ETDCASSERT, get_transfers, ret, throw.
    rewrite str_eqb_refl, (gtb_true todo) by lia. cbn [fst snd].
    rewrite Hf, Hl, Hm. rewrite C1. reflexivity.
Qed.


(** One pass of the loop of [getFile]. *)
Lemma getFile_loop_pass (fuel : nat) (conn dst : fd_t) (todo : Z) (s : sigma) :
  todo > 0 ->
  ETDServer.getFile_loop (S fuel) conn dst todo s
  = let (r, w1) := fd_read conn bufSz (snd s) in
    if nread r >? 0 then
      let (wr, w2) := fd_write dst (bytes_of r) w1 in
      if wr =? nread r
      then ETDServer.getFile_loop fuel conn dst (todo - nread r) (fst s, w2)
      else (Throw assert_write_getFile, (fst s, w2))
    else ETDServer.getFile_loop fuel conn dst todo (fst s, w1).
Proof.
  intros Ht. cbn [ETDServer.getFile_loop]. rewrite (gtb_true _ Ht).
  unfold bind, sys, ETDCASSERTX, ret, throw.
  destruct (fd_read conn bufSz (snd s)) as [r w1]. cbn [fst snd].
  destruct r as [[|c b]|].
  - reflexivity.
  - cbn [nread bytes_of fst snd]. rewrite (gtb_true (len (c :: b)))
      by (apply Z.lt_gt; apply len_pos; discriminate).
    destruct (fd_write dst (c :: b) w1) as [wr w2]. cbn [fst snd].
    fold (len (c :: b)). destruct (wr =? len (c :: b)); reflexivity.
  - reflexivity.
Qed.

(** X9.  [getFile] does not notice the end of the stream: while bytes are
    still wanted, a read that brings nothing, or fails, is followed by the
    next read, so that over a connection that has nothing more to give the
    loop does not end. *)
Theorem getFile_does_not_see_the_end_of_the_stream
  (conn dst : fd_t) (todo : Z) (st : etd_state) (w : World) (r : option str) :
  0 < todo ->
  fd_read conn bufSz w = (r, w) -> nread r <= 0 ->
  forall fuel : nat,
    ETDServer.getFile_loop fuel conn dst todo (st, w) = (OutOfFuel, (st, w)).
Proof.
  intros Ht Hr Hn. induction fuel as [|fuel IH].
  - cbn [ETDServer.getFile_loop]. rewrite (gtb_true todo) by lia. reflexivity.
  - rewrite getFile_loop_pass by lia. cbn [fst snd]. rewrite Hr.
    rewrite (gtb_false (nread r)) by lia. exact IH.
Qed.

Lemma getFile_loop_returns (conn dst : fd_t) :
  forall (fuel : nat) (todo : Z) (s s' : sigma),
    ETDServer.getFile_loop fuel conn dst todo s = (Ret tt, s') ->
    fst s' = fst s
    /\ exists chunks,
         received conn dst chunks (snd s) (snd s')
         /\ ((todo <= 0 /\ chunks = [])
             \/ (chunks <> []
                 /\ len (List.concat (removelast chunks)) < todo
                    <= len (List.concat chunks))).
Proof.
  induction fuel as [|fuel IH]; intros todo s s' E.
  - cbn [ETDServer.getFile_loop] in E.
    destruct (Z_gt_le_dec todo 0) as [Ht|Ht].
    + rewrite (gtb_true _ Ht) in E. discriminate.
    + rewrite (gtb_false _ Ht) in E. injection E as <-.
      split; [reflexivity|]. exists []. split; [constructor|]. left. split; [lia|reflexivity].
  - destruct (Z_gt_le_dec todo 0) as [Ht|Ht].
    + rewrite getFile_loop_pass in E by exact Ht.
      destruct (fd_read conn bufSz (snd s)) as [r w1] eqn:Hr.
      destruct (nread r >? 0) eqn:Hn.
      * destruct (fd_write dst (bytes_of r) w1) as [wr w2] eqn:Hw.
        destruct (wr =? nread r) eqn:Hwr; [|discriminate].
        apply Z.eqb_eq in Hwr. subst wr.
        destruct r as [b|]; [|discriminate Hn]. cbn [nread bytes_of] in *.
        assert (Hb : b <> []) by (intros ->; discriminate Hn).
        apply IH in E. destruct E as [E1 (chunks & Hrec & Hc)]. cbn [fst snd] in *.
        split; [exact E1|]. exists (b :: chunks).
        split; [econstructor; eassumption|]. right.
        split; [discriminate|].
        destruct Hc as [[Hle ->]|(Hne & Hlt)].
        -- cbn [removelast List.concat]. rewrite app_nil_r.
           change (len []) with 0. lia.
        -- assert (Er : removelast (b :: chunks) = b :: removelast chunks)
             by (destruct chunks; [congruence|reflexivity]).
           rewrite Er. cbn [List.concat]. rewrite !len_app. lia.
      * apply IH in E. destruct E as [E1 (chunks & Hrec & Hc)]. cbn [fst snd] in *.
        split; [exact E1|]. exists chunks.
        split; [|destruct Hc as [[Hle _]|Hc]; [lia|right; exact Hc]].
        eapply received_none; [exact Hr| |exact Hrec].
        rewrite Z.gtb_ltb in Hn. apply Z.ltb_ge in Hn. exact Hn.
    + cbn [ETDServer.getFile_loop] in E. rewrite (gtb_false _ Ht) in E.
      injection E as <-.
      split; [reflexivity|]. exists []. split; [constructor|]. left. split; [lia|reflexivity].
Qed.

(** X10.  What a [getFile] of a positive number of bytes that returns has
    done: it found its record free and in a mode for writing, connected,
    issued one write of the header, wrote to the file every piece the
    connection delivered until [todo] bytes or more had come, and issued one
    write of the acknowledgement.  The last piece is written whole, so the
    file may get more than [todo] bytes; what the write of the header and of
    the acknowledgement returned is not looked at. *)
Theorem getFile_returns (fuel : nat) (u srcUUID : uuid_type) (todo : Z)
  (addrs : dataaddrlist_type) (s s' : sigma) (b : bool) :
  todo > 0 ->
  ETDServer.getFile fuel u srcUUID u todo addrs s = (Ret b, s') ->
  b = true /\ fst s' = fst s
  /\ exists transfer conn tried w1 hw w2 chunks w3 aw,
       map_find u (transfers (fst s)) = Some transfer
       /\ lock transfer = false
       /\ ETDServer.allowedWriteModes (openMode transfer) = true
       /\ ETDServer.connect_first addrs [] s = (Ret (Some conn, tried), (fst s, w1))
       /\ fd_write conn (header_of_getFile srcUUID todo) w1 = (hw, w2)
       /\ received conn (fd transfer) chunks w2 w3
       /\ len (List.concat (removelast chunks)) < todo <= len (List.concat chunks)
       /\ fd_write conn (L "y") w3 = (aw, snd s').
Proof.
  intros Ht E. unfold ETDServer.getFile in E.
  unfold bind at 1 in E. unfold ETDCASSERT in E. rewrite str_eqb_refl in E.
  cbn [ret] in E. rewrite (gtb_true _ Ht) in E.
  unfold bind at 1 in E. unfold get_transfers in E.
  destruct (map_find u (transfers (fst s))) as [transfer|] eqn:Hf; [|discriminate].
  destruct (lock transfer) eqn:Hl; [discriminate|].
  unfold bind at 1 in E.
  destruct (ETDServer.allowedWriteModes (openMode transfer)) eqn:Hm; [|discriminate].
  cbn [ETDCASSERT ret] in E.
  unfold bind at 1 in E.
  destruct (connect_first_returns addrs [] s) as ([conn tried] & w1 & Hc).
  rewrite Hc in E. destruct conn as [conn|]; [|discriminate].
  unfold bind at 1 in E. unfold sys at 1 in E. cbn [fst snd] in E.
  fold (header_of_getFile srcUUID todo) in E.
  destruct (fd_write conn (header_of_getFile srcUUID todo) w1) as [hw w2] eqn:Hh.
  unfold bind at 1 in E.
  destruct (ETDServer.getFile_loop fuel conn (fd transfer) todo (fst s, w2))
    as [o s2] eqn:Hloop.
  destruct o as [[]|e| |]; try discriminate.
  apply getFile_loop_returns in Hloop as [E1 (chunks & Hrec & Hch)].
  cbn [fst snd] in *.
  unfold bind at 1 in E. unfold sys at 1 in E.
  destruct (fd_write conn (L "y") (snd s2)) as [aw w4] eqn:Ha.
  cbn [ret] in E. injection E as <- <-. cbn [fst snd].
  split; [reflexivity|]. split; [exact E1|].
  exists transfer, conn, tried, w1, hw, w2, chunks, (snd s2), aw.
  split; [first [exact Hf|reflexivity]|]. split; [first [exact Hl|reflexivity]|].
  split; [first [exact Hm|reflexivity]|].
  split; [first [exact Hc|reflexivity]|]. split; [exact Hh|]. split; [exact Hrec|].
  split; [destruct Hch as [[Hle _]|[_ Hch]]; [lia|exact Hch]|exact Ha].
Qed.

End Transfers.

Section Pull.
Context {P : Platform}.

Lemma to_size_t_small (z : Z) : 0 <= z < size_max -> to_size_t z = z.
Proof. intros H. unfold to_size_t. now apply Z.mod_small. Qed.

Lemma to_size_t_neg (z : Z) : - size_max <= z < 0 -> to_size_t z = size_max + z.
Proof.
  intros H. unfold to_size_t. symmetry.
  apply (Z.mod_unique z size_max (-1) (size_max + z)); lia.
Qed.

Lemma len_skipn (k : Z) (buf : str) :
  0 <= k <= len buf -> len (skipn (Z.to_nat k) buf) = len buf - k.
Proof. intros H. unfold len in *. rewrite length_skipn. lia. Qed.

(** One pass of the loop of [pull_n] with bytes waiting in the buffer. *)
Lemma pull_n_loop_pass_waiting (fuel : nat) (n : Z) (src dst : fd_t)
  (rdPos : Z) (buf : str) (s : sigma) :
  n > 0 -> 0 <= rdPos <= len buf ->
  ETDDataServer.pull_n_loop (S fuel) n src dst rdPos buf s
  = let waiting := skipn (Z.to_nat rdPos) buf in
    let nRead := Z.min (to_size_t (n - len waiting)) (to_size_t (bufSz - len buf)) in
    let (r, w1) := fd_read src nRead (snd s) in
    match r with
    | None =>
        (Throw (Assertion (L "Failed to read bytes from client - " ++ strerror_errno w1)),
         (fst s, w1))
    | Some b =>
        if to_size_t (len (waiting ++ b)) >? 0 then
          let (wr, w2) := fd_write dst (waiting ++ b) w1 in
          if wr =? to_size_t (len (waiting ++ b))
          then ETDDataServer.pull_n_loop fuel (to_size_t (n - len (waiting ++ b))) src dst 0 []
                 (fst s, w2)
          else (Throw assert_write_pull, (fst s, w2))
        else (Throw assert_nothing_pulled, (fst s, w1))
    end.
Proof.
  intros Hn Hr. cbn [ETDDataServer.pull_n_loop].
  rewrite (gtb_true n) by lia. cbv zeta.
  replace (n + rdPos - len buf) with (n - len (skipn (Z.to_nat rdPos) buf))
    by (rewrite len_skipn by lia; lia).
  set (nRead := Z.min _ _).
  unfold bind, sys, ETDCASSERT, ETDCASSERTX, ret, throw.
  destruct (fd_read src nRead (snd s)) as [r w1]. cbn [fst snd].
  destruct r as [b|]; [|reflexivity].
  cbn [nread bytes_of fst snd].
  assert (Hge : (len b >=? 0) = true).
  { unfold len. rewrite Z.geb_leb. apply Z.leb_le. lia. }
  rewrite Hge. cbn [fst snd].
  assert (Es : skipn (Z.to_nat rdPos) (buf ++ b) = skipn (Z.to_nat rdPos) buf ++ b).
  { rewrite skipn_app.
    replace (Z.to_nat rdPos - List.length buf)%nat with 0%nat by (unfold len in Hr; lia).
    reflexivity. }
  assert (El : len (buf ++ b) - rdPos = len (skipn (Z.to_nat rdPos) buf ++ b)).
  { rewrite !len_app, len_skipn by lia. lia. }
  rewrite Es, El.
  destruct (to_size_t (len (skipn (Z.to_nat rdPos) buf ++ b)) >? 0); [|reflexivity].
  cbn [fst snd].
  destruct (fd_write dst (skipn (Z.to_nat rdPos) buf ++ b) w1) as [wr w2]. cbn [fst snd].
  destruct (wr =? to_size_t (len (skipn (Z.to_nat rdPos) buf ++ b))); reflexivity.
Qed.

Lemma pull_n_loop_returns (src dst : fd_t) :
  reads_are_bounded ->
  forall (fuel : nat) (n : Z) (s s' : sigma),
    0 <= n < size_max ->
    ETDDataServer.pull_n_loop fuel n src dst 0 [] s = (Ret tt, s') ->
    fst s' = fst s
    /\ exists bytes, pulled src dst [] bytes (snd s) (snd s') /\ len bytes = n.
Proof.
  intros B. induction fuel as [|fuel IH]; intros n s s' Hn E.
  - cbn [ETDDataServer.pull_n_loop] in E.
    destruct (Z_gt_le_dec n 0) as [Ht|Ht].
    + rewrite (gtb_true _ Ht) in E. discriminate.
    + rewrite (gtb_false _ Ht) in E. injection E as <-.
      split; [reflexivity|]. exists []. split; [constructor|]. change (len []) with 0. lia.
  - destruct (Z_gt_le_dec n 0) as [Ht|Ht].
    + rewrite pull_n_loop_pass in E by lia. cbv zeta in E.
      destruct (fd_read src (Z.min n bufSz) (snd s)) as [r w1] eqn:Hr.
      destruct r as [b|]; [|discriminate].
      pose proof (B _ _ _ _ _ Hr) as Hb. pose proof (len_nonneg b) as Hb0.
      assert (Hmin : Z.min n bufSz <= n) by lia.
      rewrite (to_size_t_small (len b)) in E by lia.
      destruct (len b >? 0) eqn:Hpos; [|discriminate].
      destruct (fd_write dst b w1) as [wr w2] eqn:Hw.
      destruct (wr =? len b) eqn:Hwr; [|discriminate].
      apply Z.eqb_eq in Hwr. subst wr.
      rewrite (to_size_t_small (n - len b)) in E by lia.
      apply IH in E; [|lia]. destruct E as [E1 (rest & Hp & Hl)]. cbn [fst snd] in *.
      split; [exact E1|]. exists (([] ++ b) ++ rest). split.
      * econstructor; [exact Hr|exact Hw|exact Hp].
      * cbn [app]. rewrite len_app. lia.
    + cbn [ETDDataServer.pull_n_loop] in E. rewrite (gtb_false _ Ht) in E.
      injection E as <-.
      split; [reflexivity|]. exists []. split; [constructor|]. change (len []) with 0. lia.
Qed.

(** X11.  What a [pull_n] that returns has done when no more bytes were
    waiting in the buffer than it was asked for: the bytes that were waiting
    went to the file with the first write, every read was followed by one
    write of the bytes it brought, exactly [n] bytes were written in all, and
    one write of the acknowledgement to the connection was issued. *)
Theorem pull_n_returns (fuel : nat) (n : Z) (src dst : fd_t) (rdPos : Z) (buf : str)
  (s s' : sigma) :
  reads_are_bounded ->
  0 <= n < size_max -> 0 <= rdPos <= len buf -> len buf <= bufSz ->
  len buf - rdPos <= n ->
  ETDDataServer.pull_n fuel n src dst rdPos buf s = (Ret tt, s') ->
  fst s' = fst s
  /\ exists bytes w1 aw,
       pulled src dst (skipn (Z.to_nat rdPos) buf) bytes (snd s) w1
       /\ len bytes = n
       /\ fd_write src (L "y") w1 = (aw, snd s').
Proof.
  intros B Hn Hr Hsz Hw E. unfold ETDDataServer.pull_n in E.
  unfold bind at 1 in E.
  destruct (ETDDataServer.pull_n_loop fuel n src dst rdPos buf s) as [o s1] eqn:Hloop.
  destruct o as [[]|e| |]; try discriminate.
  unfold bind, sys, ret in E.
  destruct (fd_write src (L "y") (snd s1)) as [aw w4] eqn:Ha.
  injection E as <-. cbn [fst snd].
  assert (G : fst s1 = fst s
              /\ exists bytes, pulled src dst (skipn (Z.to_nat rdPos) buf) bytes (snd s) (snd s1)
                               /\ len bytes = n).
  { pose proof (len_skipn rdPos buf Hr) as Hlw.
    destruct fuel as [|fuel].
    - cbn [ETDDataServer.pull_n_loop] in Hloop.
      destruct (Z_gt_le_dec n 0) as [Ht|Ht].
      + rewrite (gtb_true _ Ht) in Hloop. discriminate.
      + rewrite (gtb_false _ Ht) in Hloop. injection Hloop as <-.
        split; [reflexivity|]. exists [].
        assert (Ew : skipn (Z.to_nat rdPos) buf = []).
        { apply length_zero_iff_nil. unfold len in *. lia. }
        rewrite Ew. split; [constructor|]. change (len []) with 0. lia.
    - destruct (Z_gt_le_dec n 0) as [Ht|Ht].
      + rewrite pull_n_loop_pass_waiting in Hloop by lia. cbv zeta in Hloop.
        set (waiting := skipn (Z.to_nat rdPos) buf) in *.
        rewrite (to_size_t_small (n - len waiting)) in Hloop by lia.
        rewrite (to_size_t_small (bufSz - len buf)) in Hloop
          by (pose proof (len_nonneg buf); unfold size_max, bufSz in *; lia).
        destruct (fd_read src _ (snd s)) as [r w1] eqn:Hrd.
        destruct r as [b|]; [|discriminate].
        pose proof (B _ _ _ _ _ Hrd) as Hb. pose proof (len_nonneg b) as Hb0.
        assert (Hlen : len (waiting ++ b) = len waiting + len b) by apply len_app.
        assert (Hmin : len b <= n - len waiting) by lia.
        rewrite (to_size_t_small (len (waiting ++ b))) in Hloop by lia.
        destruct (len (waiting ++ b) >? 0) eqn:Hpos; [|discriminate].
        destruct (fd_write dst (waiting ++ b) w1) as [wr w2] eqn:Hwr.
        destruct (wr =? len (waiting ++ b)) eqn:Hq; [|discriminate].
        apply Z.eqb_eq in Hq. subst wr.
        rewrite (to_size_t_small (n - len (waiting ++ b))) in Hloop by lia.
        apply (pull_n_loop_returns src dst B) in Hloop; [|lia].
        destruct Hloop as [E1 (rest & Hp & Hl)]. cbn [fst snd] in *.
        split; [exact E1|]. exists ((waiting ++ b) ++ rest). split.
        * econstructor; [exact Hrd|exact Hwr|exact Hp].
        * rewrite len_app. lia.
      + cbn [ETDDataServer.pull_n_loop] in Hloop. rewrite (gtb_false _ Ht) in Hloop.
        injection Hloop as <-.
        split; [reflexivity|]. exists [].
        assert (Ew : skipn (Z.to_nat rdPos) buf = []).
        { apply length_zero_iff_nil. unfold len in *. lia. }
        rewrite Ew. split; [constructor|]. change (len []) with 0. lia. }
  destruct G as [G1 (bytes & G2 & G3)].
  split; [exact G1|]. exists bytes, (snd s1), aw. repeat split; assumption.
Qed.

(** X12.  When more bytes are waiting in the buffer than [pull_n] was asked
    for, the count wraps around: the pass asks the connection for as many
    bytes as the buffer still has room for, writes the bytes that were waiting
    and the bytes just read to the file, and goes on with a count that is
    [2^64] less than what was written beyond [n], instead of stopping. *)
Theorem pull_n_count_wraps_around (fuel : nat) (n : Z) (src dst : fd_t)
  (rdPos : Z) (buf b : str) (s : sigma) (w1 w2 : World) :
  0 < n -> 0 <= rdPos <= len buf -> len buf <= bufSz ->
  n < len buf - rdPos ->
  fd_read src (bufSz - len buf) (snd s) = (Some b, w1) ->
  len b <= bufSz - len buf ->
  fd_write dst (skipn (Z.to_nat rdPos) buf ++ b) w1 = (len buf - rdPos + len b, w2) ->
  let left := size_max + n - (len buf - rdPos + len b) in
  ETDDataServer.pull_n_loop (S fuel) n src dst rdPos buf s
  = ETDDataServer.pull_n_loop fuel left src dst 0 [] (fst s, w2)
  /\ n < len buf - rdPos + len b
  /\ bufSz < left.
Proof.
  intros Hn Hr Hsz Hmore Hrd Hb Hw left.
  pose proof (len_skipn rdPos buf Hr) as Hlw.
  pose proof (len_nonneg b) as Hb0.
  assert (Hbuf : bufSz < size_max - bufSz) by (unfold bufSz, size_max; lia).
  split; [|subst left; lia].
  rewrite pull_n_loop_pass_waiting by lia. cbv zeta.
  set (waiting := skipn (Z.to_nat rdPos) buf) in *.
  assert (E1 : to_size_t (n - len waiting) = size_max + (n - len waiting))
    by (apply to_size_t_neg; lia).
  rewrite E1, (to_size_t_small (bufSz - len buf)) by lia.
  rewrite Z.min_r by lia. rewrite Hrd.
  assert (Hlen : len (waiting ++ b) = len buf - rdPos + len b)
    by (rewrite len_app; lia).
  rewrite Hlen, (to_size_t_small (len buf - rdPos + len b)) by lia.
  rewrite (gtb_true (len buf - rdPos + len b)) by lia.
  rewrite Hw, Z.eqb_refl.
  rewrite (to_size_t_neg (n - (len buf - rdPos + len b))) by lia.
  subst left. f_equal. lia.
Qed.

End Pull.

(** ** The transfer calls, on the platform in memory *)

Lemma data_servers_are_tried_in_order_witness :
  @refused Mem.platform [peer] world_x
     (note_of peer (StdExn (L "Connection refused")) ++ []) world_x
  /\ (forall (good : sockname_type) (rest : dataaddrlist_type) (conn : fd_t) (w2 : Mem.world),
        Mem.mk_client (get_protocol good) (get_host good) (get_port good) world_x
          = (inr conn, w2) ->
        @ETDServer.connect_first Mem.platform ([peer] ++ good :: rest) []
           (state_reading, world_x)
        = (Ret (Some conn, note_of peer (StdExn (L "Connection refused")) ++ []),
           (state_reading, w2)))
  /\ (@ETDServer.sendFile Mem.platform uuid_b uuid_b uuid_a 5 [peer] (state_reading, world_x)
      = (Throw (Assertion (msg_connect_failed
                             (note_of peer (StdExn (L "Connection refused")) ++ []))),
         (state_reading, world_x))).
Proof.
  assert (R : @refused Mem.platform [peer] world_x
                 (note_of peer (StdExn (L "Connection refused")) ++ []) world_x).
  { apply (@refused_cons Mem.platform peer [] (StdExn (L "Connection refused"))
             world_x world_x world_x []); [reflexivity|constructor]. }
  destruct (@data_servers_are_tried_in_order Mem.platform state_reading [peer]
              world_x world_x _ R) as [H1 H2].
  split; [exact R|]. split; [exact H1|].
  destruct (H2 uuid_b uuid_a 5 0%nat (mk_transferprops 0%nat file_x Read false))
    as [H3 _]; [lia|reflexivity|reflexivity|].
  exact (H3 eq_refl).
Defined.


Lemma getFile_does_not_see_the_end_of_the_stream_witness :
  0 < 5 /\ Mem.fd_read 0%nat bufSz world_eof = (Some [], world_eof)
  /\ forall fuel : nat,
       @ETDServer.getFile_loop Mem.platform fuel 0%nat 1%nat 5 (state_writing, world_eof)
       = (OutOfFuel, (state_writing, world_eof)).
Proof.
  assert (H : Mem.fd_read 0%nat bufSz world_eof = (Some [], world_eof)) by reflexivity.
  split; [lia|]. split; [exact H|].
  apply (@getFile_does_not_see_the_end_of_the_stream Mem.platform 0%nat 1%nat 5
           state_writing world_eof (Some [])); [lia|exact H|cbn; lia].
Defined.

Lemma getFile_returns_witness :
  5 > 0 /\ get_5 = (Ret true, snd get_5)
  /\ Mem.lookup file_x (Mem.files (snd (snd get_5))) = Some (L "0123456789abcdefg")
  /\ (true = true /\ fst (snd get_5) = state_resuming
      /\ exists transfer conn tried w1 hw w2 chunks w3 aw,
           map_find uuid_b (transfers state_resuming) = Some transfer
           /\ lock transfer = false
           /\ ETDServer.allowedWriteModes (openMode transfer) = true
           /\ @ETDServer.connect_first Mem.platform [peer] []
                (state_resuming, world_getting [L "abc"; L "defg"])
              = (Ret (Some conn, tried), (state_resuming, w1))
           /\ Mem.fd_write conn (header_of_getFile uuid_a 5) w1 = (hw, w2)
           /\ @received Mem.platform conn (fd transfer) chunks w2 w3
           /\ len (List.concat (removelast chunks)) < 5 <= len (List.concat chunks)
           /\ Mem.fd_write conn (L "y") w3 = (aw, snd (snd get_5))).
Proof.
  assert (E : get_5 = (Ret true, snd get_5)) by (vm_compute; reflexivity).
  split; [lia|]. split; [exact E|]. split; [vm_compute; reflexivity|].
  apply (@getFile_returns Mem.platform 3%nat uuid_b uuid_a 5 [peer]
           (state_resuming, world_getting [L "abc"; L "defg"]) (snd get_5) true);
    [lia|exact E].
Defined.

(* ====================================================================== *)
(** ** The preferred match, and the lines of a buffer *)
(* ====================================================================== *)

Section MatcherHeads.
Variable subj : str.

Lemma ms_cat_cons (r1 r2 : regex) (s : str) (c : caps) (y : str * caps)
  (ys : list (str * caps)) :
  ms subj r1 s c = y :: ys ->
  ms subj (Cat r1 r2) s c
  = ms subj r2 (fst y) (snd y)
    ++ flat_map (fun sc : str * caps => ms subj r2 (fst sc) (snd sc)) ys.
Proof. intros H. cbn [ms]. rewrite H. reflexivity. Qed.

Lemma ms_cat_head (r1 r2 : regex) (s : str) (c : caps) (y z : str * caps) :
  (exists ys, ms subj r1 s c = y :: ys) ->
  (exists zs, ms subj r2 (fst y) (snd y) = z :: zs) ->
  exists tl, ms subj (Cat r1 r2) s c = z :: tl.
Proof.
  intros [ys H1] [zs H2]. rewrite (ms_cat_cons _ _ _ _ _ _ H1), H2.
  eexists. reflexivity.
Qed.

Lemma ms_grp_head (n : nat) (r : regex) (s : str) (c : caps) (y : str * caps) :
  (exists ys, ms subj r s c = y :: ys) ->
  exists tl, ms subj (Grp n r) s c = (fst y, cap_set n (consumed s (fst y)) (snd y)) :: tl.
Proof. intros [ys H]. cbn [ms]. rewrite H. eexists. reflexivity. Qed.

Lemma ms_nil (r : regex) (s : str) (c : caps) :
  (forall x, ~ In x (ms subj r s c)) -> ms subj r s c = [].
Proof.
  intros H. destruct (ms subj r s c) as [|x l]; [reflexivity|].
  exfalso. apply (H x). now left.
Qed.

(** A repeated class is greedy: the preferred match takes the whole run. *)
Lemma rep_cls_greedy (p : ascii -> bool) :
  forall (w : str) (fuel lo : nat) (rest : str) (c : caps),
    forallb p w = true -> stops p rest ->
    (lo <= List.length w <= fuel)%nat ->
    exists tl,
      rep (fun s1 c1 => ms subj (Cls p) s1 (cap_clear [] c1)) fuel lo None (w ++ rest) c
      = (rest, c) :: tl.
Proof.
  induction w as [|a w IH]; intros fuel lo rest c Hw Hs Hl.
  - assert (lo = 0%nat) by (simpl in Hl; lia). subst lo. cbn [app].
    destruct fuel as [|fuel]; [exists []; reflexivity|].
    cbn [rep]. exists [].
    destruct rest as [|b rest]; [reflexivity|].
    cbn [ms]. cbn [stops] in Hs. rewrite Hs. reflexivity.
  - cbn [forallb] in Hw. apply andb_true_iff in Hw as [Ha Hw].
    destruct fuel as [|fuel]; [simpl in Hl; lia|].
    cbn [rep app ms]. rewrite Ha. cbn [flat_map fst snd].
    replace (List.length (w ++ rest) =? List.length (a :: w ++ rest))%nat with false
      by (symmetry; apply Nat.eqb_neq; simpl; lia).
    rewrite andb_false_r, cap_clear_nil, app_nil_r. cbn [option_map].
    destruct (IH fuel (Nat.pred lo) rest c Hw Hs) as [tl E]; [simpl in Hl; lia|].
    cbn [ms] in E. rewrite E. eexists. reflexivity.
Qed.

Lemma ms_rep_cls_head (p : ascii -> bool) (lo : nat) (w rest : str) (c : caps) :
  forallb p w = true -> stops p rest -> (lo <= List.length w)%nat ->
  exists tl, ms subj (Rep lo None (Cls p)) (w ++ rest) c = (rest, c) :: tl.
Proof.
  intros Hw Hs Hl. cbn [ms groups].
  apply rep_cls_greedy; [exact Hw|exact Hs|]. rewrite length_app. lia.
Qed.

Lemma stops_eol_line (l rest : str) : line_ok l -> stops is_eol (l ++ rest).
Proof.
  intros [Hne Hl]. destruct l as [|a l]; [congruence|].
  cbn [app stops]. cbn [forallb] in Hl. apply andb_true_iff in Hl as [Ha _].
  unfold not_eol in Ha. now apply negb_true_iff in Ha.
Qed.

Lemma stops_eol_free (t : str) : forallb not_eol t = true -> stops is_eol t.
Proof.
  destruct t as [|a t]; [intros _; exact I|]. cbn [forallb stops]. intros H.
  apply andb_true_iff in H as [Ha _]. unfold not_eol in Ha. now apply negb_true_iff in Ha.
Qed.

Lemma stops_not_eol (e rest : str) :
  e <> [] -> forallb is_eol e = true -> stops not_eol (e ++ rest).
Proof.
  intros Hne He. destruct e as [|a e]; [congruence|].
  cbn [app stops]. cbn [forallb] in He. apply andb_true_iff in He as [Ha _].
  unfold not_eol. now rewrite Ha.
Qed.

(** [rxLine] at the start of a complete line. *)
Lemma ms_rxLine (l e rest : str) (c : caps) :
  complete_line (l, e) -> stops is_eol rest ->
  exists tl, ms subj rxLine (l ++ e ++ rest) c = (rest, cap_set 1 l c) :: tl.
Proof.
  intros (Hl1 & Hl2 & He1 & He2) Hs. cbn [fst snd] in *. unfold rxLine.
  apply ms_cat_head with (y := (e ++ rest, cap_set 1 l c)).
  - destruct (ms_grp_head 1 (Plus (Cls (fun a => negb (is_eol a)))) (l ++ e ++ rest) c
                (e ++ rest, c)) as [tl E].
    + apply ms_rep_cls_head; [exact Hl2|now apply stops_not_eol|].
      destruct l; [congruence|simpl; lia].
    + cbn [fst snd] in E. rewrite consumed_app in E. eauto.
  - cbn [fst snd]. apply ms_rep_cls_head; [exact He2|exact Hs|].
    destruct e; [congruence|simpl; lia].
Qed.

(** [rxLine] does not match in a text without a line end. *)
Lemma ms_rxLine_none (t : str) (c : caps) :
  forallb not_eol t = true -> ms subj rxLine t c = [].
Proof.
  intros Ht. apply ms_nil. intros x H. unfold rxLine in H.
  apply in_ms_cat in H as (y & Hy & Hx).
  apply ms_suffix in Hy as [w1 E1].
  apply in_ms_rep_cls in Hx as (w & E & Hw & Hl & _).
  destruct w as [|a w]; [simpl in Hl; lia|].
  cbn [forallb] in Hw. apply andb_true_iff in Hw as [Ha _].
  rewrite E1, E in Ht. rewrite forallb_app in Ht. apply andb_true_iff in Ht as [_ Ht].
  cbn [app forallb] in Ht. apply andb_true_iff in Ht as [Hn _].
  unfold not_eol in Hn. rewrite Ha in Hn. discriminate.
Qed.

Lemma regex_search_from_head (r : regex) (skipped s s' : str) (c : caps)
  (tl : list (str * caps)) :
  ms subj r s [] = (s', c) :: tl ->
  regex_search_from subj r skipped s = Some (skipped, consumed s s', s', c).
Proof. intros H. destruct s; cbn [regex_search_from]; rewrite H; reflexivity. Qed.

Lemma search_rxLine_none :
  forall (t skipped : str),
    forallb not_eol t = true -> regex_search_from subj rxLine skipped t = None.
Proof.
  induction t as [|a t IH]; intros skipped Ht.
  - cbn [regex_search_from]. now rewrite ms_rxLine_none.
  - cbn [regex_search_from]. rewrite ms_rxLine_none by exact Ht.
    cbn [forallb] in Ht. apply andb_true_iff in Ht as [_ Ht]. now apply IH.
Qed.

Lemma stops_wire (ls : list (str * str)) (t : str) :
  Forall complete_line ls -> forallb not_eol t = true -> stops is_eol (wire ls ++ t).
Proof.
  intros Hls Ht. destruct ls as [|[l e] r].
  - now apply stops_eol_free.
  - inversion Hls as [|? ? (Hl1 & Hl2 & _) _]; subst. cbn [wire fst] in *.
    rewrite <- app_assoc. apply stops_eol_line. split; assumption.
Qed.

Lemma regex_iter_rxLine :
  forall (ls : list (str * str)) (t : str) (fuel : nat),
    Forall complete_line ls -> forallb not_eol t = true ->
    (List.length ls < fuel)%nat ->
    regex_iter fuel subj rxLine (wire ls ++ t) = line_matches ls t.
Proof.
  induction ls as [|[l e] r IH]; intros t fuel Hls Ht Hf.
  - destruct fuel as [|fuel]; [simpl in Hf; lia|].
    cbn [wire app regex_iter line_matches]. now rewrite search_rxLine_none.
  - destruct fuel as [|fuel]; [simpl in Hf; lia|].
    inversion Hls as [|? ? Hle Hr]; subst.
    cbn [wire regex_iter line_matches]. rewrite <- !app_assoc.
    destruct (ms_rxLine l e (wire r ++ t) [] Hle) as [tl E];
      [now apply stops_wire|].
    rewrite (regex_search_from_head _ _ _ _ _ _ E).
    replace (consumed (l ++ e ++ wire r ++ t) (wire r ++ t)) with (l ++ e)
      by (rewrite (app_assoc l e), consumed_app; reflexivity).
    destruct Hle as (Hl1 & _). cbn [fst] in Hl1.
    destruct (l ++ e) as [|a m] eqn:Em; [destruct l; [congruence|discriminate]|].
    rewrite IH; [reflexivity|exact Hr|exact Ht|simpl in Hf; lia].
Qed.

End MatcherHeads.

Lemma length_wire_le (ls : list (str * str)) :
  Forall complete_line ls -> (List.length ls <= List.length (wire ls))%nat.
Proof.
  induction 1 as [|[l e] r (Hl & _) Hr IH]; [simpl; lia|].
  cbn [wire List.length fst] in *. rewrite !length_app.
  destruct l; [congruence|simpl; lia].
Qed.

Lemma end_of_last_snoc (subj : str) (front : list (str * str * caps))
  (m s' : str) (c : caps) :
  end_of_last subj (front ++ [(m, s', c)]) = (List.length subj - List.length s')%nat.
Proof. unfold end_of_last. rewrite rev_app_distr. reflexivity. Qed.

Lemma line_matches_snoc (t : str) :
  forall ls : list (str * str),
    ls <> [] -> exists front m c, line_matches ls t = front ++ [(m, t, c)].
Proof.
  induction ls as [|[l e] r IH]; intros Hne; [congruence|].
  destruct r as [|x r].
  - exists [], (l ++ e), (cap_set 1 l []). reflexivity.
  - destruct IH as (front & m & c & E); [discriminate|].
    exists ((l ++ e, wire (x :: r) ++ t, cap_set 1 l []) :: front), m, c.
    cbn [line_matches] in *. rewrite E. reflexivity.
Qed.

Lemma end_of_last_line_matches (ls : list (str * str)) (t : str) :
  end_of_last (wire ls ++ t) (line_matches ls t) = List.length (wire ls).
Proof.
  destruct ls as [|x r]; [reflexivity|].
  destruct (line_matches_snoc t (x :: r)) as (front & m & c & E); [discriminate|].
  rewrite E, end_of_last_snoc, length_app. lia.
Qed.

Lemma getReplies_wire (ls : list (str * str)) (t : str) :
  Forall complete_line ls -> forallb not_eol t = true ->
  getReplies (wire ls ++ t) = (map fst ls, List.length (wire ls))
  /\ skipn (snd (getReplies (wire ls ++ t))) (wire ls ++ t) = t.
Proof.
  intros Hls Ht.
  assert (G : getReplies (wire ls ++ t) = (map fst ls, List.length (wire ls))).
  { unfold getReplies, regex_iterator.
    rewrite regex_iter_rxLine;
      [|exact Hls|exact Ht|pose proof (length_wire_le ls Hls); rewrite length_app; lia].
    f_equal.
    - clear Hls. induction ls as [|[l e] r IH]; [reflexivity|].
      cbn [line_matches map fst snd]. rewrite sub_str_set. f_equal. exact IH.
    - apply end_of_last_line_matches. }
  split; [exact G|]. rewrite G. cbn [snd].
  rewrite skipn_app, skipn_all, Nat.sub_diag. reflexivity.
Qed.

(** X13.  [getReplies] gives the complete lines of the buffer, in order
    and without their line ends, and the position after the last line end:
    the bytes of a line that has not been finished yet are left for the
    next pass. *)
Theorem getReplies_splits_lines (ls : list (str * str)) (t : str) :
  Forall complete_line ls -> forallb not_eol t = true ->
  getReplies (wire ls ++ t) = (map fst ls, List.length (wire ls))
  /\ skipn (snd (getReplies (wire ls ++ t))) (wire ls ++ t) = t.
Proof. exact (getReplies_wire ls t). Qed.

(* ====================================================================== *)
(** ** Replies that arrive in pieces *)
(* ====================================================================== *)

Lemma is_eol_LF : is_eol LF = true.
Proof. reflexivity. Qed.

Lemma complete_lf_lines (ls : list str) :
  Forall line_ok ls -> Forall complete_line (lf_lines ls).
Proof.
  induction 1 as [|l r [H1 H2] Hr IH]; [constructor|].
  cbn [lf_lines map]. constructor; [|exact IH].
  unfold complete_line. cbn [fst snd]. split; [exact H1|]. split; [exact H2|].
  split; [discriminate|reflexivity].
Qed.

Lemma map_fst_lf_lines (ls : list str) : map fst (lf_lines ls) = ls.
Proof.
  unfold lf_lines. rewrite map_map. cbn [fst]. apply map_id.
Qed.

Lemma lf_lines_app (a b : list str) : lf_lines (a ++ b) = lf_lines a ++ lf_lines b.
Proof. unfold lf_lines. apply map_app. Qed.

Lemma wire_app (a b : list (str * str)) : wire (a ++ b) = wire a ++ wire b.
Proof.
  induction a as [|[l e] r IH]; [reflexivity|].
  cbn [app wire]. rewrite IH, <- !app_assoc. reflexivity.
Qed.

Lemma wire_lf_nil (ls : list str) : wire (lf_lines ls) = [] -> ls = [].
Proof. destruct ls as [|l r]; [reflexivity|]. cbn [lf_lines map wire]. destruct l; discriminate. Qed.

(** A text without line ends that is followed by something and makes up
    complete lines with it, is the start of the first line. *)
Lemma not_eol_LF_false (t : str) : forallb not_eol (t ++ [LF]) = true -> False.
Proof.
  rewrite forallb_app. cbn [forallb]. unfold not_eol at 2. rewrite is_eol_LF.
  cbn [negb andb]. rewrite andb_false_r. discriminate.
Qed.

(** Where lines on the wire are cut in two, the first part is some
    complete lines and the start of the next. *)
Lemma wire_split :
  forall (ls : list str) (x y : str),
    Forall line_ok ls ->
    wire (lf_lines ls) = x ++ y ->
    exists ls1 ls2 t,
      ls = ls1 ++ ls2 /\ x = wire (lf_lines ls1) ++ t
      /\ forallb not_eol t = true /\ t ++ y = wire (lf_lines ls2).
Proof.
  induction ls as [|l r IH]; intros x y Hls E.
  - cbn [lf_lines map wire] in E. symmetry in E. apply app_eq_nil in E as [-> ->].
    exists [], [], []. repeat split; reflexivity.
  - inversion Hls as [|? ? [Hl1 Hl2] Hr]; subst.
    cbn [lf_lines map wire] in E. fold (lf_lines r) in E.
    apply app_eq_app in E as [q [[E1 E2]|[E1 E2]]].
    + (* the cut is in the line *)
      exists [], (l :: r), x. cbn [app lf_lines map wire]. fold (lf_lines r).
      split; [reflexivity|]. split; [reflexivity|]. split.
      * rewrite E1, forallb_app in Hl2. now apply andb_true_iff in Hl2 as [H _].
      * rewrite E1, E2, <- app_assoc. reflexivity.
    + (* the cut is after the line *)
      destruct q as [|a q].
      * rewrite app_nil_r in E1. subst x. cbn [app] in E2.
        exists [], (l :: r), l. cbn [app lf_lines map wire]. fold (lf_lines r).
        split; [reflexivity|]. split; [reflexivity|]. split; [exact Hl2|].
        rewrite <- E2. reflexivity.
      * cbn [app] in E2. injection E2 as <- E2.
        destruct (IH q y Hr E2) as (ls1 & ls2 & t & -> & -> & Ht & Ey).
        exists (l :: ls1), ls2, t. cbn [app lf_lines map wire]. fold (lf_lines ls1).
        split; [reflexivity|]. split; [|split; assumption].
        rewrite E1, <- !app_assoc. reflexivity.
Qed.

Section LineLoopFacts.
Context {P : Platform}.
Variable V : Type.
Variable fin : V -> bool.
Variable step1 : str -> V -> exn + V.

Lemma run_lines_app_inv (a b : list str) (res : exn + V) :
  b <> [] ->
  forall v, run_lines V fin step1 (a ++ b) v = Some res ->
  exists v1, run_lines V fin step1 a v = Some (inr v1)
             /\ run_lines V fin step1 b v1 = Some res.
Proof.
  intros Hb. induction a as [|l a IH]; intros v H.
  - exists v. split; [reflexivity|exact H].
  - cbn [app run_lines] in *. destruct (fin v); [discriminate|].
    destruct (step1 l v) as [e|v'].
    + destruct (a ++ b) eqn:E; [|discriminate].
      apply app_eq_nil in E as [_ E]. congruence.
    + now apply IH.
Qed.

Lemma fold_lines_run (ls : list str) (v : V) (res : exn + V) :
  run_lines V fin step1 ls v = Some res ->
  fold_lines V fin step1 ls v
  = match res with inl e => inl e | inr v' => inr (v', []) end.
Proof.
  revert v. induction ls as [|l r IH]; intros v; cbn [run_lines fold_lines].
  - now intros [= <-].
  - destruct (fin v); [discriminate|]. destruct (step1 l v) as [e|v'].
    + destruct r; [now intros [= <-]|discriminate].
    + apply IH.
Qed.

Lemma run_lines_not_fin (l : str) (r : list str) (v : V) (res : exn + V) :
  run_lines V fin step1 (l :: r) v = Some res -> fin v = false.
Proof. cbn [run_lines]. destruct (fin v); [discriminate|reflexivity]. Qed.

Variable cap : Z.
Variable unprocessed_msg : str.

(** However the transport cuts a reply into pieces, the loop ends with what
    its lines come to, and with nothing left in the buffer. *)
Lemma line_loop_chunks (conn : fd_t) (st : etd_state) :
  forall (chunks : list str) (w w' : World),
    delivered conn chunks w w' ->
    forall (ls : list str) (buffer : str) (v : V) (res : exn + V) (fuel : nat),
      Forall line_ok ls ->
      forallb not_eol buffer = true ->
      buffer ++ List.concat chunks = wire (lf_lines ls) ->
      len (wire (lf_lines ls)) < cap ->
      run_lines V fin step1 ls v = Some res -> concluded V fin res ->
      (List.length chunks <= fuel)%nat ->
      line_loop V fin step1 cap unprocessed_msg fuel conn buffer v (st, w)
      = (loop_outcome V res, (st, w')).
Proof.
  induction 1 as [w|ch chunks w w1 w2 Hne Hrd Hd IH];
    intros ls buffer v res fuel Hls Hb E Hcap Hrun Hfin Hfuel.
  - cbn [List.concat] in E. rewrite app_nil_r in E.
    assert (ls = []).
    { destruct ls as [|l r]; [reflexivity|]. exfalso.
      cbn [lf_lines map wire] in E. rewrite E in Hb.
      rewrite forallb_app in Hb. apply andb_true_iff in Hb as [_ Hb].
      cbn [app forallb] in Hb. unfold not_eol at 1 in Hb. rewrite is_eol_LF in Hb.
      discriminate. }
    subst ls. cbn [lf_lines map wire] in E. subst buffer.
    cbn [run_lines] in Hrun. injection Hrun as <-. cbn [concluded] in Hfin.
    destruct fuel; cbn [line_loop]; rewrite Hfin; reflexivity.
  - cbn [List.concat] in E.
    assert (Hlen : len buffer + len ch + len (List.concat chunks) = len (wire (lf_lines ls))).
    { rewrite <- E, !len_app. lia. }
    pose proof (len_nonneg (List.concat chunks)) as H0.
    pose proof (len_pos ch Hne) as H1.
    assert (Hnf : fin v = false).
    { destruct ls as [|l r].
      - cbn [lf_lines map wire] in E. apply app_eq_nil in E as [_ E].
        apply app_eq_nil in E as [E _]. congruence.
      - eapply run_lines_not_fin; eassumption. }
    destruct fuel as [|fuel]; [simpl in Hfuel; lia|].
    cbn [line_loop]. rewrite Hnf.
    replace (len buffer <? cap) with true by (symmetry; apply Z.ltb_lt; lia).
    cbn [negb andb]. unfold bind at 1. unfold sys at 1. cbn [fst snd].
    rewrite (Hrd (cap - len buffer)) by lia.
    unfold bind at 1. unfold ETDCASSERT at 1. cbn [nread bytes_of].
    rewrite (gtb_true (len ch)) by lia. cbn [ret].
    rewrite app_assoc in E. symmetry in E.
    destruct (wire_split ls (buffer ++ ch) (List.concat chunks) Hls E)
      as (ls1 & ls2 & t & -> & Ex & Ht & Ey).
    apply Forall_app in Hls as [Hls1 Hls2].
    destruct (getReplies_wire (lf_lines ls1) t (complete_lf_lines ls1 Hls1) Ht) as [G1 G2].
    rewrite Ex, G1, map_fst_lf_lines.
    rewrite G1 in G2. cbn [snd] in G2.
    destruct ls2 as [|l2 ls2].
    + (* the last piece *)
      cbn [lf_lines map wire] in Ey. apply app_eq_nil in Ey as [-> Ey].
      assert (chunks = []).
      { inversion Hd as [|c0 cs ? ? ? Hc0]; [reflexivity|]. subst.
        cbn [List.concat] in Ey. apply app_eq_nil in Ey as [Ey _]. congruence. }
      subst chunks. inversion Hd; subst.
      rewrite app_nil_r in Hrun.
      rewrite (fold_lines_run ls1 v res Hrun).
      destruct res as [e|v']; [reflexivity|].
      unfold bind at 1. unfold ETDCASSERT at 1. cbn [ret].
      rewrite G2. cbn [concluded] in Hfin.
      destruct fuel; cbn [line_loop loop_outcome]; rewrite Hfin; reflexivity.
    + apply run_lines_app_inv in Hrun as (v1 & R1 & R2); [|discriminate].
      rewrite (fold_lines_run ls1 v (inr v1) R1).
      unfold bind at 1. unfold ETDCASSERT at 1. cbn [ret].
      rewrite G2.
      apply (IH (l2 :: ls2) t v1 res fuel Hls2 Ht Ey).
      * rewrite lf_lines_app, wire_app, len_app in Hcap.
        pose proof (len_nonneg (wire (lf_lines ls1))). lia.
      * exact R2.
      * exact Hfin.
      * simpl in Hfuel. lia.
Qed.

End LineLoopFacts.

Section DeliveredFacts.
Context {P : Platform}.

Lemma delivered_length (conn : fd_t) (chunks : list str) (w w' : World) :
  delivered conn chunks w w' -> Z.of_nat (List.length chunks) <= len (List.concat chunks).
Proof.
  induction 1 as [w|ch chunks w w1 w2 Hne Hrd Hd IH]; [cbn; unfold len; simpl; lia|].
  cbn [List.length List.concat]. rewrite len_app. pose proof (len_pos ch Hne). lia.
Qed.

End DeliveredFacts.

(* ====================================================================== *)
(** ** The lines of a reply *)
(* ====================================================================== *)

Lemma in_ms_opt (subj : str) (r : regex) (s : str) (c : caps) (x : str * caps) :
  In x (ms subj (Opt r) s c)
  <-> x = (s, c)
      \/ (In x (ms subj r s (cap_clear (groups r) c))
          /\ List.length (fst x) <> List.length s).
Proof.
  split.
  - intros H. cbn [ms Opt] in H. unfold Opt in H. cbn [ms] in H.
    apply rep_inv in H as [[_ E]|(fuel' & y & _ & _ & Hy & Hl & Hx)]; [now left|].
    right. cbn [Nat.pred option_map] in Hx.
    apply rep_inv in Hx as [[_ E]|(f2 & y2 & _ & Hh & _)]; [|congruence].
    subst x. destruct y. split; [exact Hy|]. now apply Hl.
  - intros [->|[Hx Hl]]; [apply ms_opt_skip|].
    apply ms_opt_take; [exact Hx|].
    apply ms_suffix in Hx as [w E]. rewrite E, length_app in *. lia.
Qed.

Lemma space_prefix_nil (w rest : str) (a : ascii) (t : str) :
  forallb is_space w = true -> not_space a = true -> a :: t = w ++ rest -> w = [].
Proof.
  intros Hw Ha E. destruct w as [|b w]; [reflexivity|].
  cbn [app forallb] in *. injection E as <- _.
  apply andb_true_iff in Hw as [Hb _]. unfold not_space in Ha. rewrite Hb in Ha.
  discriminate.
Qed.

Lemma rxReply_tail_info (subj : str) (i : str) (c : caps) :
  is_info i -> cap_get 2 c = None -> cap_get 3 c = None ->
  (exists c', In ([], c') (ms subj rxReply_tail (" "%char :: i) c))
  /\ forall c', In ([], c') (ms subj rxReply_tail (" "%char :: i) c) ->
       c' = cap_set 2 (" "%char :: i) (cap_set 3 i (cap_clear [3%nat] (cap_clear [2%nat; 3%nat] c))).
Proof.
  intros Hi H2 H3. destruct i as [|a t]; [destruct Hi|]. destruct Hi as [Ha Ht].
  unfold rxReply_tail. split.
  - set (c2 := cap_clear [2%nat; 3%nat] c).
    set (c3 := cap_set 3 (a :: t) (cap_clear [3%nat] c2)).
    exists (cap_set 2 (" "%char :: a :: t) c3).
    apply in_ms_cat. exists ([], cap_set 2 (" "%char :: a :: t) c3).
    split; [|apply in_ms_eol; split; reflexivity].
    apply ms_opt_take; [|cbn [fst List.length]; lia].
    apply in_ms_grp. exists ([], c3).
    split; [|cbn [fst snd]; rewrite consumed_all; reflexivity].
    apply in_ms_cat. exists (a :: t, c2). split.
    + apply in_ms_rep_cls. exists [" "%char]. cbn [fst snd].
      split; [reflexivity|]. split; [reflexivity|]. split; [simpl; lia|].
      split; [exact I|reflexivity].
    + cbn [fst snd]. apply ms_opt_take; [|cbn [fst List.length]; lia].
      apply in_ms_grp. exists ([], cap_clear [3%nat] c2).
      split; [|cbn [fst snd]; rewrite consumed_all; reflexivity].
      apply in_ms_cat. exists (t, cap_clear [3%nat] c2). split.
      * apply in_ms_cls. exists a. cbn [fst snd]. auto.
      * cbn [fst snd]. apply in_ms_rep_cls. exists t. cbn [fst snd].
        rewrite app_nil_r. split; [reflexivity|]. split; [exact Ht|].
        split; [lia|]. split; [exact I|reflexivity].
  - intros c' H.
    apply in_ms_cat in H as ([s1 c1] & H1 & H). cbn [fst snd] in H.
    apply in_ms_eol in H as [-> Ec]. injection Ec as ->.
    apply in_ms_opt in H1 as [E|[H1 _]]; [discriminate|].
    apply in_ms_grp in H1 as ([s2 c2] & H1 & E). cbn [fst snd] in E.
    injection E as <- ->. rewrite consumed_all.
    apply in_ms_cat in H1 as ([s3 c3] & G1 & H1). cbn [fst snd] in *.
    apply in_ms_rep_cls in G1 as (w & E & Hw & Hl & _ & Ec3). cbn [fst snd] in *. subst c3.
    destruct w as [|b w]; [simpl in Hl; lia|]. cbn [app forallb] in *.
    injection E as <- E. apply andb_true_iff in Hw as [_ Hw].
    pose proof (space_prefix_nil w s3 a t Hw Ha E) as ->. cbn [app] in E. subst s3.
    apply in_ms_opt in H1 as [E|[H1 _]]; [discriminate|].
    cbn [groups app] in H1.
    apply in_ms_grp in H1 as ([s4 c4] & H1 & E). cbn [fst snd] in E.
    injection E as <- ->. rewrite consumed_all.
    apply in_ms_cat in H1 as ([s5 c5] & G1 & H1). cbn [fst snd] in *.
    apply in_ms_cls in G1 as (a' & E & _ & Ec5). cbn [fst snd] in *. subst c5.
    apply in_ms_rep_cls in H1 as (w & _ & _ & _ & _ & Ec4). cbn [fst snd] in *. subst c4.
    reflexivity.
Qed.

Lemma rxReply_tail_bare (subj : str) (c c' : caps) :
  In ([], c') (ms subj rxReply_tail [] c) <-> c' = c.
Proof.
  unfold rxReply_tail. split.
  - intros H. apply in_ms_cat in H as ([s1 c1] & H1 & H). cbn [fst snd] in H.
    apply in_ms_eol in H as [-> Ec]. injection Ec as ->.
    apply in_ms_opt in H1 as [E|[H1 Hl]]; [now injection E as ->|].
    cbn [fst List.length] in Hl. congruence.
  - intros ->. apply in_ms_cat. exists ([], c). split; [apply ms_opt_skip|].
    apply in_ms_eol. split; reflexivity.
Qed.

Lemma rxReply_status_part (st rest : str) (x : str * caps) :
  is_status st -> (rest = [] \/ exists t, rest = " "%char :: t) ->
  In x (ms (st ++ rest) (Grp 1 (Alt (LitI (L "OK")) (LitI (L "ERR")))) (st ++ rest) [])
  <-> x = (rest, cap_set 1 st []).
Proof.
  intros Hst Hrest. split.
  - intros H. apply in_ms_grp in H as ([s1 c1] & H & ->). cbn [fst snd].
    apply in_ms_alt in H as [H|H];
      apply in_ms_LitI in H as (w & E & Hw & Hc); cbn [fst snd] in *; subst c1.
    + destruct Hst as [-> | ->].
      * pose proof (lower_same_length _ _ Hw) as Hl.
        apply app_eq_length in E as [E1 E2]; [|now symmetry]. subst w s1.
        rewrite consumed_app. reflexivity.
      * exfalso. destruct w as [|a w]; [discriminate Hw|].
        cbn [app L list_ascii_of_string] in E. injection E as <- E.
        vm_compute in Hw. discriminate Hw.
    + destruct Hst as [-> | ->].
      * exfalso. destruct w as [|a w]; [discriminate Hw|].
        cbn [app L list_ascii_of_string] in E. injection E as <- E.
        vm_compute in Hw. discriminate Hw.
      * pose proof (lower_same_length _ _ Hw) as Hl.
        apply app_eq_length in E as [E1 E2]; [|now symmetry]. subst w s1.
        rewrite consumed_app. reflexivity.
  - intros ->. apply in_ms_grp. exists (rest, []). split.
    + apply in_ms_alt. destruct Hst as [-> | ->]; [left|right];
        apply in_ms_LitI; eexists; cbn [fst snd]; eauto.
    + cbn [fst snd]. rewrite consumed_app. reflexivity.
Qed.

(** A reply line with a reason or an entry after the status. *)
Lemma rxReply_with_info (st i : str) :
  is_status st -> is_info i ->
  exists c, regex_match rxReply (st ++ " "%char :: i) = Some c
            /\ sub_str c 1 = st /\ sub_str c 2 = " "%char :: i /\ sub_str c 3 = i.
Proof.
  intros Hst Hi. set (subj := st ++ " "%char :: i).
  assert (Hr : " "%char :: i = [] \/ exists t, " "%char :: i = " "%char :: t) by eauto.
  destruct (rxReply_tail_info subj i (cap_set 1 st []) Hi eq_refl eq_refl) as [[c0 Hex] Hall].
  apply regex_match_some.
  - exists c0. unfold rxReply.
    apply in_ms_cat. exists (subj, []). split; [apply in_ms_bol; auto|].
    apply in_ms_cat. exists (" "%char :: i, cap_set 1 st []). split.
    + now apply rxReply_status_part.
    + exact Hex.
  - intros c H. unfold rxReply in H.
    apply in_ms_cat in H as (y1 & H1 & H). apply in_ms_bol in H1 as [_ ->].
    apply in_ms_cat in H as (y2 & H2 & H). cbn [fst snd] in *.
    apply (rxReply_status_part st (" "%char :: i) y2 Hst Hr) in H2. subst y2.
    cbn [fst snd] in H. apply Hall in H. subst c.
    destruct Hst as [-> | ->]; repeat split; reflexivity.
Qed.

(** A reply line that is the status alone. *)
Lemma rxReply_bare (st : str) :
  is_status st ->
  exists c, regex_match rxReply st = Some c
            /\ sub_str c 1 = st /\ sub_str c 2 = [] /\ sub_str c 3 = [].
Proof.
  intros [-> | ->]; eexists; (split; [vm_compute; reflexivity|]); repeat split; reflexivity.
Qed.

Lemma rxUUID_takes (u : str) :
  u <> [] -> forallb not_space u = true ->
  exists c, regex_match rxUUID (L "UUID:" ++ u) = Some c /\ sub_str c 1 = u.
Proof.
  intros Hne Hu. apply (match_literal_group (L "UUID:") (Plus (Cls not_space)) u).
  exists []. apply in_ms_rep_cls. exists u. cbn [fst snd]. rewrite app_nil_r.
  split; [reflexivity|]. split; [exact Hu|].
  split; [destruct u; [congruence|simpl; lia]|]. split; [exact I|reflexivity].
Qed.

Lemma rxAlreadyHave_takes (n : Z) :
  0 <= n ->
  exists c, regex_match ETDProxy.rxAlreadyHave (L "AlreadyHave:" ++ show_Z n) = Some c
            /\ sub_str c 1 = show_Z n.
Proof.
  intros Hn. apply (match_literal_group (L "AlreadyHave:") (Plus (Cls is_digit)) (show_Z n)).
  exists []. apply in_ms_rep_cls. exists (show_Z n). cbn [fst snd]. rewrite app_nil_r.
  unfold show_Z. replace (n <? 0) with false by (symmetry; apply Z.ltb_ge; lia).
  destruct (show_nat_spec n Hn) as (H1 & H2 & _).
  split; [reflexivity|]. split; [exact H2|].
  split; [destruct (show_nat n); [congruence|simpl; lia]|]. split; [exact I|reflexivity].
Qed.

(** A negative number after [AlreadyHave:] is not taken. *)
Lemma rxAlreadyHave_refuses_sign (X : str) :
  regex_match ETDProxy.rxAlreadyHave (L "AlreadyHave:-" ++ X) = None.
Proof.
  apply regex_match_none. intros c H. unfold ETDProxy.rxAlreadyHave in H.
  apply in_ms_cat in H as (y1 & H1 & H). apply in_ms_bol in H1 as [_ ->].
  apply in_ms_cat in H as ([s2 c2] & H2 & H). cbn [fst snd] in *.
  apply in_ms_LitI in H2 as (w & E & Hw & Hc). cbn [fst snd] in *.
  apply lower_same_length in Hw.
  change (L "AlreadyHave:-" ++ X) with (L "AlreadyHave:" ++ "-"%char :: X) in E.
  apply app_eq_length in E as [E1 E2]; [|now symmetry]. subst w s2.
  apply in_ms_cat in H as (y3 & H3 & H).
  apply in_ms_grp in H3 as ([s3 c3] & H3 & _).
  apply in_ms_rep_cls in H3 as (w & E & Hw1 & Hl & _). cbn [fst snd] in *.
  destruct w as [|a w]; [simpl in Hl; lia|].
  cbn [app forallb] in *. injection E as <- _. discriminate Hw1.
Qed.

(* ====================================================================== *)
(** ** The proxy reads the replies of the wrapper *)
(* ====================================================================== *)

Lemma is_dot_not_eol (a : ascii) : is_dot a = not_eol a.
Proof. unfold is_dot, not_eol, is_eol, CR, LF. now rewrite orb_comm. Qed.

Lemma not_space_not_eol (a : ascii) : not_space a = true -> not_eol a = true.
Proof.
  unfold not_space, not_eol, is_eol. intros H.
  destruct (ascii_eqb a CR) eqn:E1.
  { apply ascii_eqb_eq in E1. subst a. discriminate H. }
  destruct (ascii_eqb a LF) eqn:E2.
  { apply ascii_eqb_eq in E2. subst a. discriminate H. }
  reflexivity.
Qed.

Lemma forallb_impl {A} (p q : A -> bool) (l : list A) :
  (forall a, p a = true -> q a = true) -> forallb p l = true -> forallb q l = true.
Proof.
  intros H. induction l as [|a l IH]; [reflexivity|]. cbn [forallb].
  intros E. apply andb_true_iff in E as [E1 E2]. rewrite (H a E1), (IH E2). reflexivity.
Qed.

Lemma is_digit_not_eol (a : ascii) : is_digit a = true -> not_eol a = true.
Proof.
  intros H. apply not_space_not_eol. unfold not_space.
  destruct (is_digit_facts a H) as (H1 & _). now rewrite H1.
Qed.

Lemma line_ok_app (a b : str) :
  a <> [] -> forallb not_eol a = true -> forallb not_eol b = true -> line_ok (a ++ b).
Proof.
  intros Hne Ha Hb. split.
  - destruct a; [congruence|discriminate].
  - rewrite forallb_app, Ha, Hb. reflexivity.
Qed.

Lemma not_eol_show_Z (n : Z) : forallb not_eol (show_Z n) = true.
Proof.
  destruct (show_Z_signed_digits n) as (neg & ds & E & _ & Hd). rewrite E.
  rewrite forallb_app. rewrite (forallb_impl _ _ ds is_digit_not_eol Hd).
  destruct neg; reflexivity.
Qed.

Lemma not_eol_info (i : str) : is_info i -> forallb not_eol i = true.
Proof.
  destruct i as [|a t]; [intros []|]. intros [Ha Ht]. cbn [forallb].
  rewrite (not_space_not_eol a Ha). cbn [andb].
  apply (forallb_impl is_dot); [|exact Ht]. intros b. now rewrite is_dot_not_eol.
Qed.

Lemma not_eol_uuid (u : str) : uuid_ok u -> forallb not_eol u = true.
Proof. intros [_ H]. exact (forallb_impl _ _ u not_space_not_eol H). Qed.

Lemma line_ok_reply_line (st i : str) :
  is_status st -> (i = [] \/ is_info i) -> line_ok (reply_line st i).
Proof.
  intros Hst Hi. unfold reply_line. destruct i as [|a t].
  - destruct Hst as [-> | ->]; split; [discriminate|reflexivity|discriminate|reflexivity].
  - destruct Hi as [Hi|Hi]; [discriminate|].
    apply line_ok_app.
    + destruct Hst as [-> | ->]; discriminate.
    + destruct Hst as [-> | ->]; reflexivity.
    + change (" "%char :: a :: t) with ([" "%char] ++ a :: t).
      rewrite forallb_app, (not_eol_info _ Hi). reflexivity.
Qed.

Lemma rxReply_reply_line (st i : str) :
  is_status st -> (i = [] \/ is_info i) ->
  exists c, regex_match rxReply (reply_line st i) = Some c
            /\ sub_str c 1 = st /\ sub_str c 3 = i
            /\ sub_str c 2 = match i with [] => [] | _ => " "%char :: i end.
Proof.
  intros Hst Hi. unfold reply_line. destruct i as [|a t].
  - destruct (rxReply_bare st Hst) as (c & E & H1 & H2 & H3). exists c. auto.
  - destruct Hi as [Hi|Hi]; [discriminate|].
    destruct (rxReply_with_info st (a :: t) Hst Hi) as (c & E & H1 & H2 & H3).
    exists c. auto.
Qed.

Lemma status_not_other_lines (st i : str) :
  is_status st ->
  regex_match rxUUID (reply_line st i) = None
  /\ regex_match rxRemain (reply_line st i) = None
  /\ regex_match ETDProxy.rxAlreadyHave (reply_line st i) = None.
Proof.
  intros Hst. unfold reply_line.
  destruct Hst as [-> | ->]; destruct i as [|a t];
    (split; [|split]); apply no_match_literal; lit_mismatch.
Qed.

Lemma Remain_not_UUID_AlreadyHave (X : str) :
  regex_match rxUUID (L "AlreadyHave:" ++ X) = None.
Proof. apply no_match_literal. lit_mismatch. Qed.

(** *** The lines of [requestFileRead] and [requestFileWrite] *)

Section ReplyLines.
Context {P : Platform}.

Lemma read_step_Remain (r : Z) (v : reply_vars) :
  LLONG_MIN <= r <= LLONG_MAX -> remain v = None ->
  read_step (L "Remain:" ++ show_Z r) v
  = inr (mk_reply_vars (finished v) (status_s v) (info v) (Some r) (curUUID v)).
Proof.
  intros Hr Hv. unfold read_step. rewrite rxUUID_not_Remain.
  destruct (rxRemain_takes_number r) as (c & -> & Hc). rewrite Hv, Hc.
  unfold string2off_t. now rewrite stoll_show_Z.
Qed.

Lemma read_step_UUID (u : str) (v : reply_vars) :
  uuid_ok u -> curUUID v = None ->
  read_step (L "UUID:" ++ u) v
  = inr (mk_reply_vars (finished v) (status_s v) (info v) (remain v) (Some u)).
Proof.
  intros [H1 H2] Hv. unfold read_step.
  destruct (rxUUID_takes u H1 H2) as (c & -> & Hc). now rewrite Hv, Hc.
Qed.

Lemma read_step_status (st i : str) (v : reply_vars) :
  is_status st -> (i = [] \/ is_info i) ->
  read_step (reply_line st i) v = inr (mk_reply_vars true st i (remain v) (curUUID v)).
Proof.
  intros Hst Hi. unfold read_step.
  destruct (status_not_other_lines st i Hst) as (-> & -> & _).
  destruct (rxReply_reply_line st i Hst Hi) as (c & -> & H1 & H3 & _).
  now rewrite H1, H3.
Qed.

Lemma write_step_AlreadyHave (p : Z) (v : ETDProxy.write_vars) :
  0 <= p <= LLONG_MAX -> ETDProxy.filePos v = None ->
  write_step (L "AlreadyHave:" ++ show_Z p) v
  = inr (ETDProxy.mk_write_vars (ETDProxy.w_finished v) (ETDProxy.w_status_s v)
           (ETDProxy.w_info v) (Some p) (ETDProxy.w_curUUID v)).
Proof.
  intros Hp Hv. unfold write_step. rewrite Remain_not_UUID_AlreadyHave.
  destruct (rxAlreadyHave_takes p) as (c & -> & Hc); [lia|]. rewrite Hv, Hc.
  unfold string2off_t. rewrite stoll_show_Z; [reflexivity|]. unfold LLONG_MIN. lia.
Qed.

Lemma write_step_UUID (u : str) (v : ETDProxy.write_vars) :
  uuid_ok u -> ETDProxy.w_curUUID v = None ->
  write_step (L "UUID:" ++ u) v
  = inr (ETDProxy.mk_write_vars (ETDProxy.w_finished v) (ETDProxy.w_status_s v)
           (ETDProxy.w_info v) (ETDProxy.filePos v) (Some u)).
Proof.
  intros [H1 H2] Hv. unfold write_step.
  destruct (rxUUID_takes u H1 H2) as (c & -> & Hc). now rewrite Hv, Hc.
Qed.

Lemma write_step_status (st i : str) (v : ETDProxy.write_vars) :
  is_status st -> (i = [] \/ is_info i) ->
  write_step (reply_line st i) v
  = inr (ETDProxy.mk_write_vars true st i (ETDProxy.filePos v) (ETDProxy.w_curUUID v)).
Proof.
  intros Hst Hi. unfold write_step.
  destruct (status_not_other_lines st i Hst) as (-> & _ & ->).
  destruct (rxReply_reply_line st i Hst Hi) as (c & -> & H1 & H3 & _).
  now rewrite H1, H3.
Qed.

Lemma requestFileRead_lines_fold :
  forall (lines : list str) (v : reply_vars),
    ETDProxy.requestFileRead_lines lines v = fold_lines reply_vars finished read_step lines v.
Proof.
  induction lines as [|line rest IH]; intros v; [reflexivity|].
  cbn [ETDProxy.requestFileRead_lines fold_lines]. unfold read_step.
  destruct (finished v); [reflexivity|].
  destruct (regex_match rxUUID line); [destruct (curUUID v); [reflexivity|apply IH]|].
  destruct (regex_match rxRemain line).
  { destruct (remain v); [reflexivity|].
    destruct (string2off_t _); [apply IH|reflexivity]. }
  destruct (regex_match rxReply line); [apply IH|reflexivity].
Qed.

Lemma requestFileWrite_lines_fold :
  forall (lines : list str) (v : ETDProxy.write_vars),
    ETDProxy.requestFileWrite_lines lines v
    = fold_lines ETDProxy.write_vars ETDProxy.w_finished write_step lines v.
Proof.
  induction lines as [|line rest IH]; intros v; [reflexivity|].
  cbn [ETDProxy.requestFileWrite_lines fold_lines]. unfold write_step.
  destruct (ETDProxy.w_finished v); [reflexivity|].
  destruct (regex_match rxUUID line);
    [destruct (ETDProxy.w_curUUID v); [reflexivity|apply IH]|].
  destruct (regex_match ETDProxy.rxAlreadyHave line).
  { destruct (ETDProxy.filePos v); [reflexivity|].
    destruct (string2off_t _); [apply IH|reflexivity]. }
  destruct (regex_match rxReply line); [apply IH|reflexivity].
Qed.

Lemma listPath_lines_fold (path0 : str) :
  forall (lines : list str) (v : ETDProxy.list_vars str),
    ETDProxy.listPath_lines path0 lines v
    = fold_lines (ETDProxy.list_vars str) ETDProxy.l_finished
        (list_step (listPath_failed path0) (fun i => inr i)) lines v.
Proof.
  induction lines as [|line rest IH]; intros v; [reflexivity|].
  cbn [ETDProxy.listPath_lines fold_lines]. unfold list_step.
  destruct (ETDProxy.l_finished v); [reflexivity|].
  destruct (regex_match rxReply line) as [fields|]; [|reflexivity].
  destruct (_ || _); [|reflexivity]. cbv zeta.
  destruct (str_eqb (sub_str fields 1) (L "ERR")); [reflexivity|].
  destruct (_ && _); apply IH.
Qed.

Lemma dataChannelAddr_lines_fold :
  forall (lines : list str) (v : ETDProxy.list_vars sockname_type),
    ETDProxy.dataChannelAddr_lines lines v
    = fold_lines (ETDProxy.list_vars sockname_type) ETDProxy.l_finished
        (list_step dataChannelAddr_failed decode_data_addr) lines v.
Proof.
  induction lines as [|line rest IH]; intros v; [reflexivity|].
  cbn [ETDProxy.dataChannelAddr_lines fold_lines]. unfold list_step.
  destruct (ETDProxy.l_finished v); [reflexivity|].
  destruct (regex_match rxReply line) as [fields|]; [|reflexivity].
  destruct (_ || _); [|reflexivity]. cbv zeta.
  destruct (str_eqb (sub_str fields 1) (L "ERR")); [reflexivity|].
  destruct (_ && _); [apply IH|].
  destruct (decode_data_addr (sub_str fields 3)); [reflexivity|apply IH].
Qed.

End ReplyLines.

Section ProxyLoops.
Context {P : Platform}.

Ltac loop_eq IH lines_fold :=
  let r := fresh "r" in
  let w1 := fresh "w1" in
  intros;
  unfold bind, sys, ETDCASSERT, ret, throw; cbn [fst snd];
  destruct (fd_read _ _ _) as [r w1]; cbn [fst snd];
  destruct (nread r >? 0); [|reflexivity]; cbn [fst snd];
  destruct (getReplies _) as [lines endpos];
  rewrite lines_fold;
  destruct (fold_lines _ _ _ lines _) as [e|[v' [|u0 un]]]; [reflexivity| |reflexivity];
  apply IH.

Lemma requestFileRead_loop_line_loop (conn : fd_t) :
  forall (fuel : nat) (buffer : str) (v : reply_vars) (s : sigma),
    ETDProxy.requestFileRead_loop fuel conn buffer v s
    = line_loop reply_vars finished read_step 2048 msg_unprocessed_read fuel conn buffer v s.
Proof.
  induction fuel as [|fuel IH]; intros buffer v s;
    cbn [ETDProxy.requestFileRead_loop line_loop];
    destruct (negb (finished v) && (len buffer <? 2048)); try reflexivity.
  loop_eq IH requestFileRead_lines_fold.
Qed.

Lemma requestFileWrite_loop_line_loop (conn : fd_t) :
  forall (fuel : nat) (buffer : str) (v : ETDProxy.write_vars) (s : sigma),
    ETDProxy.requestFileWrite_loop fuel conn buffer v s
    = line_loop ETDProxy.write_vars ETDProxy.w_finished write_step 2048
        msg_unprocessed_write fuel conn buffer v s.
Proof.
  induction fuel as [|fuel IH]; intros buffer v s;
    cbn [ETDProxy.requestFileWrite_loop line_loop];
    destruct (negb (ETDProxy.w_finished v) && (len buffer <? 2048)); try reflexivity.
  loop_eq IH requestFileWrite_lines_fold.
Qed.

Lemma listPath_loop_line_loop (conn : fd_t) (path0 : str) :
  forall (fuel : nat) (buffer : str) (v : ETDProxy.list_vars str) (s : sigma),
    ETDProxy.listPath_loop fuel conn path0 buffer v s
    = line_loop (ETDProxy.list_vars str) ETDProxy.l_finished
        (list_step (listPath_failed path0) (fun i => inr i)) 16384
        msg_unprocessed_list fuel conn buffer v s.
Proof.
  induction fuel as [|fuel IH]; intros buffer v s;
    cbn [ETDProxy.listPath_loop line_loop];
    destruct (negb (ETDProxy.l_finished v) && (len buffer <? 16384)); try reflexivity.
  loop_eq IH (listPath_lines_fold path0).
Qed.

Lemma dataChannelAddr_loop_line_loop (conn : fd_t) :
  forall (fuel : nat) (buffer : str) (v : ETDProxy.list_vars sockname_type) (s : sigma),
    ETDProxy.dataChannelAddr_loop fuel conn buffer v s
    = line_loop (ETDProxy.list_vars sockname_type) ETDProxy.l_finished
        (list_step dataChannelAddr_failed decode_data_addr) 2048
        msg_unprocessed_list fuel conn buffer v s.
Proof.
  induction fuel as [|fuel IH]; intros buffer v s;
    cbn [ETDProxy.dataChannelAddr_loop line_loop];
    destruct (negb (ETDProxy.l_finished v) && (len buffer <? 2048)); try reflexivity.
  loop_eq IH dataChannelAddr_lines_fold.
Qed.

End ProxyLoops.

Lemma list_step_entry {A : Type} (failed : str -> str) (decode : str -> exn + A)
  (a : str) (x : A) (v : ETDProxy.list_vars A) :
  entry_ok decode (a, x) ->
  ETDProxy.l_state v = [] \/ ETDProxy.l_state v = L "OK" ->
  list_step failed decode (L "OK " ++ a) v
  = inr (ETDProxy.mk_list_vars false (L "OK") (ETDProxy.l_rv v ++ [x])).
Proof.
  intros [Hi Hd] Hs. cbn [fst snd] in *. unfold list_step.
  assert (Hst : is_status (L "OK")) by now left.
  destruct (rxReply_with_info (L "OK") a Hst Hi) as (c & E & H1 & _ & H3).
  change (L "OK" ++ " "%char :: a) with (L "OK " ++ a) in E. rewrite E, H1, H3.
  destruct a as [|a0 t]; [destruct Hi|].
  destruct Hs as [Hs|Hs]; rewrite Hs; cbv zeta;
    change (str_eqb (L "OK") (L "ERR")) with false;
    change (str_eqb (L "OK") (L "OK")) with true; cbn [orb andb]; now rewrite Hd.
Qed.

Lemma list_step_end {A : Type} (failed : str -> str) (decode : str -> exn + A)
  (v : ETDProxy.list_vars A) :
  ETDProxy.l_state v = [] \/ ETDProxy.l_state v = L "OK" ->
  list_step failed decode (L "OK") v
  = inr (ETDProxy.mk_list_vars true (L "OK") (ETDProxy.l_rv v)).
Proof.
  intros Hs. unfold list_step.
  change (regex_match rxReply (L "OK")) with (Some [(1%nat, L "OK")]).
  destruct Hs as [Hs|Hs]; rewrite Hs; reflexivity.
Qed.

Lemma list_step_error {A : Type} (failed : str -> str) (decode : str -> exn + A)
  (m : str) (v : ETDProxy.list_vars A) :
  is_info m -> ETDProxy.l_state v = [] ->
  list_step failed decode (L "ERR " ++ m) v = inl (StdExn (failed m)).
Proof.
  intros Hi Hs. unfold list_step.
  assert (Hst : is_status (L "ERR")) by now right.
  destruct (rxReply_with_info (L "ERR") m Hst Hi) as (c & E & H1 & _ & H3).
  change (L "ERR" ++ " "%char :: m) with (L "ERR " ++ m) in E. rewrite E, H1, H3, Hs.
  reflexivity.
Qed.

(** The lines of a list reply come to the list of the entries. *)
Lemma run_lines_list {A : Type} (failed : str -> str) (decode : str -> exn + A) :
  forall (entries : list (str * A)) (v : ETDProxy.list_vars A),
    Forall (entry_ok decode) entries ->
    ETDProxy.l_finished v = false ->
    ETDProxy.l_state v = [] \/ ETDProxy.l_state v = L "OK" ->
    run_lines (ETDProxy.list_vars A) ETDProxy.l_finished (list_step failed decode)
      (list_reply (map fst entries)) v
    = Some (inr (ETDProxy.mk_list_vars true (L "OK") (ETDProxy.l_rv v ++ map snd entries))).
Proof.
  unfold list_reply.
  induction entries as [|[a x] r IH]; intros v He Hf Hs.
  - cbn [map app run_lines]. rewrite Hf, list_step_end by exact Hs.
    now rewrite app_nil_r.
  - inversion He as [|? ? Hax Hr]; subst.
    cbn [map app run_lines fst snd]. rewrite Hf.
    rewrite (list_step_entry failed decode a x v Hax Hs).
    rewrite IH; [|exact Hr|reflexivity|now right].
    cbn [ETDProxy.l_rv]. now rewrite <- app_assoc.
Qed.

Lemma line_ok_list_reply {A : Type} (decode : str -> exn + A) (entries : list (str * A)) :
  Forall (entry_ok decode) entries -> Forall line_ok (list_reply (map fst entries)).
Proof.
  intros He. unfold list_reply. apply Forall_app. split.
  - induction He as [|[a x] r [Hi _] Hr IH]; [constructor|].
    cbn [map fst] in *. constructor; [|exact IH].
    destruct a as [|a0 t]; [destruct Hi|].
    apply (line_ok_reply_line (L "OK") (a0 :: t)); [now left|now right].
  - constructor; [|constructor]. split; [discriminate|reflexivity].
Qed.

Lemma line_ok_error_reply (m : str) : is_info m -> Forall line_ok (error_reply m).
Proof.
  intros Hi. constructor; [|constructor].
  destruct m as [|a0 t]; [destruct Hi|].
  apply (line_ok_reply_line (L "ERR") (a0 :: t)); [now right|now right].
Qed.

Lemma line_ok_triple (key : str) (n : Z) (u : str) :
  key <> [] -> forallb not_eol key = true -> uuid_ok u ->
  Forall line_ok [key ++ show_Z n; L "UUID:" ++ u; L "OK"].
Proof.
  intros Hk1 Hk2 Hu. constructor; [|constructor; [|constructor; [|constructor]]].
  - apply line_ok_app; [exact Hk1|exact Hk2|apply not_eol_show_Z].
  - apply line_ok_app; [discriminate|reflexivity|now apply not_eol_uuid].
  - split; [discriminate|reflexivity].
Qed.

Section ProxyTheorems.
Context {P : Platform}.

Lemma fuel_enough (conn : fd_t) (chunks : list str) (w w' : World) :
  delivered conn chunks w w' -> len (List.concat chunks) < 2048 ->
  (List.length chunks <= 3 * 2048)%nat.
Proof.
  intros Hd Hc. pose proof (delivered_length conn chunks w w' Hd) as H.
  apply Nat.le_trans with (Z.to_nat 2048); [lia|].
  apply Nat.leb_le. vm_compute. reflexivity.
Qed.

(** X14.  However the transport cuts it into pieces, the reply that the
    wrapper writes for a [requestFileRead] that succeeded is read by the
    proxy as the result of the call: the uuid and the count of bytes left,
    which may be negative. *)
Theorem proxy_requestFileRead_reads_the_reply
  (conn : fd_t) (file : str) (a r : Z) (u : uuid_type) (chunks : list str)
  (st : etd_state) (w w' : World) :
  exchange conn (cmd_read_file a file) chunks w w' ->
  List.concat chunks = wire (lf_lines (read_reply r u)) ->
  len (List.concat chunks) < 2048 ->
  uuid_ok u -> LLONG_MIN <= r <= LLONG_MAX ->
  ETDProxy.requestFileRead conn file a (st, w) = (Ret (u, r), (st, w')).
Proof.
  intros (w1 & Hw & Hd) Hc Hlen Hu Hr.
  unfold ETDProxy.requestFileRead. fold (cmd_read_file a file).
  unfold bind at 1. unfold sys at 1. cbn [fst snd]. rewrite Hw.
  unfold bind at 1. unfold ETDCASSERTX at 1. rewrite Z.eqb_refl. cbn [ret].
  unfold bind at 1. rewrite requestFileRead_loop_line_loop.
  rewrite (line_loop_chunks reply_vars finished read_step 2048 msg_unprocessed_read
             conn st chunks w1 w' Hd (read_reply r u) [] _
             (inr (mk_reply_vars true (L "OK") [] (Some r) (Some u)))).
  - reflexivity.
  - apply (line_ok_triple (L "Remain:")); [discriminate|reflexivity|exact Hu].
  - reflexivity.
  - exact Hc.
  - now rewrite <- Hc.
  - unfold read_reply. cbn [run_lines finished].
    rewrite read_step_Remain by (exact Hr || reflexivity). cbn [finished].
    rewrite read_step_UUID by (exact Hu || reflexivity). cbn [finished].
    rewrite (read_step_status (L "OK") [] _ (or_introl eq_refl) (or_introl eq_refl)).
    reflexivity.
  - reflexivity.
  - exact (fuel_enough conn chunks w1 w' Hd Hlen).
Qed.

(** X15.  However the transport cuts it into pieces, the reply that the
    wrapper writes for a [requestFileWrite] that succeeded is read by the
    proxy as the result of the call, the uuid and the size the file has.  A
    negative size, which the server reports when it could not find the end
    of the file, is not recognised: the line is refused. *)
Theorem proxy_requestFileWrite_reads_the_reply
  (conn : fd_t) (file om_s : str) (p : Z) (u : uuid_type) (chunks : list str)
  (st : etd_state) (w w' : World) :
  uuid_ok u -> p <= LLONG_MAX ->
  (0 <= p ->
   exchange conn (cmd_write_file om_s file) chunks w w' ->
   List.concat chunks = wire (lf_lines (write_reply p u)) ->
   len (List.concat chunks) < 2048 ->
   ETDProxy.requestFileWrite conn file om_s (st, w) = (Ret (u, p), (st, w')))
  /\ (p < 0 ->
      ETDProxy.requestFileWrite_lines (write_reply p u)
        (ETDProxy.mk_write_vars false [] [] None None)
      = inl (Assertion
               (L "requestFileWrite: the server sent a reply that we did not recognize: "
                  ++ L "AlreadyHave:" ++ show_Z p))).
Proof.
  intros Hu Hmax. split.
  - intros Hp (w1 & Hw & Hd) Hc Hlen.
    unfold ETDProxy.requestFileWrite. fold (cmd_write_file om_s file).
    unfold bind at 1. unfold sys at 1. cbn [fst snd]. rewrite Hw.
    unfold bind at 1. unfold ETDCASSERTX at 1. rewrite Z.eqb_refl. cbn [ret].
    unfold bind at 1. rewrite requestFileWrite_loop_line_loop.
    rewrite (line_loop_chunks ETDProxy.write_vars ETDProxy.w_finished write_step 2048
               msg_unprocessed_write conn st chunks w1 w' Hd (write_reply p u) [] _
               (inr (ETDProxy.mk_write_vars true (L "OK") [] (Some p) (Some u)))).
    + reflexivity.
    + apply (line_ok_triple (L "AlreadyHave:")); [discriminate|reflexivity|exact Hu].
    + reflexivity.
    + exact Hc.
    + now rewrite <- Hc.
    + unfold write_reply. cbn [run_lines ETDProxy.w_finished].
      rewrite write_step_AlreadyHave by (lia || reflexivity). cbn [ETDProxy.w_finished].
      rewrite write_step_UUID by (exact Hu || reflexivity). cbn [ETDProxy.w_finished].
      rewrite (write_step_status (L "OK") [] _ (or_introl eq_refl) (or_introl eq_refl)).
      reflexivity.
    + reflexivity.
    + exact (fuel_enough conn chunks w1 w' Hd Hlen).
  - intros Hp. unfold write_reply. cbn [ETDProxy.requestFileWrite_lines ETDProxy.w_finished].
    rewrite Remain_not_UUID_AlreadyHave.
    assert (E : show_Z p = "-"%char :: show_nat (- p)).
    { unfold show_Z. now replace (p <? 0) with true by (symmetry; apply Z.ltb_lt; lia). }
    rewrite E.
    change (L "AlreadyHave:" ++ "-"%char :: show_nat (- p))
      with (L "AlreadyHave:-" ++ show_nat (- p)).
    rewrite rxAlreadyHave_refuses_sign.
    replace (regex_match rxReply (L "AlreadyHave:-" ++ show_nat (- p))) with (@None caps);
      [reflexivity|].
    symmetry. apply regex_match_none. intros c H. unfold rxReply in H.
    apply in_ms_cat in H as (y1 & H1 & H). apply in_ms_bol in H1 as [_ ->].
    apply in_ms_cat in H as (y2 & H2 & _). cbn [fst snd] in *.
    apply in_ms_grp in H2 as ([s1 c1] & H2 & _).
    apply in_ms_alt in H2 as [H2|H2];
      apply in_ms_LitI in H2 as (w0 & E0 & Hw0 & _); cbn [fst snd] in *;
      (destruct w0 as [|a0 w0]; [discriminate Hw0|]);
      cbn [app L list_ascii_of_string] in E0; injection E0 as <- E0;
      vm_compute in Hw0; discriminate Hw0.
Qed.

(** X16.  However the transport cuts it into pieces, the reply that the
    wrapper writes for a listing, one [OK] line for each entry and a last
    line [OK], is read by [ETDProxy::listPath] as the list of the entries, in
    order. *)
Theorem proxy_listPath_reads_the_reply
  (fuel : nat) (conn : fd_t) (path0 : str) (allow_tilde : bool) (entries : list str)
  (chunks : list str) (st : etd_state) (w w' : World) :
  exchange conn (cmd_list path0) chunks w w' ->
  List.concat chunks = wire (lf_lines (list_reply entries)) ->
  len (List.concat chunks) < 16384 ->
  Forall is_info entries ->
  (List.length chunks <= fuel)%nat ->
  ETDProxy.listPath fuel conn path0 allow_tilde (st, w) = (Ret entries, (st, w')).
Proof.
  intros (w1 & Hw & Hd) Hc Hlen He Hfuel.
  set (pairs := map (fun e => (e, e)) entries).
  assert (E1 : map fst pairs = entries)
    by (unfold pairs; rewrite map_map; cbn [fst]; apply map_id).
  assert (E2 : map snd pairs = entries)
    by (unfold pairs; rewrite map_map; cbn [snd]; apply map_id).
  assert (Hp : Forall (entry_ok (fun i : str => @inr exn str i)) pairs).
  { unfold pairs. apply Forall_map. eapply Forall_impl; [|exact He].
    intros e Hi. split; [exact Hi|reflexivity]. }
  unfold ETDProxy.listPath. fold (cmd_list path0).
  unfold bind at 1. unfold sys at 1. cbn [fst snd]. rewrite Hw.
  unfold bind at 1. unfold ETDCASSERTX at 1. rewrite Z.eqb_refl. cbn [ret].
  unfold bind at 1. rewrite listPath_loop_line_loop.
  rewrite (line_loop_chunks (ETDProxy.list_vars str) ETDProxy.l_finished
             (list_step (listPath_failed path0) (fun i => inr i)) 16384
             msg_unprocessed_list conn st chunks w1 w' Hd (list_reply entries) [] _
             (inr (ETDProxy.mk_list_vars true (L "OK") entries))).
  - reflexivity.
  - rewrite <- E1. now apply (line_ok_list_reply (fun i : str => @inr exn str i)).
  - reflexivity.
  - exact Hc.
  - now rewrite <- Hc.
  - rewrite <- E1 at 1.
    rewrite (run_lines_list (listPath_failed path0) (fun i => inr i) pairs
               (ETDProxy.mk_list_vars false [] []) Hp eq_refl
               (or_introl eq_refl)).
    cbn [ETDProxy.l_rv app]. now rewrite E2.
  - reflexivity.
  - exact Hfuel.
Qed.

(** X17.  However the transport cuts it into pieces, the reply that the
    wrapper writes for the data channel addresses is read by
    [ETDProxy::dataChannelAddr] as the list of what [decode_data_addr] makes
    of each line, in order. *)
Theorem proxy_dataChannelAddr_reads_the_reply
  (fuel : nat) (conn : fd_t) (addrs : list (str * sockname_type))
  (chunks : list str) (st : etd_state) (w w' : World) :
  exchange conn cmd_data_channel_addr chunks w w' ->
  List.concat chunks = wire (lf_lines (list_reply (map fst addrs))) ->
  len (List.concat chunks) < 2048 ->
  Forall (entry_ok decode_data_addr) addrs ->
  (List.length chunks <= fuel)%nat ->
  ETDProxy.dataChannelAddr fuel conn (st, w) = (Ret (map snd addrs), (st, w')).
Proof.
  intros (w1 & Hw & Hd) Hc Hlen He Hfuel.
  unfold ETDProxy.dataChannelAddr. fold cmd_data_channel_addr.
  unfold bind at 1. unfold sys at 1. cbn [fst snd]. rewrite Hw.
  unfold bind at 1. unfold ETDCASSERTX at 1. rewrite Z.eqb_refl. cbn [ret].
  unfold bind at 1. rewrite dataChannelAddr_loop_line_loop.
  rewrite (line_loop_chunks (ETDProxy.list_vars sockname_type) ETDProxy.l_finished
             (list_step dataChannelAddr_failed decode_data_addr) 2048
             msg_unprocessed_list conn st chunks w1 w' Hd (list_reply (map fst addrs)) [] _
             (inr (ETDProxy.mk_list_vars true (L "OK") (map snd addrs)))).
  - reflexivity.
  - now apply (line_ok_list_reply decode_data_addr).
  - reflexivity.
  - exact Hc.
  - now rewrite <- Hc.
  - now rewrite (run_lines_list dataChannelAddr_failed decode_data_addr addrs
                   (ETDProxy.mk_list_vars false [] []) He eq_refl
                   (or_introl eq_refl)).
  - reflexivity.
  - exact Hfuel.
Qed.

End ProxyTheorems.

(** ** [pull_n], on the platform in memory *)

Lemma Mem_reads_are_bounded : @reads_are_bounded Mem.platform.
Proof.
  intros fd0 k w w' b. change (@fd_read Mem.platform) with Mem.fd_read.
  unfold Mem.fd_read.
  assert (B : forall l : str, len (firstn (Z.to_nat k) l) <= Z.max 0 k).
  { intros l. unfold len. rewrite length_firstn. lia. }
  destruct (Mem.get_handle fd0 w) as [p pos app|[|ch rest] room out|].
  - intros [= <- _]. apply B.
  - intros [= <- _]. change (len []) with 0. lia.
  - intros [= <- _]. apply B.
  - discriminate.
Qed.

Lemma pull_n_returns_witness :
  (0 <= 4 < size_max /\ 0 <= 1 <= len (L "abc") /\ len (L "abc") <= bufSz
   /\ len (L "abc") - 1 <= 4)
  /\ @ETDDataServer.pull_n Mem.platform 2 4 0%nat 1%nat 1 (L "abc")
       (state_writing, pull_world [L "d"; L "e"] [] (L "0123456789"))
     = (Ret tt, (state_writing, pull_world [] (L "y") (L "0123456789bcde")))
  /\ exists bytes w1 aw,
       @pulled Mem.platform 0%nat 1%nat (L "bc") bytes
          (pull_world [L "d"; L "e"] [] (L "0123456789")) w1
       /\ len bytes = 4
       /\ Mem.fd_write 0%nat (L "y") w1 = (aw, pull_world [] (L "y") (L "0123456789bcde")).
Proof.
  assert (E : @ETDDataServer.pull_n Mem.platform 2 4 0%nat 1%nat 1 (L "abc")
                (state_writing, pull_world [L "d"; L "e"] [] (L "0123456789"))
              = (Ret tt, (state_writing, pull_world [] (L "y") (L "0123456789bcde"))))
    by (vm_compute; reflexivity).
  assert (H1 : 0 <= 4 < size_max) by (unfold size_max; lia).
  assert (H2 : 0 <= 1 <= len (L "abc")) by (cbn; lia).
  assert (H3 : len (L "abc") <= bufSz) by (unfold bufSz; cbn; lia).
  assert (H4 : len (L "abc") - 1 <= 4) by (cbn; lia).
  split; [split; [exact H1|split; [exact H2|split; [exact H3|exact H4]]]|].
  split; [exact E|].
  exact (proj2 (@pull_n_returns Mem.platform 2%nat 4 0%nat 1%nat 1 (L "abc") _ _
                  Mem_reads_are_bounded H1 H2 H3 H4 E)).
Defined.

Lemma pull_n_count_wraps_around_witness :
  (2 < len (L "abcdef") - 0)
  /\ @ETDDataServer.pull_n_loop Mem.platform 1 2 0%nat 1%nat 0 (L "abcdef")
       (state_writing, pull_world [L "gh"] [] (L "0123456789"))
     = @ETDDataServer.pull_n_loop Mem.platform 0 (size_max + 2 - 8) 0%nat 1%nat 0 []
         (state_writing, pull_world [] [] (L "0123456789abcdefgh"))
  /\ 2 < len (L "abcdef") - 0 + len (L "gh")
  /\ bufSz < size_max + 2 - (len (L "abcdef") - 0 + len (L "gh")).
Proof.
  assert (H : 2 < len (L "abcdef") - 0) by (cbn; lia).
  split; [exact H|].
  apply (@pull_n_count_wraps_around Mem.platform 0%nat 2 0%nat 1%nat 0 (L "abcdef") (L "gh")
           (state_writing, pull_world [L "gh"] [] (L "0123456789"))
           (pull_world [] [] (L "0123456789"))
           (pull_world [] [] (L "0123456789abcdefgh"))).
  - lia.
  - cbn; lia.
  - unfold bufSz; cbn; lia.
  - exact H.
  - apply pull_world_read. unfold bufSz; cbn; lia.
  - unfold bufSz; cbn; lia.
  - exact (pull_world_write (L "abcdefgh") [] [] (L "0123456789")).
Defined.

(** ** Lines, on the platform in memory *)

Lemma getReplies_splits_lines_witness :
  Forall complete_line [(L "Remain:6", [CR; LF]); (L "OK", [LF])]
  /\ getReplies (wire [(L "Remain:6", [CR; LF]); (L "OK", [LF])] ++ L "UUI")
     = ([L "Remain:6"; L "OK"], 13%nat)
  /\ skipn (snd (getReplies (wire [(L "Remain:6", [CR; LF]); (L "OK", [LF])] ++ L "UUI")))
       (wire [(L "Remain:6", [CR; LF]); (L "OK", [LF])] ++ L "UUI") = L "UUI".
Proof.
  assert (H : Forall complete_line [(L "Remain:6", [CR; LF]); (L "OK", [LF])]).
  { constructor; [|constructor; [|constructor]];
      (split; [discriminate|split; [reflexivity|split; [discriminate|reflexivity]]]). }
  split; [exact H|].
  exact (getReplies_splits_lines [(L "Remain:6", [CR; LF]); (L "OK", [LF])] (L "UUI")
           H eq_refl).
Defined.

(** ** The proxy, on the platform in memory *)

Lemma pull_world_send (bytes : str) (chunks : list str) (out content : str) :
  Mem.fd_write 0%nat bytes (pull_world chunks out content)
  = (len bytes, pull_world chunks (out ++ bytes) content).
Proof. reflexivity. Qed.

Lemma pull_world_delivered (out content : str) :
  forall chunks : list str,
    Forall (fun ch => ch <> []) chunks ->
    @delivered Mem.platform 0%nat chunks (pull_world chunks out content)
       (pull_world [] out content).
Proof.
  induction chunks as [|ch rest IH]; intros H; [constructor|].
  inversion H as [|? ? Hne Hrest]; subst.
  apply (@delivered_cons Mem.platform 0%nat ch rest _ (pull_world rest out content));
    [exact Hne| |exact (IH Hrest)].
  intros k Hk. exact (pull_world_read k ch rest out content Hk).
Qed.

Lemma pull_world_exchange (cmd : str) (chunks : list str) (content : str) :
  Forall (fun ch => ch <> []) chunks ->
  @exchange Mem.platform 0%nat cmd chunks (pull_world chunks [] content)
     (pull_world [] cmd content).
Proof.
  intros H. exists (pull_world chunks cmd content). split.
  - exact (pull_world_send cmd chunks [] content).
  - now apply pull_world_delivered.
Qed.

Lemma proxy_requestFileRead_reads_the_reply_witness :
  List.concat [L "Remain:6" ++ [LF] ++ L "UU"; L "ID:abc-125" ++ [LF] ++ L "OK" ++ [LF]]
    = wire (lf_lines (read_reply 6 uuid_a))
  /\ uuid_ok uuid_a
  /\ @ETDProxy.requestFileRead Mem.platform 0%nat file_x 4
       (state_empty,
        pull_world [L "Remain:6" ++ [LF] ++ L "UU"; L "ID:abc-125" ++ [LF] ++ L "OK" ++ [LF]]
          [] [])
     = (Ret (uuid_a, 6), (state_empty, pull_world [] (cmd_read_file 4 file_x) [])).
Proof.
  assert (Hc : List.concat [L "Remain:6" ++ [LF] ++ L "UU";
                            L "ID:abc-125" ++ [LF] ++ L "OK" ++ [LF]]
               = wire (lf_lines (read_reply 6 uuid_a))) by reflexivity.
  assert (Hu : uuid_ok uuid_a) by (split; [discriminate|reflexivity]).
  split; [exact Hc|]. split; [exact Hu|].
  apply (@proxy_requestFileRead_reads_the_reply Mem.platform 0%nat file_x 4 6 uuid_a
           [L "Remain:6" ++ [LF] ++ L "UU"; L "ID:abc-125" ++ [LF] ++ L "OK" ++ [LF]]).
  - apply pull_world_exchange. constructor; [discriminate|constructor; [discriminate|constructor]].
  - exact Hc.
  - cbn; lia.
  - exact Hu.
  - unfold LLONG_MIN, LLONG_MAX; lia.
Defined.

Lemma proxy_requestFileWrite_reads_the_reply_witness :
  uuid_ok uuid_a
  /\ @ETDProxy.requestFileWrite Mem.platform 0%nat file_x (L "4")
       (state_empty,
        pull_world [L "AlreadyHave:10" ++ [LF]; L "UUID:abc-125" ++ [LF] ++ L "OK" ++ [LF]]
          [] [])
     = (Ret (uuid_a, 10), (state_empty, pull_world [] (cmd_write_file (L "4") file_x) []))
  /\ @ETDProxy.requestFileWrite_lines Mem.platform (write_reply (-1) uuid_a)
       (ETDProxy.mk_write_vars false [] [] None None)
     = inl (Assertion
              (L "requestFileWrite: the server sent a reply that we did not recognize: "
                 ++ L "AlreadyHave:" ++ show_Z (-1))).
Proof.
  assert (Hu : uuid_ok uuid_a) by (split; [discriminate|reflexivity]).
  split; [exact Hu|]. split.
  - refine (proj1 (@proxy_requestFileWrite_reads_the_reply Mem.platform 0%nat file_x (L "4")
                     10 uuid_a
                     [L "AlreadyHave:10" ++ [LF]; L "UUID:abc-125" ++ [LF] ++ L "OK" ++ [LF]]
                     state_empty _ _ Hu _) _ _ _ _).
    + unfold LLONG_MAX; lia.
    + lia.
    + apply pull_world_exchange.
      constructor; [discriminate|constructor; [discriminate|constructor]].
    + reflexivity.
    + cbn; lia.
  - refine (proj2 (@proxy_requestFileWrite_reads_the_reply Mem.platform 0%nat file_x (L "4")
                     (-1) uuid_a [] state_empty (pull_world [] [] []) (pull_world [] [] [])
                     Hu _) _).
    + unfold LLONG_MAX; lia.
    + lia.
Defined.

Lemma proxy_listPath_reads_the_reply_witness :
  Forall is_info [L "/tmp/x"; L "/tmp/x y"]
  /\ @ETDProxy.listPath Mem.platform 3 0%nat (L "/tmp/*") false
       (state_empty,
        pull_world [L "OK /tmp/x" ++ [LF] ++ L "O"; L "K /tmp/x y" ++ [LF]; L "OK" ++ [LF]]
          [] [])
     = (Ret [L "/tmp/x"; L "/tmp/x y"],
        (state_empty, pull_world [] (cmd_list (L "/tmp/*")) [])).
Proof.
  assert (He : Forall is_info [L "/tmp/x"; L "/tmp/x y"]).
  { constructor; [|constructor; [|constructor]]; (split; reflexivity). }
  split; [exact He|].
  apply (@proxy_listPath_reads_the_reply Mem.platform 3%nat 0%nat (L "/tmp/*") false
           [L "/tmp/x"; L "/tmp/x y"]
           [L "OK /tmp/x" ++ [LF] ++ L "O"; L "K /tmp/x y" ++ [LF]; L "OK" ++ [LF]]).
  - apply pull_world_exchange.
    constructor; [discriminate|constructor; [discriminate|constructor; [discriminate|constructor]]].
  - reflexivity.
  - cbn; lia.
  - exact He.
  - cbn; lia.
Defined.

Lemma proxy_dataChannelAddr_reads_the_reply_witness :
  Forall (entry_ok (@decode_data_addr Mem.platform)) [(L "<tcp/peer:2620>", peer)]
  /\ @ETDProxy.dataChannelAddr Mem.platform 2 0%nat
       (state_empty, pull_world [L "OK <tcp/peer:2620>" ++ [LF]; L "OK" ++ [LF]] [] [])
     = (Ret [peer], (state_empty, pull_world [] cmd_data_channel_addr [])).
Proof.
  assert (He : Forall (entry_ok (@decode_data_addr Mem.platform)) [(L "<tcp/peer:2620>", peer)]).
  { constructor; [|constructor]. split; [split; reflexivity|vm_compute; reflexivity]. }
  split; [exact He|].
  apply (@proxy_dataChannelAddr_reads_the_reply Mem.platform 2%nat 0%nat
           [(L "<tcp/peer:2620>", peer)]
           [L "OK <tcp/peer:2620>" ++ [LF]; L "OK" ++ [LF]]).
  - apply pull_world_exchange.
    constructor; [discriminate|constructor; [discriminate|constructor]].
  - reflexivity.
  - cbn; lia.
  - exact He.
  - cbn; lia.
Defined.

Lemma sendFile_returns_witness :
  6 > 0 /\ send_6 [L "y"] [] = (Ret true, snd (send_6 [L "y"] []))
  /\ (true = true /\ fst (snd (send_6 [L "y"] [])) = state_reading
      /\ exists transfer conn tried w1 hw w2 bytes w3 ack,
           map_find uuid_b (transfers state_reading) = Some transfer
           /\ lock transfer = false /\ openMode transfer = Read
           /\ @ETDServer.connect_first Mem.platform [peer] []
                (state_reading, world_sending [L "y"] [])
              = (Ret (Some conn, tried), (state_reading, w1))
           /\ Mem.fd_write conn (header_of_sendFile uuid_a 6) w1 = (hw, w2)
           /\ len bytes = 6 /\ @moved Mem.platform (fd transfer) conn bytes w2 w3
           /\ Mem.fd_read conn 1 w3 = (ack, snd (snd (send_6 [L "y"] [])))).
Proof.
  assert (E : send_6 [L "y"] [] = (Ret true, snd (send_6 [L "y"] [])))
    by (vm_compute; reflexivity).
  split; [lia|]. split; [exact E|].
  apply (@sendFile_returns Mem.platform uuid_b uuid_a 6 [peer]
           (state_reading, world_sending [L "y"] []) (snd (send_6 [L "y"] [])) true);
    [lia|exact E].
Defined.

Lemma pull_n_takes_pieces_witness :
  Forall chunk_ok [L "ab"; L "c"]
  /\ @ETDDataServer.pull_n Mem.platform 2 3 0%nat 1%nat 0 []
       (state_writing, pull_world [L "ab"; L "c"] [] (L "0123"))
     = (Ret tt, (state_writing, pull_world [] (L "y") (L "0123" ++ L "abc"))).
Proof.
  assert (H : Forall chunk_ok [L "ab"; L "c"]).
  { constructor; [|constructor; [|constructor]];
      (split; [discriminate|unfold bufSz; cbn; lia]). }
  split; [exact H|].
  apply (pull_n_takes_pieces [L "ab"; L "c"] (L "0123") state_writing H).
  unfold size_max; cbn; lia.
Defined.

(* ====================================================================== *)
(** ** The calls of the proxy that wait for one line *)
(* ====================================================================== *)

Lemma one_line_outcome_OK (failed : str) : one_line_outcome failed (L "OK") = Ret true.
Proof. reflexivity. Qed.

Lemma one_line_outcome_ERR (failed m : str) :
  is_info m ->
  one_line_outcome failed (L "ERR " ++ m)
  = Throw (Assertion (failed ++ " "%char :: m)).
Proof.
  intros Hi. unfold one_line_outcome.
  assert (Hst : is_status (L "ERR")) by now right.
  destruct (rxReply_with_info (L "ERR") m Hst Hi) as (c & E & H1 & H2 & _).
  change (L "ERR" ++ " "%char :: m) with (L "ERR " ++ m) in E.
  rewrite E, H1, H2. reflexivity.
Qed.

Lemma getReplies_no_line (t : str) :
  forallb not_eol t = true -> fst (getReplies t) = [].
Proof.
  intros Ht. destruct (getReplies_wire [] t (Forall_nil _) Ht) as [G _].
  cbn [wire app] in G. now rewrite G.
Qed.

Lemma getReplies_one_line (line : str) :
  line_ok line -> fst (getReplies (line ++ [LF])) = [line].
Proof.
  intros Hl.
  destruct (getReplies_wire (lf_lines [line]) [] (complete_lf_lines [line] (Forall_cons _ Hl (Forall_nil _)))
              eq_refl) as [G _].
  cbn [lf_lines map wire] in G. rewrite !app_nil_r in G. now rewrite G.
Qed.

Section OneLine.
Context {P : Platform}.

Lemma removeUUID_loop_one_line (conn : fd_t) :
  forall (fuel : nat) (buffer : str) (s : sigma),
    ETDProxy.removeUUID_loop fuel conn buffer s
    = one_line_loop (L "removeUUID failed: ") fuel conn buffer s.
Proof.
  induction fuel as [|fuel IH]; intros buffer s;
    cbn [ETDProxy.removeUUID_loop one_line_loop];
    destruct (len buffer <? 2048); try reflexivity.
  unfold bind, sys, ETDCASSERT, ret, throw; cbn [fst snd].
  destruct (fd_read _ _ _) as [r w1]; cbn [fst snd].
  destruct (nread r >? 0); [|reflexivity]; cbn [fst snd].
  destruct (fst (getReplies _)) as [|line others]; [apply IH|reflexivity].
Qed.

Lemma sendFile_loop_one_line (conn : fd_t) :
  forall (fuel : nat) (buffer : str) (s : sigma),
    ETDProxy.sendFile_loop fuel conn buffer s
    = one_line_loop (L "sendFile failed - ") fuel conn buffer s.
Proof.
  induction fuel as [|fuel IH]; intros buffer s;
    cbn [ETDProxy.sendFile_loop one_line_loop];
    destruct (len buffer <? 2048); try reflexivity.
  unfold bind, sys, ETDCASSERT, ret, throw; cbn [fst snd].
  destruct (fd_read _ _ _) as [r w1]; cbn [fst snd].
  destruct (nread r >? 0); [|reflexivity]; cbn [fst snd].
  destruct (fst (getReplies _)) as [|line others]; [apply IH|reflexivity].
Qed.

(** One pass of the loop that brings a piece. *)
Lemma one_line_loop_pass (failed : str) (fuel : nat) (conn : fd_t) (buffer ch : str)
  (st : etd_state) (w w1 : World) :
  ch <> [] -> len buffer + len ch <= 2048 ->
  (forall k, len ch <= k -> fd_read conn k w = (Some ch, w1)) ->
  one_line_loop failed (S fuel) conn buffer (st, w)
  = match fst (getReplies (buffer ++ ch)) with
    | [] => one_line_loop failed fuel conn (buffer ++ ch) (st, w1)
    | [line] => (one_line_outcome failed line, (st, w1))
    | _ :: _ :: _ =>
        (Throw (Assertion (L "The client sent wrong number of responses - this is likely a protocol error")),
         (st, w1))
    end.
Proof.
  intros Hne Hlen Hrd. pose proof (len_pos ch Hne) as Hp.
  cbn [one_line_loop].
  replace (len buffer <? 2048) with true by (symmetry; apply Z.ltb_lt; lia).
  unfold bind at 1. unfold sys at 1. cbn [fst snd].
  rewrite (Hrd (2048 - len buffer)) by lia.
  unfold bind at 1. unfold ETDCASSERT at 1. cbn [nread bytes_of].
  rewrite (gtb_true (len ch)) by lia. cbn [ret]. cbv zeta.
  destruct (fst (getReplies (buffer ++ ch))) as [|line [|l2 others]]; [reflexivity| |reflexivity].
  unfold bind at 1. unfold ETDCASSERT at 1. cbn [ret].
  unfold one_line_outcome.
  destruct (regex_match rxReply line) as [fields|]; [|reflexivity].
  unfold bind, ETDCASSERT, ret, throw.
  destruct (str_eqb (sub_str fields 1) (L "OK")); reflexivity.
Qed.

(** However the transport cuts the one line of the reply into pieces, the
    loop ends with what the line comes to. *)
Lemma one_line_loop_chunks (failed : str) (conn : fd_t) (st : etd_state) (line : str) :
  line_ok line ->
  forall (chunks : list str) (w w' : World),
    delivered conn chunks w w' ->
    forall (buffer : str) (fuel : nat),
      forallb not_eol buffer = true ->
      buffer ++ List.concat chunks = line ++ [LF] ->
      len (line ++ [LF]) <= 2048 ->
      (List.length chunks <= fuel)%nat ->
      one_line_loop failed fuel conn buffer (st, w) = (one_line_outcome failed line, (st, w')).
Proof.
  intros Hl.
  induction 1 as [w|ch chunks w w1 w2 Hne Hrd Hd IH]; intros buffer fuel Hb E Hcap Hfuel.
  - cbn [List.concat] in E. rewrite app_nil_r in E. subst buffer.
    exfalso. exact (not_eol_LF_false line Hb).
  - cbn [List.concat] in E.
    assert (Hlen : len buffer + len ch + len (List.concat chunks) = len (line ++ [LF])).
    { rewrite <- E, !len_app. lia. }
    pose proof (len_nonneg (List.concat chunks)) as H0.
    destruct fuel as [|fuel]; [simpl in Hfuel; lia|].
    rewrite (one_line_loop_pass failed fuel conn buffer ch st w w1 Hne) by (lia || exact Hrd).
    rewrite app_assoc in E.
    destruct chunks as [|c2 chunks].
    + cbn [List.concat] in E. rewrite app_nil_r in E. rewrite E.
      rewrite (getReplies_one_line line Hl). inversion Hd; subst. reflexivity.
    + assert (Hc : List.concat (c2 :: chunks) <> []).
      { inversion Hd as [|? ? ? ? ? Hc2]; subst. cbn [List.concat].
        destruct c2; [congruence|discriminate]. }
      destruct (exists_last Hc) as (q & a & Eq). rewrite Eq in E.
      rewrite app_assoc in E. apply app_inj_tail in E as [E Ea]. subst a.
      assert (Hb' : forallb not_eol (buffer ++ ch) = true).
      { destruct Hl as [_ Hl]. rewrite <- E, forallb_app in Hl.
        now apply andb_true_iff in Hl as [Hl _]. }
      rewrite (getReplies_no_line _ Hb').
      apply IH; [exact Hb'| |exact Hcap|simpl in Hfuel |- *; lia].
      rewrite Eq, app_assoc, E. reflexivity.
Qed.

(** Pieces without a line end that fill the buffer end the loop, which then
    returns [true]. *)
Lemma one_line_loop_fills (failed : str) (conn : fd_t) (st : etd_state) :
  forall (chunks : list str) (w w' : World),
    delivered conn chunks w w' ->
    forall (buffer : str) (fuel : nat),
      forallb not_eol (buffer ++ List.concat chunks) = true ->
      len (buffer ++ List.concat chunks) = 2048 ->
      (List.length chunks <= fuel)%nat ->
      one_line_loop failed fuel conn buffer (st, w) = (Ret true, (st, w')).
Proof.
  induction 1 as [w|ch chunks w w1 w2 Hne Hrd Hd IH]; intros buffer fuel Hb Hlen Hfuel.
  - cbn [List.concat] in Hlen. rewrite app_nil_r in Hlen.
    destruct fuel; cbn [one_line_loop]; rewrite Hlen; reflexivity.
  - cbn [List.concat] in Hb, Hlen. rewrite app_assoc in Hb, Hlen.
    pose proof (len_nonneg (List.concat chunks)) as H0.
    rewrite (len_app (buffer ++ ch)), len_app in Hlen.
    destruct fuel as [|fuel]; [simpl in Hfuel; lia|].
    rewrite (one_line_loop_pass failed fuel conn buffer ch st w w1 Hne) by (lia || exact Hrd).
    assert (Hb' : forallb not_eol (buffer ++ ch) = true).
    { rewrite forallb_app in Hb. now apply andb_true_iff in Hb as [Hb _]. }
    rewrite (getReplies_no_line _ Hb').
    apply IH; [exact Hb| |simpl in Hfuel; lia].
    rewrite (len_app (buffer ++ ch)), len_app. lia.
Qed.

Lemma fuel_for_one_line (conn : fd_t) (chunks : list str) (w w' : World) :
  delivered conn chunks w w' -> len (List.concat chunks) <= 2048 ->
  (List.length chunks <= 2048)%nat.
Proof.
  intros Hd Hc. pose proof (delivered_length conn chunks w w' Hd) as H.
  apply Nat.le_trans with (Z.to_nat 2048); [lia|].
  apply Nat.leb_le. vm_compute. reflexivity.
Qed.

(** X20.  [ETDProxy::sendFile] and [ETDProxy::removeUUID] wait for one line.
    However the transport cuts it into pieces, the line [OK] makes them
    return [true], and a line [ERR] with a message makes them throw; the text
    that is added to the message starts with the white space after [ERR]. *)
Theorem proxy_sendFile_and_removeUUID_read_the_reply
  (conn : fd_t) (srcUUID dstUUID u : uuid_type) (todo : Z) (addrs : dataaddrlist_type)
  (chunks : list str) (st : etd_state) (w w' : World) :
  len (List.concat chunks) <= 2048 ->
  (exchange conn (cmd_send_file srcUUID dstUUID todo addrs) chunks w w' ->
     (List.concat chunks = L "OK" ++ [LF] ->
        ETDProxy.sendFile conn srcUUID dstUUID todo addrs (st, w) = (Ret true, (st, w')))
     /\ (forall m, is_info m -> List.concat chunks = L "ERR " ++ m ++ [LF] ->
           ETDProxy.sendFile conn srcUUID dstUUID todo addrs (st, w)
           = (Throw (Assertion (L "sendFile failed -  " ++ m)), (st, w'))))
  /\ (exchange conn (cmd_remove_uuid u) chunks w w' ->
        (List.concat chunks = L "OK" ++ [LF] ->
           ETDProxy.removeUUID conn u (st, w) = (Ret true, (st, w')))
        /\ (forall m, is_info m -> List.concat chunks = L "ERR " ++ m ++ [LF] ->
              ETDProxy.removeUUID conn u (st, w)
              = (Throw (Assertion (L "removeUUID failed:  " ++ m)), (st, w')))).
Proof.
  intros Hlen.
  assert (Hok : line_ok (L "OK")) by (split; [discriminate|reflexivity]).
  assert (Herr : forall m, is_info m -> line_ok (L "ERR " ++ m)).
  { intros m Hi. destruct m as [|a0 t]; [destruct Hi|].
    apply (line_ok_reply_line (L "ERR") (a0 :: t)); now right. }
  split.
  - intros (w1 & Hw & Hd).
    assert (Hf := fuel_for_one_line conn chunks w1 w' Hd Hlen).
    assert (G : forall line, line_ok line -> List.concat chunks = line ++ [LF] ->
              ETDProxy.sendFile conn srcUUID dstUUID todo addrs (st, w)
              = (one_line_outcome (L "sendFile failed - ") line, (st, w'))).
    { intros line Hl Hc.
      unfold ETDProxy.sendFile. fold (cmd_send_file srcUUID dstUUID todo addrs).
      unfold bind at 1. unfold sys at 1. cbn [fst snd]. rewrite Hw.
      unfold bind at 1. unfold ETDCASSERTX at 1. rewrite Z.eqb_refl. cbn [ret].
      rewrite sendFile_loop_one_line.
      apply (one_line_loop_chunks _ conn st line Hl chunks w1 w' Hd [] 2048%nat);
        [reflexivity|exact Hc|now rewrite <- Hc|exact Hf]. }
    split.
    + intros Hc. now rewrite (G (L "OK") Hok Hc).
    + intros m Hi Hc. rewrite app_assoc in Hc.
      rewrite (G (L "ERR " ++ m) (Herr m Hi) Hc), (one_line_outcome_ERR _ m Hi).
      reflexivity.
  - intros (w1 & Hw & Hd).
    assert (Hf := fuel_for_one_line conn chunks w1 w' Hd Hlen).
    assert (G : forall line, line_ok line -> List.concat chunks = line ++ [LF] ->
              ETDProxy.removeUUID conn u (st, w)
              = (one_line_outcome (L "removeUUID failed: ") line, (st, w'))).
    { intros line Hl Hc.
      unfold ETDProxy.removeUUID. fold (cmd_remove_uuid u).
      unfold bind at 1. unfold sys at 1. cbn [fst snd]. rewrite Hw.
      unfold bind at 1. unfold ETDCASSERTX at 1. rewrite Z.eqb_refl. cbn [ret].
      rewrite removeUUID_loop_one_line.
      apply (one_line_loop_chunks _ conn st line Hl chunks w1 w' Hd [] 2048%nat);
        [reflexivity|exact Hc|now rewrite <- Hc|exact Hf]. }
    split.
    + intros Hc. now rewrite (G (L "OK") Hok Hc).
    + intros m Hi Hc. rewrite app_assoc in Hc.
      rewrite (G (L "ERR " ++ m) (Herr m Hi) Hc), (one_line_outcome_ERR _ m Hi).
      reflexivity.
Qed.

(** X21.  A reply of 2048 bytes without a line end fills the buffer of
    [ETDProxy::sendFile] and of [ETDProxy::removeUUID]; the loop ends without
    having seen a line, and the call returns [true]. *)
Theorem proxy_takes_a_full_buffer_for_success
  (conn : fd_t) (srcUUID dstUUID u : uuid_type) (todo : Z) (addrs : dataaddrlist_type)
  (chunks : list str) (st : etd_state) (w w' : World) :
  forallb not_eol (List.concat chunks) = true ->
  len (List.concat chunks) = 2048 ->
  (exchange conn (cmd_send_file srcUUID dstUUID todo addrs) chunks w w' ->
     ETDProxy.sendFile conn srcUUID dstUUID todo addrs (st, w) = (Ret true, (st, w')))
  /\ (exchange conn (cmd_remove_uuid u) chunks w w' ->
        ETDProxy.removeUUID conn u (st, w) = (Ret true, (st, w'))).
Proof.
  intros Hb Hlen. split; intros (w1 & Hw & Hd).
  - unfold ETDProxy.sendFile. fold (cmd_send_file srcUUID dstUUID todo addrs).
    unfold bind at 1. unfold sys at 1. cbn [fst snd]. rewrite Hw.
    unfold bind at 1. unfold ETDCASSERTX at 1. rewrite Z.eqb_refl. cbn [ret].
    rewrite sendFile_loop_one_line.
    apply (one_line_loop_fills _ conn st chunks w1 w' Hd [] 2048%nat);
      [exact Hb|exact Hlen|apply (fuel_for_one_line conn chunks w1 w' Hd); lia].
  - unfold ETDProxy.removeUUID. fold (cmd_remove_uuid u).
    unfold bind at 1. unfold sys at 1. cbn [fst snd]. rewrite Hw.
    unfold bind at 1. unfold ETDCASSERTX at 1. rewrite Z.eqb_refl. cbn [ret].
    rewrite removeUUID_loop_one_line.
    apply (one_line_loop_fills _ conn st chunks w1 w' Hd [] 2048%nat);
      [exact Hb|exact Hlen|apply (fuel_for_one_line conn chunks w1 w' Hd); lia].
Qed.

End OneLine.

(* ====================================================================== *)
(** ** Errors of the server, through the proxy *)
(* ====================================================================== *)

Section ProxyErrors.
Context {P : Platform}.

(** X22.  A failure on the other side reaches the caller of the proxy.
    However the transport cuts it into pieces, the line [ERR] with a message
    that the wrapper writes for a call that threw makes
    [ETDProxy::requestFileRead] and [ETDProxy::requestFileWrite] throw an
    assertion, and [ETDProxy::listPath] and [ETDProxy::dataChannelAddr] a
    runtime error, each with the message of the server in its text. *)
Theorem proxy_calls_report_the_error
  (conn : fd_t) (file om_s path0 m : str) (a : Z) (fuel : nat) (allow_tilde : bool)
  (chunks : list str) (st : etd_state) (w w' : World) :
  is_info m ->
  List.concat chunks = wire (lf_lines (error_reply m)) ->
  len (List.concat chunks) < 2048 ->
  (List.length chunks <= fuel)%nat ->
  (exchange conn (cmd_read_file a file) chunks w w' ->
     ETDProxy.requestFileRead conn file a (st, w)
     = (Throw (Assertion (L "requestFileRead(" ++ file ++ L ") failed - " ++ m)), (st, w')))
  /\ (exchange conn (cmd_write_file om_s file) chunks w w' ->
        ETDProxy.requestFileWrite conn file om_s (st, w)
        = (Throw (Assertion (L "requestFileWrite(" ++ file ++ L ") failed - " ++ m)),
           (st, w')))
  /\ (exchange conn (cmd_list path0) chunks w w' ->
        ETDProxy.listPath fuel conn path0 allow_tilde (st, w)
        = (Throw (StdExn (L "listPath(" ++ path0 ++ L ") failed - " ++ m)), (st, w')))
  /\ (exchange conn cmd_data_channel_addr chunks w w' ->
        ETDProxy.dataChannelAddr fuel conn (st, w)
        = (Throw (StdExn (L "dataChannelAddr() failed - " ++ m)), (st, w'))).
Proof.
  intros Hi Hc Hlen Hfuel.
  pose proof (line_ok_error_reply m Hi) as Hok.
  destruct m as [|a0 t]; [destruct Hi|].
  assert (Hst : is_status (L "ERR")) by now right.
  assert (Hinfo : a0 :: t = [] \/ is_info (a0 :: t)) by now right.
  split; [|split; [|split]]; intros (w1 & Hw & Hd).
  - unfold ETDProxy.requestFileRead. fold (cmd_read_file a file).
    unfold bind at 1. unfold sys at 1. cbn [fst snd]. rewrite Hw.
    unfold bind at 1. unfold ETDCASSERTX at 1. rewrite Z.eqb_refl. cbn [ret].
    unfold bind at 1. rewrite requestFileRead_loop_line_loop.
    rewrite (line_loop_chunks reply_vars finished read_step 2048 msg_unprocessed_read
               conn st chunks w1 w' Hd (error_reply (a0 :: t)) [] _
               (inr (mk_reply_vars true (L "ERR") (a0 :: t) None None))).
    + reflexivity.
    + exact Hok.
    + reflexivity.
    + exact Hc.
    + now rewrite <- Hc.
    + unfold error_reply. cbn [run_lines finished].
      change (L "ERR " ++ a0 :: t) with (reply_line (L "ERR") (a0 :: t)).
      rewrite (read_step_status (L "ERR") (a0 :: t) _ Hst Hinfo). reflexivity.
    + reflexivity.
    + exact (fuel_enough conn chunks w1 w' Hd Hlen).
  - unfold ETDProxy.requestFileWrite. fold (cmd_write_file om_s file).
    unfold bind at 1. unfold sys at 1. cbn [fst snd]. rewrite Hw.
    unfold bind at 1. unfold ETDCASSERTX at 1. rewrite Z.eqb_refl. cbn [ret].
    unfold bind at 1. rewrite requestFileWrite_loop_line_loop.
    rewrite (line_loop_chunks ETDProxy.write_vars ETDProxy.w_finished write_step 2048
               msg_unprocessed_write conn st chunks w1 w' Hd (error_reply (a0 :: t)) [] _
               (inr (ETDProxy.mk_write_vars true (L "ERR") (a0 :: t) None None))).
    + reflexivity.
    + exact Hok.
    + reflexivity.
    + exact Hc.
    + now rewrite <- Hc.
    + unfold error_reply. cbn [run_lines ETDProxy.w_finished].
      change (L "ERR " ++ a0 :: t) with (reply_line (L "ERR") (a0 :: t)).
      rewrite (write_step_status (L "ERR") (a0 :: t) _ Hst Hinfo). reflexivity.
    + reflexivity.
    + exact (fuel_enough conn chunks w1 w' Hd Hlen).
  - unfold ETDProxy.listPath. fold (cmd_list path0).
    unfold bind at 1. unfold sys at 1. cbn [fst snd]. rewrite Hw.
    unfold bind at 1. unfold ETDCASSERTX at 1. rewrite Z.eqb_refl. cbn [ret].
    unfold bind at 1. rewrite listPath_loop_line_loop.
    rewrite (line_loop_chunks (ETDProxy.list_vars str) ETDProxy.l_finished
               (list_step (listPath_failed path0) (fun i => inr i)) 16384
               msg_unprocessed_list conn st chunks w1 w' Hd (error_reply (a0 :: t)) [] _
               (inl (StdExn (listPath_failed path0 (a0 :: t))))).
    + reflexivity.
    + exact Hok.
    + reflexivity.
    + exact Hc.
    + rewrite <- Hc. lia.
    + unfold error_reply. cbn [run_lines ETDProxy.l_finished].
      rewrite (list_step_error (listPath_failed path0) (fun i : str => @inr exn str i)
                 (a0 :: t) (ETDProxy.mk_list_vars false [] []) Hi eq_refl).
      reflexivity.
    + exact I.
    + exact Hfuel.
  - unfold ETDProxy.dataChannelAddr. fold cmd_data_channel_addr.
    unfold bind at 1. unfold sys at 1. cbn [fst snd]. rewrite Hw.
    unfold bind at 1. unfold ETDCASSERTX at 1. rewrite Z.eqb_refl. cbn [ret].
    unfold bind at 1. rewrite dataChannelAddr_loop_line_loop.
    rewrite (line_loop_chunks (ETDProxy.list_vars sockname_type) ETDProxy.l_finished
               (list_step dataChannelAddr_failed decode_data_addr) 2048
               msg_unprocessed_list conn st chunks w1 w' Hd (error_reply (a0 :: t)) [] _
               (inl (StdExn (dataChannelAddr_failed (a0 :: t))))).
    + reflexivity.
    + exact Hok.
    + reflexivity.
    + exact Hc.
    + now rewrite <- Hc.
    + unfold error_reply. cbn [run_lines ETDProxy.l_finished].
      rewrite (list_step_error dataChannelAddr_failed decode_data_addr
                 (a0 :: t) (ETDProxy.mk_list_vars false [] []) Hi eq_refl).
      reflexivity.
    + exact I.
    + exact Hfuel.
Qed.

End ProxyErrors.

Lemma proxy_sendFile_and_removeUUID_read_the_reply_witness :
  len (List.concat [L "O"; L "K" ++ [LF]]) <= 2048
  /\ @ETDProxy.sendFile Mem.platform 0%nat uuid_b uuid_a 6 [peer]
       (state_empty, pull_world [L "O"; L "K" ++ [LF]] [] [])
     = (Ret true, (state_empty, pull_world [] (cmd_send_file uuid_b uuid_a 6 [peer]) []))
  /\ @ETDProxy.removeUUID Mem.platform 0%nat uuid_a
       (state_empty, pull_world [L "ERR Failed to re"; L "move UUID" ++ [LF]] [] [])
     = (Throw (Assertion (L "removeUUID failed:  " ++ L "Failed to remove UUID")),
        (state_empty, pull_world [] (cmd_remove_uuid uuid_a) [])).
Proof.
  assert (H1 : len (List.concat [L "O"; L "K" ++ [LF]]) <= 2048) by (cbn; lia).
  assert (H2 : len (List.concat [L "ERR Failed to re"; L "move UUID" ++ [LF]]) <= 2048)
    by (cbn; lia).
  split; [exact H1|]. split.
  - refine (proj1 (proj1 (@proxy_sendFile_and_removeUUID_read_the_reply Mem.platform 0%nat
                            uuid_b uuid_a uuid_a 6 [peer] [L "O"; L "K" ++ [LF]]
                            state_empty _ _ H1) _) eq_refl).
    apply pull_world_exchange.
    constructor; [discriminate|constructor; [discriminate|constructor]].
  - refine (proj2 (proj2 (@proxy_sendFile_and_removeUUID_read_the_reply Mem.platform 0%nat
                            uuid_b uuid_a uuid_a 6 [peer]
                            [L "ERR Failed to re"; L "move UUID" ++ [LF]]
                            state_empty _ _ H2) _) (L "Failed to remove UUID") _ eq_refl).
    + apply pull_world_exchange.
      constructor; [discriminate|constructor; [discriminate|constructor]].
    + split; reflexivity.
Defined.

Lemma proxy_takes_a_full_buffer_for_success_witness :
  forallb not_eol (List.concat [repeat "x"%char 2000; repeat "x"%char 48]) = true
  /\ len (List.concat [repeat "x"%char 2000; repeat "x"%char 48]) = 2048
  /\ @ETDProxy.sendFile Mem.platform 0%nat uuid_b uuid_a 6 [peer]
       (state_empty, pull_world [repeat "x"%char 2000; repeat "x"%char 48] [] [])
     = (Ret true, (state_empty, pull_world [] (cmd_send_file uuid_b uuid_a 6 [peer]) []))
  /\ @ETDProxy.removeUUID Mem.platform 0%nat uuid_a
       (state_empty, pull_world [repeat "x"%char 2000; repeat "x"%char 48] [] [])
     = (Ret true, (state_empty, pull_world [] (cmd_remove_uuid uuid_a) [])).
Proof.
  assert (H1 : forallb not_eol (List.concat [repeat "x"%char 2000; repeat "x"%char 48]) = true)
    by (vm_compute; reflexivity).
  assert (H2 : len (List.concat [repeat "x"%char 2000; repeat "x"%char 48]) = 2048)
    by (vm_compute; reflexivity).
  assert (H3 : Forall (fun ch : str => ch <> [])
                 [repeat "x"%char 2000; repeat "x"%char 48]).
  { constructor; [discriminate|constructor; [discriminate|constructor]]. }
  destruct (@proxy_takes_a_full_buffer_for_success Mem.platform 0%nat uuid_b uuid_a uuid_a 6
              [peer] [repeat "x"%char 2000; repeat "x"%char 48] state_empty
              (pull_world [repeat "x"%char 2000; repeat "x"%char 48] [] [])
              (pull_world [] (cmd_send_file uuid_b uuid_a 6 [peer]) []) H1 H2) as [Ha _].
  destruct (@proxy_takes_a_full_buffer_for_success Mem.platform 0%nat uuid_b uuid_a uuid_a 6
              [peer] [repeat "x"%char 2000; repeat "x"%char 48] state_empty
              (pull_world [repeat "x"%char 2000; repeat "x"%char 48] [] [])
              (pull_world [] (cmd_remove_uuid uuid_a) []) H1 H2) as [_ Hb].
  split; [exact H1|]. split; [exact H2|]. split.
  - apply Ha. apply pull_world_exchange. exact H3.
  - apply Hb. apply pull_world_exchange. exact H3.
Defined.

Lemma proxy_calls_report_the_error_witness :
  is_info (L "no such file")
  /\ List.concat [L "ERR no suc"; L "h file" ++ [LF]]
     = wire (lf_lines (error_reply (L "no such file")))
  /\ @ETDProxy.requestFileRead Mem.platform 0%nat file_x 4
       (state_empty, pull_world [L "ERR no suc"; L "h file" ++ [LF]] [] [])
     = (Throw (Assertion (L "requestFileRead(" ++ file_x ++ L ") failed - "
                            ++ L "no such file")),
        (state_empty, pull_world [] (cmd_read_file 4 file_x) []))
  /\ @ETDProxy.listPath Mem.platform 2 0%nat file_x false
       (state_empty, pull_world [L "ERR no suc"; L "h file" ++ [LF]] [] [])
     = (Throw (StdExn (L "listPath(" ++ file_x ++ L ") failed - " ++ L "no such file")),
        (state_empty, pull_world [] (cmd_list file_x) [])).
Proof.
  assert (Hi : is_info (L "no such file")) by (split; reflexivity).
  assert (Hc : List.concat [L "ERR no suc"; L "h file" ++ [LF]]
               = wire (lf_lines (error_reply (L "no such file")))) by reflexivity.
  assert (Hl : len (List.concat [L "ERR no suc"; L "h file" ++ [LF]]) < 2048) by (cbn; lia).
  assert (Hf : (List.length [L "ERR no suc"; L "h file" ++ [LF]] <= 2)%nat) by (cbn; lia).
  assert (H3 : Forall (fun ch : str => ch <> []) [L "ERR no suc"; L "h file" ++ [LF]]).
  { constructor; [discriminate|constructor; [discriminate|constructor]]. }
  split; [exact Hi|]. split; [exact Hc|]. split.
  - refine (proj1 (@proxy_calls_report_the_error Mem.platform 0%nat file_x (L "4") file_x
                     (L "no such file") 4 2%nat false _ state_empty _ _ Hi Hc Hl Hf) _).
    apply pull_world_exchange. exact H3.
  - refine (proj1 (proj2 (proj2 (@proxy_calls_report_the_error Mem.platform 0%nat file_x
                     (L "4") file_x (L "no such file") 4 2%nat false _ state_empty _ _
                     Hi Hc Hl Hf))) _).
    apply pull_world_exchange. exact H3.
Defined.

(* ====================================================================== *)
(** ** The commands of the control protocol *)
(* ====================================================================== *)

(** A run of a class that is followed by a character outside the class is
    cut in one way only. *)
Lemma run_split (p : ascii -> bool) (b : ascii) (t : str) :
  p b = false ->
  forall (ds s w : str),
    forallb p ds = true -> forallb p w = true -> stops p s ->
    ds ++ s = w ++ b :: t -> w = ds /\ s = b :: t.
Proof.
  intros Hb. induction ds as [|d ds IH]; intros s w Hds Hw Hs E.
  - cbn [app] in E. destruct w as [|a w]; [cbn [app] in E; auto|].
    exfalso. subst s. cbn [app stops forallb] in *.
    apply andb_true_iff in Hw as [Ha _]. congruence.
  - cbn [forallb] in Hds. apply andb_true_iff in Hds as [Hd Hds].
    destruct w as [|a w].
    + exfalso. cbn [app] in E. injection E as -> _. congruence.
    + cbn [app forallb] in *. injection E as <- E.
      apply andb_true_iff in Hw as [_ Hw].
      destruct (IH s w Hds Hw Hs E) as [-> ->]. auto.
Qed.

Section CommandWords.
Variable subj : str.

(** One blank before a word is all the white space there is. *)
Lemma in_ms_Ws_one (s : str) (c : caps) (x : str * caps) :
  stops is_space s ->
  In x (ms subj Ws (" "%char :: s) c) <-> x = (s, c).
Proof.
  intros Hs. unfold Ws, Plus. rewrite in_ms_rep_cls. split.
  - intros (w & E & Hw & Hl & _ & Hc).
    destruct w as [|a w]; [simpl in Hl; lia|]. cbn [app] in E. injection E as <- E.
    destruct w as [|b w].
    + cbn [app] in E. destruct x as [x1 x2]; cbn [fst snd] in *. now subst.
    + exfalso. cbn [app forallb] in *. subst s. cbn [stops] in Hs.
      apply andb_true_iff in Hw as [_ Hw]. apply andb_true_iff in Hw as [Hb _].
      congruence.
  - intros ->. exists [" "%char]. cbn [fst snd app forallb List.length within].
    split; [reflexivity|]. split; [reflexivity|]. split; [lia|]. split; [exact I|reflexivity].
Qed.

(** A word of a class without white space, with white space to follow, is
    taken as a whole. *)
Lemma in_ms_run_then_ws (p : ascii -> bool) (ds s : str) (c c1 : caps)
  (y x : str * caps) :
  (forall a, p a = true -> is_space a = false) ->
  forallb p ds = true -> stops p s ->
  In y (ms subj (Plus (Cls p)) (ds ++ s) c) ->
  In x (ms subj Ws (fst y) c1) ->
  y = (s, c) /\ ds <> [].
Proof.
  intros Hp Hds Hs Hy Hx. unfold Plus in Hy.
  apply in_ms_rep_cls in Hy as (w & E & Hw & Hl & _ & Hc).
  unfold Ws, Plus in Hx. apply in_ms_rep_cls in Hx as (w' & E' & Hw' & Hl' & _).
  destruct w' as [|b w']; [simpl in Hl'; lia|].
  cbn [forallb] in Hw'. apply andb_true_iff in Hw' as [Hb _].
  rewrite E' in E. cbn [app] in E.
  assert (Hpb : p b = false).
  { destruct (p b) eqn:Epb; [|reflexivity]. apply Hp in Epb. congruence. }
  destruct (run_split p b (w' ++ fst x) Hpb ds s w Hds Hw Hs E) as [-> Es].
  split.
  - destruct y as [y1 y2]; cbn [fst snd] in *. subst. cbn [app]. reflexivity.
  - destruct ds; [simpl in Hl; lia|discriminate].
Qed.

(** The rest of a line, taken by  (\S.* )$ . *)
Lemma in_ms_Rest_eol (n : nat) (s : str) (c c' : caps) :
  In ([], c') (ms subj (Cat (Rest n) Eol) s c) <-> is_info s /\ c' = cap_set n s c.
Proof.
  split.
  - intros H. apply in_ms_cat in H as (y & Hy & H).
    apply in_ms_eol in H as [E H]. injection H as ->.
    unfold Rest in Hy. apply in_ms_grp in Hy as (y0 & Hy0 & ->). cbn [fst snd] in *.
    apply in_ms_cat in Hy0 as (z & Hz & Hy0).
    apply in_ms_cls in Hz as (a & Es & Ha & Hc).
    unfold Star in Hy0. apply in_ms_rep_cls in Hy0 as (w & Ew & Hw & _ & _ & Hc').
    rewrite E, app_nil_r in Ew. rewrite Ew in Es. subst s.
    rewrite E, consumed_all, Hc', Hc. split; [split; assumption|reflexivity].
  - intros [Hi ->]. destruct s as [|a t]; [destruct Hi|]. destruct Hi as [Ha Ht].
    apply in_ms_cat. exists ([], cap_set n (a :: t) c). split; [|apply in_ms_eol; auto].
    unfold Rest. apply in_ms_grp. exists ([], c). cbn [fst snd].
    split; [|now rewrite consumed_all].
    apply in_ms_cat. exists (t, c). split.
    + apply in_ms_cls. exists a. auto.
    + unfold Star. apply in_ms_rep_cls. exists t. cbn [fst snd].
      rewrite app_nil_r. split; [reflexivity|]. split; [exact Ht|].
      split; [lia|]. split; [exact I|reflexivity].
Qed.

End CommandWords.

Lemma stops_space_info (i : str) : is_info i -> stops is_space i.
Proof.
  destruct i as [|a t]; [intros []|]. intros [Ha _]. cbn [stops].
  unfold not_space in Ha. now apply negb_true_iff in Ha.
Qed.

Lemma not_space_is_not_space (a : ascii) : not_space a = true -> is_space a = false.
Proof. unfold not_space. apply negb_true_iff. Qed.


(** A [list] command: group 1 is the path. *)
Lemma rxList_takes (path0 : str) :
  is_info path0 ->
  exists c, regex_match rxList (L "list " ++ path0) = Some c /\ sub_str c 1 = path0.
Proof.
  intros Hi.
  change (L "list " ++ path0) with (L "list" ++ " "%char :: path0).
  set (subj := L "list" ++ " "%char :: path0).
  pose proof (stops_space_info path0 Hi) as Hs.
  apply regex_match_some.
  - exists (cap_set 1 path0 []).
    apply in_ms_cat. exists (subj, []). split; [apply in_ms_bol; auto|].
    apply in_ms_cat. exists (" "%char :: path0, []). split.
    { apply in_ms_LitI. exists (L "list"). auto. }
    apply in_ms_cat. exists (path0, []). split; [now apply in_ms_Ws_one|].
    apply in_ms_Rest_eol. auto.
  - intros c H.
    apply in_ms_cat in H as (y1 & H1 & H). apply in_ms_bol in H1 as [_ ->].
    apply in_ms_cat in H as ([s2 c2] & H2 & H). cbn [fst snd] in *.
    apply in_ms_LitI in H2 as (w & E & Hw & Hc). cbn [fst snd] in *.
    apply lower_same_length in Hw.
    apply app_eq_length in E as [E1 E2]; [|now symmetry]. subst w s2 c2.
    apply in_ms_cat in H as (y3 & H3 & H).
    apply in_ms_Ws_one in H3; [|exact Hs]. subst y3. cbn [fst snd] in H.
    apply in_ms_Rest_eol in H as [_ ->]. apply sub_str_set.
Qed.

(** A [write-file] command: group 1 is the mode, group 2 the path. *)
Lemma rxReqFileWrite_takes (om_s file : str) :
  om_s <> [] -> forallb not_space om_s = true -> is_info file ->
  exists c, regex_match rxReqFileWrite (L "write-file-" ++ om_s ++ L " " ++ file) = Some c
            /\ sub_str c 1 = om_s /\ sub_str c 2 = file.
Proof.
  intros Hne Hom Hi.
  change (L "write-file-" ++ om_s ++ L " " ++ file)
    with (L "write-file-" ++ om_s ++ " "%char :: file).
  set (subj := L "write-file-" ++ om_s ++ " "%char :: file).
  pose proof (stops_space_info file Hi) as Hs.
  assert (Hst : stops not_space (" "%char :: file)) by reflexivity.
  apply regex_match_some.
  - exists (cap_set 2 file (cap_set 1 om_s [])).
    apply in_ms_cat. exists (subj, []). split; [apply in_ms_bol; auto|].
    apply in_ms_cat. exists (om_s ++ " "%char :: file, []). split.
    { apply in_ms_LitI. exists (L "write-file-"). auto. }
    apply in_ms_cat. exists (" "%char :: file, cap_set 1 om_s []). split.
    { apply in_ms_grp. exists (" "%char :: file, []). cbn [fst snd].
      split; [|now rewrite consumed_app].
      apply ms_plus_cls_all; assumption. }
    apply in_ms_cat. exists (file, cap_set 1 om_s []). split; [now apply in_ms_Ws_one|].
    apply in_ms_Rest_eol. auto.
  - intros c H.
    apply in_ms_cat in H as (y1 & H1 & H). apply in_ms_bol in H1 as [_ ->].
    apply in_ms_cat in H as ([s2 c2] & H2 & H). cbn [fst snd] in *.
    apply in_ms_LitI in H2 as (w & E & Hw & Hc). cbn [fst snd] in *.
    apply lower_same_length in Hw.
    apply app_eq_length in E as [E1 E2]; [|now symmetry]. subst w s2 c2.
    apply in_ms_cat in H as (y3 & H3 & H).
    apply in_ms_grp in H3 as (y & Hy & ->). cbn [fst snd] in H.
    apply in_ms_cat in H as (y4 & H4 & H).
    destruct (in_ms_run_then_ws subj not_space om_s (" "%char :: file) [] _ y y4
                not_space_is_not_space Hom Hst Hy H4) as [-> _].
    cbn [fst snd] in *. rewrite consumed_app in H4.
    apply in_ms_Ws_one in H4; [|exact Hs]. subst y4. cbn [fst snd] in H.
    apply in_ms_Rest_eol in H as [_ ->]. split; reflexivity || apply sub_str_set.
Qed.




Lemma write_file_not_list (X : str) : regex_match rxList (L "write-file-" ++ X) = None.
Proof. apply no_match_literal. lit_mismatch. Qed.

Lemma data_channel_addr_command :
  regex_match rxList (L "data-channel-addr") = None
  /\ regex_match rxReqFileWrite (L "data-channel-addr") = None
  /\ regex_match rxReqFileRead (L "data-channel-addr") = None
  /\ regex_match rxSendFile (L "data-channel-addr") = None
  /\ regex_match rxDataChannelAddr (L "data-channel-addr") = Some [].
Proof. split; [|split; [|split; [|split]]]; vm_compute; reflexivity. Qed.

Section WrapperCommands.
Context {P : Platform}.

(** X23.  The wrapper takes the [list] command as the proxy writes it for a
    path that starts with a non-blank and holds no line end: it calls
    [listPath] of its server with this very path and [allow_tilde] off, and
    answers with one [OK] line for each entry and a last line [OK].  The
    command [data-channel-addr] is answered in the same way with the data
    addresses of the server. *)
Theorem wrapper_understands_list
  (m_uuid : uuid_type) (conn : fd_t) (path0 : str) (s : sigma) :
  is_info path0 ->
  ETDServerWrapper.dispatch m_uuid conn (L "list " ++ path0) s
  = (entries <- ETDServer.listPath path0 false ;; ret (list_reply entries)) s
  /\ ETDServerWrapper.dispatch m_uuid conn (L "data-channel-addr") s
     = (Ret (list_reply (map show_sockname (dataaddrs (fst s)))), s).
Proof.
  intros Hi. split.
  - unfold ETDServerWrapper.dispatch.
    destruct (rxList_takes path0 Hi) as (c & -> & ->). reflexivity.
  - unfold ETDServerWrapper.dispatch.
    destruct data_channel_addr_command as (-> & -> & -> & -> & ->).
    unfold bind, ETDServer.dataChannelAddr, get_dataaddrs, ret, list_reply.
    now rewrite map_map.
Qed.

(** X24.  The wrapper takes the [write-file] command as the proxy writes it,
    for a mode without white space and a path that starts with a non-blank
    and holds no line end: the mode is read back, [requestFileWrite] of the
    server is called with this very path, and the answer has the size the
    file has, the uuid and a last line [OK]. *)
Theorem wrapper_understands_write_file
  (m_uuid : uuid_type) (conn : fd_t) (om_s file : str) (s : sigma) :
  om_s <> [] -> forallb not_space om_s = true -> is_info file ->
  ETDServerWrapper.dispatch m_uuid conn (L "write-file-" ++ om_s ++ L " " ++ file) s
  = (om <- ETDServerWrapper.lift_exn (read_openmode om_s) ;;
     fwresult <- ETDServer.requestFileWrite m_uuid file om ;;
     ret (write_reply (get_filepos fwresult) (get_uuid fwresult))) s.
Proof.
  intros Hne Hom Hi. unfold ETDServerWrapper.dispatch.
  rewrite (write_file_not_list (om_s ++ L " " ++ file)).
  destruct (rxReqFileWrite_takes om_s file Hne Hom Hi) as (c & -> & -> & ->).
  reflexivity.
Qed.


End WrapperCommands.

(** ** The wrapper, on the platform in memory *)

Lemma wrapper_understands_list_witness :
  is_info file_x
  /\ @ETDServerWrapper.dispatch Mem.platform uuid_a 0%nat (L "list " ++ file_x)
       (state_empty, world_x)
     = (entries <- @ETDServer.listPath Mem.platform file_x false ;; ret (list_reply entries))
         (state_empty, world_x)
  /\ @ETDServerWrapper.dispatch Mem.platform uuid_a 0%nat (L "data-channel-addr")
       (state_empty, world_x)
     = (Ret (list_reply (map show_sockname (dataaddrs state_empty))), (state_empty, world_x)).
Proof.
  assert (Hi : is_info file_x) by (split; reflexivity).
  split; [exact Hi|].
  exact (@wrapper_understands_list Mem.platform uuid_a 0%nat file_x (state_empty, world_x) Hi).
Defined.

Lemma wrapper_understands_write_file_witness :
  is_info file_x
  /\ @ETDServerWrapper.dispatch Mem.platform uuid_a 0%nat
       (L "write-file-" ++ L "4" ++ L " " ++ file_x) (state_empty, world_x)
     = (Ret (write_reply 10 uuid_a), snd run_write_x).
Proof.
  assert (Hi : is_info file_x) by (split; reflexivity).
  split; [exact Hi|].
  rewrite (@wrapper_understands_write_file Mem.platform uuid_a 0%nat (L "4") file_x
             (state_empty, world_x));
    [vm_compute; reflexivity|discriminate|reflexivity|exact Hi].
Defined.


(* ====================================================================== *)
(** ** Headers of the data protocol *)
(* ====================================================================== *)

Lemma value_char_facts (a : ascii) :
  is_value_char a = true ->
  is_bare_char a = true /\ is_space a = false /\ ascii_eqb DQUOTE a = false
  /\ ascii_eqb a BACKSLASH = false /\ ascii_eqb a "}"%char = false.
Proof.
  unfold is_value_char. intros H.
  apply andb_true_iff in H as [H H5]. apply andb_true_iff in H as [H H4].
  apply andb_true_iff in H as [H H3]. apply andb_true_iff in H as [H1 H2].
  apply negb_true_iff in H1, H2, H3, H4, H5.
  assert (N : forall b, is_space b = true -> ascii_eqb a b = false).
  { intros b Hb. destruct (ascii_eqb a b) eqn:E; [|reflexivity].
    apply ascii_eqb_eq in E. subst. congruence. }
  split; [|split; [exact H1|split; [|split; [exact H4|exact H5]]]].
  - unfold is_bare_char. rewrite H2, (N " "%char eq_refl), (N (ascii_of_nat 9) eq_refl),
      (N (ascii_of_nat 11) eq_refl). reflexivity.
  - destruct (ascii_eqb DQUOTE a) eqn:E; [|reflexivity].
    apply ascii_eqb_eq in E. subst. discriminate H3.
Qed.

Lemma value_chars_bare (v : str) :
  forallb is_value_char v = true -> forallb is_bare_char v = true.
Proof.
  apply forallb_impl. intros a Ha. now destruct (value_char_facts a Ha).
Qed.

Lemma unSlash_value (v : str) : forallb is_value_char v = true -> unSlash v = v.
Proof.
  unfold unSlash. induction v as [|a v IH]; [reflexivity|]. cbn [forallb filter].
  intros H. apply andb_true_iff in H as [Ha Hv].
  destruct (value_char_facts a Ha) as (_ & _ & _ & -> & _). cbn [negb].
  now rewrite IH.
Qed.

Lemma key_chars_no_brace (k : str) :
  is_key k -> forallb (fun a => negb (ascii_eqb a "}"%char)) k = true.
Proof.
  assert (A : forall a, is_alpha a = true -> ascii_eqb a "}"%char = false).
  { intros a Ha. destruct (ascii_eqb a "}"%char) eqn:E; [|reflexivity].
    apply ascii_eqb_eq in E. subst. discriminate Ha. }
  assert (K : forall a, is_key_char a = true -> ascii_eqb a "}"%char = false).
  { intros a Ha. destruct (ascii_eqb a "}"%char) eqn:E; [|reflexivity].
    apply ascii_eqb_eq in E. subst. discriminate Ha. }
  destruct k as [|a [|b t]]; [intros []|intros []|]. intros [Ha Ht].
  change (negb (ascii_eqb a "}"%char)
          && forallb (fun a => negb (ascii_eqb a "}"%char)) (b :: t) = true).
  rewrite (A a Ha). cbn [negb andb].
  apply (forallb_impl is_key_char); [|exact Ht]. intros c Hc. now rewrite (K c Hc).
Qed.

Lemma prev_char_app (p : str) (a : ascii) (s : str) :
  prev_char (p ++ a :: s) s = Some a.
Proof.
  unfold prev_char. rewrite length_app. cbn [List.length].
  replace (List.length p + S (List.length s) - List.length s)%nat
    with (S (List.length p)) by lia.
  rewrite nth_error_app2 by lia. now rewrite Nat.sub_diag.
Qed.

Section KeyValue.
Variable subj : str.

Lemma ms_alt_nil_head (r1 r2 : regex) (s : str) (c : caps) (y : str * caps) :
  ms subj r1 s c = [] ->
  (exists ys, ms subj r2 s c = y :: ys) ->
  exists ys, ms subj (Alt r1 r2) s c = y :: ys.
Proof. intros H [ys E]. cbn [ms]. rewrite H, E. eexists. reflexivity. Qed.

Lemma ms_cat_nil (r1 r2 : regex) (s : str) (c : caps) :
  ms subj r1 s c = [] -> ms subj (Cat r1 r2) s c = [].
Proof. intros H. cbn [ms]. now rewrite H. Qed.

Lemma regex_search_from_skip (r : regex) (sk : str) (a : ascii) (t : str) :
  ms subj r (a :: t) [] = [] ->
  regex_search_from subj r sk (a :: t) = regex_search_from subj r (sk ++ [a]) t.
Proof. intros H. cbn [regex_search_from]. now rewrite H. Qed.

(** A key starts with a letter. *)
Lemma ms_rxKeyValue_nil (s : str) (c : caps) :
  match s with [] => True | a :: _ => is_alpha a = false end ->
  ms subj rxKeyValue s c = [].
Proof.
  intros Hs. apply ms_nil. intros x H. unfold rxKeyValue in H.
  apply in_ms_cat in H as (y & Hy & H).
  assert (y = (s, c)).
  { cbn [ms] in Hy. destruct (at_word_boundary subj s); [|destruct Hy].
    destruct Hy as [<-|[]]. reflexivity. }
  subst y. cbn [fst snd] in H.
  apply in_ms_cat in H as (y1 & H1 & _).
  apply in_ms_grp in H1 as (y2 & H2 & _).
  apply in_ms_cat in H2 as (y3 & H3 & _).
  apply in_ms_cls in H3 as (a & E & Ha & _). subst s. congruence.
Qed.

(** [rxKeyValue] at the start of an item that follows a character which is
    no part of a word: the item is taken whole. *)
Lemma ms_rxKeyValue_head (pre : str) (b : ascii) (k v rest : str) :
  subj = pre ++ b :: k ++ ":"%char :: v ++ rest ->
  is_word b = false -> item_ok (k, v) -> stops is_bare_char rest ->
  exists tl,
    ms subj rxKeyValue (k ++ ":"%char :: v ++ rest) [] = (rest, caps_of_item (k, v)) :: tl.
Proof.
  intros Es Hb (Hk & Hne & Hv) Hr. cbn [fst snd] in *.
  destruct k as [|a [|a2 kt]]; [destruct Hk|destruct Hk|]. destruct Hk as [Ha Hkt].
  set (k := a :: a2 :: kt) in *.
  destruct v as [|b1 vt]; [congruence|].
  pose proof Hv as Hv'. cbn [forallb] in Hv'. apply andb_true_iff in Hv' as [Hb1 _].
  destruct (value_char_facts b1 Hb1) as (_ & Hsp & Hdq & _ & _).
  set (v := b1 :: vt) in *.
  unfold rxKeyValue, caps_of_item. cbn [fst snd].
  apply ms_cat_head with (y := (k ++ ":"%char :: v ++ rest, [])).
  { exists []. cbn [ms]. unfold at_word_boundary. rewrite Es, prev_char_app, Hb.
    unfold k. cbn [app]. unfold is_word, is_alnum. rewrite Ha. reflexivity. }
  cbn [fst snd].
  apply ms_cat_head with (y := (":"%char :: v ++ rest, cap_set 1 k [])).
  { destruct (ms_grp_head subj 1 (Cat (Cls is_alpha) (Plus (Cls is_key_char)))
                (k ++ ":"%char :: v ++ rest) [] (":"%char :: v ++ rest, [])) as [tl E].
    - apply ms_cat_head with (y := ((a2 :: kt) ++ ":"%char :: v ++ rest, [])).
      + exists []. unfold k. cbn [ms app]. rewrite Ha. reflexivity.
      + cbn [fst snd]. unfold Plus. apply ms_rep_cls_head; [exact Hkt|reflexivity|simpl; lia].
    - cbn [fst snd] in E. rewrite consumed_app in E. eexists. exact E. }
  cbn [fst snd].
  apply ms_cat_head with (y := (":"%char :: v ++ rest, cap_set 1 k [])).
  { unfold Star.
    apply (ms_rep_cls_head subj is_space 0 [] (":"%char :: v ++ rest));
      [reflexivity|reflexivity|simpl; lia]. }
  cbn [fst snd].
  apply ms_cat_head with (y := (v ++ rest, cap_set 1 k [])).
  { exists []. reflexivity. }
  cbn [fst snd].
  apply ms_cat_head with (y := (v ++ rest, cap_set 1 k [])).
  { unfold Star.
    apply (ms_rep_cls_head subj is_space 0 [] (v ++ rest));
      [reflexivity|exact Hsp|simpl; lia]. }
  cbn [fst snd].
  match goal with
  | |- exists tl, ms subj (Grp 2 ?r) _ _ = _ =>
      destruct (ms_grp_head subj 2 r (v ++ rest) (cap_set 1 k []) (rest, cap_set 1 k []))
        as [tl E]
  end.
  - apply ms_alt_nil_head.
    + apply ms_cat_nil. unfold v. cbn [ms Chr app]. now rewrite Hdq.
    + unfold Plus. apply ms_rep_cls_head; [now apply value_chars_bare|exact Hr|simpl; lia].
  - cbn [fst snd] in E. rewrite consumed_app in E. eexists. exact E.
Qed.

(** The search finds the item after the blank. *)
Lemma search_item (pre sk k v rest : str) :
  subj = pre ++ " "%char :: k ++ ":"%char :: v ++ rest ->
  item_ok (k, v) -> stops is_bare_char rest ->
  regex_search_from subj rxKeyValue sk (" "%char :: k ++ ":"%char :: v ++ rest)
  = Some (sk ++ [" "%char], k ++ ":"%char :: v, rest, caps_of_item (k, v)).
Proof.
  intros Es Hi Hr.
  rewrite regex_search_from_skip by (apply ms_rxKeyValue_nil; reflexivity).
  destruct (ms_rxKeyValue_head pre " "%char k v rest Es eq_refl Hi Hr) as [tl E].
  rewrite (regex_search_from_head subj rxKeyValue _ _ _ _ tl E).
  replace (k ++ ":"%char :: v ++ rest) with ((k ++ ":"%char :: v) ++ rest)
    by (rewrite <- app_assoc; reflexivity).
  now rewrite consumed_app.
Qed.

(** The iteration finds the items, one after the other. *)
Lemma iter_items :
  forall (items : list (str * str)) (pre lead : str) (fuel : nat),
    lead = [] \/ lead = [","%char] ->
    Forall item_ok items ->
    subj = pre ++ lead ++ items_text items ->
    (List.length items < fuel)%nat ->
    map snd (regex_iter fuel subj rxKeyValue (lead ++ items_text items))
    = map caps_of_item items.
Proof.
  induction items as [|[k v] r IH]; intros pre lead fuel Hlead Hok Es Hf.
  - destruct fuel as [|fuel]; [simpl in Hf; lia|].
    cbn [items_text map]. rewrite app_nil_r. cbn [regex_iter].
    destruct Hlead as [-> | ->].
    + cbn [regex_search_from]. rewrite ms_rxKeyValue_nil by exact I. reflexivity.
    + rewrite regex_search_from_skip by (apply ms_rxKeyValue_nil; reflexivity).
      cbn [regex_search_from]. rewrite ms_rxKeyValue_nil by exact I. reflexivity.
  - destruct fuel as [|fuel]; [simpl in Hf; lia|].
    inversion_clear Hok as [|? ? Hkv Hr].
    cbn [items_text] in *.
    set (rest := match r with [] => [] | _ :: _ => ","%char :: items_text r end) in *.
    assert (Hrest : stops is_bare_char rest) by (unfold rest; destruct r; [exact I|reflexivity]).
    assert (Hl' : exists lead', (lead' = [] \/ lead' = [","%char])
                                /\ rest = lead' ++ items_text r).
    { unfold rest. destruct r as [|kv r'].
      - exists []. split; [now left|reflexivity].
      - exists [","%char]. split; [now right|reflexivity]. }
    destruct Hl' as (lead' & Hlead' & Erest).
    assert (Esearch : exists sk,
              regex_search_from subj rxKeyValue []
                (lead ++ " "%char :: k ++ ":"%char :: v ++ rest)
              = Some (sk, k ++ ":"%char :: v, rest, caps_of_item (k, v))).
    { destruct Hlead as [-> | ->].
      - cbn [app] in *. eexists. apply (search_item pre); assumption.
      - cbn [app] in *. eexists.
        rewrite regex_search_from_skip by (apply ms_rxKeyValue_nil; reflexivity).
        apply (search_item (pre ++ [","%char])); [|assumption|assumption].
        rewrite <- app_assoc. exact Es. }
    destruct Esearch as [sk Esearch].
    cbn [regex_iter]. rewrite Esearch.
    assert (Hk : exists a kt, k = a :: kt).
    { destruct Hkv as [Hk _]. cbn [fst] in Hk. destruct k as [|a kt]; [destruct Hk|eauto]. }
    destruct Hk as (a & kt & Ek).
    replace (k ++ ":"%char :: v) with (a :: kt ++ ":"%char :: v) by (now rewrite Ek).
    cbn [map snd]. f_equal.
    rewrite Erest.
    apply (IH (pre ++ lead ++ " "%char :: k ++ ":"%char :: v) lead' fuel Hlead' Hr);
      [|simpl in Hf; lia].
    rewrite Es, Erest. rewrite <- !app_assoc. cbn [app]. rewrite <- !app_assoc.
    reflexivity.
Qed.

End KeyValue.

Lemma length_items_text (items : list (str * str)) :
  (List.length items <= List.length (items_text items))%nat.
Proof.
  induction items as [|[k v] r IH]; [simpl; lia|].
  cbn [items_text List.length]. rewrite !length_app. cbn [List.length].
  rewrite length_app. destruct r as [|kv r']; [simpl; lia|].
  cbn [List.length] in *. lia.
Qed.

(** What [getKeyValuePairs] makes of the items of a header. *)
Lemma getKeyValuePairs_of_items (items : list (str * str)) :
  Forall item_ok items -> getKeyValuePairs (items_text items) = items.
Proof.
  intros Hok. unfold getKeyValuePairs, regex_iterator.
  rewrite <- (map_map snd
    (fun this_kv : caps =>
       (sub_str this_kv 1,
        unSlash (match sub_str this_kv 3 with [] => sub_str this_kv 2 | q => q end)))).
  pose proof (iter_items (items_text items) items [] []
                (S (List.length (items_text items))) (or_introl eq_refl) Hok eq_refl) as E.
  cbn [app] in E. rewrite E by (pose proof (length_items_text items); lia).
  rewrite map_map. clear E.
  induction Hok as [|[k v] r (_ & _ & Hv) Hr IH]; [reflexivity|].
  cbn [map]. rewrite IH. unfold caps_of_item. cbn [fst snd] in *.
  change (sub_str (cap_set 2 v (cap_set 1 k [])) 1) with k.
  change (sub_str (cap_set 2 v (cap_set 1 k [])) 3) with (@nil ascii).
  change (sub_str (cap_set 2 v (cap_set 1 k [])) 2) with v.
  cbv beta iota. now rewrite (unSlash_value v Hv).
Qed.

Lemma digit_is_value_char (a : ascii) : is_digit a = true -> is_value_char a = true.
Proof.
  intros H. destruct (is_digit_facts a H) as (Hs & _).
  assert (N : forall b, is_digit b = false -> ascii_eqb a b = false).
  { intros b Hb. destruct (ascii_eqb a b) eqn:E; [|reflexivity].
    apply ascii_eqb_eq in E. subst. congruence. }
  unfold is_value_char.
  rewrite Hs, (N ","%char eq_refl), (N DQUOTE eq_refl), (N BACKSLASH eq_refl),
    (N "}"%char eq_refl). reflexivity.
Qed.

Lemma item_ok_number (k : str) (n : Z) : is_key k -> 0 <= n -> item_ok (k, show_Z n).
Proof.
  intros Hk Hn. unfold item_ok. cbn [fst snd].
  assert (Es : show_Z n = show_nat n).
  { unfold show_Z. now replace (n <? 0) with false by (symmetry; apply Z.ltb_ge; lia). }
  destruct (show_nat_spec n Hn) as (E1 & E2 & _). rewrite Es.
  split; [exact Hk|]. split; [exact E1|].
  exact (forallb_impl is_digit is_value_char (show_nat n) digit_is_value_char E2).
Qed.

Lemma value_chars_no_brace (v : str) :
  forallb is_value_char v = true ->
  forallb (fun a => negb (ascii_eqb a "}"%char)) v = true.
Proof.
  apply forallb_impl. intros a Ha.
  destruct (value_char_facts a Ha) as (_ & _ & _ & _ & ->). reflexivity.
Qed.

Lemma items_no_brace (items : list (str * str)) :
  Forall item_ok items ->
  forallb (fun a => negb (ascii_eqb a "}"%char)) (items_text items) = true.
Proof.
  induction 1 as [|[k v] r (Hk & _ & Hv) Hr IH]; [reflexivity|].
  cbn [items_text fst snd] in *.
  change (" "%char :: k ++ ":"%char :: v ++ match r with [] => [] | _ => ","%char :: items_text r end)
    with ([" "%char] ++ k ++ [":"%char] ++ v
            ++ match r with [] => [] | _ => [","%char] ++ items_text r end).
  rewrite !forallb_app, (key_chars_no_brace k Hk), (value_chars_no_brace v Hv).
  destruct r; [reflexivity|]. rewrite forallb_app, IH. reflexivity.
Qed.

(** The search for a command finds the text up to the first closing
    brace. *)
Lemma search_rxCommand (inner rest : str) :
  forallb (fun a => negb (ascii_eqb a "}"%char)) inner = true ->
  exists c,
    regex_search rxCommand ("{"%char :: inner ++ "}"%char :: rest)
    = Some ([], "{"%char :: inner ++ ["}"%char], rest, c)
    /\ sub_str c 2 = inner.
Proof.
  intros Hin. set (subj := "{"%char :: inner ++ "}"%char :: rest).
  assert (H : exists tl,
            ms subj rxCommand subj []
            = (rest, cap_set 1 ("{"%char :: inner ++ ["}"%char]) (cap_set 2 inner [])) :: tl).
  { unfold rxCommand.
    apply ms_cat_head with (y := (subj, [])).
    { exists []. cbn [ms]. now rewrite Nat.eqb_refl. }
    cbn [fst snd].
    match goal with
    | |- exists tl, ms subj (Grp 1 ?r) _ _ = _ =>
        destruct (ms_grp_head subj 1 r subj [] (rest, cap_set 2 inner [])) as [zs E]
    end.
    - apply ms_cat_head with (y := (inner ++ "}"%char :: rest, [])).
      { exists []. reflexivity. }
      cbn [fst snd].
      apply ms_cat_head with (y := ("}"%char :: rest, cap_set 2 inner [])).
      { match goal with
        | |- exists tl, ms subj (Grp 2 ?r) _ _ = _ =>
            destruct (ms_grp_head subj 2 r (inner ++ "}"%char :: rest) []
                        ("}"%char :: rest, [])) as [zs E]
        end.
        - unfold Star. apply ms_rep_cls_head; [exact Hin|reflexivity|lia].
        - cbn [fst snd] in E. rewrite consumed_app in E. eexists. exact E. }
      cbn [fst snd]. exists []. reflexivity.
    - cbn [fst snd] in E.
      replace (consumed subj rest) with ("{"%char :: inner ++ ["}"%char]) in E.
      + eexists. exact E.
      + unfold subj.
        replace ("{"%char :: inner ++ "}"%char :: rest)
          with (("{"%char :: inner ++ ["}"%char]) ++ rest)
          by (cbn [app]; rewrite <- app_assoc; reflexivity).
        now rewrite consumed_app. }
  destruct H as [tl E].
  exists (cap_set 1 ("{"%char :: inner ++ ["}"%char]) (cap_set 2 inner [])).
  split; [|reflexivity].
  unfold regex_search. rewrite (regex_search_from_head subj rxCommand [] subj _ _ tl E).
  unfold subj at 1.
  replace ("{"%char :: inner ++ "}"%char :: rest)
    with (("{"%char :: inner ++ ["}"%char]) ++ rest)
    by (cbn [app]; rewrite <- app_assoc; reflexivity).
  now rewrite consumed_app.
Qed.

Lemma header_of_sendFile_items (u : uuid_type) (n : Z) :
  header_of_sendFile u n
  = "{"%char :: items_text [(L "uuid", u); (L "sz", show_Z n)] ++ ["}"%char].
Proof.
  unfold header_of_sendFile. cbn [items_text].
  repeat (rewrite <- app_assoc || cbn [app L list_ascii_of_string]). reflexivity.
Qed.

Lemma header_of_getFile_items (u : uuid_type) (n : Z) :
  header_of_getFile u n
  = "{"%char :: items_text [(L "uuid", u); (L "push", L "1"); (L "sz", show_Z n)]
      ++ ["}"%char].
Proof.
  unfold header_of_getFile. cbn [items_text].
  repeat (rewrite <- app_assoc || cbn [app L list_ascii_of_string]). reflexivity.
Qed.

(** X26.  [getKeyValuePairs] reads back the items of a header: for keys of
    a letter and one or more letters, digits, underscores and dashes, and
    values that are not empty and free of white space, commas, double
    quotes, backslashes and closing braces, the text  key:value  of each
    item after a blank, with commas between the items, gives the items in
    order. *)
Theorem getKeyValuePairs_reads_the_items (items : list (str * str)) :
  Forall item_ok items -> getKeyValuePairs (items_text items) = items.
Proof. exact (getKeyValuePairs_of_items items). Qed.

Section Headers.
Context {P : Platform}.

(** One pass of the loop of [handle] that finds a header in what it read:
    the items are taken out, and what came after the header stays in the
    buffer. *)
Lemma handle_loop_header (fuel : nat) (conn : fd_t) (items : list (str * str))
  (rest : str) (st : etd_state) (w w1 : World) :
  Forall item_ok items ->
  fd_read conn ETDDataServer.maxNoCmdSz w
    = (Some (("{"%char :: items_text items ++ ["}"%char]) ++ rest), w1) ->
  ETDDataServer.handle_loop (S fuel) conn [] (st, w)
  = (ETDDataServer.serve fuel conn (items_text items)
       (len ("{"%char :: items_text items ++ ["}"%char]))
       (("{"%char :: items_text items ++ ["}"%char]) ++ rest) ;;
     ETDDataServer.handle_loop fuel conn []) (st, w1).
Proof.
  intros Hok Hr. cbn [ETDDataServer.handle_loop].
  change (len [] <? ETDDataServer.maxNoCmdSz) with true. cbv iota.
  unfold bind at 1. unfold sys at 1. cbn [fst snd].
  change (ETDDataServer.maxNoCmdSz - len []) with ETDDataServer.maxNoCmdSz. rewrite Hr.
  unfold bind at 1. unfold ETDCASSERT at 1. cbn [nread bytes_of app].
  rewrite gtb_true by (unfold len; cbn [List.length]; lia). cbn [ret].
  unfold bind at 1. unfold ETDCASSERT at 1. cbn [ret].
  destruct (search_rxCommand (items_text items) rest (items_no_brace items Hok))
    as (c & Es & Ec).
  replace ("{"%char :: (items_text items ++ ["}"%char]) ++ rest)
    with ("{"%char :: items_text items ++ "}"%char :: rest)
    by (rewrite <- app_assoc; reflexivity).
  rewrite Es, Ec. reflexivity.
Qed.

End Headers.

Section HeaderTheorems.
Context {P : Platform}.

Lemma bind_first {A B : Type} (m m' : M A) (k : A -> M B) (s : sigma) :
  m s = m' s -> bind m k s = bind m' k s.
Proof. intros H. unfold bind. now rewrite H. Qed.

Lemma serve_pull (fuel : nat) (conn : fd_t) (u : uuid_type) (n rdPos : Z) (buffer : str)
  (s : sigma) :
  u <> [] -> forallb is_value_char u = true -> 0 <= n <= LLONG_MAX ->
  ETDDataServer.serve fuel conn (items_text [(L "uuid", u); (L "sz", show_Z n)])
    rdPos buffer s
  = (xfer <- ETDDataServer.lock_transfer (ETDDataServer.mk_request u n false) ;;
     ETDDataServer.pull_n fuel n conn (fd xfer) rdPos buffer) s.
Proof.
  intros Hne Hu Hn.
  assert (Hok : Forall item_ok [(L "uuid", u); (L "sz", show_Z n)]).
  { constructor; [|constructor; [|constructor]].
    - split; [split; reflexivity|]. split; assumption.
    - apply item_ok_number; [split; reflexivity|lia]. }
  unfold ETDDataServer.serve. rewrite (getKeyValuePairs_of_items _ Hok).
  change (no_duplicates_insert [(L "uuid", u); (L "sz", show_Z n)] [])
    with (@inr exn kvmap_type [(L "uuid", u); (L "sz", show_Z n)]).
  unfold bind at 1. cbn [ETDServerWrapper.lift_exn ret].
  assert (Ev : ETDDataServer.verify [(L "uuid", u); (L "sz", show_Z n)]
               = inr (ETDDataServer.mk_request u n false)).
  { unfold ETDDataServer.verify.
    change (kv_find (L "uuid") [(L "uuid", u); (L "sz", show_Z n)]) with (Some u).
    change (kv_find (L "sz") [(L "uuid", u); (L "sz", show_Z n)]) with (Some (show_Z n)).
    change (kv_find (L "push") [(L "uuid", u); (L "sz", show_Z n)]) with (@None str).
    cbv zeta iota beta. cbn [negb]. unfold string2off_t.
    rewrite (stoll_show_Z n) by (unfold LLONG_MIN; lia). reflexivity. }
  rewrite Ev. unfold bind at 1. cbn [ETDServerWrapper.lift_exn ret].
  unfold bind. destruct (ETDDataServer.lock_transfer _ s) as [[xfer|e| |] s1]; try reflexivity.
  cbn [ETDDataServer.rq_push ETDDataServer.rq_sz].
  rewrite to_size_t_small by (unfold size_max, LLONG_MAX in *; lia). reflexivity.
Qed.

Lemma serve_push (fuel : nat) (conn : fd_t) (u : uuid_type) (n rdPos : Z) (buffer : str)
  (s : sigma) :
  u <> [] -> forallb is_value_char u = true -> 0 <= n <= LLONG_MAX ->
  ETDDataServer.serve fuel conn
    (items_text [(L "uuid", u); (L "push", L "1"); (L "sz", show_Z n)]) rdPos buffer s
  = (xfer <- ETDDataServer.lock_transfer (ETDDataServer.mk_request u n true) ;;
     ETDDataServer.push_n n (fd xfer) conn) s.
Proof.
  intros Hne Hu Hn.
  assert (Hok : Forall item_ok [(L "uuid", u); (L "push", L "1"); (L "sz", show_Z n)]).
  { constructor; [|constructor; [|constructor; [|constructor]]].
    - split; [split; reflexivity|]. split; assumption.
    - split; [split; reflexivity|]. split; [discriminate|reflexivity].
    - apply item_ok_number; [split; reflexivity|lia]. }
  unfold ETDDataServer.serve. rewrite (getKeyValuePairs_of_items _ Hok).
  change (no_duplicates_insert [(L "uuid", u); (L "push", L "1"); (L "sz", show_Z n)] [])
    with (@inr exn kvmap_type [(L "uuid", u); (L "push", L "1"); (L "sz", show_Z n)]).
  unfold bind at 1. cbn [ETDServerWrapper.lift_exn ret].
  assert (Ev : ETDDataServer.verify [(L "uuid", u); (L "push", L "1"); (L "sz", show_Z n)]
               = inr (ETDDataServer.mk_request u n true)).
  { unfold ETDDataServer.verify.
    change (kv_find (L "uuid") [(L "uuid", u); (L "push", L "1"); (L "sz", show_Z n)])
      with (Some u).
    change (kv_find (L "sz") [(L "uuid", u); (L "push", L "1"); (L "sz", show_Z n)])
      with (Some (show_Z n)).
    change (kv_find (L "push") [(L "uuid", u); (L "push", L "1"); (L "sz", show_Z n)])
      with (Some (L "1")).
    cbv zeta iota beta. change (str_eqb (L "1") (L "1")) with true. cbn [negb].
    unfold string2off_t.
    rewrite (stoll_show_Z n) by (unfold LLONG_MIN; lia). reflexivity. }
  rewrite Ev. unfold bind at 1. cbn [ETDServerWrapper.lift_exn ret].
  unfold bind. destruct (ETDDataServer.lock_transfer _ s) as [[xfer|e| |] s1]; try reflexivity.
  cbn [ETDDataServer.rq_push ETDDataServer.rq_sz].
  rewrite to_size_t_small by (unfold size_max, LLONG_MAX in *; lia). reflexivity.
Qed.

(** X27.  The data server takes the header that [ETDServer::sendFile]
    writes as a request to pull: for a uuid that is not empty and free of
    white space, commas, double quotes, backslashes and closing braces, a
    read that brings the header and whatever came after it makes [handle]
    lock the transfer of this uuid for writing and call [pull_n] for the
    number of bytes of the header, with the bytes after the header waiting
    in the buffer; then it waits for the next header. *)
Theorem data_server_pulls_what_sendFile_announces
  (fuel : nat) (conn : fd_t) (dstUUID : uuid_type) (todo : Z) (rest : str)
  (st : etd_state) (w w1 : World) :
  dstUUID <> [] -> forallb is_value_char dstUUID = true -> 0 <= todo <= LLONG_MAX ->
  fd_read conn ETDDataServer.maxNoCmdSz w
    = (Some (header_of_sendFile dstUUID todo ++ rest), w1) ->
  ETDDataServer.handle_loop (S fuel) conn [] (st, w)
  = ((xfer <- ETDDataServer.lock_transfer (ETDDataServer.mk_request dstUUID todo false) ;;
      ETDDataServer.pull_n fuel todo conn (fd xfer)
        (len (header_of_sendFile dstUUID todo)) (header_of_sendFile dstUUID todo ++ rest)) ;;
     ETDDataServer.handle_loop fuel conn []) (st, w1).
Proof.
  intros Hne Hu Hn Hr. rewrite header_of_sendFile_items in *.
  rewrite (handle_loop_header fuel conn [(L "uuid", dstUUID); (L "sz", show_Z todo)]
             rest st w w1); [|
    constructor; [|constructor; [|constructor]];
      [split; [split; reflexivity|]; split; assumption
      |apply item_ok_number; [split; reflexivity|lia]]
    |exact Hr].
  apply bind_first. exact (serve_pull fuel conn dstUUID todo _ _ (st, w1) Hne Hu Hn).
Qed.

(** X28.  The data server takes the header that [ETDServer::getFile] writes
    as a request to push: under the same conditions on the uuid, [handle]
    locks the transfer of this uuid for reading and calls [push_n] for the
    number of bytes of the header; then it waits for the next header. *)
Theorem data_server_pushes_what_getFile_asks_for
  (fuel : nat) (conn : fd_t) (srcUUID : uuid_type) (todo : Z) (rest : str)
  (st : etd_state) (w w1 : World) :
  srcUUID <> [] -> forallb is_value_char srcUUID = true -> 0 <= todo <= LLONG_MAX ->
  fd_read conn ETDDataServer.maxNoCmdSz w
    = (Some (header_of_getFile srcUUID todo ++ rest), w1) ->
  ETDDataServer.handle_loop (S fuel) conn [] (st, w)
  = ((xfer <- ETDDataServer.lock_transfer (ETDDataServer.mk_request srcUUID todo true) ;;
      ETDDataServer.push_n todo (fd xfer) conn) ;;
     ETDDataServer.handle_loop fuel conn []) (st, w1).
Proof.
  intros Hne Hu Hn Hr. rewrite header_of_getFile_items in *.
  rewrite (handle_loop_header fuel conn
             [(L "uuid", srcUUID); (L "push", L "1"); (L "sz", show_Z todo)]
             rest st w w1); [|
    constructor; [|constructor; [|constructor; [|constructor]]];
      [split; [split; reflexivity|]; split; assumption
      |split; [split; reflexivity|]; split; [discriminate|reflexivity]
      |apply item_ok_number; [split; reflexivity|lia]]
    |exact Hr].
  apply bind_first. exact (serve_push fuel conn srcUUID todo _ _ (st, w1) Hne Hu Hn).
Qed.

End HeaderTheorems.

(** ** Headers, on the platform in memory *)

Lemma getKeyValuePairs_reads_the_items_witness :
  Forall item_ok [(L "uuid", uuid_a); (L "push", L "1"); (L "sz", L "6")]
  /\ getKeyValuePairs (L " uuid:abc-125, push:1, sz:6")
     = [(L "uuid", uuid_a); (L "push", L "1"); (L "sz", L "6")].
Proof.
  assert (H : Forall item_ok [(L "uuid", uuid_a); (L "push", L "1"); (L "sz", L "6")]).
  { constructor; [|constructor; [|constructor; [|constructor]]];
      (split; [split; reflexivity|split; [discriminate|reflexivity]]). }
  split; [exact H|].
  exact (getKeyValuePairs_reads_the_items _ H).
Defined.

Lemma data_server_pulls_what_sendFile_announces_witness :
  Mem.fd_read 0%nat ETDDataServer.maxNoCmdSz
    (pull_world [header_of_sendFile uuid_b 6 ++ L "abc"] [] (L "0123456789"))
  = (Some (header_of_sendFile uuid_b 6 ++ L "abc"), pull_world [] [] (L "0123456789"))
  /\ @ETDDataServer.handle_loop Mem.platform 3 0%nat []
       (state_writing, pull_world [header_of_sendFile uuid_b 6 ++ L "abc"] [] (L "0123456789"))
     = ((xfer <- @ETDDataServer.lock_transfer Mem.platform
                   (ETDDataServer.mk_request uuid_b 6 false) ;;
         ETDDataServer.pull_n 2 6 0%nat (fd xfer)
           (len (header_of_sendFile uuid_b 6)) (header_of_sendFile uuid_b 6 ++ L "abc")) ;;
        ETDDataServer.handle_loop 2 0%nat [])
         (state_writing, pull_world [] [] (L "0123456789")).
Proof.
  assert (H : Mem.fd_read 0%nat ETDDataServer.maxNoCmdSz
                (pull_world [header_of_sendFile uuid_b 6 ++ L "abc"] [] (L "0123456789"))
              = (Some (header_of_sendFile uuid_b 6 ++ L "abc"),
                 pull_world [] [] (L "0123456789"))).
  { apply pull_world_read. vm_compute. discriminate. }
  split; [exact H|].
  apply (@data_server_pulls_what_sendFile_announces Mem.platform 2%nat 0%nat uuid_b 6
           (L "abc") state_writing _ _);
    [discriminate|reflexivity|unfold LLONG_MAX; lia|exact H].
Defined.

Lemma data_server_pushes_what_getFile_asks_for_witness :
  Mem.fd_read 0%nat ETDDataServer.maxNoCmdSz
    (pull_world [header_of_getFile uuid_b 6] [] (L "0123456789"))
  = (Some (header_of_getFile uuid_b 6 ++ []), pull_world [] [] (L "0123456789"))
  /\ @ETDDataServer.handle_loop Mem.platform 3 0%nat []
       (state_reading, pull_world [header_of_getFile uuid_b 6] [] (L "0123456789"))
     = ((xfer <- @ETDDataServer.lock_transfer Mem.platform
                   (ETDDataServer.mk_request uuid_b 6 true) ;;
         ETDDataServer.push_n 6 (fd xfer) 0%nat) ;;
        ETDDataServer.handle_loop 2 0%nat [])
         (state_reading, pull_world [] [] (L "0123456789")).
Proof.
  assert (H : Mem.fd_read 0%nat ETDDataServer.maxNoCmdSz
                (pull_world [header_of_getFile uuid_b 6] [] (L "0123456789"))
              = (Some (header_of_getFile uuid_b 6 ++ []),
                 pull_world [] [] (L "0123456789"))).
  { rewrite app_nil_r. apply pull_world_read. vm_compute. discriminate. }
  split; [exact H|].
  apply (@data_server_pushes_what_getFile_asks_for Mem.platform 2%nat 0%nat uuid_b 6
           [] state_reading _ _);
    [discriminate|reflexivity|unfold LLONG_MAX; lia|exact H].
Defined.

(* ====================================================================== *)
(** ** [push_n], and the listing of a path *)
(* ====================================================================== *)

Section PushAndList.
Context {P : Platform}.

(** A loop of [push_n] that returns has moved exactly [n] bytes, chunk by
    chunk, and has done nothing else. *)
Lemma push_n_loop_moves (src dst : fd_t) :
  forall (fuel : nat) (n : Z) (s s' : sigma),
    0 <= n ->
    ETDDataServer.push_n_loop fuel n src dst s = (Ret tt, s') ->
    fst s' = fst s
    /\ exists bytes, len bytes = n /\ moved src dst bytes (snd s) (snd s').
Proof.
  induction fuel as [|fuel IH]; intros n s s' H0 E.
  - destruct (Z_gt_le_dec n 0) as [Ht|Ht].
    + simpl in E. rewrite (gtb_true _ Ht) in E. discriminate.
    + simpl in E. rewrite (gtb_false _ Ht) in E. injection E as <-.
      split; [reflexivity|]. exists []. split; [change (len []) with 0; lia|constructor].
  - destruct (Z_gt_le_dec n 0) as [Ht|Ht].
    + rewrite push_n_loop_pass in E by exact Ht. cbv zeta in E.
      destruct (fd_read src _ (snd s)) as [r w1] eqn:Hr.
      destruct (nread r =? _) eqn:Hn; [|discriminate].
      destruct (fd_write dst _ w1) as [wr w2] eqn:Hw.
      destruct (wr =? _) eqn:Hwr; [|discriminate].
      apply Z.eqb_eq in Hn, Hwr.
      destruct r as [b|]; [|cbn [nread] in Hn; unfold bufSz in Hn; lia].
      cbn [nread bytes_of] in *.
      apply IH in E as [E1 (rest & Hl & Hm)]; [|lia]. cbn [fst snd] in *.
      split; [exact E1|]. exists (b ++ rest). split.
      * rewrite len_app. lia.
      * econstructor; [rewrite Hn; exact Hr|rewrite Hn, <- Hwr; exact Hw|exact Hm].
    + cbn [ETDDataServer.push_n_loop] in E. rewrite (gtb_false _ Ht) in E.
      injection E as <-.
      split; [reflexivity|]. exists []. split; [change (len []) with 0; lia|constructor].
Qed.

Lemma push_n_loop_no_spin (src dst : fd_t) :
  forall (fuel : nat) (n : Z) (s : sigma) (o : outcome unit) (s1 : sigma),
    ETDDataServer.push_n_loop fuel n src dst s = (o, s1) -> o <> Spin.
Proof.
  induction fuel as [|fuel IH]; intros n s o s1 E.
  - cbn [ETDDataServer.push_n_loop] in E. destruct (n >? 0); injection E as <- _; discriminate.
  - destruct (Z_gt_le_dec n 0) as [Ht|Ht].
    + rewrite push_n_loop_pass in E by exact Ht. cbv zeta in E.
      destruct (fd_read src _ (snd s)) as [r w1].
      destruct (nread r =? _); [|injection E as <- _; discriminate].
      destruct (fd_write dst _ w1) as [wr w2].
      destruct (wr =? _); [|injection E as <- _; discriminate].
      exact (IH _ _ _ _ E).
    + cbn [ETDDataServer.push_n_loop] in E. rewrite (gtb_false _ Ht) in E.
      injection E as <- _. discriminate.
Qed.

(** X29.  [push_n] comes to an end, and when it returns it has moved
    exactly [n] bytes from the file to the connection, in pieces of up to 10
    MiB each fully read and fully written, and has then issued one read of
    one byte for the acknowledgement, the result of which is not looked
    at. *)
Theorem push_n_returns (n : Z) (src dst : fd_t) (s : sigma) :
  0 <= n ->
  fst (ETDDataServer.push_n n src dst s) <> OutOfFuel
  /\ fst (ETDDataServer.push_n n src dst s) <> Spin
  /\ forall s', ETDDataServer.push_n n src dst s = (Ret tt, s') ->
       fst s' = fst s
       /\ exists bytes w1 ack,
            len bytes = n /\ moved src dst bytes (snd s) w1
            /\ fd_read dst 1 w1 = (ack, snd s').
Proof.
  intros Hn. unfold ETDDataServer.push_n, bind, sys, ret.
  pose proof (push_n_loop_has_fuel src dst (passes n) n s (Nat.le_refl _)) as Hf.
  destruct (ETDDataServer.push_n_loop (passes n) n src dst s) as [o s1] eqn:E.
  cbn [fst] in Hf.
  pose proof (push_n_loop_no_spin src dst (passes n) n s o s1 E) as Hs.
  destruct o as [[]|e| |]; try congruence.
  - apply push_n_loop_moves in E as [E1 (bytes & Hb & Hm)]; [|exact Hn].
    unfold bind, sys, ret. cbn [fst snd].
    destruct (fd_read dst 1 (snd s1)) as [ack w2] eqn:Ha.
    cbn [fst snd]. split; [discriminate|]. split; [discriminate|].
    intros s' [= <-]. cbn [fst snd]. split; [exact E1|].
    exists bytes, (snd s1), ack. auto.
  - cbn [fst]. split; [discriminate|]. split; [discriminate|]. intros s' H. discriminate.
Qed.

(** X30.  [ETDServer::listPath] refuses the empty path before anything is
    looked up; a path that ends in a slash is listed as the pattern made of
    the path and a star; and a listing leaves the shared state as it was,
    whatever its outcome. *)
Theorem listPath_of_a_directory (d path0 : str) (allow_tilde : bool) (s : sigma) :
  ETDServer.listPath [] allow_tilde s
    = (Throw (Assertion (L "We do not allow listing an empty path")), s)
  /\ ETDServer.listPath (d ++ L "/") allow_tilde s
     = ETDServer.listPath (d ++ L "/*") allow_tilde s
  /\ fst (snd (ETDServer.listPath path0 allow_tilde s)) = fst s.
Proof.
  split; [reflexivity|]. split.
  - unfold ETDServer.listPath.
    assert (E1 : rev (d ++ L "/") = "/"%char :: rev d) by (rewrite rev_app_distr; reflexivity).
    assert (E2 : rev (d ++ L "/*") = "*"%char :: "/"%char :: rev d)
      by (rewrite rev_app_distr; reflexivity).
    rewrite E1, E2. rewrite <- app_assoc. cbn [app L list_ascii_of_string].
    destruct d; reflexivity.
  - unfold ETDServer.listPath, bind, ETDCASSERT, ret, throw, sys.
    destruct path0 as [|a t]; [reflexivity|].
    destruct GLOB_TILDE as [tilde|].
    + destruct (glob _ _ (snd s)); reflexivity.
    + destruct (allow_tilde && _); [reflexivity|].
      destruct (glob _ _ (snd s)); reflexivity.
Qed.

End PushAndList.

Lemma push_n_returns_witness :
  0 <= 5 /\ push_5 = (Ret tt, snd push_5)
  /\ sent 0%nat (snd (snd push_5)) = L "01234"
  /\ fst (snd push_5) = state_empty
  /\ exists bytes w1 ack,
       len bytes = 5 /\ @moved Mem.platform 1%nat 0%nat bytes world_pushing w1
       /\ Mem.fd_read 0%nat 1 w1 = (ack, snd (snd push_5)).
Proof.
  assert (E : push_5 = (Ret tt, snd push_5)) by (vm_compute; reflexivity).
  assert (H : 0 <= 5) by lia.
  split; [exact H|]. split; [exact E|]. split; [vm_compute; reflexivity|].
  exact (proj2 (proj2 (@push_n_returns Mem.platform 5 1%nat 0%nat
                         (state_empty, world_pushing) H)) (snd push_5) E).
Defined.
